(* ===== verification/_CoqProject ===== *)
-Q . S2P
Prelude.v
Js.v
TsTypes.v
TsDecls.v
Types.v
Blueprint.v
NutrientResolver.v
NutritionValidator.v
CandidateSelector.v
NutritionCouncil.v
PlanGenerator.v
Policies.v
Handler.v
Dates.v
AIGateway.v
WowLayer.v
MoodJam.v
ValidatorHandler.v
PerfTimer.v
FailureLog.v
Seeder.v
TestGeneration.v
TypeConformance.v
