(* ===== verification/Prelude.v ===== *)
(** * Mealwise plan engine: a verification development

    This library models, in Rocq, the TypeScript sources of the Mealwise
    plan generation engine ([src/]) and proves what they do.  The program
    is a set of Supabase edge functions and the agents they call:

    - the plan generator ([src/unnamed/part_001], the edge function
      [plan-generator]) answers the HTTP request: it checks the method,
      the caller and the monthly plan quota ([validateRequest]), ingests
      the user blueprint ([ingestUserBlueprint], which computes the
      nutritional targets) and runs [generateMealPlanWithRetry], a loop
      of at most three rounds of candidate selection and nutrition-council
      validation, followed by a fallback plan when every round failed;
    - the candidate selector ([CandidateSelector] in
      [src/agents/wow-layer.ts], lines 592-1153) filters the recipe table
      on hard constraints, asks an external scorer for personalization
      scores, combines them into a final score and picks a diverse subset;
    - the nutrition council ([src/agents/nutrition-council.ts]) asks an
      external service to assemble a week plan, validates its nutrition
      against the user's targets and asks an external reviewer for a
      coherence rating, in a loop of at most three attempts;
    - the blueprint checks of [plan-generator/utils/logging.ts]
      ([validateUserBlueprint], [calculateBlueprintCompleteness], the
      messages) and the generation log;
    - the standalone nutrition validator
      ([src/supabase/functions/nutrition-validator/index.ts]) resolves
      each meal's nutrients (reliable declared data, then a USDA lookup
      per ingredient, then a title-keyword estimate), averages them per
      day, computes the percentage deviation from the targets and applies
      the threshold;
    - the AI gateway ([src/supabase/functions/ai-gateway/index.ts]) sits
      in front of the Claude API with a per-user rate limiter and a
      response cache that live from one request to the next;
    - the wow layer ([WowLayerAgent], [src/agents/wow-layer.ts] lines
      33-574) decorates a validated plan with a grocery list, a prep
      schedule, XP challenges and cooking tips, and calls the mood jam
      agent ([src/agents/mood-jam.ts]), which asks Claude for the plan's
      mood and Spotify for recommendations and saves the assignment;
    - the seeding script ([src/scripts/seed-usda-data.js]) fills the
      [usda_nutrition_data] table that the nutrient resolution reads,
      with two samples of foods, in batches of one insert each;
    - the end-to-end test script ([src/scripts/test-generation.js])
      creates four test users, posts to the plan generator for each,
      checks the stored plan and deletes the users again.

    ** Files

    - [Prelude] (this file): the scope [mw_scope] with the notations for
      JavaScript's [||] defaulting on numbers, the [mw] hint and rewrite
      databases, the shared lemmas on rational sums and on lists, and a
      stable insertion sort ([sort_by]) for [Array.prototype.sort] and
      SQL [ORDER BY].
    - [Js]: the part of JavaScript's semantics the sources rely on:
      [number] values with [NaN] and the infinities, [Math.round],
      [Math.abs], [ToNumber] of a string or a parsed value, truthiness,
      [toLowerCase] and [includes], property
      reads that reach [Object.prototype], parsed JSON values, the
      members of an object literal under [JSON.stringify] (a member whose
      value is [undefined] is left out, a database column that is empty
      is [null]), and the exception-state monad [JsM] in which a thrown
      error keeps the mutations made before it.
    - [TsTypes], [TsDecls]: TypeScript's types as data ([ts_type]) with
      [has_type], what a JSON value of a type is, and every interface
      and type alias of [recipe.ts], [part_002] and [part_003], and the
      nutrition validator's answer interfaces, as [ts_type]s
      ([RecipeTs], [BlueprintTs], [PlanTs], [ValidatorTs]).
    - [Types]: the records and enumerations of [src/types/recipe.ts],
      [src/unnamed/part_002] (blueprint) and [src/unnamed/part_003] (plan),
      and the read-only store interface [Db] for the [recipes] table and
      the [search_nutrition_data] procedure.  Fields the sources read
      only as JSON ([flavor_preferences], a mood jam's audio features)
      are kept as [json]; optional columns are [option]s.
    - [Blueprint]: [calculateNutritionalTargets] (part_001) and the pure
      blueprint checks of [logging.ts].
    - [NutrientResolver]: the per-recipe nutrient resolution of the
      validator ([calculateMealNutrition], [calculateFromUSDA],
      [convertToGrams], [isMinorIngredient], [estimateNutrition],
      [isReliableNutrition]).
    - [NutritionValidator]: [NutritionValidator.validatePlan]: meal and
      day aggregation, daily averages, deviations, threshold, suggestions.
    - [CandidateSelector]: the selector's filter (as the PostgREST
      conditions it sends, their meaning on a table and the query error
      PostgreSQL answers when an [in] value is not a [uuid], read with
      a model of its [uuid_in]), the scorer's
      reply parse, the final score, the ranking and the diversity pass,
      the scorer's prompt ([buildScoringPrompt]), and [selectCandidates]
      with the scorer's answers as inputs.
    - [NutritionCouncil]: the council's nutrition totals, deviations and
      suggestions, the parse of the assembled plan and of the coherence
      review, the assembly and coherence prompts, and
      [validateAndRefine] with its attempt counter and the two repair
      stubs it calls ([improvePlanCoherence], [fixNutritionalIssues]).
    - [PlanGenerator]: [generateMealPlanWithRetry], [saveMealPlan] and
      [generateFallbackPlan] of [src/unnamed/part_001].  The function's
      locals and the [meal_plans] table are the state [GenState], its body
      runs in [Js.JsM], and the three awaited stages and the database
      answers are the record [Stages], arbitrary per round.
    - [Policies]: the row-level security of [database/policies.sql]:
      the tables it covers, every policy with its command, role and
      condition, the revoked privileges, and PostgreSQL's check of an
      [INSERT] by a client of a given role.
    - [Handler]: the [serve] handler of part_001 with [validateRequest]
      (with the [catch] of an exception of the client and a failed count
      query) and [ingestUserBlueprint]; the authenticated user, the
      database rows and the stages are the record [Env], the
      [meal_plans] and [plan_generation_logs] tables the state [HState];
      [logGenerationEvent] inserts through the caller's client, so
      [Policies] decides whether the row is written.
    - [AIGateway]: [btoa] and the cache key, the [RateLimiter] and
      [ResponseCache] modules over maps, [sanitizePrompt] with the two
      global regular-expression replacements, and (in [Module Gateway])
      the request schema, the Claude call and the gateway's [serve],
      whose state [GState] is the limiter, the cache and the
      [ai_request_logs] table.
    - [WowLayer]: [WowLayerAgent] of [src/agents/wow-layer.ts] (lines
      33-574): ingredient names and categories, the grocery aggregation
      over a JavaScript object (an association list in insertion order,
      [Object.entries] order and [Object.prototype] keys included), the
      prep-ahead schedule, the XP challenges, the cooking tips and
      [enhancePlan], in [JsM] with the number of [uuidv4()] calls as state;
      the mood jam agent's run over that counter is an input of
      [enhancePlan].
    - [MoodJam]: [MoodJamAgent] of [src/agents/mood-jam.ts] in [JsM] on
      [MState]: the requests sent, in order (the Claude prompt, the
      Spotify token request, the recommendation query's parameters), the
      [uuidv4()] counter and the [mood_jam_assignments] rows.  The
      prompt, its two JSON summaries, the answer's parse, the genre and
      playlist-name tables read as plain objects, and [assignMoodJam]
      with every early return; the services' answers, [Date.now()] and
      [Math.random()] are parameters of a section.
    - [ValidatorHandler]: the nutrition validator's [serve] callback
      ([nutrition-validator/index.ts] lines 94-189) with its zod schema
      read over parsed JSON, the choice between a stored plan of the
      caller and the body's plan, and [validatePlan] of
      [NutritionValidator]; the authentication answer, the body text,
      the [meal_plans] rows and the recipe store are the record [Env].
    - [PerfTimer]: [PerformanceTimer] of [logging.ts] (exported, never
      called) on a [Heap] that holds the timer's stages object, that
      object's prototype and the shared [Object.prototype.duration]; a
      specification with a start and an end time per stage; the calls
      of a client as a list, and the timers they reach as an inductive
      relation.
    - [Dates]: [getNextMonday] of the plan generator on local
      wall-clock milliseconds, and the [week_start_date] default.
    - [FailureLog]: [logFailedPlan] of [logging.ts] (exported, never
      called) as an append to [failed_plans] that never throws.
    - [Seeder]: [USDASeeder] of [seed-usda-data.js] with its counters and
      the [usda_nutrition_data] table, whose primary key [fdc_id]
      ([database/schema-additions.sql]) decides each batch insert; the
      service's other refusals, the count query's failure and the line
      typed at the prompt are inputs.
    - [TypeConformance]: the nutrition validator's answer under
      [JSON.stringify] ([NaN] becomes [null], [undefined] members are
      left out) against the [ValidationResult] interface it declares.
    - [TestGeneration]: [PlanGenerationTester] of [test-generation.js]
      in the exception-state monad on its results, the tables it writes,
      the [uuidv4()] counter and the clock readings; the plan generator
      is a Section variable, instantiated in [AgainstHandler] with
      [Handler.handler] (a rejected handler is answered 500 by Deno).

    ** Theorems

    - Plan generation ([PlanGenerator], [Handler]): the retry loop runs
      exactly three rounds whatever the stages answer; every path of
      [generateMealPlanWithRetry] throws the [ReferenceError] of the
      undeclared [retry_count], and the handler's [catch] throws again
      on the out-of-scope [supabase], so the handler never delivers a
      plan; each accepted round stores its plan first, so one request
      can use three plans of the monthly quota, while the generation log
      stays empty (the policies refuse the caller's client); the quota
      refusal; the usage totals; the fallback plan's slots.
    - Policies ([Policies]): of the tables with row-level security, a
      caller's client can insert only its own [grocery_lists] rows.
    - Selection ([CandidateSelector]): every selected recipe passes the
      hard filter and comes from the table; the diversity caps act only
      after sixteen picks, and a cuisine named like an [Object.prototype]
      key is never capped; a request that excludes recipes makes the
      selection fail, since the quoted ids are no [uuid]s; the ranking is
      sorted; a scorer entry without a score gives the final score 35.
    - Council ([NutritionCouncil]): a failed nutrition check or a
      coherence-only failure and what [validateAndRefine] reports then;
      the plan parse accepts any number of days.
    - Validator ([NutritionValidator], [NutrientResolver]): the threshold
      verdict, the deviations and the validity flag against a
      specification over exact rationals; the empty-plan [NaN] path;
      the suggestions; which resolution tier answers.
    - Blueprint ([Blueprint], [Handler]): the macro targets agree with
      the calorie target within 9 kcal; a blueprint that passes the
      check has targets; the refusal message that names no field.
    - Gateway ([AIGateway]): the limiter refines a sliding-window
      contract and admits at most 100 requests of a user per hour; the
      cache key ignores the prompt, so the cache serves one user's
      answer to another user's prompt; a non-Latin-1 prompt crashes the
      key computation; a refusal always reports 0 requests remaining;
      the sanitized prompt has no control character, but for every
      plain payload a split script element is rebuilt around it by the
      removal of an inner one; a user is let in again an hour
      after the last accepted request; a cached entry comes back until
      its TTL and is deleted after.
    - Wow layer ([WowLayer]): the grocery aggregation against a
      declarative specification (another unit's amount is dropped); the
      shadowed category keys; the prep challenge that [enhancePlan] never
      offers; the prep schedule's uniqueness and order; the canonical
      form of normalized names.
    - Mood jam ([MoodJam]): a successful run sends exactly the three
      requests in order, saves one row unless the insert fails, and
      seeds Spotify from the mood table rather than Claude's genres;
      every run reports one Claude request, also when none was sent (a
      blueprint without intake); a zero confidence is rejected as
      missing; a mood named like an [Object.prototype] key breaks the
      playlist step; with [Math.random()] in [[0, 1)] the playlist name
      is one of the table's.
    - Validator endpoint ([ValidatorHandler]): a validation is returned
      only to an authenticated caller, for a body the schema accepts,
      and of a stored plan of that caller or of the body's plan; an
      accepted request has positive targets and a threshold in
      [[1, 50]]; the request body of the API documentation is refused
      with 422.
    - Performance timer ([PerfTimer]): on ordinary stage names the timer
      refines its start/end specification and, by induction on the
      reachable timers, reports no negative duration when the clock does
      not go back; [endStage('__proto__')] writes [duration = NaN] on
      [Object.prototype], which every later timer then reports.
    - Seeding ([Seeder]): the batching loop ends and inserts every food
      once, in order, in batches of at most [batchSize]; a run keeps the
      key unique, only appends rows and counts each food once, with
      [processedCount] equal to the rows it stored; and no run stores
      all 25 sample foods, because the two samples share a key.
    - Dates ([Dates]): [getNextMonday] refines its specification, the
      first Monday midnight strictly after the current time.
    - Types ([TypeConformance]): the validator's answer has its declared
      [ValidationResult] type exactly when the plan has a day; without
      days its averages travel as [null].
    - End-to-end script ([TestGeneration]): the plan check accepts
      exactly the plans with a truthy [total_recipes] and 7 days with
      meals; composed with the plan generator's handler, whatever its
      environment, the script passes no test and, since a failed test
      skips the cleanup, leaves every test user in [users].

    ** Fuel and termination

    [PlanGenerator.retry_loop] is the [while (retryCount < maxRetries)]
    loop with a fuel argument.  Each iteration adds one to [retryCount]
    and the guard fails at [maxRetries = 3], so from a zero counter three
    units of fuel are enough, and more fuel gives the same result
    ([retry_loop_three_rounds]); [generateMealPlanWithRetry] passes
    [maxRetries].  The council's [refine_loop] is bounded the same way by
    its [maxRetries].  The seeder's [for] loop over batches is
    [USDASeeder.process_loop] with fuel [S (length foods)]: with a
    positive batch size each iteration advances the index by at least
    one, so the test fails within [length foods] iterations
    ([process_loop_batches]); with a zero batch size the loop of the
    source never ends and the model runs out of fuel.  Every other loop of the sources is over a finite
    list and is a structural fold; the global [replace] of the gateway
    is a structural recursion over the string that counts the code units
    of the current match still to drop.

    ** Numbers and time

    A JavaScript [number] read from the database or computed by the
    sources is modelled by an exact rational [Q]; floating-point rounding
    error is not modelled.  [Math.round] is [floor (x + 1/2)], exactly as
    the ECMAScript specification states it.  Where the sources can divide
    by zero (the daily average of a plan with no days), the value is a
    [Js.jsnum], which has [NaN] and the two infinities, so that the
    comparisons that follow behave as in JavaScript.  The theorems are
    stated for these exact numbers and claim nothing about rounding:
    where a floating-point sum or quotient lands next to a bound (a
    deviation of 15.000000000000005 against a threshold of 15), the
    program can differ from the model.  The scorer's score is read with
    [ToNumber] ([Js.json_to_number], so a numeric string counts as its
    number); a score whose [ToNumber] is [NaN] or an infinity, which
    makes the final score [NaN] and the ranking's comparator
    inconsistent, is outside the model and read as 50.  [Date.now()] is an
    integer number of milliseconds, one per request; the rate-limiter
    theorems assume the calls come in chronological order.

    ** What is not modelled

    Console output, durations, [JSON.parse] and the text of zod's error
    messages (the parsed body and the messages are inputs),
    the SQL files but for the row-level policies, the key of
    [usda_nutrition_data] and the [uuid] type of [recipes.id] (indexes,
    views and SQL functions the modelled code does not call), the test
    script's [printSummary] and entry-point check (console output; its
    [getNextMonday] is modelled, the ISO text of the date is not), the
    prompt texts of
    [part_000] and the documentation;
    [logPerformanceMetrics] (console output only).
    External services (the Claude API, the scorer, Spotify, the
    database) are parameters of the models: their answers are inputs,
    and the theorems hold for every answer; so are [JSON.stringify],
    [String] on numbers, [uuidv4] and [Math.random()].  The mood jam
    agent and [enhancePlan] are modelled separately: [enhancePlan] takes
    the agent's run, from the [uuidv4()] counter to its result and the
    counter after its calls, as an input ([MoodJam.assignMoodJam] gives
    one through its [uuid_counter]), so the order of their [uuidv4()]
    calls is kept.  The HTTP transport (headers, CORS,
    status texts) is reduced to a response's status and content. *)

From Stdlib Require Export String Ascii.
From stdpp Require Export base list gmap strings.
From Stdlib Require Export QArith Qround Qabs Lqa Lia Permutation Sorted.

Set Default Goal Selector "!".

Declare Scope mw_scope.
Delimit Scope mw_scope with mw.
Open Scope Q_scope.

(** ** JavaScript's [||] on numbers

    [a || d] on a finite number [a] yields [d] exactly when [a] is falsy,
    that is when [a] is zero; on a possibly absent field ([undefined]) it
    also yields [d]. *)

Definition q_or (a d : Q) : Q := if Qeq_bool a 0 then d else a.
Definition opt_q_or (a : option Q) (d : Q) : Q :=
  match a with Some x => q_or x d | None => d end.

Notation "a ||Q d" := (q_or a d) (at level 50, left associativity) : mw_scope.
Notation "a ||? d" := (opt_q_or a d) (at level 50, left associativity) : mw_scope.

Open Scope mw_scope.

(** Strict comparison as a boolean, the way [a < b] reads in the code. *)
Definition Qlt_bool (a b : Q) : bool := negb (Qle_bool b a).

Lemma Qlt_bool_iff (a b : Q) : Qlt_bool a b = true <-> a < b.
Proof.
  unfold Qlt_bool. rewrite negb_true_iff. split.
  - intros H. apply Qnot_le_lt. intros Hle. apply Qle_bool_iff in Hle. congruence.
  - intros H. destruct (Qle_bool b a) eqn:E; [|done].
    apply Qle_bool_iff in E. exfalso. apply (Qlt_not_le a b); assumption.
Qed.

(** ** Tactics *)

Create HintDb mw.
Create Rewrite HintDb mw_rw.

(** Turn the boolean comparisons of the models into propositions. *)
Ltac qbool :=
  repeat match goal with
  | H : Qle_bool _ _ = true |- _ => apply Qle_bool_iff in H
  | H : Qeq_bool _ _ = true |- _ => apply Qeq_bool_iff in H
  | H : Qlt_bool _ _ = true |- _ => apply Qlt_bool_iff in H
  | H : Qle_bool _ _ = false |- _ =>
      apply not_true_iff_false in H; rewrite Qle_bool_iff in H
  | H : Qeq_bool _ _ = false |- _ =>
      apply not_true_iff_false in H; rewrite Qeq_bool_iff in H
  | |- Qle_bool _ _ = true => apply Qle_bool_iff
  | |- Qeq_bool _ _ = true => apply Qeq_bool_iff
  end.

(** Case analysis on a boolean comparison of the goal. *)
Ltac case_qb :=
  match goal with
  | |- context [Qeq_bool ?a ?b] =>
      let E := fresh "E" in destruct (Qeq_bool a b) eqn:E; qbool
  | |- context [Qle_bool ?a ?b] =>
      let E := fresh "E" in destruct (Qle_bool a b) eqn:E; qbool
  end.

(** ** Rational sums over lists

    The sources accumulate totals with [for (...) total += f(x)]: a left
    fold of [Qplus] from [0]. *)

Definition qsum {A} (f : A -> Q) (l : list A) : Q :=
  fold_left (fun acc x => acc + f x) l 0.

Lemma fold_qsum_shift {A} (f : A -> Q) (l : list A) (s : Q) :
  fold_left (fun acc x => acc + f x) l s == s + qsum f l.
Proof.
  unfold qsum. revert s. induction l as [|x l IH]; intros s; simpl.
  - lra.
  - rewrite (IH (s + f x)), (IH (0 + f x)). lra.
Qed.

Lemma qsum_nil {A} (f : A -> Q) : qsum f [] = 0.
Proof. reflexivity. Qed.

Lemma qsum_cons {A} (f : A -> Q) (x : A) (l : list A) :
  qsum f (x :: l) == f x + qsum f l.
Proof. unfold qsum at 1. simpl. rewrite fold_qsum_shift. lra. Qed.

Lemma qsum_app {A} (f : A -> Q) (l1 l2 : list A) :
  qsum f (l1 ++ l2) == qsum f l1 + qsum f l2.
Proof.
  induction l1 as [|x l1 IH]; simpl.
  - rewrite qsum_nil. lra.
  - rewrite !qsum_cons, IH. lra.
Qed.

Lemma qsum_perm {A} (f : A -> Q) (l1 l2 : list A) :
  Permutation l1 l2 -> qsum f l1 == qsum f l2.
Proof.
  induction 1 as [| x l1 l2 _ IH | x y l | l1 l2 l3 _ IH1 _ IH2].
  - reflexivity.
  - rewrite !qsum_cons, IH. reflexivity.
  - rewrite !qsum_cons. lra.
  - rewrite IH1. exact IH2.
Qed.

Lemma qsum_ext {A} (f g : A -> Q) (l : list A) :
  (forall x, In x l -> f x == g x) -> qsum f l == qsum g l.
Proof.
  induction l as [|x l IH]; intros H; [reflexivity|].
  rewrite !qsum_cons, (H x (or_introl eq_refl)), IH; [reflexivity|].
  intros y Hy. apply H. now right.
Qed.

Lemma qsum_nonneg {A} (f : A -> Q) (l : list A) :
  (forall x, In x l -> 0 <= f x) -> 0 <= qsum f l.
Proof.
  induction l as [|x l IH]; intros H; [apply Qle_refl|].
  rewrite qsum_cons.
  pose proof (H x (or_introl eq_refl)).
  assert (0 <= qsum f l) by (apply IH; intros y Hy; apply H; now right).
  lra.
Qed.

#[export] Hint Rewrite @qsum_app @qsum_cons : mw_rw.
#[export] Hint Resolve qsum_nonneg : mw.

(** ** JavaScript [||] lemmas *)

Lemma q_or_nonzero (a d : Q) : ~ a == 0 -> (a ||Q d) = a.
Proof. unfold q_or. intros H. case_qb; [contradiction | reflexivity]. Qed.

Lemma q_or_zero (a d : Q) : a == 0 -> (a ||Q d) = d.
Proof. unfold q_or. intros H. case_qb; [reflexivity | contradiction]. Qed.

Lemma q_or_nonzero_result (a d : Q) : ~ d == 0 -> ~ (a ||Q d) == 0.
Proof. unfold q_or. intros Hd. case_qb; assumption. Qed.

#[export] Hint Resolve q_or_nonzero_result : mw.

(** ** Loops that append to a list

    A loop [for (x of l) out.push(...g(x))] leaves [out ++ flat_map g l]. *)

Lemma fold_left_proj_app {S A B} (step : S -> A -> S) (proj : S -> list B)
    (g : A -> list B) :
  (forall s a, proj (step s a) = proj s ++ g a) ->
  forall l s, proj (fold_left step l s) = proj s ++ flat_map g l.
Proof.
  intros Hstep l. induction l as [|x l IH]; intros s; simpl.
  - now rewrite app_nil_r.
  - now rewrite IH, Hstep, app_assoc.
Qed.

Lemma flat_map_concat_map {A B C} (g : B -> list C) (h : A -> list B) (l : list A) :
  flat_map g (concat (map h l)) = flat_map (fun x => flat_map g (h x)) l.
Proof.
  induction l as [|x l IH]; simpl; [reflexivity|].
  now rewrite flat_map_app, IH.
Qed.

Lemma flat_map_filter_map {A B} (p : A -> bool) (f : A -> B) (l : list A) :
  flat_map (fun x => if p x then [f x] else []) l = map f (List.filter p l).
Proof. induction l as [|x l IH]; simpl; [reflexivity|]. destruct (p x); simpl; now rewrite IH. Qed.

Lemma forallb_false_exists {A} (p : A -> bool) (l : list A) :
  forallb p l = false -> exists x, In x l /\ p x = false.
Proof.
  induction l as [|x l IH]; simpl; [discriminate|].
  destruct (p x) eqn:Hp; simpl.
  - intros H. destruct (IH H) as (y & Hy & Hpy). eauto.
  - intros _. eauto.
Qed.

(** A filter keeps at most as many elements as a weaker filter. *)
Lemma filter_length_impl {A} (f g : A -> bool) (l : list A) :
  (forall x, In x l -> f x = true -> g x = true) ->
  (length (List.filter f l) <= length (List.filter g l))%nat.
Proof.
  induction l as [|x l IH]; intros Hfg; simpl; [lia|].
  specialize (IH (fun y Hy => Hfg y (or_intror Hy))).
  destruct (f x) eqn:Hf; [rewrite (Hfg x (or_introl eq_refl) Hf); simpl; lia|].
  destruct (g x); simpl; lia.
Qed.

(** ** Stable insertion sort

    [Array.prototype.sort] with a comparator is stable (ECMAScript 2019);
    an SQL [ORDER BY] is modelled the same way.  [before x y] says that
    [x] must come strictly before [y]; an element is inserted after every
    element it does not strictly precede, so equal elements keep their
    order. *)
Section InsertionSort.
Context {A : Type} (before : A -> A -> bool).

Fixpoint insert_by (x : A) (l : list A) : list A :=
  match l with
  | [] => [x]
  | y :: l' => if before x y then x :: y :: l' else y :: insert_by x l'
  end.

Definition sort_by (l : list A) : list A := fold_left (fun acc x => insert_by x acc) l [].

(** [y] may follow [x]: [y] does not strictly precede [x]. *)
Definition may_follow (x y : A) : Prop := before y x = false.

Lemma insert_by_perm (x : A) (l : list A) : insert_by x l ≡ₚ x :: l.
Proof.
  induction l as [|y l IH]; simpl; [done|].
  destruct (before x y); [done|]. rewrite IH. apply perm_swap.
Qed.

Lemma sort_by_perm (l : list A) : sort_by l ≡ₚ l.
Proof.
  unfold sort_by. rewrite <- (app_nil_l l) at 2. generalize (@nil A) as acc.
  induction l as [|x l IH]; intros acc; simpl; [now rewrite app_nil_r|].
  rewrite IH, insert_by_perm. now rewrite <- Permutation_middle.
Qed.

Hypothesis before_asym : forall x y, before x y = true -> before y x = false.

Lemma insert_by_sorted (x : A) (l : list A) :
  Sorted may_follow l -> Sorted may_follow (insert_by x l).
Proof.
  induction 1 as [|y l Hl IH Hhd]; simpl; [repeat constructor|].
  destruct (before x y) eqn:E.
  - constructor; [now constructor|]. constructor. now apply before_asym.
  - constructor; [exact IH|].
    destruct l as [|z l]; simpl; [constructor; exact E|].
    inversion Hhd; subst. destruct (before x z); constructor; assumption.
Qed.

Lemma sort_by_sorted (l : list A) : Sorted may_follow (sort_by l).
Proof.
  unfold sort_by. assert (H : Sorted may_follow (@nil A)) by constructor.
  revert H. generalize (@nil A) as acc.
  induction l as [|x l IH]; intros acc Hacc; simpl; [exact Hacc|].
  apply IH, insert_by_sorted, Hacc.
Qed.
End InsertionSort.

(** Sorting commutes with a map that the comparison cannot tell apart
    from its argument. *)
Lemma sort_by_map {A B} (ba : A -> A -> bool) (bb : B -> B -> bool) (f : A -> B) (l : list A) :
  (forall x y, bb (f x) (f y) = ba x y) -> sort_by bb (map f l) = map f (sort_by ba l).
Proof.
  intros Hf. unfold sort_by.
  assert (Hi : forall x acc, insert_by bb (f x) (map f acc) = map f (insert_by ba x acc)).
  { intros x acc. induction acc as [|y acc IH]; cbn; [done|]. rewrite Hf. by destruct (ba x y); cbn; rewrite ?IH. }
  change (@nil B) with (map f (@nil A)). generalize (@nil A) as acc.
  induction l as [|x l IH]; intros acc; cbn; [done|]. by rewrite Hi, IH.
Qed.

Lemma Sorted_weaken {A} (R R' : A -> A -> Prop) (l : list A) :
  (forall x y, R x y -> R' x y) -> Sorted R l -> Sorted R' l.
Proof.
  intros HR. induction 1 as [|x l Hl IH Hhd]; constructor; [exact IH|].
  destruct Hhd; constructor. auto.
Qed.
