(* ===== verification/Js.v ===== *)
(** * JavaScript values used by the sources

    The sources run on Deno; their arithmetic is JavaScript's [number]
    arithmetic and their string tests are [toLowerCase] and [includes].
    This file gives those operations a meaning:

    - [jsnum] is a [number] that may be [NaN] or an infinity, for the one
      place where the sources can divide by zero (a plan with no days);
      a finite value is an exact rational, and negative zero is not
      distinguished (every zero divisor of the sources is [+0], the
      length of an empty array);
    - [math_round] is ECMAScript's [Math.round] ([floor (x + 1/2)]) and
      [round1] the sources' [Math.round(x * 10) / 10];
    - [string_to_number] and [json_to_number] are [ToNumber] on a
      string and on a parsed value, where it is finite;
    - [to_lower] is [toLowerCase] on ASCII letters and [str_includes] is
      [String.prototype.includes];
    - [json] is a parsed JSON value; [read] is a property read that
      throws V8's [TypeError] on [undefined] and [null], [js_to_string]
      is [String(v)] and [or_default] is [v || d];
    - [JsM] is the exception-state monad of the [async] functions. *)

From S2P Require Import Prelude.

Open Scope Q_scope.
Open Scope mw_scope.

Inductive jsnum : Type :=
| JFin (q : Q)
| JNaN
| JInf (neg : bool).

Definition neg_Q (q : Q) : bool := Qlt_bool q 0.

Definition js_sub (x y : jsnum) : jsnum :=
  match x, y with
  | JFin a, JFin b => JFin (a - b)
  | JNaN, _ | _, JNaN => JNaN
  | JInf n, JFin _ => JInf n
  | JFin _, JInf n => JInf (negb n)
  | JInf n, JInf m => if Bool.eqb n m then JNaN else JInf n
  end.

Definition js_mul (x y : jsnum) : jsnum :=
  match x, y with
  | JFin a, JFin b => JFin (a * b)
  | JNaN, _ | _, JNaN => JNaN
  | JInf n, JFin b | JFin b, JInf n =>
      if Qeq_bool b 0 then JNaN else JInf (xorb n (neg_Q b))
  | JInf n, JInf m => JInf (xorb n m)
  end.

(** Division; a zero divisor is [+0]. *)
Definition js_div (x y : jsnum) : jsnum :=
  match x, y with
  | JFin a, JFin b =>
      if Qeq_bool b 0 then (if Qeq_bool a 0 then JNaN else JInf (neg_Q a))
      else JFin (a / b)
  | JNaN, _ | _, JNaN => JNaN
  | JInf n, JFin b => JInf (xorb n (neg_Q b))
  | JFin _, JInf _ => JFin 0
  | JInf _, JInf _ => JNaN
  end.

(** [Math.round] on a finite number: [floor (x + 1/2)]. *)
Definition math_round (q : Q) : Q := inject_Z (Qfloor (q + (1 # 2))).

(** [Math.round(x * 10) / 10]: one decimal place. *)
Definition round1 (q : Q) : Q := math_round (q * 10) / 10.

Definition js_round (x : jsnum) : jsnum :=
  match x with JFin q => JFin (math_round q) | v => v end.

Definition js_round1 (x : jsnum) : jsnum :=
  js_div (js_round (js_mul x (JFin 10))) (JFin 10).

Definition js_abs (x : jsnum) : jsnum :=
  match x with JFin q => JFin (Qabs q) | JNaN => JNaN | JInf _ => JInf false end.

(** [x <= t] and [x > t] against a finite [t]: every comparison with
    [NaN] is false. *)
Definition js_le (x : jsnum) (t : Q) : bool :=
  match x with JFin q => Qle_bool q t | JNaN => false | JInf neg => neg end.

Definition js_gt (x : jsnum) (t : Q) : bool :=
  match x with JFin q => Qlt_bool t q | JNaN => false | JInf neg => negb neg end.

(** [x ? a : b] on an optional number: [undefined] and [0] are falsy. *)
Definition opt_truthy (o : option Q) : bool :=
  match o with Some q => negb (Qeq_bool q 0) | None => false end.

(** [a?.length] in a condition. *)
Definition opt_nonempty {A} (o : option (list A)) : bool :=
  match o with Some (_ :: _) => true | _ => false end.

(** A non-empty optional string: [undefined] and [""] are falsy. *)
Definition opt_str_truthy (o : option string) : bool :=
  match o with Some s => negb (String.eqb s "") | None => false end.

(** ** Strings *)

Definition ascii_lower (c : ascii) : ascii :=
  let n := nat_of_ascii c in
  if ((65 <=? n) && (n <=? 90))%nat then ascii_of_nat (n + 32) else c.

Fixpoint to_lower (s : string) : string :=
  match s with
  | EmptyString => EmptyString
  | String c s' => String (ascii_lower c) (to_lower s')
  end.

(** [s.includes(sub)]: [sub] occurs at some position of [s]. *)
Fixpoint str_includes (s sub : string) : bool :=
  String.prefix sub s ||
  match s with EmptyString => false | String _ s' => str_includes s' sub end.

(** [s.replace(pat, rep)] with a string pattern: the first occurrence
    only. *)
Definition str_replace_first (s pat rep : string) : string :=
  match String.index 0 pat s with
  | Some i =>
      String.substring 0 i s ++ rep ++
      String.substring (i + String.length pat) (String.length s - (i + String.length pat)) s
  | None => s
  end.

(** A prompt's text with its double quotes written [~]: [dequote]
    restores them. *)
Fixpoint dequote (s : string) : string :=
  match s with
  | EmptyString => EmptyString
  | String c s' => String (if Ascii.eqb c "~" then "034"%char else c) (dequote s')
  end.

(** ** Property lookup on an object literal

    [obj[k]] on an object literal whose own properties are [tbl] finds an
    own property first, then a property inherited from [Object.prototype]
    (its methods and the [__proto__] accessor: never a number), and is
    [undefined] otherwise. *)

Inductive js_prop (A : Type) : Type :=
| PropOwn (v : A)
| PropInherited
| PropUndefined.
Arguments PropOwn {A} v.
Arguments PropInherited {A}.
Arguments PropUndefined {A}.

Definition object_prototype_keys : list string :=
  ["constructor"; "hasOwnProperty"; "isPrototypeOf"; "propertyIsEnumerable";
   "toLocaleString"; "toString"; "valueOf"; "__proto__";
   "__defineGetter__"; "__defineSetter__"; "__lookupGetter__";
   "__lookupSetter__"]%string.

Fixpoint assoc_str {A} (k : string) (tbl : list (string * A)) : option A :=
  match tbl with
  | [] => None
  | (k', v) :: tbl' => if String.eqb k k' then Some v else assoc_str k tbl'
  end.

Definition js_obj_get {A} (tbl : list (string * A)) (k : string) : js_prop A :=
  match assoc_str k tbl with
  | Some v => PropOwn v
  | None =>
      if existsb (String.eqb k) object_prototype_keys then PropInherited
      else PropUndefined
  end.

(** ** Exceptions and mutable locals

    An [async] function of the sources runs as a computation over the
    state [S] of the locals and tables it mutates, which either returns a
    value or throws a [JsError]; a thrown error keeps the mutations made
    before it, as in JavaScript. *)

Inductive JsError : Type :=
| Error (message : string)
| TypeError (message : string)
| ReferenceError (name : string).

(** [error.message]. *)
Definition error_message (e : JsError) : string :=
  match e with
  | Error m | TypeError m => m
  | ReferenceError x => (x ++ " is not defined")%string
  end.

Definition JsM (S A : Type) : Type := S -> (JsError + A) * S.

Definition jret {S A} (a : A) : JsM S A := fun s => (inr a, s).
Definition jbind {S A B} (m : JsM S A) (f : A -> JsM S B) : JsM S B :=
  fun s => match m s with (inr a, s') => f a s' | (inl e, s') => (inl e, s') end.
Definition jthrow {S A} (e : JsError) : JsM S A := fun s => (inl e, s).
Definition jget {S} : JsM S S := fun s => (inr s, s).
Definition jput {S} (s : S) : JsM S unit := fun _ => (inr tt, s).
Definition jmodify {S} (f : S -> S) : JsM S unit := fun s => (inr tt, f s).

(** A step that returns or throws without touching the state. *)
Definition jlift {S A} (r : JsError + A) : JsM S A := fun s => (r, s).

(** [try { m } catch (e) { h(e) }]. *)
Definition jtry {S A} (m : JsM S A) (h : JsError -> JsM S A) : JsM S A :=
  fun s => match m s with (inl e, s') => h e s' | r => r end.

Declare Scope js_scope.
Delimit Scope js_scope with js.
Notation "x <- m ;; k" := (jbind m (fun x => k))
  (at level 100, m at level 99, right associativity) : js_scope.
Notation "m ;; k" := (jbind m (fun _ => k))
  (at level 100, right associativity) : js_scope.

(** Reading an identifier: a name that no enclosing scope declares
    throws a [ReferenceError]. *)
Definition lookup_var {S} (env : list (string * nat)) (x : string) : JsM S nat :=
  match assoc_str x env with
  | Some v => jret v
  | None => jthrow (ReferenceError x)
  end.

(** [for (const x of l) { ... }] over an accumulator. *)
Fixpoint jfold {S A B} (f : B -> A -> JsM S B) (l : list A) (b : B) : JsM S B :=
  match l with
  | [] => jret b
  | x :: l' => jbind (f b x) (jfold f l')
  end.

(** Case analysis on the [match]es of a run's equation [H], innermost
    scrutinee first. *)
Ltac run_cases H :=
  repeat (cbn in H;
          match type of H with
          | context [match ?x with _ => _ end] =>
              lazymatch x with
              | context [match _ with _ => _ end] => fail
              | _ => let E := fresh "E" in destruct x eqn:E
              end
          end).

(** How a sequence [m ;; f] throws: in [m], or in [f] after [m]
    returned. *)
Lemma jbind_inl_inv {S A B} (m : JsM S A) (f : A -> JsM S B) s e s' :
  jbind m f s = (inl e, s') ->
  m s = (inl e, s') \/ exists a s1, m s = (inr a, s1) /\ f a s1 = (inl e, s').
Proof.
  unfold jbind. destruct (m s) as [[e'|a] s1]; intros H; [left; congruence|].
  right. eauto.
Qed.

Lemma jbind_throw {S A B} (e : JsError) (f : A -> JsM S B) (s : S) :
  jbind (jthrow e) f s = (inl e, s).
Proof. reflexivity. Qed.

Lemma jbind_ret {S A B} (a : A) (f : A -> JsM S B) (s : S) :
  jbind (jret a) f s = f a s.
Proof. reflexivity. Qed.

(** An invariant of the accumulator that every step keeps holds of the
    result of a [jfold] that returns. *)
Lemma jfold_invariant {S A B} (P : B -> Prop) (f : B -> A -> JsM S B) (l : list A) :
  (forall b x s b' s', P b -> f b x s = (inr b', s') -> P b') ->
  forall b s b' s', P b -> jfold f l b s = (inr b', s') -> P b'.
Proof.
  intros Hstep. induction l as [|x l IH]; intros b s b' s' Hb Hrun.
  - cbn in Hrun. by injection Hrun as <- _.
  - cbn in Hrun. unfold jbind in Hrun. destruct (f b x s) as [[e|b1] s1] eqn:Hf; [discriminate|].
    exact (IH b1 s1 b' s' (Hstep _ _ _ _ _ Hb Hf) Hrun).
Qed.

(** ** Lemmas *)

Lemma math_round_spec (q : Q) :
  q - (1 # 2) < math_round q <= q + (1 # 2).
Proof.
  unfold math_round. split.
  - pose proof (Qlt_floor (q + (1 # 2))) as H.
    rewrite inject_Z_plus in H. change (inject_Z 1) with 1 in H. lra.
  - pose proof (Qfloor_le (q + (1 # 2))). lra.
Qed.

Lemma math_round_nonneg (q : Q) : 0 <= q -> 0 <= math_round q.
Proof.
  intros H. unfold math_round.
  change 0 with (inject_Z 0). rewrite <- Zle_Qle.
  apply Z.le_trans with (Qfloor 0); [reflexivity|].
  apply Qfloor_resp_le. lra.
Qed.

Lemma round1_nonneg (q : Q) : 0 <= q -> 0 <= round1 q.
Proof.
  intros H. unfold round1.
  assert (0 <= math_round (q * 10)) by (apply math_round_nonneg; lra).
  apply Qle_shift_div_l; [reflexivity|]. lra.
Qed.

Lemma js_round_fin (q : Q) : js_round (JFin q) = JFin (math_round q).
Proof. reflexivity. Qed.

Lemma js_div_fin (a b : Q) : ~ b == 0 -> js_div (JFin a) (JFin b) = JFin (a / b).
Proof. intros H. simpl. case_qb; [contradiction | reflexivity]. Qed.

Lemma js_round1_fin (q : Q) : js_round1 (JFin q) = JFin (round1 q).
Proof. reflexivity. Qed.

Lemma js_le_abs_fin (q t : Q) :
  js_le (js_abs (JFin q)) t = true <-> Qabs q <= t.
Proof. simpl. apply Qle_bool_iff. Qed.

#[export] Instance math_round_Proper : Proper (Qeq ==> Qeq) math_round.
Proof. intros x y E. unfold math_round. now rewrite E. Qed.

#[export] Instance round1_Proper : Proper (Qeq ==> Qeq) round1.
Proof. intros x y E. unfold round1. now rewrite E. Qed.

#[export] Hint Rewrite js_round_fin js_round1_fin : mw_rw.
#[export] Hint Resolve math_round_nonneg round1_nonneg : mw.

(** ** JSON values

    The value [JSON.parse] returns.  Objects keep their members in
    order; indexing one with [obj[k]] is [js_obj_get] on its members
    (an own member first, then [Object.prototype]). *)
Inductive json : Type :=
| JNull
| JBool (b : bool)
| JNumber (q : Q)
| JString (s : string)
| JArray (items : list json)
| JObject (members : list (string * json)).

(** JavaScript truthiness of a property read: [undefined], [null],
    [false], [0] and [""] are falsy; an inherited method is truthy. *)
Definition json_truthy (p : js_prop json) : bool :=
  match p with
  | PropUndefined | PropOwn JNull | PropOwn (JBool false) => false
  | PropOwn (JNumber q) => negb (Qeq_bool q 0)
  | PropOwn (JString s) => negb (String.eqb s "")
  | _ => true
  end.

(** [v[k]] on a parsed value: the members of an object; any other value
    is indexed as an object without own members. *)
Definition json_get (v : json) (k : string) : js_prop json :=
  match v with
  | JObject ms => js_obj_get ms k
  | _ => js_obj_get [] k
  end.

(** [p.k] after [p] was found truthy. *)
Definition prop_get (p : js_prop json) (k : string) : js_prop json :=
  match p with PropOwn v => json_get v k | _ => js_obj_get [] k end.

(** The message of reading a property of [undefined]. *)
Definition undefined_read (field : string) : JsError :=
  TypeError ("Cannot read properties of undefined (reading '" ++ field ++ "')").

Section ToString.
(** [String(q)] on a number. *)
Variable number_to_string : Q -> string.

(** [String(v)], which a template literal, a computed property key and
    [v.toString()] apply: an array is joined with commas ([null] items
    give the empty string), an object is [[object Object]]. *)
Fixpoint js_to_string (v : json) : string :=
  match v with
  | JNull => "null"
  | JBool b => if b then "true" else "false"
  | JNumber q => number_to_string q
  | JString s => s
  | JArray xs =>
      String.concat "," (map (fun x => match x with JNull => "" | _ => js_to_string x end) xs)
  | JObject _ => "[object Object]"
  end.
End ToString.

(** ** [ToNumber]

    [StringToNumber] (ECMAScript 7.1.4.1.1): white space and line
    terminators around the literal are dropped, the empty string is 0,
    and the rest is a decimal literal with an optional sign and exponent
    or a [0x], [0o], [0b] integer.  A string is its UTF-8 bytes, so the
    white space is the byte sequences of the code points [trim] drops.
    [None] is a [NaN] or an infinity. *)

Definition ws_seqs : list (list nat) :=
  [[9]; [10]; [11]; [12]; [13]; [32]; [194; 160]; [239; 187; 191]; [225; 154; 128]]%nat ++
  map (fun n => [226; 128; n]%nat) (seq 128 11) ++
  [[226; 128; 168]; [226; 128; 169]; [226; 128; 175]; [226; 129; 159]; [227; 128; 128]]%nat.

Fixpoint drop_seq (pat : list nat) (l : list ascii) : option (list ascii) :=
  match pat, l with
  | [], _ => Some l
  | n :: pat', c :: l' => if (nat_of_ascii c =? n)%nat then drop_seq pat' l' else None
  | _ :: _, [] => None
  end.

(** Drop white space at the front of [l], one code point per round;
    every round removes a byte, so [length l] rounds are enough. *)
Fixpoint strip_ws (seqs : list (list nat)) (fuel : nat) (l : list ascii) : list ascii :=
  match fuel with
  | O => l
  | S fuel' =>
      match omap (fun pat => drop_seq pat l) seqs with
      | l' :: _ => strip_ws seqs fuel' l'
      | [] => l
      end
  end.

Definition trim_ws (s : string) : list ascii :=
  let l := list_ascii_of_string s in
  let l := strip_ws ws_seqs (length l) l in
  rev (strip_ws (map (@rev nat) ws_seqs) (length l) (rev l)).

Definition digit_value (base : Z) (c : ascii) : option Z :=
  (let n := Z.of_nat (nat_of_ascii c) in
  let d := if (48 <=? n) && (n <=? 57) then n - 48
           else if (97 <=? n) && (n <=? 122) then n - 87
           else if (65 <=? n) && (n <=? 90) then n - 55 else base in
  if d <? base then Some d else None)%Z.

(** The longest run of digits at the front of [l]: its value (added to
    [v] shifted by the digits read), its length and the rest. *)
Fixpoint digits (base : Z) (l : list ascii) (v : Z) (k : nat) : Z * nat * list ascii :=
  match l with
  | c :: l' =>
      match digit_value base c with
      | Some d => digits base l' (v * base + d)%Z (S k)
      | None => (v, k, l)
      end
  | [] => (v, k, [])
  end.

Definition char_is (c : ascii) (n : nat) : bool := (nat_of_ascii c =? n)%nat.

(** [StrUnsignedDecimalLiteral] without [Infinity]: digits, an optional
    fraction and exponent, at least one digit before the exponent. *)
Definition unsigned_decimal (l : list ascii) : option Q :=
  let '(i, ni, l1) := digits 10 l 0 0%nat in
  let '(f, nf, l2) := match l1 with
                      | c :: l' => if char_is c 46 then digits 10 l' 0 0%nat else (0%Z, 0%nat, l1)
                      | [] => (0%Z, 0%nat, l1)
                      end in
  let mant := inject_Z (i * 10 ^ Z.of_nat nf + f)%Z / inject_Z (10 ^ Z.of_nat nf)%Z in
  if (ni + nf =? 0)%nat then None else
  match l2 with
  | [] => Some mant
  | c :: l3 =>
      if char_is c 101 || char_is c 69 then
        let '(neg, l4) := match l3 with
                          | s :: l' => if char_is s 45 then (true, l') else
                                       if char_is s 43 then (false, l') else (false, l3)
                          | [] => (false, l3)
                          end in
        match digits 10 l4 0 0%nat with
        | (e, S _, []) => Some (if neg then mant / inject_Z (10 ^ e)%Z else mant * inject_Z (10 ^ e)%Z)
        | _ => None
        end
      else None
  end.

Definition string_to_number (s : string) : option Q :=
  match trim_ws s with
  | [] => Some 0
  | c0 :: c1 :: rest =>
      let base := if char_is c0 48 then
                    if char_is c1 120 || char_is c1 88 then 16%Z
                    else if char_is c1 111 || char_is c1 79 then 8%Z
                    else if char_is c1 98 || char_is c1 66 then 2%Z else 0%Z
                  else 0%Z in
      if (base =? 0)%Z then
        match c0 :: c1 :: rest with
        | s :: l => if char_is s 45 then option_map Qopp (unsigned_decimal l)
                    else if char_is s 43 then unsigned_decimal l else unsigned_decimal (s :: l)
        | [] => None
        end
      else match digits base rest 0 0%nat with
           | (v, S _, []) => Some (inject_Z v)
           | _ => None
           end
  | l => unsigned_decimal l
  end.

(** [ToNumber] of a parsed value where it is finite: an array is read
    through [String], which joins its items with commas ([[true]] is
    the string [true]), so only an array of at most one item can be a
    number. *)
Fixpoint json_to_number (v : json) : option Q :=
  match v with
  | JNull => Some 0
  | JBool b => Some (if b then 1 else 0)
  | JNumber q => Some q
  | JString s => string_to_number s
  | JArray [] => Some 0
  | JArray [JNull] => Some 0
  | JArray [JBool _] => None
  | JArray [x] => json_to_number x
  | JArray _ => None
  | JObject _ => None
  end.

Definition null_read (field : string) : JsError :=
  TypeError ("Cannot read properties of null (reading '" ++ field ++ "')").

(** [p.k] where [p] is what an earlier read found: reading a property of
    [undefined] or [null] throws. *)
Definition read (p : js_prop json) (k : string) : JsError + js_prop json :=
  match p with
  | PropUndefined => inl (undefined_read k)
  | PropOwn JNull => inl (null_read k)
  | _ => inr (prop_get p k)
  end.

(** [p || d] on a member of a parsed object.  The keys read here are
    not keys of [Object.prototype], so an inherited member is not met. *)
Definition or_default (p : js_prop json) (d : json) : json :=
  match p with
  | PropOwn v => if json_truthy p then v else d
  | _ => d
  end.

(** A member of an object literal as [JSON.stringify] writes it: left
    out when its value is [undefined]. *)
Definition opt_member {A} (k : string) (v : option A) (f : A -> json) : list (string * json) :=
  match v with Some x => [(k, f x)] | None => [] end.

(** A column of a database row as [JSON.stringify] writes it: [null]
    when the row leaves it empty. *)
Definition nullable_member {A} (k : string) (v : option A) (f : A -> json) : list (string * json) :=
  [(k, match v with Some x => f x | None => JNull end)].

(** [${x}] in a template literal, for a string that may be [undefined]. *)
Definition template_opt (o : option string) : string :=
  match o with Some s => s | None => "undefined" end.
