(* ===== verification/TsTypes.v ===== *)
(** * TypeScript types as data

    The type files of the sources ([src/types/recipe.ts],
    [src/unnamed/part_002], [src/unnamed/part_003]) declare interfaces,
    unions of string literals and array types.  [ts_type] is the part of
    TypeScript's type language they use, and [has_type t v] says that a
    JSON value [v] has the type [t]:

    - a [Date] travels as its ISO string in JSON, so [TDate] holds of a
      string;
    - an optional member [k?: T] is absent or has type [T] ([null] is not
      [undefined]); other members are allowed, as structural typing
      does;
    - [{ [k: string]: T }] is [TIndex T];
    - an interface that [extends] another lists the other's members
      first.

    TypeScript erases its types: nothing checks at run time that a value
    has its declared type.  [has_type] is what the declarations promise,
    and the theorems of [TsDecls] compare it with what the code builds. *)

From S2P Require Import Prelude Js.

Inductive ts_type : Type :=
| TString
| TNumber
| TBoolean
| TDate
| TNull
| TAny
| TLit (s : string)
| TUnion (ts : list ts_type)
| TArray (t : ts_type)
| TObject (fields : list (string * bool * ts_type))
| TIndex (t : ts_type).

(** A member [k: T] and an optional member [k?: T]. *)
Definition req (k : string) (t : ts_type) : string * bool * ts_type := (k, false, t).
Definition opt (k : string) (t : ts_type) : string * bool * ts_type := (k, true, t).

(** A union of string literals ['a' | 'b' | ...]. *)
Definition lits (ss : list string) : ts_type := TUnion (map TLit ss).

(** [T | null]. *)
Definition nullable (t : ts_type) : ts_type := TUnion [t; TNull].

(** A member of an object checked against its declaration. *)
Definition member_ok (has : ts_type -> json -> bool) (ms : list (string * json))
    (f : string * bool * ts_type) : bool :=
  let '(k, optional, t) := f in
  match assoc_str k ms with
  | Some x => has t x
  | None => optional
  end.

Fixpoint has_type (t : ts_type) (v : json) {struct t} : bool :=
  match t with
  | TString => match v with JString _ => true | _ => false end
  | TNumber => match v with JNumber _ => true | _ => false end
  | TBoolean => match v with JBool _ => true | _ => false end
  | TDate => match v with JString _ => true | _ => false end
  | TNull => match v with JNull => true | _ => false end
  | TAny => true
  | TLit s => match v with JString s' => String.eqb s s' | _ => false end
  | TUnion ts => existsb (fun t' => has_type t' v) ts
  | TArray t' => match v with JArray xs => forallb (has_type t') xs | _ => false end
  | TObject fs =>
      match v with
      | JObject ms =>
          forallb (fun f => let '(k, optional, t') := f in
                            match assoc_str k ms with
                            | Some x => has_type t' x
                            | None => optional
                            end) fs
      | _ => false
      end
  | TIndex t' =>
      match v with
      | JObject ms => forallb (fun kv => has_type t' (snd kv)) ms
      | _ => false
      end
  end.

(** [Omit<T, K>] on an object type. *)
Definition omit (ks : list string) (t : ts_type) : ts_type :=
  match t with
  | TObject fs => TObject (List.filter (fun f => negb (existsb (String.eqb f.1.1) ks)) fs)
  | _ => t
  end.

Lemma has_type_object fs ms :
  has_type (TObject fs) (JObject ms) = forallb (member_ok has_type ms) fs.
Proof.
  reflexivity.
Qed.

(** An object has an object type when each declared member is fine. *)
Lemma has_type_object_iff fs ms :
  has_type (TObject fs) (JObject ms) = true <->
  forall k o t, In (k, o, t) fs ->
    match assoc_str k ms with Some x => has_type t x = true | None => o = true end.
Proof.
  rewrite has_type_object, forallb_forall. split.
  - intros H k o t Hin. specialize (H _ Hin). cbn in H. by case_match.
  - intros H [[k o] t] Hin. specialize (H _ _ _ Hin). cbn. by case_match.
Qed.

Lemma has_type_lits ss v :
  has_type (lits ss) v = true <-> exists s, v = JString s /\ In s ss.
Proof.
  unfold lits. induction ss as [|s ss IH]; cbn.
  - split; [done | intros (s & _ & [])].
  - rewrite orb_true_iff, IH. split.
    + intros [H | (s' & -> & Hin)]; [|eauto].
      destruct v; try done. apply String.eqb_eq in H. subst. eauto.
    + intros (s' & -> & [<- | Hin]); [left; apply String.eqb_refl | right; eauto].
Qed.
