(* ===== verification/TsDecls.v ===== *)
(** * The declarations of the type files, as [ts_type]s

    One definition per interface or type alias of [src/types/recipe.ts]
    ([RecipeTs]), [src/unnamed/part_002] ([BlueprintTs]) and
    [src/unnamed/part_003] ([PlanTs]), and the interfaces the nutrition
    validator declares for its answer ([ValidatorTs]), member by member
    and in the order of the source; a definition comes after the ones it
    refers to.  [TypeConformance] compares the JSON the code writes with
    these declarations. *)

From S2P Require Import Prelude Js TsTypes.

Module RecipeTs.

(** [DifficultyLevel], line 106. *)
Definition DifficultyLevel : ts_type := lits ["easy"; "medium"; "hard"].
(** [MealType], line 107. *)
Definition MealType : ts_type := lits ["breakfast"; "lunch"; "dinner"; "snack"; "dessert"].
(** [RecipeStatus], line 108. *)
Definition RecipeStatus : ts_type := lits ["pending_review"; "published"; "archived"].

(** [Ingredient], lines 57-70. *)
Definition Ingredient : ts_type := TObject [
  req "name" TString; req "amount" TNumber; req "unit" TString; opt "notes" TString;
  opt "usda_match" TString; opt "is_main_ingredient" TBoolean;
  opt "spoonacular_id" TNumber; opt "image" TString].

(** [Instruction], lines 72-84. *)
Definition Instruction : ts_type := TObject [
  req "step" TNumber; req "text" TString;
  opt "duration_minutes" TNumber; opt "temperature" TString; opt "equipment" (TArray TString);
  opt "image_url" TString; opt "video_url" TString].

(** [NutritionInfo], lines 86-104. *)
Definition NutritionInfo : ts_type := TObject [
  req "calories" TNumber; req "protein" TNumber; req "fat" TNumber; req "carbohydrates" TNumber;
  opt "fiber" TNumber; opt "sugar" TNumber; opt "sodium" TNumber;
  opt "vitamins" (TIndex TNumber); opt "minerals" (TIndex TNumber);
  opt "calculation_method" (lits ["spoonacular"; "usda_calculated"; "user_entered"]);
  opt "last_calculated" TDate; opt "confidence_score" TNumber].

(** The members of [Recipe], lines 12-55. *)
Definition Recipe_members : list (string * bool * ts_type) := [
  req "id" TString; req "title" TString; opt "description" TString;
  req "ingredients" (TArray Ingredient); req "instructions" (TArray Instruction);
  opt "nutrition_info" NutritionInfo;
  opt "prep_time_minutes" TNumber; opt "cook_time_minutes" TNumber;
  opt "total_time_minutes" TNumber; req "servings" TNumber;
  opt "difficulty_level" DifficultyLevel;
  opt "category_id" TString; req "dietary_tags" (TArray TString); opt "cuisine_type" TString;
  req "meal_type" (TArray MealType);
  opt "created_by_user_id" TString; opt "spoonacular_id" TNumber; opt "source_url" TString;
  req "status" RecipeStatus;
  req "is_premium" TBoolean;
  opt "image_url" TString; opt "video_url" TString;
  req "rating_average" TNumber; req "rating_count" TNumber;
  req "created_at" TDate; req "updated_at" TDate].

Definition Recipe : ts_type := TObject Recipe_members.

(** [USDANutritionData], lines 114-135. *)
Definition USDANutritionData : ts_type := TObject [
  req "fdc_id" TNumber; req "description" TString;
  opt "calories" TNumber; opt "protein" TNumber; opt "fat" TNumber;
  opt "carbohydrates" TNumber; opt "fiber" TNumber; opt "sugar" TNumber;
  opt "nutrients" (TIndex TNumber);
  opt "data_type" TString; opt "publication_date" TDate;
  req "created_at" TDate; req "updated_at" TDate].

(** [NutritionLookupResult], lines 137-145. *)
Definition NutritionLookupResult : ts_type := TObject [
  req "ingredient_name" TString; req "usda_match" (nullable USDANutritionData);
  req "confidence_score" TNumber; req "fallback_used" TBoolean;
  opt "calculated_nutrition" NutritionInfo].

(** [RecipeCandidate], lines 151-166. *)
Definition RecipeCandidate : ts_type := TObject [
  req "recipe" Recipe;
  req "base_score" TNumber; req "ai_personalization_score" TNumber; req "final_score" TNumber;
  req "match_reasons" (TArray TString); req "penalty_reasons" (TArray TString);
  opt "selected_for_meal" TString; opt "replacement_for" TString].

(** [RecipeFilter], lines 168-186. *)
Definition RecipeFilter : ts_type := TObject [
  req "dietary_restrictions" (TArray TString); req "allergen_exclusions" (TArray TString);
  opt "max_prep_time" TNumber; opt "max_cook_time" TNumber;
  opt "preferred_cuisines" (TArray TString); opt "preferred_meal_types" (TArray MealType);
  opt "difficulty_preference" DifficultyLevel;
  req "include_premium" TBoolean;
  opt "exclude_recipe_ids" (TArray TString); opt "require_variety" TBoolean].

(** [ScoringCriteria], lines 188-200. *)
Definition ScoringCriteria : ts_type := TObject [
  req "cuisine_match_weight" TNumber; req "nutrition_match_weight" TNumber;
  req "prep_time_weight" TNumber; req "user_rating_weight" TNumber; req "variety_weight" TNumber;
  req "premium_bonus" TNumber; req "recent_favorite_bonus" TNumber; req "seasonal_bonus" TNumber].

(** An inline object type of numbers only, as in lines 214-219 and 234-239. *)
Definition number_fields (names : list string) : ts_type :=
  TObject (map (fun n => req n TNumber) names).

(** [SwapRecommendation], lines 230-241. *)
Definition SwapRecommendation : ts_type := TObject [
  req "meal_to_replace" TString; req "current_recipe_id" TString;
  req "suggested_recipe_id" TString; req "reason" TString;
  req "nutrition_impact"
    (number_fields ["calories_change"; "protein_change"; "fat_change"; "carbs_change"])].

(** [NutritionValidationResult], lines 206-228. *)
Definition NutritionValidationResult : ts_type := TObject [
  req "is_valid" TBoolean;
  req "total_nutrition" NutritionInfo; req "daily_average" NutritionInfo;
  req "target_deviations"
    (number_fields ["calories_deviation"; "protein_deviation"; "fat_deviation";
                 "carbohydrates_deviation"]);
  req "within_15_percent_threshold" TBoolean; req "missing_nutrition_data" (TArray TString);
  opt "suggestions" (TArray TString); opt "swap_recommendations" (TArray SwapRecommendation)].

(** [RecipeCategory], lines 247-258. *)
Definition RecipeCategory : ts_type := TObject [
  req "id" TString; req "name" TString; opt "description" TString; req "color_hex" TString;
  opt "parent_category_id" TString; opt "sort_order" TNumber;
  req "created_at" TDate].

(** [GroceryCategory], lines 279-288. *)
Definition GroceryCategory : ts_type :=
  lits ["produce"; "meat_seafood"; "dairy_eggs"; "pantry"; "frozen"; "bakery";
        "beverages"; "condiments"; "spices"].

(** [GroceryItem], lines 264-277. *)
Definition GroceryItem : ts_type := TObject [
  req "name" TString; req "amount" TNumber; req "unit" TString;
  req "category" GroceryCategory;
  req "source_recipes" (TArray TString); opt "estimated_cost" TNumber;
  req "checked_off" TBoolean; opt "notes" TString].

(** [GroceryList], lines 290-308: [items_by_category] has an optional
    member per category. *)
Definition GroceryList : ts_type := TObject [
  req "id" TString; req "meal_plan_id" TString; req "user_id" TString;
  req "items_by_category"
    (TObject (map (fun c => opt c (TArray GroceryItem))
                  ["produce"; "meat_seafood"; "dairy_eggs"; "pantry"; "frozen"; "bakery";
                   "beverages"; "condiments"; "spices"]));
  req "total_items" TNumber; opt "total_estimated_cost" TNumber;
  req "completion_percentage" TNumber;
  opt "instacart_cart_id" TString;
  req "created_at" TDate; req "updated_at" TDate].

(** [PrepPriority], line 332. *)
Definition PrepPriority : ts_type := lits ["high"; "medium"; "low"].

(** [PrepTask], lines 314-330. *)
Definition PrepTask : ts_type := TObject [
  req "id" TString; req "description" TString; req "estimated_time_minutes" TNumber;
  req "suggested_day" TString; req "priority" PrepPriority;
  req "enables_recipes" (TArray TString); req "requires_equipment" (TArray TString);
  opt "instructions" (TArray TString); opt "storage_instructions" TString].

(** [PrepSchedule], lines 334-343. *)
Definition PrepSchedule : ts_type := TObject [
  req "meal_plan_id" TString; req "tasks" (TArray PrepTask);
  req "total_prep_time_minutes" TNumber; req "recommended_prep_days" (TArray TString);
  req "created_at" TDate].

(** [RecipeSearchParams], lines 352-367. *)
Definition RecipeSearchParams : ts_type := TObject [
  opt "query" TString; opt "meal_type" MealType; opt "dietary_tags" (TArray TString);
  opt "max_prep_time" TNumber; opt "difficulty" DifficultyLevel; opt "cuisine" TString;
  opt "limit" TNumber; opt "offset" TNumber;
  opt "sort_by" (lits ["rating"; "prep_time"; "created_at"; "popularity"]);
  opt "sort_order" (lits ["asc"; "desc"])].

(** [PersonalizedRecipe extends Recipe], lines 372-376. *)
Definition PersonalizedRecipe : ts_type := TObject (Recipe_members ++ [
  req "personalization_score" TNumber; req "match_explanation" (TArray TString);
  req "last_scored_at" TDate]).

End RecipeTs.

Module BlueprintTs.

(** [ActivityLevel], lines 34-39. *)
Definition ActivityLevel : ts_type :=
  lits ["sedentary"; "light"; "moderate"; "active"; "very_active"].

(** [UserProfile], lines 12-32. *)
Definition UserProfile : ts_type := TObject [
  req "id" TString; req "email" TString; opt "full_name" TString;
  opt "date_of_birth" TDate; opt "height_cm" TNumber; opt "weight_kg" TNumber;
  opt "activity_level" ActivityLevel;
  req "current_xp" TNumber; req "current_level" TNumber; req "streak_days" TNumber;
  opt "last_activity_date" TDate;
  req "created_at" TDate; req "updated_at" TDate].

(** [DietType], lines 74-80. *)
Definition DietType : ts_type :=
  lits ["omnivore"; "vegetarian"; "vegan"; "keto"; "paleo"; "pcos"].
(** [HealthGoal], lines 82-88. *)
Definition HealthGoal : ts_type :=
  lits ["weight_loss"; "muscle_gain"; "maintenance"; "energy_boost"; "heart_health";
        "digestive_health"].
(** [BudgetRange], line 90. *)
Definition BudgetRange : ts_type := lits ["low"; "medium"; "high"].
(** [SkillLevel], line 92. *)
Definition SkillLevel : ts_type := lits ["beginner"; "intermediate"; "advanced"].

(** [FlavorPreferences], lines 94-101. *)
Definition FlavorPreferences : ts_type := TObject [
  req "spicy" TNumber; req "sweet" TNumber; req "savory" TNumber;
  req "umami" TNumber; req "bitter" TNumber; req "sour" TNumber].

(** [UserIntake], lines 45-72. *)
Definition UserIntake : ts_type := TObject [
  req "id" TString; req "user_id" TString;
  opt "diet_type" DietType; req "allergies" (TArray TString); req "dislikes" (TArray TString);
  req "health_goals" (TArray HealthGoal); opt "budget_range" BudgetRange;
  opt "cooking_time_preference" TNumber; opt "cooking_skill_level" SkillLevel;
  req "household_size" TNumber; req "kitchen_equipment" (TArray TString);
  opt "flavor_preferences" FlavorPreferences; opt "cultural_preferences" (TArray TString);
  req "version" TNumber; req "is_active" TBoolean; req "created_at" TDate].

(** [SubscriptionStatus], lines 118-122. *)
Definition SubscriptionStatus : ts_type := lits ["active"; "canceled"; "past_due"; "trialing"].

(** [UserSubscription], lines 107-116. *)
Definition UserSubscription : ts_type := TObject [
  req "id" TString; req "user_id" TString; req "plan_id" TString;
  req "status" SubscriptionStatus;
  req "current_period_start" TDate; req "current_period_end" TDate;
  opt "stripe_subscription_id" TString; opt "stripe_customer_id" TString].

(** [SubscriptionPlan], lines 124-137. *)
Definition SubscriptionPlan : ts_type := TObject [
  req "id" TString; req "name" TString; opt "description" TString;
  opt "price_monthly" TNumber; opt "price_yearly" TNumber;
  req "plan_generation_limit" TNumber; req "access_to_premium_content" TBoolean;
  req "household_members_allowed" TNumber; req "advanced_wow_layers" TBoolean;
  req "community_features" TBoolean].

(** [NutritionalTargets], lines 165-176. *)
Definition NutritionalTargets : ts_type := TObject [
  req "daily_calories" TNumber; req "daily_protein" TNumber; req "daily_fat" TNumber;
  req "daily_carbohydrates" TNumber; opt "daily_fiber" TNumber;
  opt "bmr" TNumber; opt "tdee" TNumber;
  req "calculation_method" (lits ["harris_benedict"; "mifflin_st_jeor"; "user_defined"])].

(** [GamificationContext], lines 178-183. *)
Definition GamificationContext : ts_type := TObject [
  req "current_streak" TNumber; req "available_xp_challenges" (TArray TString);
  req "premium_content_unlocked" TBoolean; req "achievement_progress" (TIndex TNumber)].

(** [RecentRating], lines 185-189. *)
Definition RecentRating : ts_type := TObject [
  req "recipe_id" TString; req "rating" (lits ["love"; "meh"; "skip"]); req "created_at" TDate].
(** [RecentSwap], lines 191-197. *)
Definition RecentSwap : ts_type := TObject [
  req "original_recipe_id" TString; req "replacement_recipe_id" TString;
  req "meal_type" TString; opt "reason" TString; req "created_at" TDate].

(** [UserBlueprint], lines 147-163. *)
Definition UserBlueprint : ts_type := TObject [
  req "profile" UserProfile; req "intake" UserIntake;
  req "subscription" UserSubscription; req "subscription_plan" SubscriptionPlan;
  opt "nutritional_targets" NutritionalTargets;
  opt "gamification_context" GamificationContext;
  opt "recent_ratings" (TArray RecentRating); opt "recent_swaps" (TArray RecentSwap)].

(** [GenerationContext], lines 206-213. *)
Definition GenerationContext : ts_type := TObject [
  req "user_blueprint" UserBlueprint; req "generation_id" TString;
  req "week_start_date" TDate; opt "special_requests" (TArray TString);
  req "source" (lits ["user_request"; "automated_replan"; "swap_meal"]);
  opt "retry_count" TNumber].

(** [GenerationPreferences], lines 218-224. *)
Definition GenerationPreferences : ts_type := TObject [
  opt "enforce_variety" TBoolean; opt "max_prep_time" TNumber;
  opt "focus_macros" (TArray (lits ["protein"; "carbs"; "fat"]));
  opt "mood_override" TString; opt "exclude_recipes" (TArray TString)].

(** [BlueprintValidation], lines 233-239. *)
Definition BlueprintValidation : ts_type := TObject [
  req "is_valid" TBoolean; req "missing_fields" (TArray TString);
  req "warnings" (TArray TString); req "nutritional_targets_calculated" TBoolean;
  req "can_generate_plan" TBoolean].

End BlueprintTs.

Module PlanTs.

(** [PlanStatus], line 47. *)
Definition PlanStatus : ts_type := lits ["active"; "completed"; "archived"; "draft"].

(** [MealSlot], lines 75-93. *)
Definition MealSlot : ts_type := TObject [
  req "meal_type" TString; req "recipe_id" TString; opt "recipe" RecipeTs.Recipe;
  opt "servings" TNumber; opt "notes" TString;
  opt "user_rating" (lits ["love"; "meh"; "skip"]);
  req "completed" TBoolean; opt "completed_at" TDate;
  opt "original_recipe_id" TString; opt "swap_reason" TString; opt "swapped_at" TDate].

(** [DayPlan], lines 64-73. *)
Definition DayPlan : ts_type := TObject [
  req "day" TString; req "date" TString; req "meals" (TArray MealSlot);
  opt "daily_nutrition" RecipeTs.NutritionInfo;
  opt "daily_prep_time" TNumber; opt "daily_cost_estimate" TNumber].

(** The inline deviations object of lines 108-113, 257-262 and 365-370. *)
Definition TargetDeviations : ts_type :=
  RecipeTs.number_fields ["calories_deviation"; "protein_deviation"; "fat_deviation";
                       "carbohydrates_deviation"].

(** [DailyNutritionBreakdown], lines 123-139. *)
Definition DailyNutritionBreakdown : ts_type := TObject [
  req "day" TString; req "total_calories" TNumber; req "total_protein" TNumber;
  req "total_fat" TNumber; req "total_carbohydrates" TNumber;
  req "meal_contributions"
    (TIndex (RecipeTs.number_fields ["calories"; "protein"; "fat"; "carbohydrates"]))].

(** [PlanNutritionSummary], lines 99-121. *)
Definition PlanNutritionSummary : ts_type := TObject [
  req "avg_daily_calories" TNumber; req "avg_daily_protein" TNumber;
  req "avg_daily_fat" TNumber; req "avg_daily_carbohydrates" TNumber;
  opt "avg_daily_fiber" TNumber;
  req "target_deviations" TargetDeviations;
  req "nutritional_balance_score" TNumber; req "meets_15_percent_rule" TBoolean;
  req "daily_breakdowns" (TArray DailyNutritionBreakdown)].

(** [MoodJamAssignment], lines 163-191. *)
Definition MoodJamAssignment : ts_type := TObject [
  req "id" TString; req "meal_plan_id" TString;
  req "detected_mood" TString; req "mood_confidence" TNumber; req "mood_explanation" TString;
  opt "spotify_playlist_id" TString; opt "spotify_playlist_url" TString;
  req "playlist_name" TString;
  req "genres" (TArray TString);
  opt "audio_features"
    (RecipeTs.number_fields ["energy"; "valence"; "acousticness"; "danceability"]);
  opt "user_rating" TNumber; req "play_count" TNumber;
  req "created_at" TDate].

(** [XPChallengeType], lines 213-218. *)
Definition XPChallengeType : ts_type :=
  lits ["plan_completion"; "streak_maintenance"; "recipe_rating"; "prep_efficiency";
        "variety_exploration"].

(** [XPChallenge], lines 193-211. *)
Definition XPChallenge : ts_type := TObject [
  req "id" TString; req "type" XPChallengeType; req "title" TString;
  req "description" TString;
  req "xp_reward" TNumber; opt "badge_reward" TString;
  req "target_value" TNumber; req "current_progress" TNumber; req "completed" TBoolean;
  opt "expires_at" TDate; opt "completed_at" TDate].

(** [CookingTip], lines 220-226. *)
Definition CookingTip : ts_type := TObject [
  req "id" TString; req "recipe_id" TString; req "tip" TString;
  req "category" (lits ["efficiency"; "technique"; "flavor"; "presentation"]);
  req "difficulty_level" (lits ["beginner"; "intermediate"; "advanced"])].

(** [WinePairing], lines 228-234. *)
Definition WinePairing : ts_type := TObject [
  req "recipe_id" TString; req "wine_type" TString; opt "specific_wines" (TArray TString);
  req "pairing_reason" TString; opt "price_range" (lits ["budget"; "mid_range"; "premium"])].

(** [WowLayers], lines 145-161. *)
Definition WowLayers : ts_type := TObject [
  opt "grocery_list" RecipeTs.GroceryList; opt "prep_schedule" RecipeTs.PrepSchedule;
  opt "mood_jam" MoodJamAssignment; opt "xp_challenges" (TArray XPChallenge);
  opt "cooking_tips" (TArray CookingTip); opt "wine_pairings" (TArray WinePairing)].

(** [PlanData], lines 49-62. *)
Definition PlanData : ts_type := TObject [
  req "days" (TArray DayPlan);
  req "total_recipes" TNumber; req "unique_recipes" TNumber; req "variety_score" TNumber;
  opt "nutrition_summary" PlanNutritionSummary; opt "wow_layers" WowLayers].

(** [MealPlan], lines 15-45. *)
Definition MealPlan : ts_type := TObject [
  req "id" TString; req "user_id" TString; opt "intake_id" TString;
  opt "week_theme" TString; req "week_start_date" TDate; req "status" PlanStatus;
  req "plan_data" PlanData;
  req "generated_by" TString; opt "generation_version" TString;
  req "generation_id" TString; opt "prompt_used" TString;
  opt "user_rating" TNumber; opt "user_feedback" TString; req "completion_percentage" TNumber;
  req "is_public" TBoolean; req "clone_count" TNumber;
  req "created_at" TDate; req "updated_at" TDate].

(** [GenerationStage], lines 284-292. *)
Definition GenerationStage : ts_type :=
  lits ["validation"; "blueprint_ingestion"; "candidate_selection"; "ai_scoring";
        "nutrition_validation"; "coherence_review"; "wow_layer_generation"; "serialization"].

(** [PlanGenerationError], lines 273-282. *)
Definition PlanGenerationError : ts_type := TObject [
  req "stage" GenerationStage; req "error_code" TString; req "message" TString;
  opt "details" TAny;
  req "recoverable" TBoolean; opt "suggested_action" TString].

(** [PlanGenerationResult], lines 240-271. *)
Definition PlanGenerationResult : ts_type := TObject [
  req "success" TBoolean; opt "meal_plan" MealPlan;
  req "generation_id" TString; req "generation_time_ms" TNumber; req "retry_count" TNumber;
  req "claude_requests" TNumber; req "claude_tokens_used" TNumber;
  req "claude_cost_cents" TNumber;
  opt "nutritional_accuracy" TargetDeviations;
  opt "error" PlanGenerationError; opt "warnings" (TArray TString);
  req "used_fallback" TBoolean; opt "fallback_reason" TString].

(** [MealSwapRequest], lines 298-312. *)
Definition MealSwapRequest : ts_type := TObject [
  req "meal_plan_id" TString; req "day" TString; req "meal_type" TString;
  opt "reason" TString; opt "specific_recipe_id" TString;
  opt "avoid_ingredients" (TArray TString); opt "max_prep_time" TNumber;
  req "user_override" TBoolean; req "source" (lits ["user_initiated"; "ai_suggestion"])].

(** [MealSwapResult], lines 314-336. *)
Definition MealSwapResult : ts_type := TObject [
  req "success" TBoolean;
  req "original_recipe_id" TString; req "new_recipe_id" TString; req "swap_reason" TString;
  req "updated_meal_plan" MealPlan;
  opt "nutrition_impact"
    (RecipeTs.number_fields ["calories_change"; "protein_change"; "fat_change"; "carbs_change"]);
  opt "error" TString; opt "warnings" (TArray TString)].

(** [PlanGenerationLog], lines 342-373. *)
Definition PlanGenerationLog : ts_type := TObject [
  req "id" TString; req "user_id" TString; req "generation_id" TString;
  req "status" (lits ["started"; "completed"; "failed"; "fallback"]);
  req "started_at" TDate; opt "completed_at" TDate; opt "duration_ms" TNumber;
  req "claude_requests" TNumber; req "claude_tokens_used" TNumber;
  req "claude_cost_cents" TNumber;
  req "retry_count" TNumber; opt "error_message" TString; opt "fallback_reason" TString;
  opt "recipes_selected" TNumber; opt "nutritional_accuracy" TargetDeviations;
  req "created_at" TDate].

(** [FailedPlan], lines 375-399. *)
Definition FailedPlan : ts_type := TObject [
  req "id" TString; req "user_id" TString; req "generation_id" TString;
  req "failure_stage" GenerationStage; req "failure_reason" TString;
  req "user_blueprint" BlueprintTs.UserBlueprint;
  opt "attempted_recipes" TAny; opt "validation_results" TAny;
  opt "prompt_used" TString; opt "ai_response" TString;
  req "reviewed" TBoolean; req "resolved" TBoolean; opt "resolution_notes" TString;
  req "created_at" TDate].

(** [GeneratePlanRequest], lines 408-413. *)
Definition GeneratePlanRequest : ts_type := TObject [
  req "user_id" TString; opt "week_start_date" TDate;
  opt "special_requests" (TArray TString); opt "force_regenerate" TBoolean].

(** [GeneratePlanResponse], lines 418-438. *)
Definition GeneratePlanResponse : ts_type := TObject [
  req "success" TBoolean; opt "plan_id" TString; req "generation_id" TString;
  opt "week_theme" TString; opt "total_recipes" TNumber; opt "estimated_cost" TNumber;
  req "status" (lits ["generated"; "generated_with_fallback"; "failed"]);
  opt "message" TString;
  opt "error" (TObject [req "code" TString; req "message" TString; opt "details" TAny])].

(** [SharedPlan], lines 443-468. *)
Definition SharedPlan : ts_type := TObject [
  req "id" TString; req "original_plan_id" TString; req "shared_by_user_id" TString;
  req "title" TString; opt "description" TString; req "tags" (TArray TString);
  req "view_count" TNumber; req "clone_count" TNumber; req "like_count" TNumber;
  req "preview_data" (TObject [
    req "week_theme" TString; req "total_recipes" TNumber;
    req "cuisine_types" (TArray TString); req "difficulty_level" TString;
    opt "estimated_cost" TNumber]);
  req "created_at" TDate].

End PlanTs.

(** ** The nutrition validator's interfaces,
    [src/supabase/functions/nutrition-validator/index.ts] *)

Module ValidatorTs.

(** [NutritionData], lines 52-58. *)
Definition NutritionData : ts_type := TObject [
  req "calories" TNumber; req "protein" TNumber; req "fat" TNumber;
  req "carbohydrates" TNumber; opt "fiber" TNumber].

(** [MealNutrition], lines 83-88. *)
Definition MealNutrition : ts_type := TObject [
  req "recipe_id" TString; req "recipe_title" TString; req "nutrition" NutritionData;
  req "calculation_method" (lits ["spoonacular"; "usda_calculated"; "estimated"])].

(** [DailyBreakdown], lines 77-81. *)
Definition DailyBreakdown : ts_type := TObject [
  req "day" TString; req "nutrition" NutritionData; req "meals" (TArray MealNutrition)].

(** [ValidationResult], lines 60-75. *)
Definition ValidationResult : ts_type := TObject [
  req "is_valid" TBoolean; req "total_nutrition" NutritionData;
  req "daily_average" NutritionData;
  req "target_deviations" (TObject [
    req "calories_deviation" TNumber; req "protein_deviation" TNumber;
    req "fat_deviation" TNumber; req "carbohydrates_deviation" TNumber;
    opt "fiber_deviation" TNumber]);
  req "within_threshold" TBoolean; req "missing_nutrition_data" (TArray TString);
  req "suggestions" (TArray TString); opt "detailed_breakdown" (TArray DailyBreakdown)].

End ValidatorTs.
