(* ===== verification/Types.v ===== *)
(** * Data model: the TypeScript interfaces of [src/types]

    One Module per interface whose field names would otherwise clash
    ([NutritionInfo.calories] and [USDANutritionData.calories] are both
    [calories] in the sources).  Only the fields that some modelled code
    reads or writes are kept; optional fields ([x?: T]) are [option].
    Numbers are rationals (see [Js]).  The read-only database the
    validator and the resolver query is the record [Db]. *)

From S2P Require Import Prelude Js.

Open Scope Q_scope.

(** [src/types/recipe.ts] lines 106-108. *)
Inductive DifficultyLevel := Easy | Medium | Hard.
Inductive MealType := Breakfast | Lunch | Dinner | Snack | Dessert.
Inductive RecipeStatus := PendingReview | Published | Archived.

#[export] Instance MealType_eq_dec : EqDecision MealType.
Proof. solve_decision. Defined.
#[export] Instance DifficultyLevel_eq_dec : EqDecision DifficultyLevel.
Proof. solve_decision. Defined.
#[export] Instance RecipeStatus_eq_dec : EqDecision RecipeStatus.
Proof. solve_decision. Defined.

(** The string a [MealType] is in JavaScript, used as a dictionary key. *)
Definition meal_type_key (m : MealType) : string :=
  match m with
  | Breakfast => "breakfast" | Lunch => "lunch" | Dinner => "dinner"
  | Snack => "snack" | Dessert => "dessert"
  end.

(** [src/types/recipe.ts] lines 57-70. *)
Module Ingredient.
Record t := mk { name : string; amount : Q; unit : string }.
End Ingredient.

(** [src/types/recipe.ts] lines 86-104. *)
Module NutritionInfo.
Record t := mk {
  calories : Q; protein : Q; fat : Q; carbohydrates : Q;
  fiber : option Q }.
End NutritionInfo.

(** [src/types/recipe.ts] lines 12-55. *)
Module Recipe.
Record t := mk {
  id : string;
  title : string;
  ingredients : list Ingredient.t;
  nutrition_info : option NutritionInfo.t;
  prep_time_minutes : option Q;
  cook_time_minutes : option Q;
  servings : Q;
  difficulty_level : option DifficultyLevel;
  dietary_tags : list string;
  cuisine_type : option string;
  meal_type : list MealType;
  status : RecipeStatus;
  is_premium : bool;
  rating_average : Q;
  rating_count : Q }.
End Recipe.

(** [src/types/recipe.ts] lines 114-135: one row of the internal USDA
    table; every nutrient column may be null. *)
Module USDANutritionData.
Record t := mk {
  description : string;
  calories : option Q; protein : option Q; fat : option Q;
  carbohydrates : option Q; fiber : option Q }.
End USDANutritionData.

(** [src/types/recipe.ts] lines 151-166. *)
Module RecipeCandidate.
Record t := mk {
  recipe : Recipe.t;
  base_score : Q;
  ai_personalization_score : Q;
  final_score : Q;
  match_reasons : list string;
  penalty_reasons : list string }.
End RecipeCandidate.

(** [src/unnamed/part_003] lines 75-93. *)
Module MealSlot.
Record t := mk {
  meal_type : string;
  recipe_id : string;
  servings : option Q;
  completed : bool }.
End MealSlot.

(** [src/unnamed/part_003] lines 64-73. *)
Module DayPlan.
Record t := mk { day : string; date : string; meals : list MealSlot.t }.
End DayPlan.

(** ** The wow layers ([src/types/recipe.ts] lines 264-345 and
    [src/unnamed/part_003] lines 145-230; the dates are not kept) *)

Inductive GroceryCategory :=
| Produce | MeatSeafood | DairyEggs | Pantry | Frozen | Bakery | Beverages | Condiments | Spices.

#[export] Instance GroceryCategory_eq_dec : EqDecision GroceryCategory.
Proof. solve_decision. Defined.

Definition grocery_category_key (c : GroceryCategory) : string :=
  match c with
  | Produce => "produce" | MeatSeafood => "meat_seafood" | DairyEggs => "dairy_eggs"
  | Pantry => "pantry" | Frozen => "frozen" | Bakery => "bakery"
  | Beverages => "beverages" | Condiments => "condiments" | Spices => "spices"
  end.

Module GroceryItem.
Record t := mk {
  name : string; amount : Q; unit : string; category : GroceryCategory;
  source_recipes : list string; checked_off : bool }.
End GroceryItem.

Module GroceryList.
Record t := mk {
  id : string; meal_plan_id : string; user_id : string;
  items_by_category : list (GroceryCategory * list GroceryItem.t);
  total_items : nat; completion_percentage : Q }.
End GroceryList.

Inductive PrepPriority := PrepHigh | PrepMedium | PrepLow.

Module PrepTask.
Record t := mk {
  id : string; description : string; estimated_time_minutes : Q;
  suggested_day : string; priority : PrepPriority;
  enables_recipes : list string; requires_equipment : list string;
  storage_instructions : option string }.
End PrepTask.

Module PrepSchedule.
Record t := mk {
  meal_plan_id : string; tasks : list PrepTask.t;
  total_prep_time_minutes : Q; recommended_prep_days : list string }.
End PrepSchedule.

(** The mood jam assignment ([user_rating] and [created_at] are not
    kept).  The mood, confidence, explanation, genres and audio features
    are the values parsed from Claude's answer, whose types nothing
    checks at run time: they are [json]. *)
Module MoodJamAssignment.
Record t := mk {
  id : string; meal_plan_id : string; detected_mood : json; mood_confidence : json;
  mood_explanation : json; spotify_playlist_id : option string;
  spotify_playlist_url : option string; playlist_name : option string; genres : json;
  audio_features : json; play_count : Q }.
End MoodJamAssignment.

Inductive XPChallengeType :=
| PlanCompletion | StreakMaintenance | RecipeRating | PrepEfficiency | VarietyExploration.

#[export] Instance XPChallengeType_eq_dec : EqDecision XPChallengeType.
Proof. solve_decision. Defined.

Module XPChallenge.
Record t := mk {
  id : string; type : XPChallengeType; title : string; description : string;
  xp_reward : Q; target_value : Q; current_progress : Q; completed : bool;
  expires_at : Z }.
End XPChallenge.

Inductive TipCategory := Efficiency | Technique | Flavor | Presentation.
Inductive TipLevel := TipBeginner | TipIntermediate | TipAdvanced.

Module CookingTip.
Record t := mk {
  id : string; recipe_id : string; tip : string; category : TipCategory;
  difficulty_level : TipLevel }.
End CookingTip.

(** [WowLayers] without [wine_pairings], which nothing sets. *)
Module WowLayers.
Record t := mk {
  grocery_list : option GroceryList.t; prep_schedule : option PrepSchedule.t;
  mood_jam : option MoodJamAssignment.t; xp_challenges : option (list XPChallenge.t);
  cooking_tips : option (list CookingTip.t) }.
End WowLayers.

(** [src/unnamed/part_003] lines 49-62 ([nutrition_summary] is not kept). *)
Module PlanData.
Record t := mk {
  days : list DayPlan.t;
  total_recipes : nat;
  unique_recipes : nat;
  variety_score : Q;
  wow_layers : option WowLayers.t }.
End PlanData.

(** [src/unnamed/part_002] lines 165-176. *)
Module NutritionalTargets.
Record t := mk {
  daily_calories : Q; daily_protein : Q; daily_fat : Q;
  daily_carbohydrates : Q; daily_fiber : option Q }.
End NutritionalTargets.

(** The database as the sources query it, read-only:
    - [recipe_by_id id] is [supabase.from('recipes').select(...)
      .eq('id', id).single()]: [None] when the query reports an error
      (no row, or more than one);
    - [search_nutrition_data name] is the first row of
      [supabase.rpc('search_nutrition_data', {ingredient_name: name,
      max_results: 1})], [None] when the call fails or returns no row. *)
Record Db := mkDb {
  recipe_by_id : string -> option Recipe.t;
  search_nutrition_data : string -> option USDANutritionData.t }.

(** Every meal slot of a plan, in the order the loops visit them. *)
Definition plan_meals (days : list DayPlan.t) : list MealSlot.t :=
  concat (map DayPlan.meals days).

(** ** The user blueprint, [src/unnamed/part_002]

    Enumerations the code compares or uses as dictionary keys
    ([diet_type], [activity_level], [cooking_skill_level], the rating)
    are kept as the strings they are at run time. *)

(** [ActivityLevel], lines 34-39. *)
Inductive ActivityLevel := Sedentary | Light | Moderate | Active | VeryActive.

Definition activity_key (a : ActivityLevel) : string :=
  match a with
  | Sedentary => "sedentary" | Light => "light" | Moderate => "moderate"
  | Active => "active" | VeryActive => "very_active"
  end.

(** Lines 12-32; [date_of_birth] is kept as its year, the only part the
    code reads. *)
Module UserProfile.
Record t := mk {
  id : string;
  date_of_birth : option Z;
  height_cm : option Q;
  weight_kg : option Q;
  activity_level : option ActivityLevel;
  streak_days : Q }.
End UserProfile.

(** Lines 45-72 (the fields the modelled code reads); the
    [FlavorPreferences] object is kept as its JSON value. *)
Module UserIntake.
Record t := mk {
  id : string;
  diet_type : option string;
  allergies : list string;
  dislikes : list string;
  health_goals : list string;
  budget_range : option string;
  cooking_time_preference : option Q;
  cooking_skill_level : option string;
  household_size : option Q;
  flavor_preferences : option json;
  cultural_preferences : option (list string) }.
End UserIntake.

(** Lines 107-116 ([status] only). *)
Module UserSubscription.
Record t := mk { status : string }.
End UserSubscription.

(** Lines 124-137. *)
Module SubscriptionPlan.
Record t := mk {
  plan_generation_limit : Z;
  access_to_premium_content : bool;
  advanced_wow_layers : bool }.
End SubscriptionPlan.

(** Lines 185-189; [created_at] as [JSON.stringify] writes the [Date]. *)
Module RecentRating.
Record t := mk { recipe_id : string; rating : string; created_at : string }.
End RecentRating.

(** Lines 191-197. *)
Module RecentSwap.
Record t := mk {
  original_recipe_id : string; replacement_recipe_id : string; meal_type : string;
  reason : option string; created_at : string }.
End RecentSwap.

(** Lines 147-163: [profile], [intake] and [subscription] may be missing
    from a blueprint read back from the database (the validator tests
    them), hence [option]. *)
Module UserBlueprint.
Record t := mk {
  profile : option UserProfile.t;
  intake : option UserIntake.t;
  subscription : option UserSubscription.t;
  subscription_plan : SubscriptionPlan.t;
  nutritional_targets : option NutritionalTargets.t;
  recent_ratings : option (list RecentRating.t);
  recent_swaps : option (list RecentSwap.t) }.
End UserBlueprint.

(** [GenerationPreferences], lines 218-224. *)
Module GenerationPreferences.
Record t := mk {
  enforce_variety : option bool;
  max_prep_time : option Q;
  focus_macros : option (list string);
  exclude_recipes : option (list string) }.
End GenerationPreferences.

(** [GenerationContext], lines 206-213; the week start is a day number. *)
Module GenerationContext.
Record t := mk {
  user_blueprint : UserBlueprint.t;
  generation_id : string;
  week_start_date : Z;
  retry_count : nat }.
End GenerationContext.

(** [MealPlan], [src/unnamed/part_003] lines 15-45 (the fields the
    generator and the council write). *)
Module MealPlan.
Record t := mk {
  id : string;
  user_id : string;
  intake_id : option string;
  week_theme : option string;
  week_start_date : Z;
  plan_data : PlanData.t;
  generated_by : string;
  generation_id : string }.
End MealPlan.
