(* ===== verification/Blueprint.v ===== *)
(** * Blueprint checks and nutritional targets

    The pure functions the plan generator applies to a user blueprint:
    [calculateNutritionalTargets] ([src/unnamed/part_001] lines 546-584,
    Mifflin-St Jeor with a fixed macro split) and, from
    [src/supabase/functions/plan-generator/utils/logging.ts],
    [validateUserBlueprint] (201-264), [validateGenerationPreferences]
    (269-288), [calculateBlueprintCompleteness] (293-321),
    [getBlueprintValidationMessages] (326-385) and [calculateClaudeCost]
    (114-122).  The current year, which [new Date()] supplies, is an
    argument. *)

From S2P Require Import Prelude Js Types.

Open Scope Q_scope.
Open Scope mw_scope.

(** ** Nutritional targets *)

(** [activityMultipliers], lines 560-566. *)
Definition activityMultipliers : list (string * Q) :=
  [("sedentary", 12 # 10); ("light", 1375 # 1000); ("moderate", 155 # 100);
   ("active", 1725 # 1000); ("very_active", 19 # 10)]%string.

(** [activityMultipliers[profile.activity_level] || 1.2]; an absent
    level reads the key ["undefined"]. *)
Definition activity_multiplier (a : option ActivityLevel) : Q :=
  match js_obj_get activityMultipliers (match a with Some l => activity_key l | None => "undefined" end) with
  | PropOwn m => m
  | _ => 12 # 10
  end.

(** The Mifflin-St Jeor rate of line 557, for an age in years. *)
Definition bmr_of (weight height age : Q) : Q := 10 * weight + (625 # 100) * height - 5 * age + 5.

(** [calculateNutritionalTargets], lines 546-584: [None] is [null]. *)
Definition calculateNutritionalTargets (nowYear : Z) (profile : UserProfile.t)
    : option NutritionalTargets.t :=
  match UserProfile.weight_kg profile, UserProfile.height_cm profile,
        UserProfile.date_of_birth profile with
  | Some weight, Some height, Some dob =>
      if Qeq_bool weight 0 || Qeq_bool height 0 then None else
      let age := inject_Z (nowYear - dob) in
      let tdee := bmr_of weight height age * activity_multiplier (UserProfile.activity_level profile) in
      Some (NutritionalTargets.mk (math_round tdee) (math_round (tdee * (25 # 100) / 4))
              (math_round (tdee * (30 # 100) / 9)) (math_round (tdee * (45 # 100) / 4)) None)
  | _, _, _ => None
  end.

(** ** [validateUserBlueprint] *)

(** [BlueprintValidation], [src/unnamed/part_002] lines 233-239. *)
Module BlueprintValidation.
Record t := mk {
  is_valid : bool;
  missing_fields : list string;
  warnings : list string;
  nutritional_targets_calculated : bool;
  can_generate_plan : bool }.
End BlueprintValidation.

Definition household_missing (intake : UserIntake.t) : bool :=
  match UserIntake.household_size intake with
  | Some h => Qeq_bool h 0 || Qlt_bool h 1
  | None => true
  end.

(** [profile.weight_kg && profile.height_cm && profile.date_of_birth]. *)
Definition body_data (p : UserProfile.t) : bool :=
  opt_truthy (UserProfile.weight_kg p) && opt_truthy (UserProfile.height_cm p) &&
  bool_decide (is_Some (UserProfile.date_of_birth p)).

Definition validateUserBlueprint (bp : UserBlueprint.t) : BlueprintValidation.t :=
  let missing :=
    (if UserBlueprint.profile bp is Some _ then [] else ["user_profile"%string]) ++
    (match UserBlueprint.intake bp with
     | None => ["user_intake"%string]
     | Some i =>
         (if opt_str_truthy (UserIntake.diet_type i) then [] else ["diet_type"%string]) ++
         (if household_missing i then ["household_size"%string] else [])
     end) ++
    (match UserBlueprint.subscription bp with
     | Some s => if String.eqb (UserSubscription.status s) "active" then [] else ["active_subscription"%string]
     | None => ["active_subscription"%string]
     end) in
  let targetsCalculated :=
    match UserBlueprint.profile bp, UserBlueprint.intake bp with
    | Some p, Some _ => body_data p
    | _, _ => false
    end in
  let warnings :=
    (match UserBlueprint.intake bp with
     | None => []
     | Some i =>
         (if opt_str_truthy (UserIntake.cooking_skill_level i) then []
          else ["cooking_skill_level_missing"%string]) ++
         (if opt_truthy (UserIntake.cooking_time_preference i) then []
          else ["cooking_time_preference_missing"%string])
     end) ++
    (match UserBlueprint.profile bp, UserBlueprint.intake bp with
     | Some p, Some _ => if body_data p then [] else ["insufficient_data_for_nutritional_targets"%string]
     | _, _ => []
     end) ++
    (if opt_nonempty (UserBlueprint.recent_ratings bp) || opt_nonempty (UserBlueprint.recent_swaps bp)
     then [] else ["limited_personalization_data"%string]) in
  let isValid := match missing with [] => true | _ => false end in
  BlueprintValidation.mk isValid missing warnings targetsCalculated
    (isValid && (targetsCalculated || bool_decide (is_Some (UserBlueprint.nutritional_targets bp)))).

(** ** Preferences, completeness and messages *)

Definition validateGenerationPreferences (prefs : GenerationPreferences.t) : bool * list string :=
  let errors :=
    (match GenerationPreferences.max_prep_time prefs with
     | Some t => if negb (Qeq_bool t 0) && (Qlt_bool t 5 || Qlt_bool 180 t)
                 then ["max_prep_time must be between 5 and 180 minutes"%string] else []
     | None => []
     end) ++
    (match GenerationPreferences.focus_macros prefs with
     | Some l => if (2 <? length l)%nat then ["focus_macros can contain at most 2 macronutrients"%string] else []
     | None => []
     end) ++
    (match GenerationPreferences.exclude_recipes prefs with
     | Some l => if (50 <? length l)%nat then ["exclude_recipes list cannot exceed 50 items"%string] else []
     | None => []
     end) in
  (match errors with [] => true | _ => false end, errors).

Definition pts (b : bool) (n : nat) : nat := if b then n else 0.

(** The sum of lines 297-318 before [Math.min(score, maxScore)]. *)
Definition completeness_points (bp : UserBlueprint.t) : nat :=
  let p := UserBlueprint.profile bp in
  let i := UserBlueprint.intake bp in
  let on_i {A} (f : UserIntake.t -> A) (d : A) := match i with Some x => f x | None => d end in
  let on_p {A} (f : UserProfile.t -> A) (d : A) := match p with Some x => f x | None => d end in
  pts (bool_decide (is_Some p)) 10 + pts (bool_decide (is_Some i)) 10 +
  pts (match UserBlueprint.subscription bp with
       | Some s => String.eqb (UserSubscription.status s) "active" | None => false end) 10 +
  pts (on_i (fun x => opt_str_truthy (UserIntake.diet_type x)) false) 10 +
  pts (on_p (fun x => opt_truthy (UserProfile.weight_kg x)) false) 7 +
  pts (on_p (fun x => opt_truthy (UserProfile.height_cm x)) false) 7 +
  pts (on_p (fun x => bool_decide (is_Some (UserProfile.date_of_birth x))) false) 6 +
  pts (on_i (fun x => opt_str_truthy (UserIntake.cooking_skill_level x)) false) 5 +
  pts (on_i (fun x => opt_truthy (UserIntake.cooking_time_preference x)) false) 5 +
  pts (on_i (fun x => opt_str_truthy (UserIntake.budget_range x)) false) 5 +
  pts (on_i (fun x => bool_decide (is_Some (UserIntake.flavor_preferences x))) false) 5 +
  pts (on_i (fun x => opt_nonempty (UserIntake.cultural_preferences x)) false) 5 +
  pts (opt_nonempty (UserBlueprint.recent_ratings bp)) 8 +
  pts (opt_nonempty (UserBlueprint.recent_swaps bp)) 4 +
  pts (on_i (fun x => negb (Nat.eqb (length (UserIntake.allergies x)) 0) ||
                      negb (Nat.eqb (length (UserIntake.dislikes x)) 0)) false) 3.

Definition calculateBlueprintCompleteness (bp : UserBlueprint.t) : nat :=
  Nat.min (completeness_points bp) 100.

Definition missing_message (field : string) : string :=
  if String.eqb field "user_profile" then "Your profile information is incomplete"
  else if String.eqb field "user_intake" then "Please complete your dietary preferences"
  else if String.eqb field "diet_type" then "Please select your dietary preference (vegan, keto, etc.)"
  else if String.eqb field "household_size" then "Please specify how many people you're cooking for"
  else if String.eqb field "active_subscription" then "An active subscription is required to generate meal plans"
  else "Missing required field: " ++ field.

(** A warning's message and suggestion; [None] for an unknown warning,
    which the [switch] ignores. *)
Definition warning_texts (w : string) : option (string * string) :=
  if String.eqb w "cooking_skill_level_missing" then
    Some ("Consider adding your cooking skill level for better recipe recommendations",
          "Set your cooking skill level in preferences")
  else if String.eqb w "cooking_time_preference_missing" then
    Some ("No cooking time preference set - we'll assume you prefer quick meals",
          "Set your preferred cooking time in preferences")
  else if String.eqb w "insufficient_data_for_nutritional_targets" then
    Some ("Add your height, weight, and age for personalized nutrition targets",
          "Complete your profile for better nutritional matching")
  else if String.eqb w "limited_personalization_data" then
    Some ("Rate some recipes to help us learn your preferences",
          "Try rating meals as you cook them to improve future recommendations")
  else None.

Definition getBlueprintValidationMessages (v : BlueprintValidation.t)
    : list string * list string * list string :=
  let ws := omap warning_texts (BlueprintValidation.warnings v) in
  (map missing_message (BlueprintValidation.missing_fields v), map fst ws, map snd ws).

(** [calculateClaudeCost], logging.ts lines 114-122. *)
Definition calculateClaudeCost (inputTokens outputTokens : Q) : Q :=
  math_round ((inputTokens / 1000 * (3 # 1000) + outputTokens / 1000 * (15 # 1000)) * 100).

(** ** Theorems *)

Lemma pts_le (b : bool) (n : nat) : (pts b n <= n)%nat.
Proof. destruct b; simpl; lia. Qed.

(** The completeness points never exceed 100, so the
    [Math.min(score, maxScore)] of line 320 never changes the score. *)
Theorem calculateBlueprintCompleteness_exact (bp : UserBlueprint.t) :
  (completeness_points bp <= 100)%nat /\
  calculateBlueprintCompleteness bp = completeness_points bp.
Proof.
  assert (H : (completeness_points bp <= 100)%nat).
  { unfold completeness_points.
    repeat match goal with |- context [pts ?b ?n] =>
      let H := fresh in pose proof (pts_le b n) as H; generalize dependent (pts b n) end.
    intros. lia. }
  split; [exact H|]. unfold calculateBlueprintCompleteness. lia.
Qed.

(** The macro targets agree with the calorie target: after each is
    rounded, [4 * protein + 9 * fat + 4 * carbohydrates] is within 9 kcal
    of [daily_calories] (the split 25/30/45 % covers the whole daily
    energy). *)
Theorem calculateNutritionalTargets_macros (nowYear : Z) (p : UserProfile.t)
    (t : NutritionalTargets.t) :
  calculateNutritionalTargets nowYear p = Some t ->
  Qabs (4 * NutritionalTargets.daily_protein t + 9 * NutritionalTargets.daily_fat t +
        4 * NutritionalTargets.daily_carbohydrates t - NutritionalTargets.daily_calories t) <= 9.
Proof.
  unfold calculateNutritionalTargets.
  destruct (UserProfile.weight_kg p) as [w|], (UserProfile.height_cm p) as [h|],
    (UserProfile.date_of_birth p) as [dob|]; try discriminate.
  destruct (_ || _); [discriminate|]. cbv zeta.
  generalize (bmr_of w h (inject_Z (nowYear - dob)) * activity_multiplier (UserProfile.activity_level p)).
  intros x [= <-]. cbn [NutritionalTargets.daily_calories NutritionalTargets.daily_protein
    NutritionalTargets.daily_fat NutritionalTargets.daily_carbohydrates].
  pose proof (math_round_spec x). pose proof (math_round_spec (x * (25 # 100) / 4)).
  pose proof (math_round_spec (x * (30 # 100) / 9)). pose proof (math_round_spec (x * (45 # 100) / 4)).
  unfold Qdiv in *. change (/ 4) with (1 # 4) in *. change (/ 9) with (1 # 9) in *.
  apply (proj2 (Qabs_Qle_condition _ _)). split; lra.
Qed.

(** For a blueprint assembled as [ingestUserBlueprint] does, with
    the targets computed from its profile, passing [validateUserBlueprint]
    means the targets exist: the nutrition checks downstream never meet
    a blueprint without targets. *)
Theorem validateUserBlueprint_targets (nowYear : Z) (bp : UserBlueprint.t) (p : UserProfile.t) :
  UserBlueprint.profile bp = Some p ->
  UserBlueprint.nutritional_targets bp = calculateNutritionalTargets nowYear p ->
  BlueprintValidation.can_generate_plan (validateUserBlueprint bp) = true ->
  exists t, UserBlueprint.nutritional_targets bp = Some t.
Proof.
  intros Hp Ht. unfold validateUserBlueprint. rewrite Hp. cbn [BlueprintValidation.can_generate_plan].
  intros [_ H]%andb_prop. apply orb_prop in H as [H|H].
  - destruct (UserBlueprint.intake bp); [|discriminate].
    rewrite Ht. unfold body_data, calculateNutritionalTargets in *.
    destruct (UserProfile.weight_kg p) as [w|], (UserProfile.height_cm p) as [h|],
      (UserProfile.date_of_birth p); cbn in H; rewrite ?andb_false_r in H; try discriminate.
    apply andb_prop in H as [[Hw Hh]%andb_prop _].
    apply negb_true_iff in Hw, Hh. rewrite Hw, Hh. simpl. eexists; reflexivity.
  - apply bool_decide_eq_true in H. exact H.
Qed.

Lemma length_omap_total {A B} (f : A -> option B) (l : list A) :
  Forall (fun x => is_Some (f x)) l -> length (omap f l) = length l.
Proof.
  induction 1 as [|x l [y Hy] _ IH]; [done|].
  cbn. rewrite Hy. cbn. now rewrite IH.
Qed.

Lemma warning_texts_known (w : string) :
  w ∈ ["cooking_skill_level_missing"; "cooking_time_preference_missing";
       "insufficient_data_for_nutritional_targets"; "limited_personalization_data"]%string ->
  is_Some (warning_texts w).
Proof. intros Hw. repeat (apply elem_of_cons in Hw as [->|Hw]; [eexists; reflexivity|]). inversion Hw. Qed.

(** Every warning [validateUserBlueprint] emits gets a message and a
    suggestion from [getBlueprintValidationMessages], and every missing
    field gets a message of its own, never the generic one. *)
Theorem getBlueprintValidationMessages_complete (bp : UserBlueprint.t) :
  let v := validateUserBlueprint bp in
  let '(ms, wm, sg) := getBlueprintValidationMessages v in
  length ms = length (BlueprintValidation.missing_fields v) /\
  length wm = length (BlueprintValidation.warnings v) /\
  length sg = length (BlueprintValidation.warnings v) /\
  Forall (fun f => missing_message f <> ("Missing required field: " ++ f)%string)
    (BlueprintValidation.missing_fields v).
Proof.
  cbv zeta. unfold getBlueprintValidationMessages. cbn [fst snd].
  assert (Hw : Forall (fun w => is_Some (warning_texts w)) (BlueprintValidation.warnings (validateUserBlueprint bp))).
  { unfold validateUserBlueprint. cbn [BlueprintValidation.warnings].
    repeat (apply Forall_app; split);
      repeat (case_match; simpl; repeat constructor);
      try (apply warning_texts_known; set_solver). }
  rewrite !length_map, (length_omap_total _ _ Hw). split_and!; try reflexivity.
  unfold validateUserBlueprint. cbn [BlueprintValidation.missing_fields].
  repeat (apply Forall_app; split); repeat (case_match; simpl; repeat constructor);
    vm_compute; discriminate.
Qed.

(** ** A complete blueprint *)

Module BpSample.
Definition profile : UserProfile.t := UserProfile.mk "u1" (Some 1990%Z) (Some 180) (Some 80) (Some Moderate) 3.
Definition intake : UserIntake.t :=
  UserIntake.mk "i1" (Some "vegan") ["peanut"] [] [] (Some "medium") (Some 30) (Some "beginner") (Some 2)
    (Some (JObject [("spicy", JBool true)])) (Some ["thai"]).
Definition blueprint : UserBlueprint.t :=
  UserBlueprint.mk (Some profile) (Some intake) (Some (UserSubscription.mk "active"))
    (SubscriptionPlan.mk 4 false false) (calculateNutritionalTargets 2025 profile)
    (Some [RecentRating.mk "r1" "love" "2024-01-10T00:00:00.000Z"])
    (Some [RecentSwap.mk "r2" "r3" "dinner" None "2024-01-11T00:00:00.000Z"]).
End BpSample.

(** Such a blueprint scores the full 100 points. *)
Example BpSample_complete : calculateBlueprintCompleteness BpSample.blueprint = 100%nat.
Proof. reflexivity. Qed.

Lemma calculateNutritionalTargets_macros_witness :
  exists t, calculateNutritionalTargets 2025 BpSample.profile = Some t /\
    Qabs (4 * NutritionalTargets.daily_protein t + 9 * NutritionalTargets.daily_fat t +
          4 * NutritionalTargets.daily_carbohydrates t - NutritionalTargets.daily_calories t) <= 9.
Proof.
  eexists. split; [reflexivity|].
  apply (calculateNutritionalTargets_macros 2025 BpSample.profile). reflexivity.
Defined.

Lemma validateUserBlueprint_targets_witness :
  exists t, UserBlueprint.nutritional_targets BpSample.blueprint = Some t.
Proof.
  apply (validateUserBlueprint_targets 2025 BpSample.blueprint BpSample.profile);
    [reflexivity | reflexivity | vm_compute; reflexivity].
Defined.
