(* ===== verification/NutrientResolver.v ===== *)
(** * Nutrient resolution of the nutrition validator

    [src/supabase/functions/nutrition-validator/index.ts], class
    [NutritionValidator], lines 318-513: the nutrients of one meal are
    taken from the recipe's declared [nutrition_info] when it is reliable,
    else computed from the USDA table ingredient by ingredient, else
    estimated from keywords of the title; they are then scaled by the
    meal's servings over the recipe's servings.

    The database is the section variable [db]; its answers are
    arbitrary, so every theorem holds for every database content. *)

From S2P Require Import Prelude Js Types.

Open Scope Q_scope.
Open Scope mw_scope.

(** [NutritionData], lines 52-58.  Every value the validator builds has
    its [fiber] field, so it is not optional here. *)
Module NutritionData.
Record t := mk {
  calories : Q; protein : Q; fat : Q; carbohydrates : Q; fiber : Q }.
Definition zero : t := mk 0 0 0 0 0.
Definition add (a b : t) : t :=
  mk (calories a + calories b) (protein a + protein b) (fat a + fat b)
     (carbohydrates a + carbohydrates b) (fiber a + fiber b).
End NutritionData.

Inductive CalculationMethod := Spoonacular | UsdaCalculated | Estimated.

(** [MealNutrition], lines 83-88. *)
Module MealNutrition.
Record t := mk {
  recipe_id : string;
  recipe_title : string;
  nutrition : NutritionData.t;
  calculation_method : CalculationMethod }.
End MealNutrition.

(** [isReliableNutrition], lines 457-463. *)
Definition isReliableNutrition (n : NutritionInfo.t) : bool :=
  Qlt_bool 0 (NutritionInfo.calories n) &&
  Qle_bool 0 (NutritionInfo.protein n) &&
  Qle_bool 0 (NutritionInfo.fat n) &&
  Qle_bool 0 (NutritionInfo.carbohydrates n).

(** [isMinorIngredient], lines 465-471. *)
Definition minorIngredients : list string :=
  ["salt"; "pepper"; "water"; "vanilla"; "baking powder"; "garlic powder";
   "onion powder"; "paprika"; "oregano"; "basil"; "thyme"; "rosemary"]%string.

Definition isMinorIngredient (name : string) : bool :=
  existsb (fun minor => str_includes (to_lower name) minor) minorIngredients.

(** [convertToGrams], lines 473-488: [conversions[unit.toLowerCase()] ||
    100] times the amount.  A unit that names a member of
    [Object.prototype] finds a function, and the product is [NaN]. *)
Definition conversions : list (string * Q) :=
  [("g", 1); ("gram", 1); ("grams", 1);
   ("kg", 1000); ("kilogram", 1000);
   ("oz", 2835 # 100); ("ounce", 2835 # 100); ("ounces", 2835 # 100);
   ("lb", 45359 # 100); ("pound", 45359 # 100); ("pounds", 45359 # 100);
   ("cup", 240); ("cups", 240);
   ("tbsp", 15); ("tablespoon", 15); ("tablespoons", 15);
   ("tsp", 5); ("teaspoon", 5); ("teaspoons", 5);
   ("ml", 1); ("milliliter", 1); ("milliliters", 1);
   ("l", 1000); ("liter", 1000); ("liters", 1000)]%string.

Definition convertToGrams (amount : Q) (unit : string) : jsnum :=
  match js_obj_get conversions (to_lower unit) with
  | PropOwn factor => JFin (amount * (factor ||Q 100))
  | PropInherited => JNaN
  | PropUndefined => JFin (amount * 100)
  end.

(** [estimateNutrition], lines 490-513. *)
Definition estimateNutrition (recipeTitle : string) : NutritionData.t :=
  let title := to_lower recipeTitle in
  if str_includes title "salad" then NutritionData.mk 150 8 5 15 3
  else if str_includes title "pasta" || str_includes title "rice" then
    NutritionData.mk 400 12 8 60 3
  else if str_includes title "chicken" || str_includes title "beef" then
    NutritionData.mk 350 25 15 10 3
  else if str_includes title "soup" then NutritionData.mk 200 10 6 20 3
  else NutritionData.mk 300 15 10 30 3.

Section Resolver.
Context (db : Db).

(** [lookupUSDANutrition], lines 432-449. *)
Definition lookupUSDANutrition (ingredientName : string)
    : option USDANutritionData.t :=
  search_nutrition_data db ingredientName.

(** The filter of line 395-397: positive amount, not a seasoning. *)
Definition is_main_ingredient (ing : Ingredient.t) : bool :=
  Qlt_bool 0 (Ingredient.amount ing) &&
  negb (isMinorIngredient (Ingredient.name ing)).

(** The body of the loop of lines 399-416 for one ingredient: what it
    adds to the five running totals. *)
Definition usda_contribution (ing : Ingredient.t) : NutritionData.t :=
  match lookupUSDANutrition (Ingredient.name ing) with
  | Some u =>
      match convertToGrams (Ingredient.amount ing) (Ingredient.unit ing) with
      | JFin g =>
          if Qlt_bool 0 g then
            let multiplier := g / 100 in
            NutritionData.mk
              ((USDANutritionData.calories u ||? 0) * multiplier)
              ((USDANutritionData.protein u ||? 0) * multiplier)
              ((USDANutritionData.fat u ||? 0) * multiplier)
              ((USDANutritionData.carbohydrates u ||? 0) * multiplier)
              ((USDANutritionData.fiber u ||? 0) * multiplier)
          else NutritionData.zero
      | _ => NutritionData.zero
      end
  | None => NutritionData.zero
  end.

(** [calculateFromUSDA], lines 386-430.  The [catch] returning [null]
    is reached only by an exception, which the typed rows cannot raise:
    the result is always [Some]. *)
Definition calculateFromUSDA (ingredients : list Ingredient.t)
    : option NutritionData.t :=
  let mainIngredients := filter is_main_ingredient ingredients in
  let total :=
    fold_left (fun acc ing => NutritionData.add acc (usda_contribution ing))
      mainIngredients NutritionData.zero in
  Some (NutritionData.mk
    (math_round (NutritionData.calories total))
    (round1 (NutritionData.protein total))
    (round1 (NutritionData.fat total))
    (round1 (NutritionData.carbohydrates total))
    (round1 (NutritionData.fiber total))).

(** The declared data, lines 341-347. *)
Definition declared_nutrition (n : NutritionInfo.t) : NutritionData.t :=
  NutritionData.mk
    (NutritionInfo.calories n ||Q 0) (NutritionInfo.protein n ||Q 0)
    (NutritionInfo.fat n ||Q 0) (NutritionInfo.carbohydrates n ||Q 0)
    (NutritionInfo.fiber n ||? 0).

(** The three tiers, lines 339-362. *)
Definition resolve_tiers (recipe : Recipe.t) (useUSDAFallback : bool)
    : option (NutritionData.t * CalculationMethod) :=
  let declared :=
    match Recipe.nutrition_info recipe with
    | Some n =>
        if isReliableNutrition n then Some (declared_nutrition n, Spoonacular)
        else None
    | None => None
    end in
  match declared with
  | Some r => Some r
  | None =>
      if useUSDAFallback then
        match calculateFromUSDA (Recipe.ingredients recipe) with
        | Some usda => Some (usda, UsdaCalculated)
        | None => Some (estimateNutrition (Recipe.title recipe), Estimated)
        end
      else None
  end.

(** [servings / (recipe.servings || 1)], line 365. *)
Definition serving_multiplier (servings : Q) (recipe : Recipe.t) : Q :=
  servings / (Recipe.servings recipe ||Q 1).

Definition scale_nutrition (n : NutritionData.t) (m : Q) : NutritionData.t :=
  NutritionData.mk
    (math_round (NutritionData.calories n * m))
    (round1 (NutritionData.protein n * m))
    (round1 (NutritionData.fat n * m))
    (round1 (NutritionData.carbohydrates n * m))
    (round1 (NutritionData.fiber n * m)).

(** [calculateMealNutrition], lines 318-384. *)
Definition calculateMealNutrition (recipeId : string) (servings : Q)
    (useUSDAFallback : bool) : option MealNutrition.t :=
  match recipe_by_id db recipeId with
  | None => None
  | Some recipe =>
      match resolve_tiers recipe useUSDAFallback with
      | None => None
      | Some (nutrition, calculationMethod) =>
          Some (MealNutrition.mk recipeId (Recipe.title recipe)
                  (scale_nutrition nutrition (serving_multiplier servings recipe))
                  calculationMethod)
      end
  end.
End Resolver.

(** ** Equality of nutrient records up to [Qeq] *)

Definition nd_equiv (a b : NutritionData.t) : Prop :=
  NutritionData.calories a == NutritionData.calories b /\
  NutritionData.protein a == NutritionData.protein b /\
  NutritionData.fat a == NutritionData.fat b /\
  NutritionData.carbohydrates a == NutritionData.carbohydrates b /\
  NutritionData.fiber a == NutritionData.fiber b.

#[export] Instance nd_equiv_Equivalence : Equivalence nd_equiv.
Proof.
  unfold nd_equiv. split.
  - intros a. repeat split; reflexivity.
  - intros a b (?&?&?&?&?). repeat split; symmetry; assumption.
  - intros a b c (?&?&?&?&?) (?&?&?&?&?).
    repeat split; etransitivity; eassumption.
Qed.

(** The five totals of a loop [acc += f(x)] are the five sums. *)
Definition nd_sum {A} (f : A -> NutritionData.t) (l : list A) : NutritionData.t :=
  NutritionData.mk
    (qsum (fun x => NutritionData.calories (f x)) l)
    (qsum (fun x => NutritionData.protein (f x)) l)
    (qsum (fun x => NutritionData.fat (f x)) l)
    (qsum (fun x => NutritionData.carbohydrates (f x)) l)
    (qsum (fun x => NutritionData.fiber (f x)) l).

Lemma fold_nd_add {A} (f : A -> NutritionData.t) (l : list A) (acc : NutritionData.t) :
  nd_equiv (fold_left (fun a x => NutritionData.add a (f x)) l acc)
           (NutritionData.add acc (nd_sum f l)).
Proof.
  revert acc. induction l as [|x l IH]; intros acc; simpl.
  - unfold nd_equiv, nd_sum; simpl. rewrite !qsum_nil. repeat split; lra.
  - rewrite (IH (NutritionData.add acc (f x))).
    unfold nd_equiv, nd_sum; simpl. rewrite !qsum_cons. repeat split; lra.
Qed.

Lemma nd_sum_perm {A} (f : A -> NutritionData.t) (l1 l2 : list A) :
  Permutation l1 l2 -> nd_equiv (nd_sum f l1) (nd_sum f l2).
Proof. intros P. unfold nd_equiv, nd_sum; simpl. rewrite !(qsum_perm _ _ _ P). repeat split; reflexivity. Qed.

#[export] Instance nd_add_Proper : Proper (nd_equiv ==> nd_equiv ==> nd_equiv) NutritionData.add.
Proof.
  intros a a' (?&?&?&?&?) b b' (?&?&?&?&?). unfold nd_equiv; simpl.
  repeat split; apply Qplus_comp; assumption.
Qed.

Lemma nd_sum_app {A} (f : A -> NutritionData.t) (l1 l2 : list A) :
  nd_equiv (nd_sum f (l1 ++ l2)) (NutritionData.add (nd_sum f l1) (nd_sum f l2)).
Proof. unfold nd_equiv, nd_sum; simpl. rewrite !qsum_app. repeat split; reflexivity. Qed.

Lemma nd_add_zero_l (a : NutritionData.t) : nd_equiv (NutritionData.add NutritionData.zero a) a.
Proof. unfold nd_equiv; simpl. repeat split; lra. Qed.

Lemma nd_add_assoc (a b c : NutritionData.t) :
  nd_equiv (NutritionData.add (NutritionData.add a b) c)
           (NutritionData.add a (NutritionData.add b c)).
Proof. unfold nd_equiv; simpl. repeat split; lra. Qed.

(** A loop whose step adds [f x] to a projection of its state computes
    [proj s + nd_sum f l]. *)
Lemma fold_left_proj_add {S A} (step : S -> A -> S) (proj : S -> NutritionData.t)
    (f : A -> NutritionData.t) :
  (forall s a, nd_equiv (proj (step s a)) (NutritionData.add (proj s) (f a))) ->
  forall l s, nd_equiv (proj (fold_left step l s)) (NutritionData.add (proj s) (nd_sum f l)).
Proof.
  intros Hstep l. induction l as [|x l IH]; intros s; simpl.
  - unfold nd_equiv; simpl. rewrite !qsum_nil. repeat split; lra.
  - rewrite IH, Hstep, nd_add_assoc.
    apply nd_add_Proper; [reflexivity|].
    change (x :: l) with ([x] ++ l). rewrite nd_sum_app.
    apply nd_add_Proper; [|reflexivity].
    unfold nd_equiv, nd_sum; simpl. rewrite !qsum_cons, !qsum_nil. repeat split; lra.
Qed.

Section ResolverTheorems.
Context (db : Db).

Lemma calculateFromUSDA_sum (ingredients : list Ingredient.t) :
  exists n, calculateFromUSDA db ingredients = Some n /\
    let s := nd_sum (usda_contribution db) (filter is_main_ingredient ingredients) in
    nd_equiv n (NutritionData.mk
      (math_round (NutritionData.calories s)) (round1 (NutritionData.protein s))
      (round1 (NutritionData.fat s)) (round1 (NutritionData.carbohydrates s))
      (round1 (NutritionData.fiber s))).
Proof.
  eexists. split; [reflexivity|]. simpl.
  destruct (fold_nd_add (usda_contribution db)
              (filter is_main_ingredient ingredients) NutritionData.zero)
    as (E1&E2&E3&E4&E5).
  unfold nd_equiv; simpl in *. rewrite E1, E2, E3, E4, E5.
  repeat split; apply (_ : Proper (Qeq ==> Qeq) _); lra.
Qed.
End ResolverTheorems.

Definition nd_nonneg (n : NutritionData.t) : Prop :=
  0 <= NutritionData.calories n /\ 0 <= NutritionData.protein n /\
  0 <= NutritionData.fat n /\ 0 <= NutritionData.carbohydrates n /\
  0 <= NutritionData.fiber n.

Definition usda_row_nonneg (u : USDANutritionData.t) : Prop :=
  forall v, In v [USDANutritionData.calories u; USDANutritionData.protein u;
                  USDANutritionData.fat u; USDANutritionData.carbohydrates u;
                  USDANutritionData.fiber u] ->
  0 <= (v ||? 0).

Lemma q_or_nonneg (a d : Q) : 0 <= a -> 0 <= d -> 0 <= (a ||Q d).
Proof. unfold q_or. intros. case_qb; assumption. Qed.

Lemma opt_q_or_nonneg (a : option Q) (d : Q) :
  (forall x, a = Some x -> 0 <= x) -> 0 <= d -> 0 <= (a ||? d).
Proof. destruct a; simpl; intros; [apply q_or_nonneg|]; eauto. Qed.

Lemma nd_sum_nonneg {A} (f : A -> NutritionData.t) (l : list A) :
  (forall x, In x l -> nd_nonneg (f x)) -> nd_nonneg (nd_sum f l).
Proof.
  intros H. unfold nd_nonneg, nd_sum; simpl.
  repeat split; apply qsum_nonneg; intros x Hx; destruct (H x Hx) as (?&?&?&?&?); assumption.
Qed.

Lemma scale_nutrition_nonneg (n : NutritionData.t) (m : Q) :
  nd_nonneg n -> 0 <= m -> nd_nonneg (scale_nutrition n m).
Proof.
  intros (?&?&?&?&?) Hm. unfold scale_nutrition, nd_nonneg; simpl.
  repeat split; auto using math_round_nonneg, round1_nonneg, Qmult_le_0_compat.
Qed.

#[export] Hint Resolve q_or_nonneg opt_q_or_nonneg nd_sum_nonneg scale_nutrition_nonneg : mw.

Section ResolverClaims.
Context (db : Db).

Lemma usda_contribution_nonneg (ing : Ingredient.t) :
  (forall name row, search_nutrition_data db name = Some row -> usda_row_nonneg row) ->
  nd_nonneg (usda_contribution db ing).
Proof.
  intros Hdb. unfold usda_contribution, lookupUSDANutrition.
  destruct (search_nutrition_data db (Ingredient.name ing)) as [u|] eqn:Hu;
    [| unfold nd_nonneg; simpl; repeat split; lra].
  pose proof (Hdb _ _ Hu) as Hrow. unfold usda_row_nonneg in Hrow.
  destruct (convertToGrams _ _) as [g| |];
    [| unfold nd_nonneg; simpl; repeat split; lra ..].
  unfold Qlt_bool. case_qb; [unfold nd_nonneg; simpl; repeat split; lra|].
  assert (0 <= g / 100) by (apply Qle_shift_div_l; [reflexivity | lra]).
  unfold nd_nonneg; simpl.
  repeat split; apply Qmult_le_0_compat; auto; apply Hrow; simpl; tauto.
Qed.

Lemma calculateFromUSDA_nonneg (ingredients : list Ingredient.t) (n : NutritionData.t) :
  (forall name row, search_nutrition_data db name = Some row -> usda_row_nonneg row) ->
  calculateFromUSDA db ingredients = Some n -> nd_nonneg n.
Proof.
  intros Hdb Hn. destruct (calculateFromUSDA_sum db ingredients) as (n' & Hn' & E).
  rewrite Hn in Hn'. injection Hn' as <-.
  assert (nd_nonneg (nd_sum (usda_contribution db) (filter is_main_ingredient ingredients)))
    as (?&?&?&?&?) by (apply nd_sum_nonneg; intros; apply usda_contribution_nonneg; exact Hdb).
  destruct E as (E1&E2&E3&E4&E5). unfold nd_nonneg.
  rewrite E1, E2, E3, E4, E5; simpl.
  repeat split; auto using math_round_nonneg, round1_nonneg.
Qed.

Lemma estimateNutrition_nonneg (title : string) : nd_nonneg (estimateNutrition title).
Proof. unfold estimateNutrition, nd_nonneg. repeat (case_match; simpl); repeat split; lra. Qed.

Lemma resolve_tiers_nonneg (r : Recipe.t) (u : bool) (n : NutritionData.t) (m : CalculationMethod) :
  (forall name row, search_nutrition_data db name = Some row -> usda_row_nonneg row) ->
  (forall ni f, Recipe.nutrition_info r = Some ni -> NutritionInfo.fiber ni = Some f -> 0 <= f) ->
  resolve_tiers db r u = Some (n, m) -> nd_nonneg n.
Proof.
  intros Hdb Hfib. unfold resolve_tiers.
  assert (declared_case : forall ni, Recipe.nutrition_info r = Some ni ->
            isReliableNutrition ni = true -> nd_nonneg (declared_nutrition ni)).
  { intros ni Hni Hrel. unfold isReliableNutrition, Qlt_bool in Hrel.
    rewrite !andb_true_iff, negb_true_iff in Hrel.
    destruct Hrel as [[[Hc Hp] Hf] Hcb]. qbool.
    unfold nd_nonneg, declared_nutrition; simpl.
    repeat split; apply q_or_nonneg || apply opt_q_or_nonneg; try lra.
    intros x Hx. eapply Hfib; eauto. }
  destruct (Recipe.nutrition_info r) as [ni|] eqn:Hni;
    [destruct (isReliableNutrition ni) eqn:Hrel; [intros [= <- _]; eauto|]|].
  all: destruct u; [|discriminate].
  all: destruct (calculateFromUSDA db (Recipe.ingredients r)) as [v|] eqn:Hv;
    intros [= <- _]; [eapply calculateFromUSDA_nonneg; eauto | apply estimateNutrition_nonneg].
Qed.

Lemma serving_multiplier_nonneg (s : Q) (r : Recipe.t) :
  0 <= s -> 0 <= Recipe.servings r -> 0 <= serving_multiplier s r.
Proof.
  intros Hs Hr. unfold serving_multiplier, q_or. case_qb.
  - apply Qle_shift_div_l; [reflexivity|]. lra.
  - apply Qle_shift_div_l; [|lra].
    apply Qle_lteq in Hr as [Hr|Hr]; [exact Hr|]. symmetry in Hr. contradiction.
Qed.

(** Every nutrient value the resolver produces is non-negative,
    provided the USDA rows and the declared fiber are, and both serving
    counts are non-negative. *)
Theorem calculateMealNutrition_nonneg (recipeId : string) (servings : Q) (u : bool)
    (r : Recipe.t) (mn : MealNutrition.t) :
  (forall name row, search_nutrition_data db name = Some row -> usda_row_nonneg row) ->
  recipe_by_id db recipeId = Some r ->
  (forall ni f, Recipe.nutrition_info r = Some ni -> NutritionInfo.fiber ni = Some f -> 0 <= f) ->
  0 <= Recipe.servings r -> 0 <= servings ->
  calculateMealNutrition db recipeId servings u = Some mn ->
  nd_nonneg (MealNutrition.nutrition mn).
Proof.
  intros Hdb Hr Hfib Hrs Hs. unfold calculateMealNutrition. rewrite Hr.
  destruct (resolve_tiers db r u) as [[n m]|] eqn:Ht; [|discriminate].
  intros [= <-]. simpl. apply scale_nutrition_nonneg.
  - eapply resolve_tiers_nonneg; eauto.
  - apply serving_multiplier_nonneg; assumption.
Qed.

(** The USDA tier does not depend on the order of the ingredients:
    permuting them gives the same totals (the loop's sums commute). *)
Theorem calculateFromUSDA_perm (l1 l2 : list Ingredient.t) :
  Permutation l1 l2 ->
  option_Forall2 nd_equiv (calculateFromUSDA db l1) (calculateFromUSDA db l2).
Proof.
  intros P.
  destruct (calculateFromUSDA_sum db l1) as (n1 & -> & E1).
  destruct (calculateFromUSDA_sum db l2) as (n2 & -> & E2).
  constructor. rewrite E1, E2.
  pose proof (nd_sum_perm (usda_contribution db) _ _
                (filter_Permutation (fun ing => is_main_ingredient ing) _ _ P)) as (P1&P2&P3&P4&P5).
  unfold nd_equiv; simpl. rewrite P1, P2, P3, P4, P5.
  repeat split; reflexivity.
Qed.

(** The keyword estimate (the third tier of the specification) is
    never used: [calculateFromUSDA] always returns a value, all zeros
    when no ingredient is found. *)
Theorem calculateMealNutrition_never_estimated (recipeId : string) (servings : Q)
    (u : bool) (mn : MealNutrition.t) :
  calculateMealNutrition db recipeId servings u = Some mn ->
  MealNutrition.calculation_method mn <> Estimated.
Proof.
  unfold calculateMealNutrition.
  destruct (recipe_by_id db recipeId) as [r|]; [|discriminate].
  unfold resolve_tiers.
  destruct (calculateFromUSDA_sum db (Recipe.ingredients r)) as (n & -> & _).
  repeat case_match; intros [= <-]; simpl; congruence.
Qed.

(** The serving divisor is never zero, and a recipe declaring zero
    servings counts as one serving. *)
Theorem serving_multiplier_zero_servings (s : Q) (r : Recipe.t) :
  ~ (Recipe.servings r ||Q 1) == 0 /\
  (Recipe.servings r == 0 -> serving_multiplier s r == s).
Proof.
  split; [apply q_or_nonzero_result; discriminate|].
  intros H. unfold serving_multiplier. rewrite (q_or_zero _ _ H).
  field.
Qed.

(** A negative serving count is not treated as one serving: the
    multiplier, and with it every nutrient of the meal, is negative. *)
Theorem serving_multiplier_negative (s : Q) (r : Recipe.t) :
  Recipe.servings r < 0 -> 0 < s -> serving_multiplier s r < 0.
Proof.
  intros Hr Hs. unfold serving_multiplier.
  rewrite q_or_nonzero by (intros E; rewrite E in Hr; discriminate).
  apply Qopp_lt_compat in Hr.
  setoid_replace (s / Recipe.servings r) with (- (s / - Recipe.servings r)) using relation Qeq by (field; lra).
  assert (0 < s / - Recipe.servings r) by (apply Qlt_shift_div_l; lra).
  lra.
Qed.

(** Which tier answers: the declared data when it is reliable, else
    the USDA computation when the fallback is enabled, else nothing; a
    recipe missing from the table gives nothing. *)
Theorem calculateMealNutrition_tiers (recipeId : string) (servings : Q) (u : bool) :
  match recipe_by_id db recipeId with
  | None => calculateMealNutrition db recipeId servings u = None
  | Some r =>
      let reliable :=
        match Recipe.nutrition_info r with
        | Some n => isReliableNutrition n | None => false end in
      option_map MealNutrition.calculation_method
        (calculateMealNutrition db recipeId servings u) =
      (if reliable then Some Spoonacular else if u then Some UsdaCalculated else None)
  end.
Proof.
  unfold calculateMealNutrition.
  destruct (recipe_by_id db recipeId) as [r|]; [|reflexivity]. simpl.
  unfold resolve_tiers.
  destruct (calculateFromUSDA_sum db (Recipe.ingredients r)) as (n & -> & _).
  destruct (Recipe.nutrition_info r) as [ni|]; [destruct (isReliableNutrition ni)|];
    destruct u; reflexivity.
Qed.

Lemma js_obj_get_inherited_unit (k : string) :
  In k ["constructor"; "__proto__"]%string ->
  js_obj_get conversions k = PropInherited.
Proof. intros [<- | [<- | []]]; reflexivity. Qed.

(** A unit spelled like an inherited member of [Object.prototype]
    ([constructor], [__proto__], in any case) makes the gram amount
    [NaN], so the ingredient contributes nothing even when the USDA
    table knows it; any other unknown unit counts as 100 g per unit. *)
Theorem convertToGrams_unknown_units (ing : Ingredient.t) :
  (In (to_lower (Ingredient.unit ing)) ["constructor"; "__proto__"]%string ->
   convertToGrams (Ingredient.amount ing) (Ingredient.unit ing) = JNaN /\
   usda_contribution db ing = NutritionData.zero) /\
  (js_obj_get conversions (to_lower (Ingredient.unit ing)) = PropUndefined ->
   convertToGrams (Ingredient.amount ing) (Ingredient.unit ing) =
     JFin (Ingredient.amount ing * 100)).
Proof.
  split.
  - intros Hk. unfold usda_contribution, convertToGrams.
    rewrite (js_obj_get_inherited_unit _ Hk).
    split; [reflexivity|]. now destruct (lookupUSDANutrition db _).
  - intros Hk. unfold convertToGrams. now rewrite Hk.
Qed.
End ResolverClaims.

(** ** A sample database, and the claims applied to it *)

Module Sample.
Definition chicken_row : USDANutritionData.t :=
  USDANutritionData.mk "Chicken, breast, roasted" (Some 165) (Some 31)
    (Some (36 # 10)) (Some 0) (Some 0).
Definition rice_row : USDANutritionData.t :=
  USDANutritionData.mk "Rice, white, cooked" (Some 130) (Some (27 # 10))
    (Some (3 # 10)) (Some 28) (Some (4 # 10)).
Definition usda (name : string) : option USDANutritionData.t :=
  if str_includes (to_lower name) "chicken" then Some chicken_row
  else if str_includes (to_lower name) "rice" then Some rice_row
  else None.
Definition bowl : Recipe.t :=
  Recipe.mk "r-bowl" "Chicken rice bowl"
    [Ingredient.mk "Chicken breast" 200 "g"; Ingredient.mk "Rice" 1 "cup";
     Ingredient.mk "Salt" 1 "tsp"; Ingredient.mk "Rice" 1 "Constructor"]
    None (Some 10) (Some 20) 2 (Some Easy) [] (Some "asian") [Lunch; Dinner]
    Published false (45 # 10) 120.
Definition no_servings : Recipe.t :=
  Recipe.mk "r-zero" "Tomato soup" [] (Some (NutritionInfo.mk 200 10 6 20 None))
    None None 0 None [] None [Lunch] Published false 4 10.
Definition negative_servings : Recipe.t :=
  Recipe.mk "r-neg" "Pasta" [] (Some (NutritionInfo.mk 400 12 8 60 None))
    None None (-2) None [] None [Dinner] Published false 4 10.
Definition db : Db :=
  mkDb (fun id => if String.eqb id "r-bowl" then Some bowl
                  else if String.eqb id "r-zero" then Some no_servings else None)
       usda.
End Sample.

Lemma sample_usda_nonneg (name : string) (row : USDANutritionData.t) :
  search_nutrition_data Sample.db name = Some row -> usda_row_nonneg row.
Proof.
  simpl. unfold Sample.usda.
  destruct (str_includes _ "chicken"); [|destruct (str_includes _ "rice")];
    intros [=]; subst; unfold usda_row_nonneg; simpl;
    intros v Hv; repeat destruct Hv as [<-|Hv]; try contradiction;
    apply Qle_bool_iff; reflexivity.
Qed.

Lemma calculateMealNutrition_nonneg_witness :
  exists mn, calculateMealNutrition Sample.db "r-bowl" 1 true = Some mn /\
             nd_nonneg (MealNutrition.nutrition mn).
Proof.
  eexists. split; [reflexivity|].
  apply (calculateMealNutrition_nonneg Sample.db "r-bowl" 1 true Sample.bowl).
  - apply sample_usda_nonneg.
  - reflexivity.
  - intros ni f [=].
  - apply Qle_bool_iff. reflexivity.
  - apply Qle_bool_iff. reflexivity.
  - reflexivity.
Defined.

Lemma calculateFromUSDA_perm_witness :
  option_Forall2 nd_equiv
    (calculateFromUSDA Sample.db (Recipe.ingredients Sample.bowl))
    (calculateFromUSDA Sample.db
       [Ingredient.mk "Rice" 1 "cup"; Ingredient.mk "Chicken breast" 200 "g";
        Ingredient.mk "Salt" 1 "tsp"; Ingredient.mk "Rice" 1 "Constructor"]).
Proof. apply calculateFromUSDA_perm. apply perm_swap. Defined.

Lemma calculateMealNutrition_never_estimated_witness :
  exists mn, calculateMealNutrition Sample.db "r-bowl" 1 true = Some mn /\
             MealNutrition.calculation_method mn <> Estimated.
Proof.
  eexists. split; [reflexivity|].
  apply (calculateMealNutrition_never_estimated Sample.db "r-bowl" 1 true).
  reflexivity.
Defined.

Lemma serving_multiplier_zero_servings_witness :
  serving_multiplier 2 Sample.no_servings == 2.
Proof. apply (proj2 (serving_multiplier_zero_servings 2 Sample.no_servings)). reflexivity. Defined.

Lemma serving_multiplier_negative_witness :
  serving_multiplier 1 Sample.negative_servings < 0.
Proof. apply serving_multiplier_negative; reflexivity. Defined.

Lemma calculateMealNutrition_tiers_witness :
  option_map MealNutrition.calculation_method
    (calculateMealNutrition Sample.db "r-bowl" 1 false) = None /\
  option_map MealNutrition.calculation_method
    (calculateMealNutrition Sample.db "r-zero" 1 false) = Some Spoonacular.
Proof.
  split.
  - exact (calculateMealNutrition_tiers Sample.db "r-bowl" 1 false).
  - exact (calculateMealNutrition_tiers Sample.db "r-zero" 1 false).
Defined.

Lemma convertToGrams_unknown_units_witness :
  usda_contribution Sample.db (Ingredient.mk "Rice" 1 "Constructor") = NutritionData.zero /\
  convertToGrams 2 "pinch" = JFin (2 * 100).
Proof.
  split.
  - apply (proj1 (convertToGrams_unknown_units Sample.db (Ingredient.mk "Rice" 1 "Constructor"))).
    left. reflexivity.
  - apply (proj2 (convertToGrams_unknown_units Sample.db (Ingredient.mk "Salt" 2 "pinch"))).
    reflexivity.
Defined.
