(* ===== verification/NutritionValidator.v ===== *)
(** * The nutrition validator

    [NutritionValidator.validatePlan],
    [src/supabase/functions/nutrition-validator/index.ts] lines 198-316,
    with [calculateDeviation] (452-455) and [generateNutritionSuggestions]
    (515-535).  The two nested [for] loops are [process_meal] and
    [process_day], threading the mutable locals of the method ([VState]);
    the daily average divides by the number of days with JavaScript's
    division, so a plan with no days yields [NaN]. *)

From S2P Require Import Prelude Js Types NutrientResolver.

Open Scope Q_scope.
Open Scope mw_scope.

(** The [options] object after the zod defaults, lines 38-43. *)
Module ValidationOptions.
Record t := mk {
  deviation_threshold : Q;
  require_all_recipes : bool;
  use_usda_fallback : bool;
  detailed_breakdown : bool }.
(** The defaults of the schema. *)
Definition default : t := mk 15 true true false.
End ValidationOptions.

(** [dailyAverage], lines 266-272: each field may be [NaN]. *)
Module DailyAverage.
Record t := mk {
  calories : jsnum; protein : jsnum; fat : jsnum; carbohydrates : jsnum;
  fiber : jsnum }.
End DailyAverage.

(** [target_deviations], lines 64-70; [fiber_deviation] is [undefined]
    without a fiber target. *)
Module Deviations.
Record t := mk {
  calories_deviation : jsnum; protein_deviation : jsnum;
  fat_deviation : jsnum; carbohydrates_deviation : jsnum;
  fiber_deviation : option jsnum }.
End Deviations.

(** A suggestion string, kept as the data it is formatted from:
    [SuggestReduce n d] is ["Reduce n intake - currently d% above target"]
    and [SuggestIncrease n d] ["Increase n intake - currently d% below
    target"] (the number printed with [toFixed(1)]). *)
Inductive Suggestion :=
| SuggestText (s : string)
| SuggestReduce (nutrient : string) (pct : jsnum)
| SuggestIncrease (nutrient : string) (pct : jsnum).

(** [DailyBreakdown], lines 77-81. *)
Module DailyBreakdown.
Record t := mk {
  day : string; nutrition : NutritionData.t; meals : list MealNutrition.t }.
End DailyBreakdown.

(** [ValidationResult], lines 60-75. *)
Module ValidationResult.
Record t := mk {
  is_valid : bool;
  total_nutrition : NutritionData.t;
  daily_average : DailyAverage.t;
  target_deviations : Deviations.t;
  within_threshold : bool;
  missing_nutrition_data : list string;
  suggestions : list Suggestion;
  detailed_breakdown : option (list DailyBreakdown.t) }.
End ValidationResult.

(** [calculateDeviation], lines 452-455. *)
Definition calculateDeviation (actual : jsnum) (target : Q) : jsnum :=
  if Qeq_bool target 0 then JFin 0
  else js_mul (js_div (js_sub actual (JFin target)) (JFin target)) (JFin 100).

(** [generateNutritionSuggestions], lines 515-535: [Object.entries]
    visits the keys in insertion order; an [undefined] fiber deviation is
    not a number and is skipped. *)
Definition nutrient_name (key : string) : string :=
  str_replace_first (str_replace_first key "_deviation" "") "_" " ".

Definition deviation_entries (d : Deviations.t) : list (string * option jsnum) :=
  [("calories_deviation", Some (Deviations.calories_deviation d));
   ("protein_deviation", Some (Deviations.protein_deviation d));
   ("fat_deviation", Some (Deviations.fat_deviation d));
   ("carbohydrates_deviation", Some (Deviations.carbohydrates_deviation d));
   ("fiber_deviation", Deviations.fiber_deviation d)]%string.

Definition suggestion_for (threshold : Q) (entry : string * option jsnum)
    : list Suggestion :=
  match entry with
  | (key, Some deviation) =>
      if js_gt (js_abs deviation) threshold then
        if js_gt deviation 0 then [SuggestReduce (nutrient_name key) deviation]
        else [SuggestIncrease (nutrient_name key) (js_abs deviation)]
      else []
  | (_, None) => []
  end.

Definition generateNutritionSuggestions (deviations : Deviations.t)
    (targets : NutritionalTargets.t) (threshold : Q) : list Suggestion :=
  flat_map (suggestion_for threshold) (deviation_entries deviations).

(** The locals of [validatePlan] that the loops update. *)
Record VState := mkVState {
  totalNutrition : NutritionData.t;
  missingData : list string;
  suggestionsAcc : list Suggestion;
  detailedBreakdown : list DailyBreakdown.t }.

(** [x += n.x] for the five fields, [fiber] with [|| 0]
    (lines 235-239 and 242-246). *)
Definition add_meal (acc n : NutritionData.t) : NutritionData.t :=
  NutritionData.mk
    (NutritionData.calories acc + NutritionData.calories n)
    (NutritionData.protein acc + NutritionData.protein n)
    (NutritionData.fat acc + NutritionData.fat n)
    (NutritionData.carbohydrates acc + NutritionData.carbohydrates n)
    (NutritionData.fiber acc + (NutritionData.fiber n ||Q 0)).

Section Validate.
Context (db : Db) (options : ValidationOptions.t).

(** One iteration of the inner loop, lines 226-256: the method's state
    and the current [dayBreakdown]. *)
Definition process_meal (st : VState * DailyBreakdown.t) (meal : MealSlot.t)
    : VState * DailyBreakdown.t :=
  let (s, dayBreakdown) := st in
  match calculateMealNutrition db (MealSlot.recipe_id meal)
          (MealSlot.servings meal ||? 1)
          (ValidationOptions.use_usda_fallback options) with
  | Some mealNutrition =>
      let n := MealNutrition.nutrition mealNutrition in
      (mkVState (add_meal (totalNutrition s) n) (missingData s)
                (suggestionsAcc s) (detailedBreakdown s),
       DailyBreakdown.mk (DailyBreakdown.day dayBreakdown)
         (add_meal (DailyBreakdown.nutrition dayBreakdown) n)
         (if ValidationOptions.detailed_breakdown options
          then DailyBreakdown.meals dayBreakdown ++ [mealNutrition]
          else DailyBreakdown.meals dayBreakdown))
  | None =>
      (mkVState (totalNutrition s)
         (missingData s ++ [("Recipe " ++ MealSlot.recipe_id meal)%string])
         (if ValidationOptions.require_all_recipes options
          then suggestionsAcc s ++
                 [SuggestText ("Missing nutrition data for recipe " ++
                               MealSlot.recipe_id meal)%string]
          else suggestionsAcc s)
         (detailedBreakdown s),
       dayBreakdown)
  end.

(** The fresh [dayBreakdown] of lines 219-223. *)
Definition newDayBreakdown (day : DayPlan.t) : DailyBreakdown.t :=
  DailyBreakdown.mk
    (if String.eqb (DayPlan.day day) "" then "unknown" else DayPlan.day day)
    NutritionData.zero [].

(** One iteration of the outer loop, lines 218-262. *)
Definition process_day (s : VState) (day : DayPlan.t) : VState :=
  let (s', dayBreakdown) :=
    fold_left process_meal (DayPlan.meals day) (s, newDayBreakdown day) in
  if ValidationOptions.detailed_breakdown options
  then mkVState (totalNutrition s') (missingData s') (suggestionsAcc s')
                (detailedBreakdown s' ++ [dayBreakdown])
  else s'.

(** Lines 264-272. *)
Definition dailyAverageOf (total : NutritionData.t) (dayCount : nat)
    : DailyAverage.t :=
  let n := JFin (inject_Z (Z.of_nat dayCount)) in
  DailyAverage.mk
    (js_round (js_div (JFin (NutritionData.calories total)) n))
    (js_round1 (js_div (JFin (NutritionData.protein total)) n))
    (js_round1 (js_div (JFin (NutritionData.fat total)) n))
    (js_round1 (js_div (JFin (NutritionData.carbohydrates total)) n))
    (js_round1 (js_div (JFin (NutritionData.fiber total)) n)).

(** Lines 275-282. *)
Definition deviationsOf (avg : DailyAverage.t) (targets : NutritionalTargets.t)
    : Deviations.t :=
  Deviations.mk
    (calculateDeviation (DailyAverage.calories avg) (NutritionalTargets.daily_calories targets))
    (calculateDeviation (DailyAverage.protein avg) (NutritionalTargets.daily_protein targets))
    (calculateDeviation (DailyAverage.fat avg) (NutritionalTargets.daily_fat targets))
    (calculateDeviation (DailyAverage.carbohydrates avg)
       (NutritionalTargets.daily_carbohydrates targets))
    (if Qeq_bool (NutritionalTargets.daily_fiber targets ||? 0) 0 then None
     else Some (calculateDeviation (DailyAverage.fiber avg)
                  (NutritionalTargets.daily_fiber targets ||? 0))).

(** Lines 285-292. *)
Definition core_deviations (d : Deviations.t) : list jsnum :=
  [Deviations.calories_deviation d; Deviations.protein_deviation d;
   Deviations.fat_deviation d; Deviations.carbohydrates_deviation d].

Definition withinThresholdOf (d : Deviations.t) : bool :=
  forallb (fun dev => js_le (js_abs dev)
                        (ValidationOptions.deviation_threshold options))
          (core_deviations d).

(** [validatePlan], lines 198-316. *)
Definition validatePlan (days : list DayPlan.t) (targets : NutritionalTargets.t)
    : ValidationResult.t :=
  let s := fold_left process_day days (mkVState NutritionData.zero [] [] []) in
  let dailyAverage := dailyAverageOf (totalNutrition s) (length days) in
  let deviations := deviationsOf dailyAverage targets in
  let withinThreshold := withinThresholdOf deviations in
  let isValid :=
    withinThreshold &&
    (if ValidationOptions.require_all_recipes options
     then Nat.eqb (length (missingData s)) 0 else true) in
  let suggestions :=
    if withinThreshold then suggestionsAcc s
    else suggestionsAcc s ++
           generateNutritionSuggestions deviations targets
             (ValidationOptions.deviation_threshold options) in
  ValidationResult.mk isValid (totalNutrition s) dailyAverage deviations
    withinThreshold (missingData s) suggestions
    (if ValidationOptions.detailed_breakdown options
     then Some (detailedBreakdown s) else None).
End Validate.

(** ** Facts about the loops *)

Section ValidateFacts.
Context (db : Db) (options : ValidationOptions.t).

(** The resolution the inner loop asks for, line 227-231. *)
Definition meal_resolution (m : MealSlot.t) : option MealNutrition.t :=
  calculateMealNutrition db (MealSlot.recipe_id m) (MealSlot.servings m ||? 1)
    (ValidationOptions.use_usda_fallback options).

Definition meal_contribution (m : MealSlot.t) : NutritionData.t :=
  match meal_resolution m with
  | Some mn => add_meal NutritionData.zero (MealNutrition.nutrition mn)
  | None => NutritionData.zero
  end.

Definition unresolved (m : MealSlot.t) : bool :=
  match meal_resolution m with None => true | Some _ => false end.

Lemma add_meal_equiv (acc n : NutritionData.t) :
  nd_equiv (add_meal acc n) (NutritionData.add acc (add_meal NutritionData.zero n)).
Proof. unfold nd_equiv; simpl. repeat split; lra. Qed.

Lemma process_meal_total (st : VState * DailyBreakdown.t) (m : MealSlot.t) :
  nd_equiv (totalNutrition (fst (process_meal db options st m)))
           (NutritionData.add (totalNutrition (fst st)) (meal_contribution m)).
Proof.
  destruct st as [s b]. unfold process_meal, meal_contribution, meal_resolution.
  destruct (calculateMealNutrition _ _ _ _); simpl; [apply add_meal_equiv|].
  unfold nd_equiv; simpl. repeat split; lra.
Qed.

Lemma process_meal_missing (st : VState * DailyBreakdown.t) (m : MealSlot.t) :
  missingData (fst (process_meal db options st m)) =
  missingData (fst st) ++
    (if unresolved m then [("Recipe " ++ MealSlot.recipe_id m)%string] else []).
Proof.
  destruct st as [s b]. unfold process_meal, unresolved, meal_resolution.
  destruct (calculateMealNutrition _ _ _ _); simpl; [now rewrite app_nil_r | reflexivity].
Qed.

(** The outer loop's effect on a projection is the inner loop's. *)
Lemma process_day_proj {B} (proj : VState -> B) (s : VState) (d : DayPlan.t) :
  (forall s' l, proj (mkVState (totalNutrition s') (missingData s') (suggestionsAcc s') l) = proj s') ->
  proj (process_day db options s d) =
  proj (fst (fold_left (process_meal db options) (DayPlan.meals d) (s, newDayBreakdown d))).
Proof.
  intros Hproj. unfold process_day.
  destruct (fold_left _ _ _) as [s' b] eqn:E.
  destruct (ValidationOptions.detailed_breakdown options); simpl; [apply Hproj | reflexivity].
Qed.

Lemma nd_sum_cons {A} (f : A -> NutritionData.t) (x : A) (l : list A) :
  nd_equiv (nd_sum f (x :: l)) (NutritionData.add (f x) (nd_sum f l)).
Proof. unfold nd_equiv, nd_sum; simpl. rewrite !qsum_cons. repeat split; reflexivity. Qed.

Lemma nd_sum_plan_meals (f : MealSlot.t -> NutritionData.t) (days : list DayPlan.t) :
  nd_equiv (nd_sum f (plan_meals days))
           (nd_sum (fun d => nd_sum f (DayPlan.meals d)) days).
Proof.
  unfold plan_meals. induction days as [|d days IH]; [reflexivity|].
  simpl. rewrite nd_sum_app, nd_sum_cons, IH. reflexivity.
Qed.

Lemma fold_process_day_total (days : list DayPlan.t) (s : VState) :
  nd_equiv (totalNutrition (fold_left (process_day db options) days s))
           (NutritionData.add (totalNutrition s) (nd_sum meal_contribution (plan_meals days))).
Proof.
  rewrite nd_sum_plan_meals. apply fold_left_proj_add. intros s' d.
  rewrite (process_day_proj totalNutrition s' d) by reflexivity.
  rewrite (fold_left_proj_add _ (fun st => totalNutrition (fst st)) meal_contribution
             process_meal_total). reflexivity.
Qed.

Lemma fold_process_day_missing (days : list DayPlan.t) (s : VState) :
  missingData (fold_left (process_day db options) days s) =
  missingData s ++
    flat_map (fun m => if unresolved m then [("Recipe " ++ MealSlot.recipe_id m)%string] else [])
      (plan_meals days).
Proof.
  unfold plan_meals. rewrite flat_map_concat_map.
  apply fold_left_proj_app. intros s' d.
  rewrite (process_day_proj missingData s' d) by reflexivity.
  rewrite (fold_left_proj_app _ (fun st => missingData (fst st)) _ process_meal_missing).
  reflexivity.
Qed.
End ValidateFacts.

(** ** The specification's numbers

    Section 3 of the specification: the daily average is the plan total
    over the number of days (calories rounded to an integer, grams to one
    decimal), and a deviation is [(actual - target) / target * 100], [0]
    for a zero target. *)

Definition deviation_spec (actual target : Q) : Q :=
  if Qeq_bool target 0 then 0 else (actual - target) / target * 100.

Definition average_spec (total : NutritionData.t) (dayCount : nat) : NutritionData.t :=
  let n := inject_Z (Z.of_nat dayCount) in
  NutritionData.mk
    (math_round (NutritionData.calories total / n))
    (round1 (NutritionData.protein total / n))
    (round1 (NutritionData.fat total / n))
    (round1 (NutritionData.carbohydrates total / n))
    (round1 (NutritionData.fiber total / n)).

Lemma calculateDeviation_fin (a t : Q) :
  calculateDeviation (JFin a) t = JFin (deviation_spec a t).
Proof.
  unfold calculateDeviation, deviation_spec. case_qb; [reflexivity|].
  cbn [js_sub]. rewrite js_div_fin by assumption. reflexivity.
Qed.

Lemma dailyAverageOf_fin (total : NutritionData.t) (n : nat) :
  n <> 0%nat ->
  dailyAverageOf total n =
  let a := average_spec total n in
  DailyAverage.mk (JFin (NutritionData.calories a)) (JFin (NutritionData.protein a))
    (JFin (NutritionData.fat a)) (JFin (NutritionData.carbohydrates a))
    (JFin (NutritionData.fiber a)).
Proof.
  intros Hn. assert (~ inject_Z (Z.of_nat n) == 0) as Hz.
  { unfold Qeq; simpl. lia. }
  unfold dailyAverageOf, average_spec. rewrite !js_div_fin by exact Hz. reflexivity.
Qed.

Lemma dailyAverageOf_empty : dailyAverageOf NutritionData.zero 0 = DailyAverage.mk JNaN JNaN JNaN JNaN JNaN.
Proof. reflexivity. Qed.

Lemma calculateDeviation_nan (t : Q) :
  calculateDeviation JNaN t = if Qeq_bool t 0 then JFin 0 else JNaN.
Proof. unfold calculateDeviation. now destruct (Qeq_bool t 0). Qed.

Lemma filter_nil_iff {A} (p : A -> bool) (l : list A) :
  List.filter p l = [] <-> forall x, In x l -> p x = false.
Proof.
  induction l as [|x l IH]; simpl; [split; [tauto | reflexivity]|].
  destruct (p x) eqn:Hp; split.
  - discriminate.
  - intros H. rewrite (H x (or_introl eq_refl)) in Hp. discriminate.
  - intros H y [<- | Hy]; [exact Hp | now apply IH].
  - intros H. apply IH. intros y Hy. apply H. now right.
Qed.

Section ValidatorClaims.
Context (db : Db) (options : ValidationOptions.t).

Lemma validatePlan_total (days : list DayPlan.t) (tg : NutritionalTargets.t) :
  nd_equiv (ValidationResult.total_nutrition (validatePlan db options days tg))
           (nd_sum (meal_contribution db options) (plan_meals days)).
Proof.
  unfold validatePlan. simpl. rewrite fold_process_day_total. apply nd_add_zero_l.
Qed.

(** The missing-data list names, in visiting order, exactly the
    meals whose nutrients could not be resolved. *)
Theorem validatePlan_missing (days : list DayPlan.t) (tg : NutritionalTargets.t) :
  ValidationResult.missing_nutrition_data (validatePlan db options days tg) =
  map (fun m => ("Recipe " ++ MealSlot.recipe_id m)%string)
      (List.filter (unresolved db options) (plan_meals days)).
Proof.
  unfold validatePlan. simpl. rewrite fold_process_day_missing. simpl.
  apply flat_map_filter_map.
Qed.

(** A plan is valid exactly when it is within the threshold and,
    if every recipe is required, every meal was resolved. *)
Theorem validatePlan_is_valid (days : list DayPlan.t) (tg : NutritionalTargets.t) :
  ValidationResult.is_valid (validatePlan db options days tg) = true <->
  ValidationResult.within_threshold (validatePlan db options days tg) = true /\
  (ValidationOptions.require_all_recipes options = true ->
   forall m, In m (plan_meals days) -> unresolved db options m = false).
Proof.
  pose proof (validatePlan_missing days tg) as Hm.
  unfold validatePlan in *. simpl in *. rewrite Hm, andb_true_iff, length_map.
  destruct (ValidationOptions.require_all_recipes options);
    [|split; intros [H1 H2]; split; [exact H1 | discriminate | exact H1 | reflexivity]].
  rewrite Nat.eqb_eq, length_zero_iff_nil, filter_nil_iff. tauto.
Qed.

(** C3: On a plan with at least one day every deviation is the
    specification's [(average - target) / target * 100] of the rounded
    daily average ([0] for a zero target); the fiber deviation exists
    exactly when a non-zero fiber target is given. *)
Theorem validatePlan_deviations (days : list DayPlan.t) (tg : NutritionalTargets.t) :
  days <> [] ->
  let r := validatePlan db options days tg in
  let a := average_spec (ValidationResult.total_nutrition r) (length days) in
  ValidationResult.target_deviations r =
  Deviations.mk
    (JFin (deviation_spec (NutritionData.calories a) (NutritionalTargets.daily_calories tg)))
    (JFin (deviation_spec (NutritionData.protein a) (NutritionalTargets.daily_protein tg)))
    (JFin (deviation_spec (NutritionData.fat a) (NutritionalTargets.daily_fat tg)))
    (JFin (deviation_spec (NutritionData.carbohydrates a)
             (NutritionalTargets.daily_carbohydrates tg)))
    (if Qeq_bool (NutritionalTargets.daily_fiber tg ||? 0) 0 then None
     else Some (JFin (deviation_spec (NutritionData.fiber a)
                        (NutritionalTargets.daily_fiber tg ||? 0)))).
Proof.
  intros Hd. unfold validatePlan. simpl.
  rewrite dailyAverageOf_fin by (destruct days; [contradiction | discriminate]).
  unfold deviationsOf. simpl. rewrite !calculateDeviation_fin. reflexivity.
Qed.

(** C2: On a plan with at least one day, the plan is within the
    threshold exactly when each of the four core deviations, computed
    as the specification says, has absolute value at most the
    threshold. *)
Theorem validatePlan_within_iff (days : list DayPlan.t) (tg : NutritionalTargets.t) :
  days <> [] ->
  let r := validatePlan db options days tg in
  let a := average_spec (ValidationResult.total_nutrition r) (length days) in
  ValidationResult.within_threshold r = true <->
  Forall (fun p => Qabs (deviation_spec (fst p) (snd p)) <=
                   ValidationOptions.deviation_threshold options)
    [(NutritionData.calories a, NutritionalTargets.daily_calories tg);
     (NutritionData.protein a, NutritionalTargets.daily_protein tg);
     (NutritionData.fat a, NutritionalTargets.daily_fat tg);
     (NutritionData.carbohydrates a, NutritionalTargets.daily_carbohydrates tg)].
Proof.
  intros Hd. pose proof (validatePlan_deviations days tg Hd) as E.
  cbv zeta in *. unfold validatePlan in *. simpl in *. rewrite E.
  unfold withinThresholdOf, core_deviations. simpl.
  rewrite !andb_true_iff, !Qle_bool_iff, !Forall_cons, Forall_nil. simpl. tauto.
Qed.

Lemma suggestion_for_nan_or_zero (thr t : Q) (k : string) :
  0 <= thr ->
  suggestion_for thr (k, Some (if Qeq_bool t 0 then JFin 0 else JNaN)) = [].
Proof.
  intros H. destruct (Qeq_bool t 0); [|reflexivity].
  unfold suggestion_for. cbn [js_abs js_gt]. unfold Qlt_bool.
  replace (Qle_bool (Qabs 0) thr) with true; [reflexivity|].
  symmetry. apply Qle_bool_iff. exact H.
Qed.

(** A plan with no days is never valid (its daily averages are
    [NaN]: zero divided by zero), yet it receives no suggestion at all,
    contrary to "when invalid, generate suggestions". *)
Theorem validatePlan_empty_invalid (tg : NutritionalTargets.t) :
  ~ NutritionalTargets.daily_calories tg == 0 ->
  0 <= ValidationOptions.deviation_threshold options ->
  let r := validatePlan db options [] tg in
  ValidationResult.is_valid r = false /\
  ValidationResult.within_threshold r = false /\
  ValidationResult.daily_average r = DailyAverage.mk JNaN JNaN JNaN JNaN JNaN /\
  ValidationResult.suggestions r = [].
Proof.
  intros Hc Ht.
  assert (Ecal : Qeq_bool (NutritionalTargets.daily_calories tg) 0 = false)
    by (destruct (Qeq_bool _ 0) eqn:E; qbool; [contradiction | reflexivity]).
  unfold validatePlan. cbn [fold_left length totalNutrition missingData suggestionsAcc].
  rewrite dailyAverageOf_empty. unfold deviationsOf, withinThresholdOf, core_deviations.
  cbn [DailyAverage.calories DailyAverage.protein DailyAverage.fat
       DailyAverage.carbohydrates DailyAverage.fiber].
  rewrite !calculateDeviation_nan, Ecal.
  cbn [forallb js_abs js_le andb ValidationResult.is_valid ValidationResult.within_threshold
       ValidationResult.daily_average ValidationResult.suggestions
       Deviations.calories_deviation Deviations.protein_deviation Deviations.fat_deviation
       Deviations.carbohydrates_deviation Deviations.fiber_deviation].
  do 3 (split; [reflexivity|]).
  unfold generateNutritionSuggestions, deviation_entries.
  cbn [flat_map app Deviations.calories_deviation Deviations.protein_deviation
       Deviations.fat_deviation Deviations.carbohydrates_deviation Deviations.fiber_deviation].
  rewrite !suggestion_for_nan_or_zero by exact Ht.
  destruct (Qeq_bool (NutritionalTargets.daily_fiber tg ||? 0) 0); reflexivity.
Qed.

Lemma generate_suggestion_of_exceeding (d : Deviations.t) (tg : NutritionalTargets.t)
    (thr q : Q) :
  In (JFin q) (core_deviations d) -> Qle_bool (Qabs q) thr = false ->
  exists n v, In (SuggestReduce n v) (generateNutritionSuggestions d tg thr) \/
              In (SuggestIncrease n v) (generateNutritionSuggestions d tg thr).
Proof.
  intros Hin Hq.
  assert (Hs : exists key, In (key, Some (JFin q)) (deviation_entries d)).
  { unfold core_deviations in Hin. simpl in Hin.
    destruct Hin as [H|[H|[H|[H|[]]]]];
      [exists "calories_deviation"%string | exists "protein_deviation"%string
      | exists "fat_deviation"%string | exists "carbohydrates_deviation"%string];
      unfold deviation_entries; rewrite H; simpl; tauto. }
  destruct Hs as [key Hk].
  assert (Hg : js_gt (js_abs (JFin q)) thr = true)
    by (cbn; unfold Qlt_bool; now rewrite Hq).
  unfold generateNutritionSuggestions.
  destruct (js_gt (JFin q) 0) eqn:Hpos; do 2 eexists; [left | right];
    apply in_flat_map; exists (key, Some (JFin q)); split; try exact Hk;
    unfold suggestion_for; rewrite Hg, Hpos; now left.
Qed.

(** On a plan with at least one day, a plan outside the threshold
    always receives at least one "reduce" or "increase" suggestion. *)
Theorem validatePlan_invalid_has_suggestion (days : list DayPlan.t)
    (tg : NutritionalTargets.t) :
  days <> [] ->
  let r := validatePlan db options days tg in
  ValidationResult.within_threshold r = false ->
  exists n v, In (SuggestReduce n v) (ValidationResult.suggestions r) \/
              In (SuggestIncrease n v) (ValidationResult.suggestions r).
Proof.
  intros Hd. pose proof (validatePlan_deviations days tg Hd) as E. cbv zeta in *.
  revert E. unfold validatePlan. simpl. intros E Hw. rewrite Hw.
  unfold withinThresholdOf in Hw. rewrite E in Hw |- *.
  destruct (forallb_false_exists _ _ Hw) as (x & Hx & Hle).
  assert (Hfin : exists q, x = JFin q)
    by (unfold core_deviations in Hx; simpl in Hx; repeat destruct Hx as [<-|Hx]; eauto; contradiction).
  destruct Hfin as [q ->].
  destruct (generate_suggestion_of_exceeding _ tg _ q Hx Hle) as (n & v & H).
  exists n, v. rewrite !in_app_iff. tauto.
Qed.
End ValidatorClaims.

(** ** The specification's scenario, and the claims applied to it

    Targets 2000 kcal / 150 g protein / 67 g fat / 250 g carbohydrates;
    a seven-day plan averaging 1985 / 145 / 71 / 248. *)

Module WeekSample.
Definition balanced : Recipe.t :=
  Recipe.mk "r-day" "Balanced day" [] (Some (NutritionInfo.mk 1985 145 71 248 None))
    None None 1 None [] None [Lunch] Published false 4 10.
Definition db : Db :=
  mkDb (fun id => if String.eqb id "r-day" then Some balanced
                  else recipe_by_id Sample.db id)
       (search_nutrition_data Sample.db).
Definition day (name recipe : string) : DayPlan.t :=
  DayPlan.mk name "2024-01-15" [MealSlot.mk "lunch" recipe None false].
Definition week : list DayPlan.t :=
  map (fun d => day d "r-day")
    ["monday"; "tuesday"; "wednesday"; "thursday"; "friday"; "saturday"; "sunday"]%string.
Definition targets : NutritionalTargets.t := NutritionalTargets.mk 2000 150 67 250 None.
Definition opts : ValidationOptions.t := ValidationOptions.default.
End WeekSample.

Lemma validatePlan_missing_witness :
  ValidationResult.missing_nutrition_data
    (validatePlan WeekSample.db WeekSample.opts
       [WeekSample.day "monday" "r-day"; WeekSample.day "tuesday" "r-unknown"]
       WeekSample.targets) = ["Recipe r-unknown"%string].
Proof. rewrite validatePlan_missing. reflexivity. Defined.

Lemma validatePlan_is_valid_witness :
  ValidationResult.is_valid
    (validatePlan WeekSample.db WeekSample.opts WeekSample.week WeekSample.targets) = true.
Proof.
  apply validatePlan_is_valid. split; [vm_compute; reflexivity|].
  intros _ m Hm. simpl in Hm. repeat destruct Hm as [<-|Hm]; try contradiction; reflexivity.
Defined.

Lemma validatePlan_deviations_witness :
  Deviations.calories_deviation
    (ValidationResult.target_deviations
       (validatePlan WeekSample.db WeekSample.opts WeekSample.week WeekSample.targets)) =
  JFin (deviation_spec 1985 2000) /\ deviation_spec 1985 2000 == -3 # 4.
Proof.
  split; [|reflexivity].
  rewrite (validatePlan_deviations WeekSample.db WeekSample.opts WeekSample.week
             WeekSample.targets) by discriminate.
  vm_compute. reflexivity.
Defined.

Lemma validatePlan_within_iff_witness :
  ValidationResult.within_threshold
    (validatePlan WeekSample.db WeekSample.opts WeekSample.week WeekSample.targets) = true.
Proof.
  apply (validatePlan_within_iff WeekSample.db WeekSample.opts WeekSample.week
           WeekSample.targets); [discriminate|].
  repeat constructor; apply Qle_bool_iff; vm_compute; reflexivity.
Defined.

Lemma validatePlan_empty_invalid_witness :
  ValidationResult.is_valid (validatePlan WeekSample.db WeekSample.opts [] WeekSample.targets)
    = false /\
  ValidationResult.suggestions (validatePlan WeekSample.db WeekSample.opts [] WeekSample.targets)
    = [].
Proof.
  destruct (validatePlan_empty_invalid WeekSample.db WeekSample.opts WeekSample.targets)
    as (H1 & _ & _ & H4).
  - vm_compute. discriminate.
  - apply Qle_bool_iff. reflexivity.
  - split; assumption.
Defined.

Lemma validatePlan_invalid_has_suggestion_witness :
  exists n v,
    In (SuggestReduce n v)
      (ValidationResult.suggestions
         (validatePlan WeekSample.db WeekSample.opts [WeekSample.day "monday" "r-bowl"]
            WeekSample.targets)) \/
    In (SuggestIncrease n v)
      (ValidationResult.suggestions
         (validatePlan WeekSample.db WeekSample.opts [WeekSample.day "monday" "r-bowl"]
            WeekSample.targets)).
Proof.
  apply validatePlan_invalid_has_suggestion; [discriminate | vm_compute; reflexivity].
Defined.
