(* ===== verification/CandidateSelector.v ===== *)
(** * The candidate selector, [CandidateSelector] of [src/agents/wow-layer.ts]

    Lines 592-1153.  [selectCandidates] queries the [recipes] table with
    the hard constraints of the blueprint ([buildRecipeFilter],
    [performSQLFiltering]), asks the external scorer for a score per
    recipe ([performAIScoring], [parseAIScoringResponse]), computes the
    final scores, sorts them and keeps a diverse subset
    ([rankAndSelectFinalCandidates], [calculateFinalScore],
    [selectDiverseSet]).

    The query is a list of PostgREST conditions ([Cond]) built exactly as
    the code chains them; [cond_holds] gives each condition its PostgREST
    meaning on a row; [cond_error] is the error PostgreSQL answers when a
    value of the [in] list on the [uuid] column [recipes.id] is not a
    [uuid] ([uuid_in]).  The scorer's HTTP answer and [JSON.parse] are
    inputs ([ScorerReply], a [json_parse] function). *)

From Stdlib Require Import Qminmax.
From S2P Require Import Prelude Js Types.

Open Scope Q_scope.
Open Scope mw_scope.

(** The usage fields of a stage result, each optional. *)
Module Usage.
Record t := mk {
  claude_requests : option Q; tokens_used : option Q; cost_cents : option Q }.
End Usage.

(** [selectCandidates]'s result, lines 607-614. *)
Module SelectionResult.
Record t := mk {
  success : bool;
  candidates : option (list RecipeCandidate.t);
  error : option string;
  usage : Usage.t }.
End SelectionResult.

(** [RecipeFilter], [src/types/recipe.ts] lines 168-186. *)
Module RecipeFilter.
Record t := mk {
  dietary_restrictions : list string;
  allergen_exclusions : list string;
  max_prep_time : option Q;
  max_cook_time : option Q;
  preferred_cuisines : option (list string);
  difficulty_preference : option DifficultyLevel;
  include_premium : bool;
  exclude_recipe_ids : option (list string);
  require_variety : bool }.
End RecipeFilter.

(** [ScoringCriteria], [src/types/recipe.ts] lines 188-200. *)
Module ScoringCriteria.
Record t := mk {
  cuisine_match_weight : Q; nutrition_match_weight : Q; prep_time_weight : Q;
  user_rating_weight : Q; variety_weight : Q;
  premium_bonus : Q; recent_favorite_bonus : Q; seasonal_bonus : Q }.
End ScoringCriteria.

(** [buildRecipeFilter], lines 835-863: reading [intake.diet_type] of a
    blueprint without intake throws. *)
Definition buildRecipeFilter (bp : UserBlueprint.t) (prefs : GenerationPreferences.t)
    : JsError + RecipeFilter.t :=
  match UserBlueprint.intake bp with
  | None => inl (undefined_read "diet_type")
  | Some intake =>
      let dietaryRestrictions :=
        match UserIntake.diet_type intake with
        | Some d => if String.eqb d "" || String.eqb d "omnivore" then [] else [d]
        | None => []
        end in
      let pref_time := GenerationPreferences.max_prep_time prefs in
      inr (RecipeFilter.mk dietaryRestrictions
             (UserIntake.allergies intake ++ UserIntake.dislikes intake)
             (if opt_truthy pref_time then pref_time else UserIntake.cooking_time_preference intake)
             (if opt_truthy pref_time then option_map (fun t => t + 30) pref_time else None)
             (UserIntake.cultural_preferences intake)
             (match UserIntake.cooking_skill_level intake with
              | Some "beginner"%string => Some Easy | _ => None end)
             (SubscriptionPlan.access_to_premium_content (UserBlueprint.subscription_plan bp))
             (GenerationPreferences.exclude_recipes prefs)
             (match GenerationPreferences.enforce_variety prefs with
              | Some false => false | _ => true end))
  end.

(** [buildScoringCriteria], lines 868-884 (only [premium_bonus] is read
    by the final score). *)
Definition buildScoringCriteria (bp : UserBlueprint.t) (intake : UserIntake.t)
    (prefs : GenerationPreferences.t) : ScoringCriteria.t :=
  ScoringCriteria.mk
    (if opt_nonempty (UserIntake.cultural_preferences intake) then 3 # 10 else 1 # 10)
    (if opt_nonempty (GenerationPreferences.focus_macros prefs) then 4 # 10 else 2 # 10)
    (if opt_truthy (UserIntake.cooking_time_preference intake) then 2 # 10 else 1 # 10)
    (2 # 10)
    (match GenerationPreferences.enforce_variety prefs with
     | Some false => 5 # 100 | _ => 15 # 100 end)
    (if SubscriptionPlan.access_to_premium_content (UserBlueprint.subscription_plan bp)
     then 11 # 10 else 1)
    (12 # 10) (105 # 100).

(** [getRecentFavoriteBonus], lines 1118-1130. *)
Definition getRecentFavoriteBonus (recipe : Recipe.t) (bp : UserBlueprint.t) : Q :=
  let recentLoves :=
    filter (fun r => String.eqb (RecentRating.rating r) "love")
      (default [] (UserBlueprint.recent_ratings bp)) in
  if existsb (fun r => String.eqb (RecentRating.recipe_id r) (Recipe.id recipe)) recentLoves
  then 13 # 10 else 1.

(** [getSwapPenalty], lines 1132-1143. *)
Definition getSwapPenalty (recipe : Recipe.t) (bp : UserBlueprint.t) : Q :=
  if existsb (fun s => String.eqb (RecentSwap.original_recipe_id s) (Recipe.id recipe))
       (default [] (UserBlueprint.recent_swaps bp))
  then 7 # 10 else 1.

(** [Math.min(Math.max(x, 0), 100)] on a finite number. *)
Definition clamp100 (x : Q) : Q := Qmin (Qmax x 0) 100.

(** [calculateFinalScore], lines 1002-1029. *)
Definition calculateFinalScore (candidate : RecipeCandidate.t) (criteria : ScoringCriteria.t)
    (bp : UserBlueprint.t) : Q :=
  let recipe := RecipeCandidate.recipe candidate in
  let score := RecipeCandidate.base_score candidate * (3 # 10) +
               RecipeCandidate.ai_personalization_score candidate * (4 # 10) in
  let score := score * getRecentFavoriteBonus recipe bp in
  let score :=
    if Recipe.is_premium recipe &&
       SubscriptionPlan.access_to_premium_content (UserBlueprint.subscription_plan bp)
    then score * ScoringCriteria.premium_bonus criteria else score in
  clamp100 (score * getSwapPenalty recipe bp).

(** [calculateCost], lines 1145-1153. *)
Definition calculateCost (inputTokens outputTokens : Q) : Q :=
  let inputCost := inputTokens / 1000 * (3 # 1000) in
  let outputCost := outputTokens / 1000 * (15 # 1000) in
  math_round ((inputCost + outputCost) * 100).

(** ** The SQL filter, [performSQLFiltering], lines 672-739 *)

(** One condition of the PostgREST query, in the order the code chains
    them. *)
Inductive Cond :=
| StatusPublished                    (** [.eq('status', 'published')] *)
| TagsContain (tags : list string)   (** [.contains('dietary_tags', ...)] *)
| TagsNotContain (tag : string)      (** [.not('dietary_tags', 'cs', '{"a"}')] *)
| IngredientsNotIlike (pattern : string) (** [.not('ingredients', 'ilike', '%a%')] *)
| PrepAtMost (t : Q)                 (** [.lte('prep_time_minutes', t)] *)
| CookAtMost (t : Q)                 (** [.lte('cook_time_minutes', t)] *)
| NotPremium                         (** [.eq('is_premium', false)] *)
| IdNotIn (list_text : string).      (** [.not('id', 'in', '(...)')] *)

(** [`'${id}'`] joined with commas in parentheses, line 718. *)
Definition quote_id (id : string) : string := ("'" ++ id ++ "'")%string.
Definition in_list_text (ids : list string) : string :=
  ("(" ++ String.concat "," (map quote_id ids) ++ ")")%string.

Definition filter_conditions (f : RecipeFilter.t) : list Cond :=
  [StatusPublished] ++
  (if RecipeFilter.dietary_restrictions f is _ :: _ then
     [TagsContain (RecipeFilter.dietary_restrictions f)] else []) ++
  flat_map (fun a => [TagsNotContain a; IngredientsNotIlike ("%" ++ a ++ "%")%string])
    (RecipeFilter.allergen_exclusions f) ++
  (match RecipeFilter.max_prep_time f with
   | Some t => if Qeq_bool t 0 then [] else [PrepAtMost t] | None => [] end) ++
  (match RecipeFilter.max_cook_time f with
   | Some t => if Qeq_bool t 0 then [] else [CookAtMost t] | None => [] end) ++
  (if RecipeFilter.include_premium f then [] else [NotPremium]) ++
  (match RecipeFilter.exclude_recipe_ids f with
   | Some ((_ :: _) as ids) => [IdNotIn (in_list_text ids)] | _ => [] end).

(** *** What the database does with the query

    PostgREST's [in] list is the text between the parentheses split at
    commas; only double quotes group, so single quotes stay part of the
    values.  [ilike '%a%'] is a case-insensitive substring test, here on
    the ingredient names.  A comparison with a [NULL] time is not true. *)
Fixpoint split_on (c : ascii) (s : string) : list string :=
  match s with
  | EmptyString => [EmptyString]
  | String a s' =>
      if Ascii.eqb a c then EmptyString :: split_on c s'
      else match split_on c s' with
           | [] => [String a EmptyString]
           | w :: ws => String a w :: ws
           end
  end.

Fixpoint drop_last (s : string) : string :=
  match s with
  | EmptyString | String _ EmptyString => EmptyString
  | String a s' => String a (drop_last s')
  end.

Definition postgrest_in_values (t : string) : list string :=
  match t with
  | String "(" r => split_on "," (drop_last r)
  | _ => [t]
  end.

Definition ilike_contains (text pattern : string) : bool :=
  match pattern with
  | String "%" r => str_includes (to_lower text) (to_lower (drop_last r))
  | _ => String.eqb (to_lower text) (to_lower pattern)
  end.

Definition ingredients_text (r : Recipe.t) : string :=
  String.concat " " (map Ingredient.name (Recipe.ingredients r)).

Definition has_tag (r : Recipe.t) (t : string) : bool :=
  existsb (String.eqb t) (Recipe.dietary_tags r).

(** *** The [uuid] column [recipes.id]

    [recipes.id] is a [uuid] (schema-additions.sql line 234 casts to it),
    so PostgreSQL reads every value of the [in] list with [uuid_in]
    ([string_to_uuid]): an optional brace, 16 bytes of two hex digits
    each, a hyphen allowed after every second byte but the last, the
    closing brace, and nothing after.  A value it cannot read fails the
    whole query. *)
Definition is_hex (a : ascii) : bool :=
  let n := nat_of_ascii a in
  ((48 <=? n) && (n <=? 57)) || ((65 <=? n) && (n <=? 70)) || ((97 <=? n) && (n <=? 102)).

Definition hex_lower (a : ascii) : ascii :=
  let n := nat_of_ascii a in
  if (65 <=? n) && (n <=? 70) then ascii_of_nat (n + 32) else a.

(** The loop of [string_to_uuid]: [n] bytes still to read, [i] the index
    of the next one; the digits read (in lower case) and the rest. *)
Fixpoint uuid_bytes (n i : nat) (s : string) : option (string * string) :=
  match n with
  | O => Some (EmptyString, s)
  | S n' =>
      match s with
      | String a s1 =>
          if is_hex a then
            match s1 with
            | String b s2 =>
                if is_hex b then
                  let s3 := match s2 with
                            | String "-" r => if Nat.odd i && (i <? 15) then r else s2
                            | _ => s2
                            end in
                  match uuid_bytes n' (S i) s3 with
                  | Some (ds, rest) => Some (String (hex_lower a) (String (hex_lower b) ds), rest)
                  | None => None
                  end
                else None
            | EmptyString => None
            end
          else None
      | EmptyString => None
      end
  end.

(** [uuid_in]: the value's 32 hex digits, or [None] for
    [invalid input syntax for type uuid]. *)
Definition uuid_in (s : string) : option string :=
  let '(braces, s1) := match s with String "{" r => (true, r) | _ => (false, s) end in
  match uuid_bytes 16 0 s1 with
  | Some (ds, rest) =>
      let rest' := if braces then match rest with String "}" r => Some r | _ => None end
                   else Some rest in
      match rest' with Some EmptyString => Some ds | _ => None end
  | None => None
  end.

Definition dq : string := String (ascii_of_nat 34) EmptyString.

(** The error a condition makes the query answer: the cast of an [in]
    value of the [uuid] column. *)
Definition cond_error (c : Cond) : option string :=
  match c with
  | IdNotIn t =>
      match List.find (fun v => if uuid_in v is Some _ then false else true) (postgrest_in_values t) with
      | Some v => Some ("invalid input syntax for type uuid: " ++ dq ++ v ++ dq)%string
      | None => None
      end
  | _ => None
  end.

Definition first_error (conds : list Cond) : option string :=
  foldr (fun c acc => match cond_error c with Some e => Some e | None => acc end) None conds.

Definition cond_holds (r : Recipe.t) (c : Cond) : bool :=
  match c with
  | StatusPublished => bool_decide (Recipe.status r = Published)
  | TagsContain ts => forallb (has_tag r) ts
  | TagsNotContain t => negb (has_tag r t)
  | IngredientsNotIlike p => negb (ilike_contains (ingredients_text r) p)
  | PrepAtMost t => match Recipe.prep_time_minutes r with Some p => Qle_bool p t | None => false end
  | CookAtMost t => match Recipe.cook_time_minutes r with Some p => Qle_bool p t | None => false end
  | NotPremium => negb (Recipe.is_premium r)
  | IdNotIn t =>
      negb (existsb (fun v => bool_decide (uuid_in v = uuid_in (Recipe.id r) /\ uuid_in v <> None))
                    (postgrest_in_values t))
  end.

(** [.order('rating_average', desc).order('rating_count', desc)]. *)
Definition rating_before (a b : Recipe.t) : bool :=
  Qlt_bool (Recipe.rating_average b) (Recipe.rating_average a) ||
  (Qeq_bool (Recipe.rating_average a) (Recipe.rating_average b) &&
   Qlt_bool (Recipe.rating_count b) (Recipe.rating_count a)).

(** The [recipes] table as the selector reads it: its rows, and the
    error any query on it reports (the service is down), if any. *)
Record RecipeTable := mkRecipeTable {
  recipe_rows : list Recipe.t;
  query_error : option string }.

(** The answer to the query: its [error.message], or its rows. *)
Definition run_query (tbl : RecipeTable) (conds : list Cond) : string + list Recipe.t :=
  match query_error tbl with
  | Some e => inl e
  | None =>
      match first_error conds with
      | Some e => inl e
      | None => inr (take 50 (sort_by rating_before
                               (filter (fun r => forallb (cond_holds r) conds) (recipe_rows tbl))))
      end
  end.

Definition performSQLFiltering (tbl : RecipeTable) (f : RecipeFilter.t)
    : JsError + list Recipe.t :=
  match run_query tbl (filter_conditions f) with
  | inr rows => inr rows
  | inl e => inl (Error ("SQL filtering failed: " ++ e)%string)
  end.

(** ** Scoring, [performAIScoring] and [parseAIScoringResponse], lines 744-997 *)

(** The first index of [c] in [s], and the last. *)
Fixpoint first_index (c : ascii) (s : string) : option nat :=
  match s with
  | EmptyString => None
  | String a s' => if Ascii.eqb a c then Some 0%nat else S <$> first_index c s'
  end.

Fixpoint last_index (c : ascii) (s : string) : option nat :=
  match s with
  | EmptyString => None
  | String a s' =>
      match last_index c s' with
      | Some i => Some (S i)
      | None => if Ascii.eqb a c then Some 0%nat else None
      end
  end.

(** [aiResponse.match(/\{[\s\S]*\}/)[0]]: the leftmost match starts at
    the first [{] and, the star being greedy, ends at the last [}]. *)
Definition extract_json (s : string) : option string :=
  match first_index "{" s, last_index "}" s with
  | Some i, Some j => if (i <? j)%nat then Some (String.substring i (S j - i) s) else None
  | _, _ => None
  end.

(** [scoreData.score || 50], as [calculateFinalScore] reads it: the
    value is kept as the scorer wrote it, and [* 0.4] applies
    [ToNumber] to it, so a string ['80'] counts as 80 and [true] as 1.
    A truthy value whose [ToNumber] is [NaN] or an infinity (a string
    that is not a number, an object, a method of [Object.prototype])
    makes the final score [NaN], [0] or [100], and a [NaN] makes the
    comparator of [sort] inconsistent; that case is outside the model
    and read as 50. *)
Definition score_or_50 (p : js_prop json) : Q :=
  match p with
  | PropOwn v => if json_truthy p then default 50 (json_to_number v) else 50
  | _ => 50
  end.

(** [scoreData.match_reasons || []] on an array of strings (other
    entries are dropped). *)
Definition reasons_or_nil (p : js_prop json) : list string :=
  match p with
  | PropOwn (JArray xs) => omap (fun x => match x with JString s => Some s | _ => None end) xs
  | _ => []
  end.

(** The [recipes.map] callback of lines 964-987. *)
Definition parse_candidate (recipeScores : json) (recipe : Recipe.t) : RecipeCandidate.t :=
  let scoreData := json_get recipeScores (Recipe.id recipe) in
  if negb (json_truthy scoreData) then
    RecipeCandidate.mk recipe 50 50 50 [] ["No AI score available"%string]
  else
    RecipeCandidate.mk recipe (Recipe.rating_average recipe * 20)
      (score_or_50 (prop_get scoreData "score")) 0
      (reasons_or_nil (prop_get scoreData "match_reasons"))
      (reasons_or_nil (prop_get scoreData "penalty_reasons")).

Section Scoring.
(** [JSON.parse]: the value, or the message of its [SyntaxError]. *)
Variable json_parse : string -> string + json.

(** [parseAIScoringResponse], lines 946-997: the candidates, or the
    message of the caught error. *)
Definition parseAIScoringResponse (aiResponse : string) (recipes : list Recipe.t)
    : string + list RecipeCandidate.t :=
  let fail m := inl ("Failed to parse AI response: " ++ m)%string in
  match extract_json aiResponse with
  | None => fail "No JSON found in AI response"
  | Some txt =>
      match json_parse txt with
      | inl m => fail m
      | inr parsedResponse =>
          let recipeScores := json_get parsedResponse "recipe_scores" in
          match recipeScores with
          | PropOwn v =>
              if json_truthy recipeScores then inr (map (parse_candidate v) recipes)
              else fail "No recipe_scores found in AI response"
          | PropInherited => inr (map (parse_candidate (JObject [])) recipes)
          | PropUndefined => fail "No recipe_scores found in AI response"
          end
      end
  end.
End Scoring.

(** The answer of the scorer's [fetch]: a network failure (its message),
    a non-2xx status (as the template literal prints it), or a body whose [content[0].text] may be missing
    and whose [usage] carries the token counts. *)
Inductive ScorerReply :=
| FetchFailed (message : string)
| HttpError (status statusText : string)
| HttpOk (text : option string) (input_tokens output_tokens : option Q).

(** The result of [performAIScoring], lines 748-754. *)
Module ScoringResult.
Record t := mk {
  success : bool;
  scoredCandidates : option (list RecipeCandidate.t);
  error : option string;
  tokens_used : option Q;
  cost_cents : option Q }.
End ScoringResult.

(** [data.usage?.input_tokens + data.usage?.output_tokens || 0]: a
    missing count makes the sum [NaN], which is falsy. *)
Definition tokens_of (i o : option Q) : Q :=
  match i, o with Some a, Some b => a + b | _, _ => 0 end.

Section Scorer.
Variable json_parse : string -> string + json.

(** [performAIScoring], lines 744-808.  The prompt it sends is
    [buildScoringPrompt] below; the scorer's answer is an input, the
    same whatever the prompt. *)
Definition performAIScoring (reply : ScorerReply) (recipes : list Recipe.t) : ScoringResult.t :=
  let caught m := ScoringResult.mk false None (Some ("AI scoring failed: " ++ m)%string) None None in
  match reply with
  | FetchFailed m => caught m
  | HttpError st txt =>
      caught ("Claude API error: " ++ st ++ " " ++ txt)%string
  | HttpOk None _ _ => caught (error_message (undefined_read "text"))
  | HttpOk (Some aiResponse) i o =>
      let tokens := tokens_of i o in
      let cost := calculateCost (i ||? 0) (o ||? 0) in
      match parseAIScoringResponse json_parse aiResponse recipes with
      | inl e => ScoringResult.mk false None (Some e) (Some tokens) (Some cost)
      | inr cs => ScoringResult.mk true (Some cs) None (Some tokens) (Some cost)
      end
  end.
End Scorer.

(** ** Ranking, [rankAndSelectFinalCandidates] and [selectDiverseSet],
    lines 813-1098 *)

Definition set_final_score (c : RecipeCandidate.t) (q : Q) : RecipeCandidate.t :=
  RecipeCandidate.mk (RecipeCandidate.recipe c) (RecipeCandidate.base_score c)
    (RecipeCandidate.ai_personalization_score c) q
    (RecipeCandidate.match_reasons c) (RecipeCandidate.penalty_reasons c).

(** [sort((a, b) => b.final_score - a.final_score)]: [a] goes first when
    its score is strictly higher. *)
Definition score_before (a b : RecipeCandidate.t) : bool :=
  Qlt_bool (RecipeCandidate.final_score b) (RecipeCandidate.final_score a).

(** A counter of [cuisineCount] and the other dictionaries: a number, or
    the string [(f || 0) + 1] makes of an inherited method. *)
Inductive CountVal := CNum (n : nat) | CText.

(** [dict[k] || 0] as [count >= limit] sees it: a number, or a value
    that compares false ([NaN] after [ToNumber]). *)
Inductive CountRead := RNum (n : nat) | RNaN.

Definition count_read (m : gmap string CountVal) (k : string) : CountRead :=
  match m !! k with
  | Some (CNum n) => RNum n
  | Some CText => RNaN
  | None => if existsb (String.eqb k) object_prototype_keys then RNaN else RNum 0
  end.

Definition ge_limit (r : CountRead) (limit : nat) : bool :=
  match r with RNum n => (limit <=? n)%nat | RNaN => false end.

(** [dict[k] = (dict[k] || 0) + 1]; assigning a string to [__proto__]
    does nothing. *)
Definition count_incr (m : gmap string CountVal) (k : string) : gmap string CountVal :=
  if String.eqb k "__proto__" then m
  else <[k := match count_read m k with RNum n => CNum (S n) | RNaN => CText end]> m.

Definition targetCount : nat := 30.
Definition cuisineLimit : nat := Z.to_nat (Qceiling (inject_Z (Z.of_nat targetCount) / 5)).
Definition mealTypeLimit : nat := Z.to_nat (Qceiling (inject_Z (Z.of_nat targetCount) / 3)).

Definition difficulty_key (d : DifficultyLevel) : string :=
  match d with Easy => "easy" | Medium => "medium" | Hard => "hard" end.

Record DState := mkDState {
  selected : list RecipeCandidate.t;
  cuisineCount : gmap string CountVal;
  mealTypeCount : gmap string CountVal;
  difficultyCount : gmap string CountVal }.

(** [if (recipe.cuisine_type)]: a non-empty cuisine. *)
Definition cuisine_key (r : Recipe.t) : option string :=
  match Recipe.cuisine_type r with Some c => if String.eqb c "" then None else Some c | None => None end.

Definition skipForDiversity (st : DState) (r : Recipe.t) : bool :=
  match cuisine_key r with
  | Some c => ge_limit (count_read (cuisineCount st) c) cuisineLimit
  | None => false
  end ||
  existsb (fun mt => ge_limit (count_read (mealTypeCount st) (meal_type_key mt)) mealTypeLimit)
    (Recipe.meal_type r).

(** Lines 1074-1088: push and update the counters. *)
Definition accept (st : DState) (c : RecipeCandidate.t) : DState :=
  let r := RecipeCandidate.recipe c in
  mkDState (selected st ++ [c])
    (match cuisine_key r with Some k => count_incr (cuisineCount st) k | None => cuisineCount st end)
    (fold_left (fun m mt => count_incr m (meal_type_key mt)) (Recipe.meal_type r) (mealTypeCount st))
    (match Recipe.difficulty_level r with
     | Some d => count_incr (difficultyCount st) (difficulty_key d)
     | None => difficultyCount st end).

(** The [for ... of] loop of lines 1043-1089, with its [break]. *)
Fixpoint diverse_loop (st : DState) (cs : list RecipeCandidate.t) : DState :=
  match cs with
  | [] => st
  | c :: cs' =>
      if (targetCount <=? length (selected st))%nat then st
      else if skipForDiversity st (RecipeCandidate.recipe c) && (15 <? length (selected st))%nat
      then diverse_loop st cs'
      else diverse_loop (accept st c) cs'
  end.

Definition selectDiverseSet (candidates : list RecipeCandidate.t) : list RecipeCandidate.t :=
  selected (diverse_loop (mkDState [] ∅ ∅ ∅) candidates).

(** [rankAndSelectFinalCandidates], lines 813-830 ([intake] is present:
    [buildRecipeFilter] read it before). *)
Definition rankAndSelectFinalCandidates (scored : list RecipeCandidate.t)
    (bp : UserBlueprint.t) (intake : UserIntake.t) (prefs : GenerationPreferences.t)
    : list RecipeCandidate.t :=
  let criteria := buildScoringCriteria bp intake prefs in
  let scored := map (fun c => set_final_score c (calculateFinalScore c criteria bp)) scored in
  selectDiverseSet (sort_by score_before scored).

(** ** The scorer's prompt, [buildScoringPrompt] and
    [summarizeUserProfile], lines 888-942 and 1102-1115

    The blueprint's columns that a row leaves empty are [null] in the
    JSON text; a member whose value is [undefined] is left out. *)

Definition rating_json (r : RecentRating.t) : json :=
  JObject [("recipe_id", JString (RecentRating.recipe_id r)); ("rating", JString (RecentRating.rating r));
           ("created_at", JString (RecentRating.created_at r))].

Definition swap_json (w : RecentSwap.t) : json :=
  JObject ([("original_recipe_id", JString (RecentSwap.original_recipe_id w));
            ("replacement_recipe_id", JString (RecentSwap.replacement_recipe_id w));
            ("meal_type", JString (RecentSwap.meal_type w))] ++
           opt_member "reason" (RecentSwap.reason w) JString ++
           [("created_at", JString (RecentSwap.created_at w))]).

(** [summarizeUserProfile], lines 1102-1115: reading [intake] of a
    blueprint without it throws; the first five ratings and the first
    three swaps (the most recent ones: the blueprint lists them newest
    first). *)
Definition summarizeUserProfile (blueprint : UserBlueprint.t) : JsError + json :=
  match UserBlueprint.intake blueprint with
  | None => inl (undefined_read "diet_type")
  | Some intake =>
      inr (JObject (nullable_member "diet_type" (UserIntake.diet_type intake) JString ++
                    [("allergies", JArray (map JString (UserIntake.allergies intake)));
                     ("dislikes", JArray (map JString (UserIntake.dislikes intake)));
                     ("health_goals", JArray (map JString (UserIntake.health_goals intake)))] ++
                    nullable_member "cooking_skill" (UserIntake.cooking_skill_level intake) JString ++
                    nullable_member "cooking_time_preference" (UserIntake.cooking_time_preference intake) JNumber ++
                    nullable_member "cultural_preferences" (UserIntake.cultural_preferences intake)
                      (fun cs => JArray (map JString cs)) ++
                    nullable_member "flavor_preferences" (UserIntake.flavor_preferences intake) id ++
                    opt_member "recent_ratings" (firstn 5 <$> UserBlueprint.recent_ratings blueprint)
                      (fun rs => JArray (map rating_json rs)) ++
                    opt_member "recent_swaps" (firstn 3 <$> UserBlueprint.recent_swaps blueprint)
                      (fun ws => JArray (map swap_json ws))))
  end.

(** An entry of [recipeList], lines 894-903. *)
Definition scoring_recipe (r : Recipe.t) : json :=
  JObject ([("id", JString (Recipe.id r)); ("title", JString (Recipe.title r))] ++
           nullable_member "cuisine" (Recipe.cuisine_type r) JString ++
           [("dietary_tags", JArray (map JString (Recipe.dietary_tags r)))] ++
           nullable_member "prep_time" (Recipe.prep_time_minutes r) JNumber ++
           nullable_member "difficulty" (Recipe.difficulty_level r) (fun d => JString (difficulty_key d)) ++
           [("rating", JNumber (Recipe.rating_average r));
            ("meal_types", JArray (map (fun m => JString (meal_type_key m)) (Recipe.meal_type r)))]).

Definition scoring_prompt_head : string :=
"You are an expert meal planning AI that scores recipes for personalization.

<user_profile>
".

Definition scoring_prompt_mid : string :=
"
</user_profile>

<recipes_to_score>
".

Definition scoring_prompt_tail : string :=
dequote "
</recipes_to_score>

<scoring_instructions>
Score each recipe from 0-100 based on how well it matches this specific user's preferences:

1. **Dietary Alignment** (25 points): How well does it match their diet type, avoid allergens, and align with health goals?
2. **Cultural & Flavor Preferences** (25 points): Does it match their cultural preferences and flavor profile?
3. **Lifestyle Fit** (25 points): Does the prep time, difficulty, and serving size work for their lifestyle?
4. **Personal History** (25 points): Based on their recent ratings and swaps, would they likely enjoy this?

For each recipe, provide:
- **score**: Number 0-100
- **match_reasons**: Array of strings explaining why it's a good match
- **penalty_reasons**: Array of strings explaining any concerns

Return ONLY a valid JSON object with this structure:
{
  ~recipe_scores~: {
    ~recipe_id_1~: {
      ~score~: 85,
      ~match_reasons~: [~Perfect for keto diet~, ~Quick prep time~],
      ~penalty_reasons~: [~Might be too spicy~]
    },
    // ... more recipes
  }
}
</scoring_instructions>".

Section ScoringPrompt.
(** [JSON.stringify(v, null, 2)]. *)
Variable json_stringify : json -> string.

(** [buildScoringPrompt], lines 888-942 ([preferences] is not read). *)
Definition buildScoringPrompt (recipes : list Recipe.t) (blueprint : UserBlueprint.t)
    : JsError + string :=
  match summarizeUserProfile blueprint with
  | inl e => inl e
  | inr userProfile =>
      inr (scoring_prompt_head ++ json_stringify userProfile ++ scoring_prompt_mid ++
           json_stringify (JArray (map scoring_recipe recipes)) ++ scoring_prompt_tail)%string
  end.
End ScoringPrompt.

(** ** [selectCandidates], lines 604-667 *)

Section Select.
Variable json_parse : string -> string + json.
(** The [recipes] table and the scorer's answer. *)
Variable table : RecipeTable.
Variable reply : ScorerReply.

Definition selection_failure (msg : string) : SelectionResult.t :=
  SelectionResult.mk false None (Some msg) (Usage.mk None None None).

Definition selectCandidates (bp : UserBlueprint.t) (prefs : GenerationPreferences.t)
    : SelectionResult.t :=
  match UserBlueprint.profile bp with
  | None => selection_failure (error_message (undefined_read "id"))
  | Some _ =>
  match buildRecipeFilter bp prefs, UserBlueprint.intake bp with
  | inl e, _ => selection_failure (error_message e)
  | inr _, None => selection_failure (error_message (undefined_read "diet_type"))
  | inr filter, Some intake =>
  match performSQLFiltering table filter with
  | inl e => selection_failure (error_message e)
  | inr [] => selection_failure "No recipes found matching dietary restrictions and constraints"
  | inr sqlCandidates =>
      let scoring := performAIScoring json_parse reply sqlCandidates in
      let usage := Usage.mk (Some 1) (Some (ScoringResult.tokens_used scoring ||? 0))
                     (Some (ScoringResult.cost_cents scoring ||? 0)) in
      if negb (ScoringResult.success scoring) then
        SelectionResult.mk false None (ScoringResult.error scoring) usage
      else
        SelectionResult.mk true
          (Some (rankAndSelectFinalCandidates
                   (default [] (ScoringResult.scoredCandidates scoring)) bp intake prefs))
          None usage
  end
  end
  end.
End Select.

(** ** Scores *)

Lemma clamp100_bounds (x : Q) : 0 <= clamp100 x <= 100.
Proof.
  unfold clamp100. split.
  - apply Q.min_glb; [apply Q.le_max_r | discriminate].
  - apply Q.le_min_r.
Qed.

Lemma clamp100_in_range (x : Q) : 0 <= x <= 100 -> clamp100 x == x.
Proof.
  intros [H0 H1]. unfold clamp100.
  rewrite Q.max_l by exact H0. now rewrite Q.min_l by exact H1.
Qed.

(** Every final score is within [0, 100], whatever the scorer
    answered and whatever the bonuses. *)
Theorem calculateFinalScore_bounds (c : RecipeCandidate.t) (crit : ScoringCriteria.t)
    (bp : UserBlueprint.t) :
  0 <= calculateFinalScore c crit bp <= 100.
Proof. apply clamp100_bounds. Qed.

(** A recipe the scorer leaves out is kept, with base and AI scores
    50 and the reason "No AI score available"; without a favorite
    bonus, premium bonus or swap penalty its final score is 35, not the
    50 the specification gives it. *)
Theorem parse_candidate_missing (v : json) (r : Recipe.t) (crit : ScoringCriteria.t)
    (bp : UserBlueprint.t) :
  json_truthy (json_get v (Recipe.id r)) = false ->
  getRecentFavoriteBonus r bp = 1 -> getSwapPenalty r bp = 1 ->
  Recipe.is_premium r = false ->
  RecipeCandidate.base_score (parse_candidate v r) = 50 /\
  RecipeCandidate.ai_personalization_score (parse_candidate v r) = 50 /\
  RecipeCandidate.penalty_reasons (parse_candidate v r) = ["No AI score available"%string] /\
  calculateFinalScore (parse_candidate v r) crit bp == 35.
Proof.
  intros Hv Hf Hs Hp. unfold parse_candidate. rewrite Hv. cbn.
  do 3 (split; [reflexivity|]).
  unfold calculateFinalScore. cbn. rewrite Hf, Hs, Hp. cbn.
  rewrite clamp100_in_range; [reflexivity|]. split; discriminate.
Qed.

(** A score of 0 from the scorer is read as 50 ([score || 50]). *)
Theorem parse_candidate_zero_score (v : json) (r : Recipe.t) (ms : list (string * json)) :
  json_get v (Recipe.id r) = PropOwn (JObject ms) ->
  js_obj_get ms "score" = PropOwn (JNumber 0) ->
  RecipeCandidate.ai_personalization_score (parse_candidate v r) = 50.
Proof. intros Hv Hs. unfold parse_candidate. rewrite Hv. cbn. now rewrite Hs. Qed.

(** A score the scorer writes as a numeric string is read as its number
    ([ToNumber] in [* 0.4]). *)
Lemma parse_candidate_string_score (v : json) (r : Recipe.t) (ms : list (string * json))
    (s : string) (q : Q) :
  json_get v (Recipe.id r) = PropOwn (JObject ms) ->
  js_obj_get ms "score" = PropOwn (JString s) -> s <> ""%string ->
  string_to_number s = Some q ->
  RecipeCandidate.ai_personalization_score (parse_candidate v r) = q.
Proof.
  intros Hv Hs Hne Hq. unfold parse_candidate. rewrite Hv. cbn. rewrite Hs. cbn.
  destruct (String.eqb_spec s "") as [|_]; [done|]. cbn. now rewrite Hq.
Qed.

(** A response with a JSON object whose [recipe_scores] is an
    object yields one candidate per recipe of the working set, in order:
    partial scorer output never fails the selection. *)
Theorem parseAIScoringResponse_total (json_parse : string -> string + json)
    (aiResponse txt : string) (recipes : list Recipe.t) (ms scores : list (string * json)) :
  extract_json aiResponse = Some txt ->
  json_parse txt = inr (JObject ms) ->
  js_obj_get ms "recipe_scores" = PropOwn (JObject scores) ->
  exists cs, parseAIScoringResponse json_parse aiResponse recipes = inr cs /\
    map RecipeCandidate.recipe cs = recipes.
Proof.
  intros He Hp Hs. unfold parseAIScoringResponse. rewrite He, Hp. cbn. rewrite Hs.
  eexists. split; [reflexivity|].
  rewrite map_map. unfold parse_candidate.
  erewrite map_ext; [apply map_id|]. intros r. cbn.
  now destruct (negb _).
Qed.

(** ** The diverse subset *)

Lemma diverse_loop_shape (cs : list RecipeCandidate.t) (st : DState) :
  (length (selected st) <= targetCount)%nat ->
  exists l, selected (diverse_loop st cs) = selected st ++ l /\ l `sublist_of` cs /\
    (length (selected (diverse_loop st cs)) <= targetCount)%nat.
Proof.
  revert st. induction cs as [|c cs IH]; intros st Hlen; cbn [diverse_loop].
  - exists []. rewrite app_nil_r. split_and!; [done | constructor | done].
  - destruct (targetCount <=? length (selected st))%nat eqn:Hb.
    + exists []. rewrite app_nil_r. split_and!; [done | apply sublist_nil_l | done].
    + apply Nat.leb_gt in Hb.
      destruct (skipForDiversity _ _ && _).
      * destruct (IH st Hlen) as (l & Hl & Hs & Hn). exists l.
        split_and!; [done | by apply sublist_cons | done].
      * destruct (IH (accept st c)) as (l & Hl & Hs & Hn);
          [simpl; rewrite length_app; simpl; lia|].
        exists (c :: l).
        split_and!; [rewrite Hl; cbn [selected accept]; now rewrite <- app_assoc
                    | by apply sublist_skip | exact Hn].
Qed.

Lemma diverse_loop_prefix16 (cs : list RecipeCandidate.t) (st : DState) :
  (length (selected st) <= 16)%nat ->
  (selected st ++ take (16 - length (selected st)) cs) `prefix_of` selected (diverse_loop st cs).
Proof.
  revert st. induction cs as [|c cs IH]; intros st Hlen.
  - rewrite take_nil, app_nil_r. simpl. done.
  - destruct (decide (length (selected st) = 16%nat)) as [E|E].
    + rewrite E, Nat.sub_diag, take_0, app_nil_r.
      destruct (diverse_loop_shape (c :: cs) st) as (l & -> & _); [unfold targetCount; lia|].
      by exists l.
    + cbn [diverse_loop]. replace (targetCount <=? length (selected st))%nat with false
        by (symmetry; apply Nat.leb_gt; unfold targetCount; lia).
      replace (15 <? length (selected st))%nat with false
        by (symmetry; apply Nat.ltb_ge; lia).
      rewrite andb_false_r.
      replace (16 - length (selected st))%nat with (S (16 - length (selected (accept st c))))
        by (simpl; rewrite length_app; simpl; lia).
      simpl take. specialize (IH (accept st c)).
      simpl in IH. rewrite length_app in IH. simpl in IH. rewrite <- app_assoc in IH.
      rewrite length_app. apply IH. lia.
Qed.

(** The diverse subset is a sublist of the ranked candidates (their
    order kept) of at most [targetCount] (30) candidates. *)
Theorem selectDiverseSet_sublist (cs : list RecipeCandidate.t) :
  selectDiverseSet cs `sublist_of` cs /\ (length (selectDiverseSet cs) <= targetCount)%nat.
Proof.
  destruct (diverse_loop_shape cs (mkDState [] ∅ ∅ ∅)) as (l & Hl & Hs & Hn);
    [simpl; lia|].
  unfold selectDiverseSet. rewrite Hl in Hn |- *. split; [exact Hs | exact Hn].
Qed.

(** C12: The first sixteen ranked candidates are always selected, whatever
    their cuisines and meal types: the caps apply only once more than 15
    are selected ([selected.length > 15]), the reverse of the
    specification's relaxation after half the target. *)
Theorem selectDiverseSet_first16 (cs : list RecipeCandidate.t) :
  take 16 cs `prefix_of` selectDiverseSet cs.
Proof.
  pose proof (diverse_loop_prefix16 cs (mkDState [] ∅ ∅ ∅)) as H.
  simpl in H. apply H. lia.
Qed.

(** *** The cuisine counter *)

Definition has_cuisine (c : string) (x : RecipeCandidate.t) : bool :=
  bool_decide (cuisine_key (RecipeCandidate.recipe x) = Some c).

Definition cuisine_count (c : string) (l : list RecipeCandidate.t) : nat :=
  length (List.filter (has_cuisine c) l).

Lemma cuisineLimit_eq : cuisineLimit = 6%nat.
Proof. reflexivity. Qed.

Lemma mealTypeLimit_eq : mealTypeLimit = 10%nat.
Proof. reflexivity. Qed.

(** A key that [Object.prototype] does not provide. *)
Definition own_key (k : string) : bool := negb (existsb (String.eqb k) object_prototype_keys).

Lemma own_key_not_proto (k : string) : own_key k = true -> String.eqb k "__proto__" = false.
Proof.
  unfold own_key. intros H. apply negb_true_iff in H.
  destruct (String.eqb k "__proto__") eqn:E; [|done].
  apply String.eqb_eq in E. subst. discriminate.
Qed.

Lemma count_read_empty (k : string) : own_key k = true -> count_read ∅ k = RNum 0.
Proof.
  unfold own_key, count_read. rewrite lookup_empty.
  now destruct (existsb _ _).
Qed.

Lemma count_incr_same (m : gmap string CountVal) (k : string) (n : nat) :
  own_key k = true -> count_read m k = RNum n -> count_read (count_incr m k) k = RNum (S n).
Proof.
  intros Hk Hr. unfold count_incr. rewrite own_key_not_proto, Hr by exact Hk.
  unfold count_read. now rewrite lookup_insert_eq.
Qed.

Lemma count_incr_other (m : gmap string CountVal) (k c : string) :
  k <> c -> count_read (count_incr m k) c = count_read m c.
Proof.
  intros Hne. unfold count_incr. destruct (String.eqb k "__proto__"); [done|].
  unfold count_read. now rewrite lookup_insert_ne.
Qed.

Lemma cuisine_count_snoc (c : string) (l : list RecipeCandidate.t) (x : RecipeCandidate.t) :
  cuisine_count c (l ++ [x]) = (cuisine_count c l + if has_cuisine c x then 1 else 0)%nat.
Proof.
  unfold cuisine_count. rewrite List.filter_app, length_app. simpl.
  now destruct (has_cuisine c x).
Qed.

(** The counter of an own key counts the selected candidates of that
    cuisine. *)
Definition counts_ok (c : string) (st : DState) : Prop :=
  count_read (cuisineCount st) c = RNum (cuisine_count c (selected st)).

Lemma accept_counts_ok (c : string) (st : DState) (x : RecipeCandidate.t) :
  own_key c = true -> counts_ok c st -> counts_ok c (accept st x).
Proof.
  unfold counts_ok, has_cuisine. intros Hk Hc. cbn [accept selected cuisineCount].
  rewrite cuisine_count_snoc. unfold has_cuisine.
  destruct (cuisine_key (RecipeCandidate.recipe x)) as [k|] eqn:E.
  - destruct (decide (k = c)) as [->|Hne].
    + rewrite bool_decide_true by done. rewrite Nat.add_1_r. now apply count_incr_same.
    + rewrite bool_decide_false by congruence. rewrite Nat.add_0_r, count_incr_other; done.
  - rewrite bool_decide_false by done. now rewrite Nat.add_0_r.
Qed.

(** Every cuisine's count is at most the cap or its count among the
    first sixteen selected. *)
Definition cap_ok (c : string) (l : list RecipeCandidate.t) : Prop :=
  (cuisine_count c l <= Nat.max cuisineLimit (cuisine_count c (take 16 l)))%nat.

Lemma skip_false_cuisine (c : string) (st : DState) (x : RecipeCandidate.t) :
  counts_ok c st -> has_cuisine c x = true ->
  skipForDiversity st (RecipeCandidate.recipe x) = false ->
  (cuisine_count c (selected st) < cuisineLimit)%nat.
Proof.
  unfold counts_ok, has_cuisine, skipForDiversity. intros Hc Hx Hs.
  apply bool_decide_eq_true in Hx. rewrite Hx, Hc in Hs.
  apply orb_false_iff in Hs as [Hs _]. cbn [ge_limit] in Hs. apply Nat.leb_gt in Hs. exact Hs.
Qed.

Lemma accept_cap_ok (c : string) (st : DState) (x : RecipeCandidate.t) :
  counts_ok c st -> cap_ok c (selected st) ->
  ((length (selected st) <= 15)%nat \/ skipForDiversity st (RecipeCandidate.recipe x) = false) ->
  cap_ok c (selected (accept st x)).
Proof.
  unfold cap_ok. intros Hc Hq Hg. cbn [accept selected].
  destruct (decide (length (selected st) <= 15)%nat) as [Hl|Hl].
  - rewrite take_ge by (rewrite length_app; simpl; lia). lia.
  - destruct Hg as [Hg|Hg]; [lia|].
    rewrite take_app_le by lia. rewrite cuisine_count_snoc.
    destruct (has_cuisine c x) eqn:Hx; [|lia].
    pose proof (skip_false_cuisine c st x Hc Hx Hg). lia.
Qed.

Lemma diverse_loop_cap (c : string) (cs : list RecipeCandidate.t) (st : DState) :
  own_key c = true -> counts_ok c st -> cap_ok c (selected st) ->
  cap_ok c (selected (diverse_loop st cs)).
Proof.
  intros Hk. revert st. induction cs as [|x cs IH]; intros st Hc Hq; cbn [diverse_loop]; [done|].
  destruct (targetCount <=? length (selected st))%nat; [done|].
  destruct (skipForDiversity st (RecipeCandidate.recipe x)) eqn:Hs;
    destruct (15 <? length (selected st))%nat eqn:Hl; simpl;
    try (apply IH; [apply accept_counts_ok; done | apply accept_cap_ok; auto]);
    try (apply IH; done).
  left. apply Nat.ltb_ge in Hl. lia.
Qed.

(** C29: Past the first sixteen picks no cuisine grows beyond the cap
    [ceil(30 / 5)] = 6: a cuisine's count in the subset is at most the cap
    or its count among the first sixteen, so at most 16.  The cuisine must
    be a key [Object.prototype] does not provide: the counter of a
    cuisine named [constructor] starts at an inherited function and never
    compares as reaching the cap. *)
Theorem selectDiverseSet_cuisine_cap (cs : list RecipeCandidate.t) (c : string) :
  own_key c = true ->
  (cuisine_count c (selectDiverseSet cs) <=
     Nat.max cuisineLimit (cuisine_count c (take 16 (selectDiverseSet cs))))%nat /\
  (cuisine_count c (selectDiverseSet cs) <= 16)%nat.
Proof.
  intros Hk.
  assert (H : cap_ok c (selectDiverseSet cs))
    by (apply diverse_loop_cap; [done | now apply count_read_empty | apply Nat.le_0_l]).
  split; [exact H|].
  unfold cap_ok in H.
  assert (cuisine_count c (take 16 (selectDiverseSet cs)) <= 16)%nat.
  { unfold cuisine_count. etransitivity; [apply List.filter_length_le|].
    rewrite length_take. lia. }
  rewrite cuisineLimit_eq in H. lia.
Qed.


(** ** Ranking *)

Lemma Forall_sublist' {A} (P : A -> Prop) (l k : list A) :
  k `sublist_of` l -> Forall P l -> Forall P k.
Proof.
  intros Hs H. apply Forall_forall. intros x Hx.
  rewrite Forall_forall in H. apply H. eapply elem_of_sublist; eassumption.
Qed.

Lemma StronglySorted_sublist {A} (R : A -> A -> Prop) (l k : list A) :
  k `sublist_of` l -> StronglySorted R l -> StronglySorted R k.
Proof.
  induction 1 as [|x l k Hs IH|x l k Hs IH]; intros H; [constructor| |].
  - inversion H; subst. constructor; [auto|]. eapply Forall_sublist'; eassumption.
  - inversion H; subst. auto.
Qed.

(** [b] does not outscore [a]. *)
Definition score_ge (a b : RecipeCandidate.t) : Prop :=
  RecipeCandidate.final_score b <= RecipeCandidate.final_score a.

Lemma score_before_asym (x y : RecipeCandidate.t) :
  score_before x y = true -> score_before y x = false.
Proof.
  unfold score_before. intros H. apply Qlt_bool_iff in H.
  destruct (Qlt_bool _ _) eqn:E; [|done]. apply Qlt_bool_iff in E. lra.
Qed.

Lemma sort_by_score_sorted (l : list RecipeCandidate.t) :
  StronglySorted score_ge (sort_by score_before l).
Proof.
  apply Sorted_StronglySorted.
  - intros x y z Hxy Hyz. unfold score_ge in *. lra.
  - eapply Sorted_weaken; [|apply sort_by_sorted, score_before_asym].
    intros x y H. unfold may_follow, score_before, score_ge in *.
    destruct (Qlt_bool_iff (RecipeCandidate.final_score x) (RecipeCandidate.final_score y)).
    apply Qnot_lt_le. intros Hl. rewrite (H1 Hl) in H. discriminate.
Qed.

Lemma calculateFinalScore_set (c : RecipeCandidate.t) (q : Q) crit bp :
  calculateFinalScore (set_final_score c q) crit bp = calculateFinalScore c crit bp.
Proof. reflexivity. Qed.

(** The candidates [rankAndSelectFinalCandidates] returns are in
    non-increasing order of final score, each carrying the final score
    [calculateFinalScore] gives its own data, within [0, 100]. *)
Theorem rankAndSelect_sorted (scored : list RecipeCandidate.t) (bp : UserBlueprint.t)
    (intake : UserIntake.t) (prefs : GenerationPreferences.t) :
  let out := rankAndSelectFinalCandidates scored bp intake prefs in
  Sorted score_ge out /\
  Forall (fun c => RecipeCandidate.final_score c =
                   calculateFinalScore c (buildScoringCriteria bp intake prefs) bp) out /\
  Forall (fun c => 0 <= RecipeCandidate.final_score c <= 100) out.
Proof.
  cbv zeta. unfold rankAndSelectFinalCandidates.
  set (l := sort_by _ _).
  destruct (selectDiverseSet_sublist l) as [Hs _].
  assert (Hall : Forall (fun c => RecipeCandidate.final_score c =
             calculateFinalScore c (buildScoringCriteria bp intake prefs) bp) l).
  { apply Forall_forall. intros x Hx. unfold l in Hx.
    rewrite (sort_by_perm _ _) in Hx. apply list_elem_of_In, in_map_iff in Hx as (c & <- & _).
    reflexivity. }
  split_and!.
  - apply StronglySorted_Sorted. eapply StronglySorted_sublist; [exact Hs|].
    apply sort_by_score_sorted.
  - eapply Forall_sublist'; eassumption.
  - eapply Forall_sublist'; [exact Hs|]. eapply Forall_impl; [exact Hall|].
    intros c ->. apply calculateFinalScore_bounds.
Qed.

(** ** What the query guarantees *)

(** The hard constraints of the specification, for a filter [f]. *)
Definition hard_constraints (f : RecipeFilter.t) (r : Recipe.t) : Prop :=
  Recipe.status r = Published /\
  Forall (fun d => has_tag r d = true) (RecipeFilter.dietary_restrictions f) /\
  Forall (fun a => has_tag r a = false /\
                   ilike_contains (ingredients_text r) ("%" ++ a ++ "%") = false)
    (RecipeFilter.allergen_exclusions f) /\
  (RecipeFilter.include_premium f = false -> Recipe.is_premium r = false) /\
  (forall t, RecipeFilter.max_prep_time f = Some t -> ~ t == 0 ->
     exists p, Recipe.prep_time_minutes r = Some p /\ p <= t).

Lemma forallb_flat_map_true {A B} (p : B -> bool) (g : A -> list B) (l : list A) :
  forallb p (flat_map g l) = true <-> Forall (fun a => forallb p (g a) = true) l.
Proof.
  induction l as [|a l IH]; simpl; [split; auto|].
  rewrite forallb_app, andb_true_iff, IH. split; [intros [? ?]; auto | inversion 1; auto].
Qed.

Lemma filter_conditions_sound (f : RecipeFilter.t) (r : Recipe.t) :
  forallb (cond_holds r) (filter_conditions f) = true -> hard_constraints f r.
Proof.
  unfold filter_conditions, hard_constraints.
  rewrite !forallb_app, !andb_true_iff.
  intros (Hs & Hd & Ha & Hp & _ & Hpr & _). simpl in Hs.
  rewrite andb_true_r in Hs. apply bool_decide_eq_true in Hs.
  split_and!; [exact Hs | | | |].
  - destruct (RecipeFilter.dietary_restrictions f) as [|d ds]; [constructor|].
    simpl in Hd. rewrite andb_true_r in Hd. apply Forall_forall. intros x Hx.
    apply (proj1 (List.forallb_forall (has_tag r) (d :: ds)) Hd). by apply list_elem_of_In.
  - apply forallb_flat_map_true in Ha. eapply Forall_impl; [exact Ha|].
    intros a H. cbn [forallb cond_holds] in H. rewrite andb_true_r in H.
    apply andb_prop in H as [H1 H2]. apply negb_true_iff in H1, H2. split; assumption.
  - intros Hi. rewrite Hi in Hpr. simpl in Hpr. now rewrite andb_true_r, negb_true_iff in Hpr.
  - intros t Ht Hz. rewrite Ht in Hp.
    revert Hp. destruct (Qeq_bool t 0) eqn:E; [apply Qeq_bool_eq in E; contradiction|].
    simpl. rewrite andb_true_r.
    destruct (Recipe.prep_time_minutes r) as [q|]; [|discriminate].
    intros Hq. exists q. split; [done|]. now apply Qle_bool_iff.
Qed.

(** Every recipe the SQL step returns is a published row of the
    table that satisfies the hard constraints of the filter (diet tags,
    no allergen or dislike in its tags or ingredient names, premium only
    with access, the preparation-time cap), and there are at most 50. *)
Theorem performSQLFiltering_sound (tbl : RecipeTable) (f : RecipeFilter.t)
    (rows : list Recipe.t) :
  performSQLFiltering tbl f = inr rows ->
  (length rows <= 50)%nat /\
  Forall (fun r => r ∈ recipe_rows tbl /\ hard_constraints f r) rows.
Proof.
  unfold performSQLFiltering, run_query.
  destruct (query_error tbl); [discriminate|].
  destruct (first_error _); [discriminate|]. intros [= <-].
  rewrite length_take. split; [lia|].
  apply Forall_forall. intros r Hr.
  apply elem_of_take in Hr as (i & Hi & _). apply list_elem_of_lookup_2 in Hi.
  rewrite (sort_by_perm _ _) in Hi. apply list_elem_of_filter in Hi as [Hc Hin].
  split; [exact Hin|]. apply filter_conditions_sound. now apply Is_true_eq_true.
Qed.

(** *** The excluded ids *)

Fixpoint char_free (c : ascii) (s : string) : bool :=
  match s with
  | EmptyString => true
  | String a s' => negb (Ascii.eqb a c) && char_free c s'
  end.

Lemma drop_last_snoc (x : string) (a : ascii) : drop_last (x ++ String a EmptyString) = x.
Proof.
  induction x as [|b x IH]; [reflexivity|]. simpl.
  destruct x as [|b' x]; [reflexivity|]. simpl in *. now rewrite IH.
Qed.

Lemma split_on_free (c : ascii) (x : string) : char_free c x = true -> split_on c x = [x].
Proof.
  induction x as [|a x IH]; [reflexivity|]. simpl.
  intros [Ha Hx]%andb_prop. apply negb_true_iff in Ha. rewrite Ha, IH by exact Hx. reflexivity.
Qed.

Lemma split_on_app (c : ascii) (x y : string) :
  char_free c x = true -> split_on c (x ++ String c y) = x :: split_on c y.
Proof.
  induction x as [|a x IH]; simpl.
  - now rewrite Ascii.eqb_refl.
  - intros [Ha Hx]%andb_prop. apply negb_true_iff in Ha. rewrite Ha, IH by exact Hx. reflexivity.
Qed.

Lemma split_on_concat (c : ascii) (l : list string) :
  l <> [] -> Forall (fun s => char_free c s = true) l ->
  split_on c (String.concat (String c EmptyString) l) = l.
Proof.
  induction l as [|x [|y l] IH]; intros Hne Hf; [done| |].
  - inversion Hf. simpl. now apply split_on_free.
  - inversion Hf; subst. cbn [String.concat].
    change (String c EmptyString ++ ?r)%string with (String c r).
    rewrite split_on_app by done. f_equal. apply IH; [done | assumption].
Qed.

Lemma char_free_app (c : ascii) (x y : string) :
  char_free c (x ++ y) = char_free c x && char_free c y.
Proof. induction x as [|a x IH]; simpl; [done|]. now rewrite IH, andb_assoc. Qed.

Lemma char_free_quote_id (id : string) :
  char_free "," id = true -> char_free "," (quote_id id) = true.
Proof. intros H. unfold quote_id. rewrite !char_free_app, H. reflexivity. Qed.

Lemma postgrest_in_list_text (ids : list string) :
  ids <> [] -> Forall (fun id => char_free "," id = true) ids ->
  postgrest_in_values (in_list_text ids) = map quote_id ids.
Proof.
  intros Hne Hf. unfold in_list_text, postgrest_in_values.
  change (String.append (String "(" EmptyString) ?X) with (String "(" X).
  cbn iota beta. rewrite drop_last_snoc. apply split_on_concat.
  - destruct ids; simpl; congruence.
  - apply Forall_map. eapply Forall_impl; [exact Hf|]. apply char_free_quote_id.
Qed.

Lemma first_error_app (l1 l2 : list Cond) :
  first_error (l1 ++ l2) = match first_error l1 with Some e => Some e | None => first_error l2 end.
Proof.
  induction l1 as [|c l1 IH]; [done|]. cbn [app]. unfold first_error in *. cbn [foldr].
  rewrite IH. by destruct (cond_error c).
Qed.

Lemma first_error_allergens (l : list string) :
  first_error (flat_map (fun a => [TagsNotContain a; IngredientsNotIlike ("%" ++ a ++ "%")%string]) l)
  = None.
Proof. induction l as [|a l IH]; [done|]. exact IH. Qed.

(** Of the conditions of a filter, only the excluded ids can fail the
    query. *)
Lemma filter_conditions_first_error (f : RecipeFilter.t) :
  first_error (filter_conditions f) =
  match RecipeFilter.exclude_recipe_ids f with
  | Some ((_ :: _) as ids) => cond_error (IdNotIn (in_list_text ids))
  | _ => None
  end.
Proof.
  unfold filter_conditions. rewrite !first_error_app, first_error_allergens.
  destruct (RecipeFilter.dietary_restrictions f), (RecipeFilter.max_prep_time f) as [t|],
    (RecipeFilter.max_cook_time f) as [t'|], (RecipeFilter.include_premium f);
    try destruct (Qeq_bool t 0); try destruct (Qeq_bool t' 0); cbn;
    destruct (RecipeFilter.exclude_recipe_ids f) as [[|]|]; try reflexivity;
    unfold first_error; cbn [foldr cond_error]; by destruct (List.find _ _).
Qed.

(** PostgreSQL cannot read a quoted id as a [uuid]. *)
Lemma uuid_in_quote_id (id : string) : uuid_in (quote_id id) = None.
Proof. reflexivity. Qed.

(** C14: A request that excludes recipes makes the candidate selection
    fail, whatever the [recipes] table holds: [recipes.id] is a [uuid],
    the code writes each id as ['id'] in the [in] list, PostgREST keeps
    the single quotes in the values, and PostgreSQL cannot read ['id'] as
    a [uuid], so the query answers an error and [selectCandidates]
    reports it (ids without commas, as uuids are). *)
Theorem selectCandidates_exclusion_fails (json_parse : string -> string + json)
    (table : RecipeTable) (reply : ScorerReply) (bp : UserBlueprint.t)
    (prefs : GenerationPreferences.t) (id : string) (ids : list string) :
  UserBlueprint.profile bp <> None -> UserBlueprint.intake bp <> None ->
  GenerationPreferences.exclude_recipes prefs = Some (id :: ids) ->
  Forall (fun i => char_free "," i = true) (id :: ids) ->
  query_error table = None ->
  selectCandidates json_parse table reply bp prefs =
  selection_failure
    ("SQL filtering failed: invalid input syntax for type uuid: " ++ dq ++ quote_id id ++ dq)%string.
Proof.
  intros Hp Hi Hx Hf Hq. unfold selectCandidates, buildRecipeFilter.
  destruct (UserBlueprint.profile bp) as [p|]; [|congruence].
  destruct (UserBlueprint.intake bp) as [intake|]; [|congruence].
  unfold performSQLFiltering, run_query. rewrite Hq, filter_conditions_first_error.
  cbn [RecipeFilter.exclude_recipe_ids]. rewrite Hx. cbv iota beta. cbn [cond_error].
  rewrite postgrest_in_list_text; [| discriminate | exact Hf].
  cbn [map List.find]. rewrite uuid_in_quote_id. reflexivity.
Qed.

(** ** [selectCandidates] *)

Lemma parseAIScoringResponse_recipes (json_parse : string -> string + json) (s : string)
    (recipes : list Recipe.t) (cs : list RecipeCandidate.t) :
  parseAIScoringResponse json_parse s recipes = inr cs -> map RecipeCandidate.recipe cs = recipes.
Proof.
  assert (Hm : forall v, map RecipeCandidate.recipe (map (parse_candidate v) recipes) = recipes).
  { intros v. rewrite map_map. erewrite map_ext; [apply map_id|].
    intros r. unfold parse_candidate. now destruct (negb _). }
  unfold parseAIScoringResponse.
  destruct (extract_json s); [|discriminate].
  destruct (json_parse _) as [|v]; [discriminate|].
  destruct (json_get v "recipe_scores") as [w| |]; [|intros [= <-]; apply Hm|discriminate].
  destruct (json_truthy _); [intros [= <-]; apply Hm | discriminate].
Qed.

Lemma performAIScoring_recipes (json_parse : string -> string + json) (reply : ScorerReply)
    (recipes : list Recipe.t) :
  ScoringResult.success (performAIScoring json_parse reply recipes) = true ->
  exists cs, ScoringResult.scoredCandidates (performAIScoring json_parse reply recipes) = Some cs /\
    map RecipeCandidate.recipe cs = recipes.
Proof.
  unfold performAIScoring. destruct reply as [|st txt|[s|] i o]; try discriminate.
  destruct (parseAIScoringResponse json_parse s recipes) as [e|cs] eqn:E; [discriminate|].
  intros _. exists cs. split; [done|]. eapply parseAIScoringResponse_recipes; exact E.
Qed.

Lemma rankAndSelect_from (scored : list RecipeCandidate.t) bp intake prefs
    (x : RecipeCandidate.t) :
  x ∈ rankAndSelectFinalCandidates scored bp intake prefs ->
  RecipeCandidate.recipe x ∈ map RecipeCandidate.recipe scored.
Proof.
  unfold rankAndSelectFinalCandidates. intros Hx.
  destruct (selectDiverseSet_sublist (sort_by score_before
     (map (fun c => set_final_score c (calculateFinalScore c (buildScoringCriteria bp intake prefs) bp))
        scored))) as [Hs _].
  eapply elem_of_sublist in Hx; [|exact Hs]. rewrite (sort_by_perm _ _) in Hx.
  apply list_elem_of_In, in_map_iff in Hx as (c & <- & Hc).
  apply list_elem_of_In, in_map_iff. exists c. split; [reflexivity | exact Hc].
Qed.

Section SelectFacts.
Variable json_parse : string -> string + json.
Variable table : RecipeTable.
Variable reply : ScorerReply.

(** C8: When [selectCandidates] succeeds, every candidate it returns is
    a row of the recipe table satisfying the hard constraints of the
    blueprint's filter; there are at most 30 of them, in non-increasing
    order of final score. *)
Theorem selectCandidates_sound (bp : UserBlueprint.t) (prefs : GenerationPreferences.t)
    (f : RecipeFilter.t) (out : list RecipeCandidate.t) :
  buildRecipeFilter bp prefs = inr f ->
  SelectionResult.candidates (selectCandidates json_parse table reply bp prefs) = Some out ->
  Forall (fun c => RecipeCandidate.recipe c ∈ recipe_rows table /\
                   hard_constraints f (RecipeCandidate.recipe c)) out /\
  (length out <= targetCount)%nat /\ Sorted score_ge out.
Proof.
  intros Hf. unfold selectCandidates.
  destruct (UserBlueprint.profile bp); [|discriminate].
  rewrite Hf. destruct (UserBlueprint.intake bp) as [intake|]; [|discriminate].
  destruct (performSQLFiltering table f) as [e|[|r rs]] eqn:Hsql; try discriminate.
  destruct (ScoringResult.success _) eqn:Hok; [|discriminate]. cbn. intros [= <-].
  destruct (performAIScoring_recipes json_parse reply (r :: rs) Hok) as (cs & -> & Hcs).
  apply performSQLFiltering_sound in Hsql as [_ Hrows]. cbn [default].
  split_and!.
  - apply Forall_forall. intros x Hx. apply rankAndSelect_from in Hx.
    simpl in Hx. rewrite Hcs in Hx. rewrite Forall_forall in Hrows. now apply Hrows.
  - apply selectDiverseSet_sublist.
  - apply (rankAndSelect_sorted cs bp intake prefs).
Qed.
(** When the scorer fails (network error, HTTP error, unparseable
    answer), the whole selection fails with the scorer's error and one
    counted request, instead of degrading to intrinsic-only scoring as
    the specification requires; an empty SQL result fails with the
    no-eligible-recipes message and no usage. *)
Theorem selectCandidates_failures (bp : UserBlueprint.t) (prefs : GenerationPreferences.t)
    (f : RecipeFilter.t) (p : UserProfile.t) (rows : list Recipe.t) :
  UserBlueprint.profile bp = Some p ->
  buildRecipeFilter bp prefs = inr f ->
  performSQLFiltering table f = inr rows ->
  let res := selectCandidates json_parse table reply bp prefs in
  (rows = [] -> res = selection_failure
                 "No recipes found matching dietary restrictions and constraints") /\
  (rows <> [] -> ScoringResult.success (performAIScoring json_parse reply rows) = false ->
   SelectionResult.success res = false /\
   SelectionResult.error res = ScoringResult.error (performAIScoring json_parse reply rows) /\
   Usage.claude_requests (SelectionResult.usage res) = Some 1).
Proof.
  intros Hp Hf Hsql. cbv zeta. unfold selectCandidates. rewrite Hp, Hf.
  assert (Hi : exists i, UserBlueprint.intake bp = Some i).
  { unfold buildRecipeFilter in Hf. destruct (UserBlueprint.intake bp) as [i|]; [eauto|discriminate]. }
  destruct Hi as [i ->]. rewrite Hsql.
  split; [intros ->; reflexivity|]. intros Hne Hok.
  destruct rows as [|r rs]; [contradiction|]. rewrite Hok. split_and!; reflexivity.
Qed.
End SelectFacts.

(** ** A selection *)

Module SelSample.
Definition mkr (id : string) (cuisine : string) (tags : list string) (premium : bool)
    (prep : Q) (rating : Q) (ings : list string) : Recipe.t :=
  Recipe.mk id id (map (fun n => Ingredient.mk n 1 "cup") ings) None (Some prep) None 2 None
    tags (Some cuisine) [Dinner] Published premium rating 10.
Definition bowl := mkr "r-bowl" "thai" ["vegan"] false 20 (9 # 2) ["Rice"; "Tofu"].
Definition satay := mkr "r-satay" "thai" ["vegan"] false 25 5 ["Tofu"; "Peanut sauce"].
Definition steak := mkr "r-steak" "american" [] false 30 5 ["Beef"].
Definition truffle := mkr "r-truffle" "italian" ["vegan"] true 15 5 ["Pasta"].
Definition slow := mkr "r-slow" "indian" ["vegan"] false 90 4 ["Lentils"].
Definition table : RecipeTable := mkRecipeTable [bowl; satay; steak; truffle; slow] None.
Definition intake : UserIntake.t :=
  UserIntake.mk "i1" (Some "vegan") ["peanut"] [] [] None (Some 45) None None None None.
Definition profile : UserProfile.t := UserProfile.mk "u1" None None None None 0.
Definition bp : UserBlueprint.t :=
  UserBlueprint.mk (Some profile) (Some intake) None (SubscriptionPlan.mk 4 false false)
    None (Some [RecentRating.mk "r-bowl" "love" "2024-01-10T00:00:00.000Z"]) None.
(** The request's preferences after zod's default ([exclude_recipes: []]). *)
Definition prefs : GenerationPreferences.t := GenerationPreferences.mk None None None (Some []).
(** A request that excludes one recipe. *)
Definition excluded_id : string := "3f2b9c4e-1d2a-4b8e-9f00-0a1b2c3d4e5f".
Definition prefs_excluding : GenerationPreferences.t :=
  GenerationPreferences.mk None None None (Some [excluded_id]).
(** The scorer's JSON text, abbreviated: [json_parse] below is the
    sample's parser. *)
Definition scores_text : string := "{recipe_scores: {r-bowl: {score: 80}}}".
Definition scores_json : json :=
  JObject [("recipe_scores", JObject [("r-bowl", JObject [("score", JNumber 80)])])].
Definition json_parse (s : string) : string + json :=
  if String.eqb s scores_text then inr scores_json else inl "Unexpected token".
Definition reply : ScorerReply := HttpOk (Some ("Scores: " ++ scores_text)%string) (Some 1000) (Some 200).
Definition down : ScorerReply := HttpError "529" "Overloaded".
Definition filter : RecipeFilter.t :=
  match buildRecipeFilter bp prefs with
  | inr f => f
  | inl _ => RecipeFilter.mk [] [] None None None None false None true
  end.
Definition cand (cuisine : string) : RecipeCandidate.t :=
  RecipeCandidate.mk (Recipe.mk "c" "c" [] None None None 1 None [] (Some cuisine) []
                        Published false 4 1) 80 80 60 [] [].
End SelSample.

(** With the first sixteen of the same cuisine, that cuisine fills
    sixteen places, far past its cap of six. *)
Example first16_one_cuisine :
  cuisine_count "italian" (selectDiverseSet (repeat (SelSample.cand "italian") 20)) = 16%nat.
Proof. vm_compute. reflexivity. Qed.

(** A cuisine named [constructor] is never capped: thirty are selected. *)
Example constructor_cuisine_uncapped :
  cuisine_count "constructor" (selectDiverseSet (repeat (SelSample.cand "constructor") 40)) = 30%nat.
Proof. vm_compute. reflexivity. Qed.

Lemma parse_candidate_missing_witness :
  (json_truthy (json_get SelSample.scores_json (Recipe.id SelSample.steak)) = false /\
   getRecentFavoriteBonus SelSample.steak SelSample.bp = 1 /\
   getSwapPenalty SelSample.steak SelSample.bp = 1 /\ Recipe.is_premium SelSample.steak = false) /\
  RecipeCandidate.base_score (parse_candidate SelSample.scores_json SelSample.steak) = 50 /\
  RecipeCandidate.ai_personalization_score (parse_candidate SelSample.scores_json SelSample.steak) = 50 /\
  RecipeCandidate.penalty_reasons (parse_candidate SelSample.scores_json SelSample.steak) =
    ["No AI score available"%string] /\
  calculateFinalScore (parse_candidate SelSample.scores_json SelSample.steak)
    (ScoringCriteria.mk 0 0 0 0 0 1 0 0) SelSample.bp == 35.
Proof.
  split; [split_and!; reflexivity|].
  apply parse_candidate_missing; reflexivity.
Defined.

Lemma parse_candidate_zero_score_witness :
  RecipeCandidate.ai_personalization_score
    (parse_candidate (JObject [("r-bowl", JObject [("score", JNumber 0)])]) SelSample.bowl) = 50.
Proof. apply (parse_candidate_zero_score _ _ [("score", JNumber 0)]); reflexivity. Defined.

Lemma parseAIScoringResponse_total_witness :
  exists cs, parseAIScoringResponse SelSample.json_parse ("Scores: " ++ SelSample.scores_text)
               [SelSample.bowl; SelSample.steak] = inr cs /\
    map RecipeCandidate.recipe cs = [SelSample.bowl; SelSample.steak].
Proof.
  apply (parseAIScoringResponse_total _ _ SelSample.scores_text _
           [("recipe_scores", JObject [("r-bowl", JObject [("score", JNumber 80)])])]
           [("r-bowl", JObject [("score", JNumber 80)])]); reflexivity.
Defined.

Lemma selectDiverseSet_cuisine_cap_witness :
  own_key "italian" = true /\
  (cuisine_count "italian" (selectDiverseSet (repeat (SelSample.cand "italian") 20)) <=
     Nat.max cuisineLimit (cuisine_count "italian"
       (take 16 (selectDiverseSet (repeat (SelSample.cand "italian") 20)))))%nat /\
  (cuisine_count "italian" (selectDiverseSet (repeat (SelSample.cand "italian") 20)) <= 16)%nat.
Proof. split; [reflexivity|]. apply selectDiverseSet_cuisine_cap. reflexivity. Defined.

Lemma performSQLFiltering_sound_witness :
  exists f rows, buildRecipeFilter SelSample.bp SelSample.prefs = inr f /\
    performSQLFiltering SelSample.table f = inr rows /\
    (length rows <= 50)%nat /\
    Forall (fun r => r ∈ recipe_rows SelSample.table /\ hard_constraints f r) rows.
Proof.
  exists SelSample.filter, [SelSample.bowl].
  split; [vm_compute; reflexivity|]. split; [vm_compute; reflexivity|].
  apply performSQLFiltering_sound. vm_compute. reflexivity.
Defined.

Lemma selectCandidates_exclusion_fails_witness :
  selectCandidates SelSample.json_parse SelSample.table SelSample.reply SelSample.bp
    SelSample.prefs_excluding =
  selection_failure
    ("SQL filtering failed: invalid input syntax for type uuid: " ++ dq ++
     quote_id SelSample.excluded_id ++ dq)%string.
Proof.
  apply (selectCandidates_exclusion_fails SelSample.json_parse SelSample.table SelSample.reply
           SelSample.bp SelSample.prefs_excluding SelSample.excluded_id []);
    [discriminate | discriminate | reflexivity | apply List.Forall_cons; [reflexivity | constructor]
    | reflexivity].
Defined.

Lemma selectCandidates_sound_witness :
  exists f out, buildRecipeFilter SelSample.bp SelSample.prefs = inr f /\
    SelectionResult.candidates (selectCandidates SelSample.json_parse SelSample.table
                                  SelSample.reply SelSample.bp SelSample.prefs) = Some out /\
    Forall (fun c => RecipeCandidate.recipe c ∈ recipe_rows SelSample.table /\
                     hard_constraints f (RecipeCandidate.recipe c)) out /\
    (length out <= targetCount)%nat /\ Sorted score_ge out.
Proof.
  exists SelSample.filter,
    (default [] (SelectionResult.candidates (selectCandidates SelSample.json_parse
       SelSample.table SelSample.reply SelSample.bp SelSample.prefs))).
  split; [vm_compute; reflexivity|]. split; [vm_compute; reflexivity|].
  apply (selectCandidates_sound SelSample.json_parse SelSample.table SelSample.reply
           SelSample.bp SelSample.prefs); vm_compute; reflexivity.
Defined.

Lemma selectCandidates_failures_witness :
  exists f rows, UserBlueprint.profile SelSample.bp = Some SelSample.profile /\
    buildRecipeFilter SelSample.bp SelSample.prefs = inr f /\
    performSQLFiltering SelSample.table f = inr rows /\
    let res := selectCandidates SelSample.json_parse SelSample.table SelSample.down
                 SelSample.bp SelSample.prefs in
    (rows = [] -> res = selection_failure
                   "No recipes found matching dietary restrictions and constraints") /\
    (rows <> [] -> ScoringResult.success (performAIScoring SelSample.json_parse SelSample.down rows) = false ->
     SelectionResult.success res = false /\
     SelectionResult.error res = ScoringResult.error (performAIScoring SelSample.json_parse SelSample.down rows) /\
     Usage.claude_requests (SelectionResult.usage res) = Some 1).
Proof.
  exists SelSample.filter, [SelSample.bowl].
  split; [reflexivity|]. split; [vm_compute; reflexivity|]. split; [vm_compute; reflexivity|].
  apply (selectCandidates_failures SelSample.json_parse SelSample.table SelSample.down
           SelSample.bp SelSample.prefs SelSample.filter SelSample.profile);
    [reflexivity | vm_compute; reflexivity | vm_compute; reflexivity].
Defined.
