(* ===== verification/NutritionCouncil.v ===== *)
(** * The nutrition council, [NutritionCouncil] of [src/agents/nutrition-council.ts]

    [validateAndRefine] asks the assembly service for a week plan
    ([assembleMealPlan], [parseMealPlanResponse]), then runs a loop of at
    most three attempts: the council's own nutrition check
    ([validateNutrition], [calculatePlanNutrition],
    [calculateRecipeNutritionFromUSDA]), and when it passes a coherence
    review ([validateCoherence], [parseCoherenceResponse]).  The repair
    steps [improvePlanCoherence] and [fixNutritionalIssues] are stubs that
    always fail, so every attempt checks the same plan.

    The council's helpers are in [Module Council]: they have the names of
    the validator's, with different bodies (two minor-ingredient lists,
    two unit tables, integer-rounded totals).  The services' answers are
    [ScorerReply] values; [JSON.parse] is an input. *)

From S2P Require Import Prelude Js Types CandidateSelector.

Open Scope Q_scope.
Open Scope mw_scope.

Module Council.

(** Four totals, as the council's objects [{calories, protein, fat,
    carbohydrates}]. *)
Record Totals := mkTotals { calories : Q; protein : Q; fat : Q; carbohydrates : Q }.

(** The four deviations, [NaN] and infinities included. *)
Record Deviations := mkDev {
  calories_deviation : jsnum; protein_deviation : jsnum;
  fat_deviation : jsnum; carbohydrates_deviation : jsnum }.

(** [NutritionValidationResult], [src/types/recipe.ts] lines 206-227
    (the fields the council reads). *)
Record NutritionValidationResult := mkNVR {
  is_valid : bool;
  target_deviations : Deviations;
  missing_nutrition_data : list string;
  suggestions : list string }.

(** [isReliableNutrition], lines 672-674. *)
Definition isReliableNutrition (n : option NutritionInfo.t) : bool :=
  match n with
  | Some n => Qlt_bool 0 (NutritionInfo.calories n) && Qle_bool 0 (NutritionInfo.protein n)
  | None => false
  end.

(** [isMinorIngredient], lines 676-679. *)
Definition minorIngredients : list string :=
  ["salt"; "pepper"; "oil"; "water"; "vanilla"; "baking powder"; "garlic powder"]%string.

Definition isMinorIngredient (name : string) : bool :=
  existsb (fun minor => str_includes (to_lower name) minor) minorIngredients.

(** [convertToStandardAmount], lines 681-698: [None] is [NaN] (a unit
    naming an inherited member of [Object.prototype]). *)
Definition conversions : list (string * Q) :=
  [("g", 1); ("gram", 1); ("grams", 1); ("kg", 1000); ("oz", 2835 # 100);
   ("pound", 45359 # 100); ("lb", 45359 # 100); ("cup", 240); ("tbsp", 15); ("tsp", 5)]%string.

Definition convertToStandardAmount (amount : Q) (unit : string) : option Q :=
  match js_obj_get conversions (to_lower unit) with
  | PropOwn f => Some (amount * f)
  | PropInherited => None
  | PropUndefined => Some (amount * 100)
  end.

(** [calculateCost], lines 743-747: the council's own copy. *)
Definition calculateCost (inputTokens outputTokens : Q) : Q :=
  math_round ((inputTokens / 1000 * (3 # 1000) + outputTokens / 1000 * (15 # 1000)) * 100).

Section WithDb.
Variable db : Db.

(** [lookupUSDANutrition], lines 422-438: the first row the procedure
    answers, [null] on an error or no row. *)
Definition lookupUSDANutrition (ingredientName : string) : option USDANutritionData.t :=
  search_nutrition_data db ingredientName.

(** One ingredient's share in [calculateRecipeNutritionFromUSDA], lines
    389-404. *)
Definition ingredient_totals (ing : Ingredient.t) : Totals :=
  match lookupUSDANutrition (Ingredient.name ing) with
  | None => mkTotals 0 0 0 0
  | Some u =>
      match convertToStandardAmount (Ingredient.amount ing) (Ingredient.unit ing) with
      | Some a => if Qlt_bool 0 a then
          let m := a / 100 in
          mkTotals ((USDANutritionData.calories u ||? 0) * m) ((USDANutritionData.protein u ||? 0) * m)
                   ((USDANutritionData.fat u ||? 0) * m) ((USDANutritionData.carbohydrates u ||? 0) * m)
        else mkTotals 0 0 0 0
      | None => mkTotals 0 0 0 0
      end
  end.

Definition add_totals (a b : Totals) : Totals :=
  mkTotals (calories a + calories b) (protein a + protein b) (fat a + fat b)
    (carbohydrates a + carbohydrates b).

(** [calculateRecipeNutritionFromUSDA], lines 375-418. *)
Definition calculateRecipeNutritionFromUSDA (r : Recipe.t) : Totals :=
  let main := filter (fun ing => Qlt_bool 0 (Ingredient.amount ing) &&
                                 negb (isMinorIngredient (Ingredient.name ing)))
                (Recipe.ingredients r) in
  let t := fold_left (fun acc ing => add_totals acc (ingredient_totals ing)) main (mkTotals 0 0 0 0) in
  mkTotals (math_round (calories t)) (round1 (protein t)) (round1 (fat t)) (round1 (carbohydrates t)).

(** The share of one meal slot in [calculatePlanNutrition], lines
    325-357: nothing when the recipe cannot be fetched. *)
Definition meal_totals (meal : MealSlot.t) : Totals :=
  match recipe_by_id db (MealSlot.recipe_id meal) with
  | None => mkTotals 0 0 0 0
  | Some r =>
      let n := match Recipe.nutrition_info r with
               | Some ni => if isReliableNutrition (Some ni)
                            then mkTotals (NutritionInfo.calories ni) (NutritionInfo.protein ni)
                                   (NutritionInfo.fat ni) (NutritionInfo.carbohydrates ni)
                            else calculateRecipeNutritionFromUSDA r
               | None => calculateRecipeNutritionFromUSDA r
               end in
      let m := (MealSlot.servings meal ||? 1) / (Recipe.servings r ||Q 1) in
      mkTotals ((calories n ||Q 0) * m) ((protein n ||Q 0) * m) ((fat n ||Q 0) * m)
               ((carbohydrates n ||Q 0) * m)
  end.

(** [calculatePlanNutrition], lines 316-370: every total is rounded to an
    integer. *)
Definition calculatePlanNutrition (days : list DayPlan.t) : Totals :=
  let t := fold_left (fun acc meal => add_totals acc (meal_totals meal)) (plan_meals days)
             (mkTotals 0 0 0 0) in
  mkTotals (math_round (calories t)) (math_round (protein t)) (math_round (fat t))
    (math_round (carbohydrates t)).
End WithDb.

(** [calculateDailyAverage], lines 663-670. *)
Definition calculateDailyAverage (t : Totals) (days : nat) : jsnum * jsnum * jsnum * jsnum :=
  let d := JFin (inject_Z (Z.of_nat days)) in
  (js_round (js_div (JFin (calories t)) d), js_round1 (js_div (JFin (protein t)) d),
   js_round1 (js_div (JFin (fat t)) d), js_round1 (js_div (JFin (carbohydrates t)) d)).

(** [calculateDeviation], lines 658-661. *)
Definition calculateDeviation (actual : jsnum) (target : Q) : jsnum :=
  if Qeq_bool target 0 then JFin 0
  else js_mul (js_div (js_sub actual (JFin target)) (JFin target)) (JFin 100).

Definition js_lt0 (x : jsnum) : bool :=
  match x with JFin q => Qlt_bool q 0 | JNaN => false | JInf neg => neg end.

(** [generateNutritionSuggestions], lines 700-718: calories and low
    protein only. *)
Definition generateNutritionSuggestions (d : Deviations) : list string :=
  (if js_gt (js_abs (calories_deviation d)) 15 then
     if js_gt (calories_deviation d) 0 then ["Reduce portion sizes or choose lighter recipes"%string]
     else ["Add snacks or choose more calorie-dense recipes"%string]
   else []) ++
  (if js_gt (js_abs (protein_deviation d)) 15 && js_lt0 (protein_deviation d) then
     ["Include more protein-rich foods like lean meats, legumes, or dairy"%string]
   else []).

Definition deviation_values (d : Deviations) : list jsnum :=
  [calories_deviation d; protein_deviation d; fat_deviation d; carbohydrates_deviation d].

(** [validateNutrition], lines 237-311 (the [catch] is not reached: the
    model's computation does not throw). *)
Definition validateNutrition (db : Db) (mealPlan : MealPlan.t) (bp : UserBlueprint.t)
    : NutritionValidationResult :=
  let days := PlanData.days (MealPlan.plan_data mealPlan) in
  let total := calculatePlanNutrition db days in
  match UserBlueprint.nutritional_targets bp with
  | None => mkNVR false (mkDev (JFin 0) (JFin 0) (JFin 0) (JFin 0))
              ["User nutritional targets not calculated"%string]
              ["Complete user profile to enable nutritional validation"%string]
  | Some targets =>
      let '(c, p, f, cb) := calculateDailyAverage total (length days) in
      let devs := mkDev (calculateDeviation c (NutritionalTargets.daily_calories targets))
                        (calculateDeviation p (NutritionalTargets.daily_protein targets))
                        (calculateDeviation f (NutritionalTargets.daily_fat targets))
                        (calculateDeviation cb (NutritionalTargets.daily_carbohydrates targets)) in
      let within := forallb (fun dev => js_le (js_abs dev) 15) (deviation_values devs) in
      mkNVR within devs [] (if within then [] else generateNutritionSuggestions devs)
  end.

(** ** The assembly service, [assembleMealPlan] and
    [parseMealPlanResponse], lines 165-232 and 601-655 *)

(** [x || d] on a string member: a non-empty string, else [d] (other
    truthy values are outside the model). *)
Definition str_or (p : js_prop json) (d : string) : string :=
  match p with PropOwn (JString s) => if String.eqb s "" then d else s | _ => d end.

(** A string member, [""] when it is not a string. *)
Definition str_member (v : json) (k : string) : string :=
  match json_get v k with PropOwn (JString s) => s | _ => "" end.

Definition num_member (v : json) (k : string) : option Q :=
  match json_get v k with PropOwn (JNumber q) => Some q | _ => None end.

(** [{...meal, completed: false}]. *)
Definition parse_meal (meal : json) : MealSlot.t :=
  MealSlot.mk (str_member meal "meal_type") (str_member meal "recipe_id")
    (num_member meal "servings") false.

(** [{...day, meals: day.meals.map(...)}]: [day.meals] must be an array;
    otherwise the message of the [TypeError]. *)
Definition parse_day (day : json) : string + DayPlan.t :=
  match day with
  | JNull => inl "Cannot read properties of null (reading 'meals')"%string
  | _ =>
      match json_get day "meals" with
      | PropOwn (JArray meals) =>
          inr (DayPlan.mk (str_member day "day") (str_member day "date") (map parse_meal meals))
      | PropOwn JNull => inl "Cannot read properties of null (reading 'map')"%string
      | PropUndefined => inl "Cannot read properties of undefined (reading 'map')"%string
      | _ => inl "day.meals.map is not a function"%string
      end
  end.

(** [parsed.days.map(...)]: the first throw wins. *)
Fixpoint parse_days (days : list json) : string + list DayPlan.t :=
  match days with
  | [] => inr []
  | d :: ds =>
      match parse_day d with
      | inl m => inl m
      | inr dp => match parse_days ds with inl m => inl m | inr dps => inr (dp :: dps) end
      end
  end.

(** [new Set(ids).size]. *)
Definition set_size (l : list string) : nat := length (remove_dups l).

Section Assembly.
Variable json_parse : string -> string + json.
(** [uuidv4()]. *)
Variable fresh_id : string.

(** [parseMealPlanResponse]: the plan, or the message of the caught
    error.  Only the [days] array and each day's [meals] array are
    checked. *)
Definition parseMealPlanResponse (response : string) (context : GenerationContext.t)
    : string + MealPlan.t :=
  let fail m := inl ("Failed to parse meal plan: " ++ m)%string in
  match extract_json response with
  | None => fail "No JSON found in response"
  | Some txt =>
      match json_parse txt with
      | inl m => fail m
      | inr parsed =>
          match json_get parsed "days" with
          | PropOwn (JArray days) =>
              let bp := GenerationContext.user_blueprint context in
              match UserBlueprint.profile bp, UserBlueprint.intake bp with
              | None, _ => fail (error_message (undefined_read "id"))
              | Some _, None => fail (error_message (undefined_read "id"))
              | Some profile, Some intake =>
                  match parse_days days with
                  | inl m => fail m
                  | inr dayPlans =>
                      let slots := plan_meals dayPlans in
                      inr (MealPlan.mk fresh_id (UserProfile.id profile) (Some (UserIntake.id intake))
                             (Some (str_or (json_get parsed "week_theme") "Personalized Weekly Plan"))
                             (GenerationContext.week_start_date context)
                             (PlanData.mk dayPlans (length slots)
                                (set_size (map MealSlot.recipe_id slots)) 80 None)
                             "claude" (GenerationContext.generation_id context))
                  end
              end
          | _ => fail "Invalid plan structure - missing days array"
          end
      end
  end.

(** The result of [assembleMealPlan], lines 168-175. *)
Record AssemblyResult := mkAssembly {
  a_success : bool; a_meal_plan : option MealPlan.t; a_error : option string; a_usage : Usage.t }.

Definition assembleMealPlan (reply : ScorerReply) (context : GenerationContext.t) : AssemblyResult :=
  let caught m := mkAssembly false None (Some ("Meal assembly failed: " ++ m)%string)
                    (Usage.mk None None None) in
  match reply with
  | FetchFailed m => caught m
  | HttpError st _ => caught ("Claude API error: " ++ st)%string
  | HttpOk None _ _ => caught (error_message (undefined_read "text"))
  | HttpOk (Some txt) i o =>
      let usage := Usage.mk (Some 1) (Some (tokens_of i o)) (Some (calculateCost (i ||? 0) (o ||? 0))) in
      match parseMealPlanResponse txt context with
      | inl e => mkAssembly false None (Some e) usage
      | inr p => mkAssembly true (Some p) None usage
      end
  end.
End Assembly.

(** ** The coherence review, [validateCoherence] and
    [parseCoherenceResponse], lines 446-502 and 584-599 *)

Record CoherenceResult := mkCoherence {
  c_success : bool; rating : Q; feedback : string;
  c_tokens : option Q; c_cost : option Q }.

Section Coherence.
Variable json_parse : string -> string + json.

(** [parsed.rating || 0] on a number (other values are outside the
    model and read as 0). *)
Definition parseCoherenceResponse (response : string) : Q * string :=
  match extract_json response with
  | Some txt =>
      match json_parse txt with
      | inr parsed =>
          (match json_get parsed "rating" with PropOwn (JNumber q) => q | _ => 0 end,
           str_or (json_get parsed "feedback") "No feedback provided")
      | inl _ => (0, "Failed to parse coherence response"%string)
      end
  | None => (0, "Failed to parse coherence response"%string)
  end.

(** [validateCoherence], lines 446-502: the prompt is built first, and
    [buildCoherencePrompt] throws exactly on a blueprint without intake
    ([buildCoherencePrompt_throws] below). *)
Definition validateCoherence (reply : ScorerReply) (context : GenerationContext.t) : CoherenceResult :=
  let caught m := mkCoherence false 0 ("Coherence validation failed: " ++ m)%string None None in
  match UserBlueprint.intake (GenerationContext.user_blueprint context) with
  | None => caught (error_message (undefined_read "diet_type"))
  | Some _ =>
      match reply with
      | FetchFailed m => caught m
      | HttpError st _ => caught ("Claude API error: " ++ st)%string
      | HttpOk None _ _ => caught (error_message (undefined_read "text"))
      | HttpOk (Some txt) i o =>
          let '(r, fb) := parseCoherenceResponse txt in
          mkCoherence true r fb (Some (tokens_of i o)) (Some (calculateCost (i ||? 0) (o ||? 0)))
      end
  end.
End Coherence.

(** ** The prompts (lines 505-582 and 721-732)

    A recipe column the row leaves empty is [null] in the JSON text; a
    member whose value is [undefined] is left out. *)

Section Prompts.
(** [JSON.stringify(v, null, 2)]. *)
Variable json_stringify : json -> string.

(** An entry of [recipeList], lines 506-513. *)
Definition assembly_recipe (c : RecipeCandidate.t) : json :=
  let r := RecipeCandidate.recipe c in
  JObject [("id", JString (Recipe.id r)); ("title", JString (Recipe.title r));
           ("meal_types", JArray (map (fun m => JString (meal_type_key m)) (Recipe.meal_type r)));
           ("prep_time", default JNull (JNumber <$> Recipe.prep_time_minutes r));
           ("cuisine", default JNull (JString <$> Recipe.cuisine_type r));
           ("score", JNumber (RecipeCandidate.final_score c))].

Definition assembly_prompt_head : string :=
"You are creating a balanced weekly meal plan. Assign recipes to specific meal slots to create variety and balance.

<available_recipes>
".

Definition assembly_prompt_tail : string :=
dequote "
</available_recipes>

<assignment_rules>
1. Each day should have breakfast, lunch, and dinner
2. Ensure variety - don't repeat cuisines on the same day
3. Consider prep time - lighter meals for busy days
4. Respect meal_types - breakfast recipes for breakfast, etc.
5. Use higher-scored recipes more prominently
6. Create a pleasant flow throughout the week
</assignment_rules>

Return ONLY a JSON object with this structure:
{
  ~week_theme~: ~descriptive theme name~,
  ~days~: [
    {
      ~day~: ~monday~,
      ~date~: ~2024-01-15~,
      ~meals~: [
        {~meal_type~: ~breakfast~, ~recipe_id~: ~uuid-here~},
        {~meal_type~: ~lunch~, ~recipe_id~: ~uuid-here~},
        {~meal_type~: ~dinner~, ~recipe_id~: ~uuid-here~}
      ]
    }
    // ... 7 days total
  ]
}".

(** [buildMealAssemblyPrompt], lines 505-548 ([startDate] and [days] are
    computed and not used). *)
Definition buildMealAssemblyPrompt (candidates : list RecipeCandidate.t) : string :=
  assembly_prompt_head ++ json_stringify (JArray (map assembly_recipe candidates)) ++
  assembly_prompt_tail.

(** [summarizePlanForReview], lines 721-732. *)
Definition summarizePlanForReview (mealPlan : MealPlan.t) : json :=
  let pd := MealPlan.plan_data mealPlan in
  JObject (opt_member "theme" (MealPlan.week_theme mealPlan) JString ++
           [("total_recipes", JNumber (inject_Z (Z.of_nat (PlanData.total_recipes pd))));
            ("unique_recipes", JNumber (inject_Z (Z.of_nat (PlanData.unique_recipes pd))));
            ("days", JArray (map (fun d => JObject [("day", JString (DayPlan.day d));
                                                    ("meal_count", JNumber (inject_Z (Z.of_nat (length (DayPlan.meals d)))))])
                                 (PlanData.days pd)))]).

(** [${intake.cultural_preferences}]: an array prints its items joined
    with commas. *)
Definition template_list (o : option (list string)) : string :=
  match o with Some l => String.concat "," l | None => "undefined" end.

Definition coherence_prompt_head : string :=
"Review this meal plan for taste, texture, and variety coherence.

<meal_plan>
".

Definition coherence_prompt_tail : string :=
dequote "
</user_context>

<review_criteria>
1. **Variety (30%)**: Good mix of cuisines, proteins, cooking methods
2. **Balance (25%)**: Appropriate mix of light/heavy, simple/complex meals  
3. **Flow (20%)**: Logical progression throughout the week
4. **User Fit (25%)**: Matches user's preferences and skill level
</review_criteria>

Provide:
- **rating**: Score 1-10 (7+ is acceptable)
- **feedback**: Brief explanation of strengths and any concerns

Return ONLY JSON:
{
  ~rating~: 8,
  ~feedback~: ~Great variety with good balance...~
}".

(** [buildCoherencePrompt], lines 551-582: reading [intake] of a
    blueprint without it throws. *)
Definition buildCoherencePrompt (mealPlan : MealPlan.t) (context : GenerationContext.t)
    : JsError + string :=
  let planSummary := summarizePlanForReview mealPlan in
  match UserBlueprint.intake (GenerationContext.user_blueprint context) with
  | None => inl (undefined_read "diet_type")
  | Some intake =>
      inr (coherence_prompt_head ++ json_stringify planSummary ++
           "
</meal_plan>

<user_context>
Diet: " ++ template_opt (UserIntake.diet_type intake) ++
           "
Cooking skill: " ++ template_opt (UserIntake.cooking_skill_level intake) ++
           "
Cultural preferences: " ++ template_list (UserIntake.cultural_preferences intake) ++
           coherence_prompt_tail)%string
  end.
End Prompts.

(** [validateCoherence] fails before calling Claude exactly where
    [buildCoherencePrompt] throws, with its message. *)
Lemma buildCoherencePrompt_throws json_stringify mealPlan context :
  match buildCoherencePrompt json_stringify mealPlan context with
  | inl e => (UserBlueprint.intake (GenerationContext.user_blueprint context) = None) /\
             (e = undefined_read "diet_type")
  | inr _ => UserBlueprint.intake (GenerationContext.user_blueprint context) <> None
  end.
Proof. unfold buildCoherencePrompt. by destruct (UserBlueprint.intake _). Qed.

End Council.

(** [validateAndRefine]'s result, lines 40-49. *)
Module CouncilResult.
Record t := mk {
  success : bool;
  meal_plan : option MealPlan.t;
  nutritional_accuracy : option Council.Deviations;
  error : option string;
  usage : Usage.t }.
End CouncilResult.

(** ** [validateAndRefine], lines 37-160 *)

Import Council.

(** The answer of the two repair steps ([Promise<any>]): only
    [success], [meal_plan], [error] and the usage counters are read. *)
Module FixResult.
Record t := mk {
  success : bool; meal_plan : option MealPlan.t; error : option string;
  claude_requests : option Q; tokens_used : option Q; cost_cents : option Q }.
End FixResult.

(** [improvePlanCoherence], lines 733-736: a stub that always fails. *)
Definition improvePlanCoherence (plan : MealPlan.t) (candidates : option (list RecipeCandidate.t))
    (context : GenerationContext.t) (feedback : string) : FixResult.t :=
  FixResult.mk false None (Some "Plan improvement not yet implemented") None None None.

(** [fixNutritionalIssues], lines 738-741: a stub that always fails. *)
Definition fixNutritionalIssues (plan : MealPlan.t) (candidates : option (list RecipeCandidate.t))
    (context : GenerationContext.t) (issues : NutritionValidationResult) : FixResult.t :=
  FixResult.mk false None (Some "Nutritional fixing not yet implemented") None None None.

(** The locals of [validateAndRefine]. *)
Module CState.
Record t := mk {
  retryCount : nat;
  claudeRequests : Q; totalTokensUsed : Q; totalCostCents : Q;
  currentPlan : MealPlan.t;
  lastValidationResult : option NutritionValidationResult }.
End CState.
Import CState (retryCount, claudeRequests, totalTokensUsed, totalCostCents, currentPlan,
               lastValidationResult).

Definition council_maxRetries : nat := 3.

Definition c_usage (st : CState.t) : Usage.t :=
  Usage.mk (Some (claudeRequests st)) (Some (totalTokensUsed st)) (Some (totalCostCents st)).

(** [claudeRequests += 1] and the coherence call's usage (lines 93-95). *)
Definition count_coherence (cr : CoherenceResult) (st : CState.t) : CState.t :=
  CState.mk (retryCount st) (claudeRequests st + 1) (totalTokensUsed st + (c_tokens cr ||? 0))
    (totalCostCents st + (c_cost cr ||? 0)) (currentPlan st) (lastValidationResult st).

Definition set_lastValidation (nr : NutritionValidationResult) (st : CState.t) : CState.t :=
  CState.mk (retryCount st) (claudeRequests st) (totalTokensUsed st) (totalCostCents st)
    (currentPlan st) (Some nr).

(** [x += o || 0] for a counter the answer may leave undefined; an
    absent counter leaves [x] as it is ([x + 0] is [x]). *)
Definition add_opt (x : Q) (o : option Q) : Q :=
  match o with Some y => x + y | None => x end.

(** Lines 113-115: the improvement call's usage. *)
Definition count_improvement (ir : FixResult.t) (st : CState.t) : CState.t :=
  CState.mk (retryCount st) (add_opt (claudeRequests st) (FixResult.claude_requests ir))
    (add_opt (totalTokensUsed st) (FixResult.tokens_used ir))
    (add_opt (totalCostCents st) (FixResult.cost_cents ir)) (currentPlan st) (lastValidationResult st).

(** [currentPlan = fix.meal_plan!] (lines 118 and 132). *)
Definition set_currentPlan (fr : FixResult.t) (st : CState.t) : CState.t :=
  match FixResult.meal_plan fr with
  | Some p => CState.mk (retryCount st) (claudeRequests st) (totalTokensUsed st) (totalCostCents st)
                p (lastValidationResult st)
  | None => st
  end.

Definition next_attempt (st : CState.t) : CState.t :=
  CState.mk (S (retryCount st)) (claudeRequests st) (totalTokensUsed st) (totalCostCents st)
    (currentPlan st) (lastValidationResult st).

(** [lastValidationResult?.suggestions?.join(', ') || 'Unknown validation error']. *)
Definition last_issue (l : option NutritionValidationResult) : string :=
  match l with
  | Some nr => match suggestions nr with
               | [] => "Unknown validation error"
               | ss => String.concat ", " ss
               end
  | None => "Unknown validation error"
  end.

Section Refine.
Variable json_parse : string -> string + json.
Variable db : Db.
Variable fresh_id : string.
(** The assembly service's answer, and the coherence reviewer's answer at
    each attempt. *)
Variable assembly_reply : ScorerReply.
Variable coherence_replies : nat -> ScorerReply.
Variable context : GenerationContext.t.
Variable candidates : option (list RecipeCandidate.t).

(** One attempt of the [while] loop (lines 79-137): [inl] is the
    [return] of an accepted plan.  A failed review calls
    [improvePlanCoherence] and a failed nutrition check
    [fixNutritionalIssues]; a successful repair replaces the plan. *)
Definition refine_attempt (st : CState.t) : CouncilResult.t + CState.t :=
  let nr := validateNutrition db (currentPlan st) (GenerationContext.user_blueprint context) in
  if is_valid nr then
    let cr := validateCoherence json_parse (coherence_replies (retryCount st)) context in
    let st' := count_coherence cr st in
    if c_success cr && Qle_bool 7 (rating cr) then
      inl (CouncilResult.mk true (Some (currentPlan st')) (Some (target_deviations nr)) None (c_usage st'))
    else
      let ir := improvePlanCoherence (currentPlan st') candidates context (feedback cr) in
      let st'' := count_improvement ir st' in
      inr (next_attempt (if FixResult.success ir then set_currentPlan ir st'' else st''))
  else
    let nf := fixNutritionalIssues (currentPlan st) candidates context nr in
    inr (next_attempt (if FixResult.success nf then set_currentPlan nf st
                       else set_lastValidation nr st)).

Fixpoint refine_loop (fuel : nat) (st : CState.t) : CouncilResult.t + CState.t :=
  match fuel with
  | O => inr st
  | S fuel' =>
      if (retryCount st <? council_maxRetries)%nat then
        match refine_attempt st with
        | inl r => inl r
        | inr st' => refine_loop fuel' st'
        end
      else inr st
  end.

Definition validateAndRefine : CouncilResult.t :=
  let a := assembleMealPlan json_parse fresh_id assembly_reply context in
  let u := a_usage a in
  let st0 := fun p => CState.mk 0 (Usage.claude_requests u ||? 0) (Usage.tokens_used u ||? 0)
                         (Usage.cost_cents u ||? 0) p None in
  match a_success a, a_meal_plan a with
  | true, Some p =>
      match refine_loop council_maxRetries (st0 p) with
      | inl r => r
      | inr st =>
          CouncilResult.mk false None None
            (Some ("Validation failed after 3 attempts. Last issue: " ++
                   last_issue (lastValidationResult st))%string) (c_usage st)
      end
  | _, _ =>
      (** [assembleMealPlan] returns a plan exactly when it succeeds. *)
      CouncilResult.mk false None None (a_error a)
        (Usage.mk (Some (Usage.claude_requests u ||? 0)) (Some (Usage.tokens_used u ||? 0))
                  (Some (Usage.cost_cents u ||? 0)))
  end.
End Refine.

(** ** The loop checks one plan *)

Section RefineFacts.
Variable json_parse : string -> string + json.
Variable db : Db.
Variable fresh_id : string.
Variable assembly_reply : ScorerReply.
Variable coherence_replies : nat -> ScorerReply.
Variable context : GenerationContext.t.

Let bp := GenerationContext.user_blueprint context.

(** The reviewer accepts at attempt [i]: a successful call with a
    rating of at least 7. *)
Definition coherence_ok (i : nat) : bool :=
  let cr := validateCoherence json_parse (coherence_replies i) context in
  c_success cr && Qle_bool 7 (rating cr).

Definition assembly_requests : Q :=
  Usage.claude_requests (a_usage (assembleMealPlan json_parse fresh_id assembly_reply context)) ||? 0.

Lemma refine_attempt_invalid (candidates : option (list RecipeCandidate.t)) (st : CState.t) :
  is_valid (validateNutrition db (currentPlan st) bp) = false ->
  refine_attempt json_parse db coherence_replies context candidates st =
  inr (next_attempt (set_lastValidation (validateNutrition db (currentPlan st) bp) st)).
Proof. intros H. unfold refine_attempt. fold bp. now rewrite H. Qed.

Lemma refine_attempt_valid (candidates : option (list RecipeCandidate.t)) (st : CState.t) :
  is_valid (validateNutrition db (currentPlan st) bp) = true ->
  refine_attempt json_parse db coherence_replies context candidates st =
  if coherence_ok (retryCount st)
  then inl (CouncilResult.mk true (Some (currentPlan st))
              (Some (target_deviations (validateNutrition db (currentPlan st) bp))) None
              (c_usage (count_coherence (validateCoherence json_parse (coherence_replies (retryCount st)) context) st)))
  else inr (next_attempt (count_coherence
              (validateCoherence json_parse (coherence_replies (retryCount st)) context) st)).
Proof. intros H. unfold refine_attempt. fold bp. rewrite H. reflexivity. Qed.
Ltac refine_step H :=
  cbn [refine_loop council_maxRetries Nat.ltb Nat.leb retryCount next_attempt
       set_lastValidation count_coherence];
  first [rewrite refine_attempt_invalid by exact H | rewrite refine_attempt_valid by exact H].

(** C18: When the council's own nutrition check rejects the assembled
    plan, the loop runs its three attempts on that same plan (the fix
    step is a stub), asks the reviewer nothing, and fails with the check's
    suggestions as the last issue; only the assembly call is counted. *)
Theorem validateAndRefine_nutrition_invalid (candidates : option (list RecipeCandidate.t))
    (p : MealPlan.t) :
  a_success (assembleMealPlan json_parse fresh_id assembly_reply context) = true ->
  a_meal_plan (assembleMealPlan json_parse fresh_id assembly_reply context) = Some p ->
  is_valid (validateNutrition db p bp) = false ->
  let u := a_usage (assembleMealPlan json_parse fresh_id assembly_reply context) in
  validateAndRefine json_parse db fresh_id assembly_reply coherence_replies context candidates =
  CouncilResult.mk false None None
    (Some ("Validation failed after 3 attempts. Last issue: " ++
           last_issue (Some (validateNutrition db p bp)))%string)
    (Usage.mk (Some (Usage.claude_requests u ||? 0)) (Some (Usage.tokens_used u ||? 0))
              (Some (Usage.cost_cents u ||? 0))).
Proof.
  intros Ha Hp Hv. cbv zeta. unfold validateAndRefine. rewrite Ha, Hp.
  do 3 refine_step Hv. reflexivity.
Qed.

(** C16: When the nutrition check accepts the assembled plan, the council
    succeeds exactly when the reviewer accepts at one of the three
    attempts, and then returns the assembled plan unchanged (the
    improvement step is a stub); otherwise it fails with "Unknown
    validation error" after three counted review calls. *)
Theorem validateAndRefine_coherence (candidates : option (list RecipeCandidate.t))
    (p : MealPlan.t) :
  a_success (assembleMealPlan json_parse fresh_id assembly_reply context) = true ->
  a_meal_plan (assembleMealPlan json_parse fresh_id assembly_reply context) = Some p ->
  is_valid (validateNutrition db p bp) = true ->
  let r := validateAndRefine json_parse db fresh_id assembly_reply coherence_replies context candidates in
  CouncilResult.success r = existsb coherence_ok [0; 1; 2]%nat /\
  (CouncilResult.success r = true -> CouncilResult.meal_plan r = Some p) /\
  (CouncilResult.success r = false ->
   CouncilResult.error r =
     Some "Validation failed after 3 attempts. Last issue: Unknown validation error"%string /\
   Usage.claude_requests (CouncilResult.usage r) = Some (assembly_requests + 1 + 1 + 1)).
Proof.
  intros Ha Hp Hv. cbv zeta. unfold validateAndRefine, assembly_requests. rewrite Ha, Hp.
  refine_step Hv. cbn [retryCount next_attempt count_coherence]. destruct (coherence_ok 0) eqn:E0;
    [cbn [CouncilResult.success CouncilResult.meal_plan existsb currentPlan]; rewrite E0;
     split_and!; easy|].
  refine_step Hv. cbn [retryCount next_attempt count_coherence]. destruct (coherence_ok 1) eqn:E1;
    [cbn [CouncilResult.success CouncilResult.meal_plan existsb currentPlan]; rewrite E0, E1;
     split_and!; easy|].
  refine_step Hv. cbn [retryCount next_attempt count_coherence]. destruct (coherence_ok 2) eqn:E2;
    [cbn [CouncilResult.success CouncilResult.meal_plan existsb currentPlan]; rewrite E0, E1, E2;
     split_and!; easy|].
  cbn [refine_loop CouncilResult.success CouncilResult.error CouncilResult.usage existsb
       lastValidationResult last_issue c_usage Usage.claude_requests count_coherence
       next_attempt claudeRequests].
  rewrite E0, E1, E2. split_and!; easy.
Qed.
End RefineFacts.

(** ** The council's nutrition check and plan parse *)

Lemma council_deviation_nan (target : Q) :
  calculateDeviation JNaN target = if Qeq_bool target 0 then JFin 0 else JNaN.
Proof. unfold calculateDeviation. destruct (Qeq_bool target 0); reflexivity. Qed.

Lemma js_le_abs_dev_nan (target : Q) :
  js_le (js_abs (calculateDeviation JNaN target)) 15 = Qeq_bool target 0.
Proof. rewrite council_deviation_nan. now destruct (Qeq_bool target 0). Qed.

Lemma calculateDailyAverage_no_days (db : Db) :
  calculateDailyAverage (calculatePlanNutrition db []) (length (@nil DayPlan.t)) =
  (JNaN, JNaN, JNaN, JNaN).
Proof. reflexivity. Qed.

(** A plan with no days passes the council's check exactly when all
    four targets are zero: its daily averages are [0 / 0], [NaN], and a
    [NaN] deviation fails the test, but a zero target short-cuts the
    deviation to 0. *)
Theorem validateNutrition_no_days (db : Db) (p : MealPlan.t) (bp : UserBlueprint.t)
    (t : NutritionalTargets.t) :
  PlanData.days (MealPlan.plan_data p) = [] ->
  UserBlueprint.nutritional_targets bp = Some t ->
  is_valid (validateNutrition db p bp) =
  Qeq_bool (NutritionalTargets.daily_calories t) 0 && Qeq_bool (NutritionalTargets.daily_protein t) 0 &&
  Qeq_bool (NutritionalTargets.daily_fat t) 0 && Qeq_bool (NutritionalTargets.daily_carbohydrates t) 0.
Proof.
  intros Hd Ht. unfold validateNutrition. rewrite Hd, Ht, calculateDailyAverage_no_days.
  cbn -[calculateDeviation js_le js_abs].
  rewrite !js_le_abs_dev_nan, andb_true_r, !andb_assoc. reflexivity.
Qed.

(** The council suggests only about calories and low protein: a plan
    that fails on fat or carbohydrates alone gets no suggestion, so its
    last issue reads "Unknown validation error". *)
Theorem generateNutritionSuggestions_fat_carbs (d : Deviations) :
  js_le (js_abs (calories_deviation d)) 15 = true ->
  js_le (js_abs (protein_deviation d)) 15 = true ->
  generateNutritionSuggestions d = [] /\ last_issue (Some (mkNVR false d [] (generateNutritionSuggestions d))) =
    "Unknown validation error"%string.
Proof.
  intros Hc Hp.
  assert (Hgt : forall x, js_le x 15 = true -> js_gt x 15 = false).
  { intros [q| |[]]; simpl; try discriminate; [|reflexivity].
    intros H. apply Qle_bool_iff in H. unfold Qlt_bool. rewrite negb_false_iff.
    now apply Qle_bool_iff. }
  unfold generateNutritionSuggestions. rewrite (Hgt _ Hc), (Hgt _ Hp). split; reflexivity.
Qed.

Lemma parse_days_length (days : list json) (dps : list DayPlan.t) :
  parse_days days = inr dps -> length dps = length days.
Proof.
  revert dps. induction days as [|d ds IH]; intros dps H; cbn [parse_days] in H.
  - now injection H as <-.
  - destruct (parse_day d) as [|dp]; [discriminate|].
    destruct (parse_days ds) as [|dps'] eqn:E; [discriminate|].
    injection H as <-. simpl. f_equal. now apply IH.
Qed.

(** The parse of the assembly answer checks only that [days] is an
    array of days with [meals] arrays: a plan of any number of days
    (none included), with recipe ids the candidates do not contain, is
    accepted; its [total_recipes] is its number of slots. *)
Theorem parseMealPlanResponse_any_days (json_parse : string -> string + json) (fresh_id : string)
    (response txt : string) (members : list (string * json)) (days : list json)
    (dayPlans : list DayPlan.t) (context : GenerationContext.t) (prof : UserProfile.t)
    (intake : UserIntake.t) :
  extract_json response = Some txt ->
  json_parse txt = inr (JObject members) ->
  js_obj_get members "days" = PropOwn (JArray days) ->
  parse_days days = inr dayPlans ->
  UserBlueprint.profile (GenerationContext.user_blueprint context) = Some prof ->
  UserBlueprint.intake (GenerationContext.user_blueprint context) = Some intake ->
  exists mp, parseMealPlanResponse json_parse fresh_id response context = inr mp /\
    PlanData.days (MealPlan.plan_data mp) = dayPlans /\ length dayPlans = length days /\
    PlanData.total_recipes (MealPlan.plan_data mp) = length (plan_meals dayPlans).
Proof.
  intros He Hj Hd Hps Hp Hi. unfold parseMealPlanResponse.
  rewrite He, Hj. cbn [json_get]. rewrite Hd, Hp, Hi, Hps.
  eexists. split_and!; [reflexivity | reflexivity | | reflexivity].
  now apply parse_days_length.
Qed.

(** ** A council run *)

Module CouncilSample.
Definition targets : NutritionalTargets.t := NutritionalTargets.mk 2000 150 67 250 None.
Definition profile : UserProfile.t := UserProfile.mk "u1" None None None None 0.
Definition intake : UserIntake.t := UserIntake.mk "i1" (Some "vegan") [] [] [] None None None None None None.
Definition context : GenerationContext.t :=
  GenerationContext.mk (UserBlueprint.mk (Some profile) (Some intake) None
                          (SubscriptionPlan.mk 4 false false) (Some targets) None None) "g1" 20000 0.
Definition day_recipe (cal : Q) : Recipe.t :=
  Recipe.mk "r-day" "Whole day" [] (Some (NutritionInfo.mk cal 150 67 250 None)) None None 1 None []
    None [Dinner] Published false 5 1.
(** The database knows one recipe, a whole day of food. *)
Definition db (cal : Q) : Db :=
  mkDb (fun id => if String.eqb id "r-day" then Some (day_recipe cal) else None) (fun _ => None).
(** The assembly service's text and the reviewer's, abbreviated. *)
Definition days_json : list json :=
  [JObject [("day", JString "monday"); ("date", JString "2024-10-07");
            ("meals", JArray [JObject [("meal_type", JString "dinner"); ("recipe_id", JString "r-day")]])]].
Definition plan_members : list (string * json) :=
  [("week_theme", JString "Green week"); ("days", JArray days_json)].
Definition plan_json : json := JObject plan_members.
Definition plan_days : list DayPlan.t :=
  [DayPlan.mk "monday" "2024-10-07" [MealSlot.mk "dinner" "r-day" None false]].
Definition json_parse (s : string) : string + json :=
  if String.eqb s "{plan}" then inr plan_json
  else if String.eqb s "{rating 8}" then inr (JObject [("rating", JNumber 8); ("feedback", JString "ok")])
  else if String.eqb s "{rating 5}" then inr (JObject [("rating", JNumber 5)])
  else inl "Unexpected token".
Definition assembly_reply : ScorerReply := HttpOk (Some "{plan}") (Some 2000) (Some 800).
Definition reviews (i : nat) : ScorerReply :=
  HttpOk (Some (if (i =? 1)%nat then "{rating 8}" else "{rating 5}")) (Some 500) (Some 100).
Definition assembled : MealPlan.t :=
  default (MealPlan.mk "" "" None None 0 (PlanData.mk [] 0 0 0 None) "" "")
    (a_meal_plan (assembleMealPlan json_parse "p-1" assembly_reply context)).
End CouncilSample.

Lemma validateAndRefine_nutrition_invalid_witness :
  (a_success (assembleMealPlan CouncilSample.json_parse "p-1" CouncilSample.assembly_reply
                CouncilSample.context) = true /\
   a_meal_plan (assembleMealPlan CouncilSample.json_parse "p-1" CouncilSample.assembly_reply
                  CouncilSample.context) = Some CouncilSample.assembled /\
   is_valid (validateNutrition (CouncilSample.db 1200) CouncilSample.assembled
               (GenerationContext.user_blueprint CouncilSample.context)) = false) /\
  let u := a_usage (assembleMealPlan CouncilSample.json_parse "p-1" CouncilSample.assembly_reply
                      CouncilSample.context) in
  validateAndRefine CouncilSample.json_parse (CouncilSample.db 1200) "p-1" CouncilSample.assembly_reply
    CouncilSample.reviews CouncilSample.context None =
  CouncilResult.mk false None None
    (Some ("Validation failed after 3 attempts. Last issue: " ++
           last_issue (Some (validateNutrition (CouncilSample.db 1200) CouncilSample.assembled
                               (GenerationContext.user_blueprint CouncilSample.context))))%string)
    (Usage.mk (Some (Usage.claude_requests u ||? 0)) (Some (Usage.tokens_used u ||? 0))
              (Some (Usage.cost_cents u ||? 0))).
Proof.
  split; [split_and!; vm_compute; reflexivity|].
  apply validateAndRefine_nutrition_invalid; vm_compute; reflexivity.
Defined.

Lemma validateAndRefine_coherence_witness :
  (a_success (assembleMealPlan CouncilSample.json_parse "p-1" CouncilSample.assembly_reply
                CouncilSample.context) = true /\
   a_meal_plan (assembleMealPlan CouncilSample.json_parse "p-1" CouncilSample.assembly_reply
                  CouncilSample.context) = Some CouncilSample.assembled /\
   is_valid (validateNutrition (CouncilSample.db 2000) CouncilSample.assembled
               (GenerationContext.user_blueprint CouncilSample.context)) = true) /\
  let r := validateAndRefine CouncilSample.json_parse (CouncilSample.db 2000) "p-1"
             CouncilSample.assembly_reply CouncilSample.reviews CouncilSample.context None in
  CouncilResult.success r = existsb (coherence_ok CouncilSample.json_parse CouncilSample.reviews
                                       CouncilSample.context) [0; 1; 2]%nat /\
  (CouncilResult.success r = true -> CouncilResult.meal_plan r = Some CouncilSample.assembled) /\
  (CouncilResult.success r = false ->
   CouncilResult.error r =
     Some "Validation failed after 3 attempts. Last issue: Unknown validation error"%string /\
   Usage.claude_requests (CouncilResult.usage r) =
     Some (assembly_requests CouncilSample.json_parse "p-1" CouncilSample.assembly_reply
             CouncilSample.context + 1 + 1 + 1)).
Proof.
  split; [split_and!; vm_compute; reflexivity|].
  apply validateAndRefine_coherence; vm_compute; reflexivity.
Defined.

Lemma validateNutrition_no_days_witness :
  is_valid (validateNutrition (CouncilSample.db 2000)
              (MealPlan.mk "p" "u1" None None 0 (PlanData.mk [] 0 0 80 None) "claude" "g1")
              (GenerationContext.user_blueprint CouncilSample.context)) =
  Qeq_bool 2000 0 && Qeq_bool 150 0 && Qeq_bool 67 0 && Qeq_bool 250 0.
Proof. apply (validateNutrition_no_days _ _ _ CouncilSample.targets); reflexivity. Defined.

Lemma generateNutritionSuggestions_fat_carbs_witness :
  let d := mkDev (JFin 2) (JFin (-3)) (JFin 40) (JFin (-30)) in
  generateNutritionSuggestions d = [] /\
  last_issue (Some (mkNVR false d [] (generateNutritionSuggestions d))) =
    "Unknown validation error"%string.
Proof. apply generateNutritionSuggestions_fat_carbs; reflexivity. Defined.

Lemma parseMealPlanResponse_any_days_witness :
  exists mp, parseMealPlanResponse CouncilSample.json_parse "p-1" "{plan}" CouncilSample.context = inr mp /\
    PlanData.days (MealPlan.plan_data mp) = CouncilSample.plan_days /\
    length CouncilSample.plan_days = length CouncilSample.days_json /\
    PlanData.total_recipes (MealPlan.plan_data mp) = length (plan_meals CouncilSample.plan_days).
Proof.
  apply (parseMealPlanResponse_any_days _ _ _ "{plan}" CouncilSample.plan_members
           CouncilSample.days_json _ _ CouncilSample.profile CouncilSample.intake); reflexivity.
Defined.
