(* ===== verification/PlanGenerator.v ===== *)
(** * The plan generation controller

    [src/unnamed/part_001] (the [plan-generator] edge function):
    [generateMealPlanWithRetry] (lines 385-513), [saveMealPlan] (647-673)
    and [generateFallbackPlan] (586-645).

    The function's mutable locals ([retryCount], [lastError], the three
    usage totals) and the [meal_plans] table it inserts into form the
    state [GenState]; the body runs in [JsM GenState], so that an
    exception thrown inside the [try] keeps the mutations made before it.
    The stages it awaits (candidate selection, the nutrition council, the
    wow layer, the database) are the record [Stages]: their answers are
    arbitrary and may differ from one attempt to the next.

    The three result objects of the function are written with the
    shorthand property [retry_count], but no variable of that name is in
    scope (the counter is [retryCount]): reading it throws a
    [ReferenceError].  [scope] lists the numeric identifiers in scope at
    those [return] statements and [lookup_var] reads one. *)

From S2P Require Import Prelude Js Types CandidateSelector NutritionCouncil.

Open Scope Q_scope.
Open Scope mw_scope.
Open Scope js_scope.

(** [WowLayerAgent.enhancePlan]'s result, [src/agents/wow-layer.ts]
    lines 48-55. *)
Module EnhanceResult.
Record t := mk {
  success : bool;
  meal_plan : option MealPlan.t;
  error : option string;
  usage : Usage.t }.
End EnhanceResult.

(** [PlanGenerationError] and [PlanGenerationResult],
    [src/unnamed/part_003] lines 240-282. *)
Module PlanGenerationError.
Record t := mk {
  stage : string; error_code : string; message : string;
  recoverable : bool; suggested_action : option string }.
End PlanGenerationError.

Module PlanGenerationResult.
Record t := mk {
  success : bool;
  meal_plan : option MealPlan.t;
  generation_id : string;
  generation_time_ms : Q;
  retry_count : nat;
  claude_requests : Q;
  claude_tokens_used : Q;
  claude_cost_cents : Q;
  nutritional_accuracy : option Council.Deviations;
  error : option PlanGenerationError.t;
  used_fallback : bool;
  fallback_reason : option string }.
End PlanGenerationResult.

(** What the stages answer at attempt [n] (the [n]-th round). *)
Record Stages := mkStages {
  selectCandidates_at : nat -> SelectionResult.t;
  validateAndRefine_at : nat -> option (list RecipeCandidate.t) -> CouncilResult.t;
  enhancePlan_at : nat -> option MealPlan.t -> EnhanceResult.t;
  (** the [error.message] of the [meal_plans] insert of [saveMealPlan],
      [None] when it succeeds *)
  insert_error : MealPlan.t -> option string;
  (** the fallback query of lines 591-599: [None] on a query error *)
  fallback_recipes : option (list Recipe.t);
  (** [uuidv4()] *)
  fresh_id : string;
  (** [new Date(t).toISOString().split('T')[0]] of a day number *)
  iso_date : Z -> string }.

(** [lastError]: [null], a thrown error, or the [error] string (possibly
    [undefined]) of a failed council result. *)
Inductive LastError :=
| NoError
| Thrown (e : JsError)
| Reported (msg : option string).

(** [lastError?.message]: only an [Error] object has one. *)
Definition last_message (l : LastError) : option string :=
  match l with Thrown e => Some (error_message e) | _ => None end.

(** A value interpolated in a template literal. *)
Definition template_value (o : option string) : string :=
  match o with Some m => m | None => "undefined" end.

Record GenState := mkGen {
  retryCount : nat;
  lastError : LastError;
  totalClaudeRequests : Q;
  totalTokensUsed : Q;
  totalCostCents : Q;
  meal_plans_table : list MealPlan.t }.

Definition maxRetries : nat := 3.

(** The numeric identifiers in scope at the [return] statements of
    [generateMealPlanWithRetry]. *)
Definition scope (s : GenState) : list (string * nat) :=
  [("maxRetries", maxRetries); ("retryCount", retryCount s)]%string.

Definition set_lastError (l : LastError) (s : GenState) : GenState :=
  mkGen (retryCount s) l (totalClaudeRequests s) (totalTokensUsed s)
        (totalCostCents s) (meal_plans_table s).

Definition incr_retryCount (s : GenState) : GenState :=
  mkGen (S (retryCount s)) (lastError s) (totalClaudeRequests s) (totalTokensUsed s)
        (totalCostCents s) (meal_plans_table s).

(** [totalClaudeRequests += r.claude_requests || 0] and the two others. *)
Definition add_usage (u : Usage.t) (s : GenState) : GenState :=
  mkGen (retryCount s) (lastError s)
    (totalClaudeRequests s + (Usage.claude_requests u ||? 0))
    (totalTokensUsed s + (Usage.tokens_used u ||? 0))
    (totalCostCents s + (Usage.cost_cents u ||? 0))
    (meal_plans_table s).

Definition insert_plan (p : MealPlan.t) (s : GenState) : GenState :=
  mkGen (retryCount s) (lastError s) (totalClaudeRequests s) (totalTokensUsed s)
        (totalCostCents s) (meal_plans_table s ++ [p]).

Section Controller.
Context (stages : Stages) (context : GenerationContext.t).

(** [saveMealPlan], lines 647-673: reading [mealPlan.id] of [undefined]
    throws; a failed insert throws. *)
Definition saveMealPlan (mealPlan : option MealPlan.t) : JsM GenState MealPlan.t :=
  match mealPlan with
  | None => jthrow (TypeError "Cannot read properties of undefined (reading 'id')")
  | Some p =>
      match insert_error stages p with
      | None => jmodify (insert_plan p) ;; jret p
      | Some msg => jthrow (Error ("Failed to save meal plan: " ++ msg))
      end
  end.

(** The result object of lines 449-460. *)
Definition success_result (finalPlan : MealPlan.t)
    (accuracy : option Council.Deviations) : JsM GenState PlanGenerationResult.t :=
  s <- jget ;;
  retry_count <- lookup_var (scope s) "retry_count" ;;
  jret (PlanGenerationResult.mk true (Some finalPlan)
          (GenerationContext.generation_id context) 0 retry_count
          (totalClaudeRequests s) (totalTokensUsed s) (totalCostCents s)
          accuracy None false None).

(** The body of the [try] of lines 398-465: [Some] is a [return].  The
    log line 399 reads [context.user_blueprint.profile.id] first. *)
Definition attempt : JsM GenState (option PlanGenerationResult.t) :=
  s <- jget ;;
  let n := retryCount s in
  match UserBlueprint.profile (GenerationContext.user_blueprint context) with
  | None => jthrow (TypeError "Cannot read properties of undefined (reading 'id')")
  | Some _ =>
  let candidatesResult := selectCandidates_at stages n in
  if negb (SelectionResult.success candidatesResult) then
    jthrow (Error ("Candidate selection failed: " ++
                   template_value (SelectionResult.error candidatesResult)))
  else
    jmodify (add_usage (SelectionResult.usage candidatesResult)) ;;
    let validationResult :=
      validateAndRefine_at stages n (SelectionResult.candidates candidatesResult) in
    jmodify (add_usage (CouncilResult.usage validationResult)) ;;
    if CouncilResult.success validationResult then
      let enhancedResult := enhancePlan_at stages n (CouncilResult.meal_plan validationResult) in
      jmodify (add_usage (EnhanceResult.usage enhancedResult)) ;;
      finalPlan <- saveMealPlan (EnhanceResult.meal_plan enhancedResult) ;;
      r <- success_result finalPlan (CouncilResult.nutritional_accuracy validationResult) ;;
      jret (Some r)
    else
      jmodify (set_lastError (Reported (CouncilResult.error validationResult))) ;;
      jret None
  end.

(** The [while (retryCount < maxRetries)] loop of lines 397-473, with
    its [catch] (467-470) and [retryCount++] (472); [fuel] bounds the
    iterations (see [retry_loop_fuel]). *)
Fixpoint retry_loop (fuel : nat) : JsM GenState (option PlanGenerationResult.t) :=
  match fuel with
  | O => jret None
  | S fuel' =>
      s <- jget ;;
      if Nat.ltb (retryCount s) maxRetries then
        r <- jtry attempt (fun e => jmodify (set_lastError (Thrown e)) ;; jret None) ;;
        match r with
        | Some res => jret (Some res)
        | None => jmodify incr_retryCount ;; retry_loop fuel'
        end
      else jret None
  end.

(** [generateFallbackPlan], lines 586-645. *)
Definition fallback_days : list string := ["monday"; "tuesday"; "wednesday"]%string.
Definition fallback_meal_types : list string := ["breakfast"; "lunch"; "dinner"]%string.

Definition fallback_slot (recipes : list Recipe.t) (dayIndex mealIndex : nat)
    (mealType : string) : MealSlot.t :=
  let recipeIndex := Nat.modulo (dayIndex * 3 + mealIndex) (length recipes) in
  MealSlot.mk mealType
    (match recipes !! recipeIndex with Some r => Recipe.id r | None => "" end)
    None false.

Definition fallback_plan_data (recipes : list Recipe.t) : PlanData.t :=
  PlanData.mk
    (imap (fun dayIndex day =>
             DayPlan.mk day
               (iso_date stages (GenerationContext.week_start_date context + Z.of_nat dayIndex))
               (imap (fallback_slot recipes dayIndex) fallback_meal_types))
          fallback_days)
    9 (Nat.min 9 (length recipes)) 60 None.

Definition generateFallbackPlan : JsM GenState MealPlan.t :=
  match fallback_recipes stages with
  | None | Some [] => jthrow (Error "Failed to fetch fallback recipes")
  | Some fallbackRecipes =>
      let bp := GenerationContext.user_blueprint context in
      match UserBlueprint.profile bp, UserBlueprint.intake bp with
      | Some profile, Some intake =>
          jret (MealPlan.mk (fresh_id stages) (UserProfile.id profile)
                  (Some (UserIntake.id intake)) (Some "Getting Started")
                  (GenerationContext.week_start_date context)
                  (fallback_plan_data fallbackRecipes) "fallback_system"
                  (GenerationContext.generation_id context))
      | _, _ => jthrow (TypeError "Cannot read properties of undefined (reading 'id')")
      end
  end.

(** The objects of lines 481-492 and 495-511. *)
Definition fallback_result (fallbackPlan : MealPlan.t) : JsM GenState PlanGenerationResult.t :=
  s <- jget ;;
  retry_count <- lookup_var (scope s) "retry_count" ;;
  jret (PlanGenerationResult.mk true (Some fallbackPlan)
          (GenerationContext.generation_id context) 0 retry_count
          (totalClaudeRequests s) (totalTokensUsed s) (totalCostCents s) None None true
          (Some ("Generation failed after 3 attempts: " ++
                 template_value (last_message (lastError s)))%string)).

Definition failure_result (fallbackError : JsError) : JsM GenState PlanGenerationResult.t :=
  s <- jget ;;
  retry_count <- lookup_var (scope s) "retry_count" ;;
  jret (PlanGenerationResult.mk false None (GenerationContext.generation_id context) 0
          retry_count (totalClaudeRequests s) (totalTokensUsed s) (totalCostCents s) None
          (Some (PlanGenerationError.mk "fallback_generation" "COMPLETE_FAILURE"
                   ("All generation attempts failed. Last error: " ++
                    template_value (last_message (lastError s)) ++
                    ". Fallback error: " ++ error_message fallbackError)%string
                   true (Some "Please try again in a few minutes")))
          false None).

(** [generateMealPlanWithRetry], lines 385-513. *)
Definition generateMealPlanWithRetry : JsM GenState PlanGenerationResult.t :=
  jmodify (fun s => mkGen 0 NoError 0 0 0 (meal_plans_table s)) ;;
  r <- retry_loop maxRetries ;;
  match r with
  | Some res => jret res
  | None =>
      jtry (fallbackPlan <- generateFallbackPlan ;; fallback_result fallbackPlan)
           failure_result
  end.
End Controller.

(** ** What one attempt does *)

Section ControllerFacts.
Context (stages : Stages) (context : GenerationContext.t).

Lemma success_result_throws (p : MealPlan.t) (acc : option Council.Deviations) (s : GenState) :
  success_result context p acc s = (inl (ReferenceError "retry_count"), s).
Proof. reflexivity. Qed.

Lemma fallback_result_throws (p : MealPlan.t) (s : GenState) :
  fallback_result context p s = (inl (ReferenceError "retry_count"), s).
Proof. reflexivity. Qed.

Lemma failure_result_throws (e : JsError) (s : GenState) :
  failure_result context e s = (inl (ReferenceError "retry_count"), s).
Proof. reflexivity. Qed.

(** The blueprint has the profile line 399 reads. *)
Definition profile_present (context : GenerationContext.t) : bool :=
  bool_decide (is_Some (UserBlueprint.profile (GenerationContext.user_blueprint context))).

(** The plan attempt [n] stores, if it gets that far. *)
Definition saved_in_attempt (n : nat) : option MealPlan.t :=
  if negb (profile_present context) then None else
  let sel := selectCandidates_at stages n in
  if SelectionResult.success sel then
    let val := validateAndRefine_at stages n (SelectionResult.candidates sel) in
    if CouncilResult.success val then
      match EnhanceResult.meal_plan (enhancePlan_at stages n (CouncilResult.meal_plan val)) with
      | Some p => match insert_error stages p with None => Some p | Some _ => None end
      | None => None
      end
    else None
  else None.

(** The usage attempt [n] adds to the totals, projected by [f]: nothing
    when the selection fails (the [throw] precedes the additions). *)
Definition counted_usage (f : Usage.t -> option Q) (n : nat) : Q :=
  if negb (profile_present context) then 0 else
  let sel := selectCandidates_at stages n in
  if SelectionResult.success sel then
    let val := validateAndRefine_at stages n (SelectionResult.candidates sel) in
    (f (SelectionResult.usage sel) ||? 0) + (f (CouncilResult.usage val) ||? 0) +
    (if CouncilResult.success val then
       f (EnhanceResult.usage (enhancePlan_at stages n (CouncilResult.meal_plan val))) ||? 0
     else 0)
  else 0.

(** The effect of one round ([try] and [catch] together) on the state. *)
Definition round_state (s : GenState) : GenState :=
  snd (jtry (attempt stages context)
          (fun e => jmodify (set_lastError (Thrown e)) ;; jret None) s).

Lemma round_returns_none (s : GenState) :
  fst (jtry (attempt stages context)
         (fun e => jmodify (set_lastError (Thrown e)) ;; jret None) s) = inr None.
Proof.
  unfold jtry, attempt, jbind, jget, jmodify, jret, jthrow. cbn -[success_result].
  destruct (UserBlueprint.profile _); [|reflexivity]. cbn -[success_result].
  destruct (SelectionResult.success _); [|reflexivity]. cbn -[success_result].
  destruct (CouncilResult.success _); [|reflexivity]. cbn -[success_result].
  unfold saveMealPlan. destruct (EnhanceResult.meal_plan _) as [p|]; [|reflexivity].
  destruct (insert_error stages p); [reflexivity|].
  cbn -[success_result]. rewrite success_result_throws. reflexivity.
Qed.

Lemma round_state_fields (s : GenState) :
  retryCount (round_state s) = retryCount s /\
  meal_plans_table (round_state s) =
    meal_plans_table s ++ option_list (saved_in_attempt (retryCount s)) /\
  totalClaudeRequests (round_state s) ==
    totalClaudeRequests s + counted_usage Usage.claude_requests (retryCount s) /\
  totalTokensUsed (round_state s) ==
    totalTokensUsed s + counted_usage Usage.tokens_used (retryCount s) /\
  totalCostCents (round_state s) ==
    totalCostCents s + counted_usage Usage.cost_cents (retryCount s).
Proof.
  unfold round_state, saved_in_attempt, counted_usage, jtry, attempt, jbind, jget, jmodify,
    jret, jthrow, profile_present.
  cbn -[success_result].
  destruct (UserBlueprint.profile _);
    [| cbn; rewrite app_nil_r; repeat split; lra].
  cbn -[success_result].
  destruct (SelectionResult.success _);
    [| cbn; rewrite app_nil_r; repeat split; lra].
  cbn -[success_result].
  destruct (CouncilResult.success _);
    [| cbn; rewrite app_nil_r; repeat split; lra].
  cbn -[success_result]. unfold saveMealPlan.
  destruct (EnhanceResult.meal_plan _) as [p|];
    [| cbn; rewrite app_nil_r; repeat split; lra].
  destruct (insert_error stages p);
    [cbn; rewrite app_nil_r; repeat split; lra |].
  cbn -[success_result]. rewrite success_result_throws. cbn. repeat split; lra.
Qed.
End ControllerFacts.

Section ControllerLoop.
Context (stages : Stages) (context : GenerationContext.t).

Definition round (s : GenState) : GenState := incr_retryCount (round_state stages context s).

Lemma retry_loop_step (fuel : nat) (s : GenState) :
  (retryCount s < maxRetries)%nat ->
  retry_loop stages context (S fuel) s = retry_loop stages context fuel (round s).
Proof.
  intros H. cbn [retry_loop]. unfold jbind at 1, jget.
  apply Nat.ltb_lt in H. rewrite H.
  unfold jbind at 1.
  rewrite (surjective_pairing (jtry _ _ s)), round_returns_none. reflexivity.
Qed.

Lemma retry_loop_done (fuel : nat) (s : GenState) :
  (maxRetries <= retryCount s)%nat -> retry_loop stages context fuel s = (inr None, s).
Proof.
  intros H. destruct fuel; [reflexivity|]. cbn [retry_loop]. unfold jbind, jget.
  apply Nat.ltb_ge in H. now rewrite H.
Qed.

Lemma round_retryCount (s : GenState) : retryCount (round s) = S (retryCount s).
Proof. unfold round. simpl. f_equal. apply round_state_fields. Qed.

(** C7: The [while] loop ends after exactly [maxRetries] rounds from a
    fresh counter, whatever the stages answer, and never returns a
    result: enough fuel is [maxRetries], and more changes nothing. *)
Theorem retry_loop_three_rounds (fuel : nat) (s : GenState) :
  (maxRetries <= fuel)%nat -> retryCount s = 0%nat ->
  retry_loop stages context fuel s = (inr None, round (round (round s))) /\
  retryCount (round (round (round s))) = maxRetries.
Proof.
  intros Hf Hs. rewrite !round_retryCount, Hs. split; [|reflexivity].
  destruct fuel as [|[|[|fuel]]]; unfold maxRetries in Hf; [lia..|].
  rewrite !retry_loop_step by (rewrite ?round_retryCount, Hs; unfold maxRetries; lia).
  apply retry_loop_done. rewrite !round_retryCount, Hs. reflexivity.
Qed.

Lemma generateFallbackPlan_state (s : GenState) :
  snd (generateFallbackPlan stages context s) = s.
Proof.
  unfold generateFallbackPlan.
  destruct (fallback_recipes stages) as [[|r rs]|]; [reflexivity| |reflexivity].
  now destruct (UserBlueprint.profile (GenerationContext.user_blueprint context)),
    (UserBlueprint.intake (GenerationContext.user_blueprint context)).
Qed.

Lemma fallback_phase_throws (s : GenState) :
  jtry (fallbackPlan <- generateFallbackPlan stages context ;; fallback_result context fallbackPlan)
       (failure_result context) s = (inl (ReferenceError "retry_count"), s).
Proof.
  unfold jtry, jbind.
  pose proof (generateFallbackPlan_state s) as Hs.
  destruct (generateFallbackPlan stages context s) as [[e|p] s'] eqn:E; simpl in Hs; subst s';
    [apply failure_result_throws|].
  rewrite fallback_result_throws. apply failure_result_throws.
Qed.

Definition fresh_locals (s : GenState) : GenState := mkGen 0 NoError 0 0 0 (meal_plans_table s).

Lemma generateMealPlanWithRetry_run (s : GenState) :
  generateMealPlanWithRetry stages context s =
  (inl (ReferenceError "retry_count"), round (round (round (fresh_locals s)))).
Proof.
  unfold generateMealPlanWithRetry. unfold jbind at 1, jmodify. fold (fresh_locals s).
  unfold jbind at 1.
  destruct (retry_loop_three_rounds maxRetries (fresh_locals s) (le_n _) eq_refl) as [-> _].
  apply fallback_phase_throws.
Qed.

(** C1: [generateMealPlanWithRetry] never returns: whatever the stages
    answer, it rejects with [ReferenceError: retry_count is not
    defined], after exactly three rounds, even when a round produced a
    valid plan (its [return] object reads the undeclared [retry_count]),
    and the fallback and complete-failure objects throw the same way. *)
Theorem generateMealPlanWithRetry_always_throws (s : GenState) :
  fst (generateMealPlanWithRetry stages context s) = inl (ReferenceError "retry_count") /\
  retryCount (snd (generateMealPlanWithRetry stages context s)) = maxRetries.
Proof.
  rewrite generateMealPlanWithRetry_run. split; [reflexivity|].
  simpl snd. rewrite !round_retryCount. reflexivity.
Qed.

Lemma round_table (s : GenState) :
  meal_plans_table (round s) =
  meal_plans_table s ++ option_list (saved_in_attempt stages context (retryCount s)).
Proof. apply (round_state_fields stages context s). Qed.

(** The table after the three rounds of a call. *)
Lemma fresh_rounds_table (s : GenState) :
  meal_plans_table (round (round (round (fresh_locals s)))) =
  meal_plans_table s ++ option_list (saved_in_attempt stages context 0) ++
  option_list (saved_in_attempt stages context 1) ++ option_list (saved_in_attempt stages context 2).
Proof. rewrite !round_table, !round_retryCount. simpl. now rewrite <- !app_assoc. Qed.

(** C4: Every round that gets a plan through selection, the council and
    the wow layer inserts it into [meal_plans] before failing, so one
    request may store up to three plans. *)
Theorem generateMealPlanWithRetry_saved_plans (s : GenState) :
  meal_plans_table (snd (generateMealPlanWithRetry stages context s)) =
  meal_plans_table s ++ option_list (saved_in_attempt stages context 0) ++
  option_list (saved_in_attempt stages context 1) ++ option_list (saved_in_attempt stages context 2).
Proof. rewrite generateMealPlanWithRetry_run. apply fresh_rounds_table. Qed.

End ControllerLoop.

(** ** The fallback plan *)

Section FallbackFacts.
Context (stages : Stages) (context : GenerationContext.t).

(** The recipe ids of a plan's slots, in day and meal order. *)
Definition slot_recipe_ids (p : PlanData.t) : list string :=
  map MealSlot.recipe_id (plan_meals (PlanData.days p)).

(** [fallbackRecipes[i].id], [""] out of range. *)
Definition pool_id (recipes : list Recipe.t) (i : nat) : string :=
  match recipes !! i with Some r => Recipe.id r | None => "" end.

Lemma fallback_slot_ids (recipes : list Recipe.t) :
  slot_recipe_ids (fallback_plan_data stages context recipes) =
  map (fun i => pool_id recipes (i mod length recipes)) (seq 0 9).
Proof. reflexivity. Qed.

Lemma pool_id_seq (recipes : list Recipe.t) (m : nat) :
  (m <= length recipes)%nat ->
  map (pool_id recipes) (seq 0 m) = take m (map Recipe.id recipes).
Proof.
  revert m. induction recipes as [|r rs IH]; intros [|m] Hm; simpl in Hm; try reflexivity; [lia|].
  simpl. f_equal. rewrite <- seq_shift, map_map. apply IH. lia.
Qed.

Lemma in_fallback_slot_ids (recipes : list Recipe.t) (x : string) :
  recipes <> [] ->
  x ∈ slot_recipe_ids (fallback_plan_data stages context recipes) <->
  x ∈ map (pool_id recipes) (seq 0 (Nat.min 9 (length recipes))).
Proof.
  intros Hne. assert (Hn : length recipes <> 0%nat) by (now destruct recipes).
  rewrite fallback_slot_ids, !list_elem_of_In, !in_map_iff.
  setoid_rewrite in_seq. split.
  - intros (i & <- & _ & Hi). exists (i mod length recipes).
    pose proof (Nat.mod_upper_bound i _ Hn). pose proof (Nat.Div0.mod_le i (length recipes)). split; [reflexivity|lia].
  - intros (j & <- & _ & Hj). exists j. rewrite Nat.mod_small by lia. split; [reflexivity|lia].
Qed.

(** Under distinct recipe ids, the [unique_recipes] the fallback plan
    reports, [Math.min(9, fallbackRecipes.length)], is the number of
    distinct recipes its nine slots use ([(dayIndex * 3 + mealIndex) %
    length] visits the first [min 9 length] recipes). *)
Theorem fallback_unique_recipes (recipes : list Recipe.t) :
  recipes <> [] -> NoDup (map Recipe.id recipes) ->
  length (remove_dups (slot_recipe_ids (fallback_plan_data stages context recipes))) =
  PlanData.unique_recipes (fallback_plan_data stages context recipes).
Proof.
  intros Hne Hnd.
  transitivity (length (map (pool_id recipes) (seq 0 (Nat.min 9 (length recipes)))));
    [|now rewrite length_map, length_seq].
  apply Permutation_length, stdpp.list_relations.list.NoDup_Permutation.
  - apply NoDup_remove_dups.
  - rewrite pool_id_seq by lia. eapply sublist_NoDup; [exact Hnd | apply sublist_take].
  - intros x. rewrite elem_of_remove_dups. now apply in_fallback_slot_ids.
Qed.

(** With a non-empty pool and a profile and intake, the fallback
    plan is returned without touching the state; it has nine slots, as
    many as its [total_recipes], slot [i] holds the recipe at index
    [i mod length] of the pool, and every slot's recipe comes from it. *)
Theorem generateFallbackPlan_slots (recipes : list Recipe.t) (prof : UserProfile.t)
    (intake : UserIntake.t) (s : GenState) :
  fallback_recipes stages = Some recipes -> recipes <> [] ->
  UserBlueprint.profile (GenerationContext.user_blueprint context) = Some prof ->
  UserBlueprint.intake (GenerationContext.user_blueprint context) = Some intake ->
  exists p, generateFallbackPlan stages context s = (inr p, s) /\
    MealPlan.user_id p = UserProfile.id prof /\
    MealPlan.plan_data p = fallback_plan_data stages context recipes /\
    length (plan_meals (PlanData.days (MealPlan.plan_data p))) =
      PlanData.total_recipes (MealPlan.plan_data p) /\
    slot_recipe_ids (MealPlan.plan_data p) =
      map (fun i => pool_id recipes (i mod length recipes)) (seq 0 9) /\
    Forall (fun x => x ∈ map Recipe.id recipes) (slot_recipe_ids (MealPlan.plan_data p)).
Proof.
  intros Hr Hne Hp Hi. unfold generateFallbackPlan. rewrite Hr, Hp, Hi.
  destruct recipes as [|r rs]; [congruence|].
  eexists. split; [reflexivity|]. cbn [MealPlan.plan_data MealPlan.user_id].
  do 3 (split; [reflexivity|]). split; [apply fallback_slot_ids|].
  apply Forall_forall. intros x Hx.
  apply in_fallback_slot_ids in Hx; [|done]. rewrite pool_id_seq in Hx by lia.
  apply elem_of_take in Hx as (i & Hi' & _). eapply list_elem_of_lookup_2. exact Hi'.
Qed.

(** When the fallback query fails or returns no recipe,
    [generateFallbackPlan] throws [Error('Failed to fetch fallback
    recipes')] and changes nothing. *)
Theorem generateFallbackPlan_no_recipes (s : GenState) :
  fallback_recipes stages = None \/ fallback_recipes stages = Some [] ->
  generateFallbackPlan stages context s = (inl (Error "Failed to fetch fallback recipes"), s).
Proof. unfold generateFallbackPlan. now intros [-> | ->]. Qed.
End FallbackFacts.

(** ** The controller with the modelled candidate selector *)

Section WithSelector.
Variable json_parse : string -> string + json.
Variable table : RecipeTable.
(** The scorer's answer at each round. *)
Variable replies : nat -> ScorerReply.
Variable preferences : GenerationPreferences.t.

(** Stage 2 is [selectCandidates] on the context's
    blueprint (lines 406-410); the other stages are unchanged. *)
Definition with_selector (stages : Stages) (context : GenerationContext.t) : Stages :=
  mkStages (fun n => selectCandidates json_parse table (replies n)
                       (GenerationContext.user_blueprint context) preferences)
    (validateAndRefine_at stages) (enhancePlan_at stages) (insert_error stages)
    (fallback_recipes stages) (fresh_id stages) (iso_date stages).

Lemma selectCandidates_no_intake (bp : UserBlueprint.t) (reply : ScorerReply) :
  UserBlueprint.intake bp = None ->
  SelectionResult.success
    (selectCandidates json_parse table reply bp preferences) = false.
Proof.
  intros Hi. unfold selectCandidates, buildRecipeFilter. rewrite Hi.
  now destruct (UserBlueprint.profile bp).
Qed.

(** With the modelled selector, a blueprint without intake fails
    every round at candidate selection: the request stores no plan and
    counts no usage, and still ends in the [retry_count] error. *)
Theorem no_intake_nothing_saved (stages : Stages) (context : GenerationContext.t)
    (s : GenState) :
  UserBlueprint.intake (GenerationContext.user_blueprint context) = None ->
  let r := generateMealPlanWithRetry (with_selector stages context) context s in
  fst r = inl (ReferenceError "retry_count") /\
  meal_plans_table (snd r) = meal_plans_table s /\
  totalClaudeRequests (snd r) == 0 /\ totalTokensUsed (snd r) == 0 /\ totalCostCents (snd r) == 0.
Proof.
  intros Hi. cbv zeta. rewrite generateMealPlanWithRetry_run. cbn [fst snd].
  set (st := with_selector stages context).
  assert (Hsel : forall n, SelectionResult.success (selectCandidates_at st n) = false)
    by (intros n; apply selectCandidates_no_intake, Hi).
  assert (H : forall s', meal_plans_table (round st context s') = meal_plans_table s' /\
     totalClaudeRequests (round st context s') == totalClaudeRequests s' /\
     totalTokensUsed (round st context s') == totalTokensUsed s' /\
     totalCostCents (round st context s') == totalCostCents s').
  { intros s'. destruct (round_state_fields st context s') as (_ & Ht & Hc & Htk & Hco).
    unfold saved_in_attempt, counted_usage in *. rewrite Hsel in *.
    cbn [round incr_retryCount meal_plans_table totalClaudeRequests totalTokensUsed totalCostCents].
    rewrite Ht. destruct (negb (profile_present context)); simpl; split_and!;
      rewrite ?app_nil_r; try reflexivity; lra. }
  split; [reflexivity|].
  destruct (H (round st context (round st context (fresh_locals s)))) as (A1 & A2 & A3 & A4).
  destruct (H (round st context (fresh_locals s))) as (B1 & B2 & B3 & B4).
  destruct (H (fresh_locals s)) as (C1 & C2 & C3 & C4).
  rewrite A1, B1, C1. split; [reflexivity|].
  rewrite A2, B2, C2, A3, B3, C3, A4, B4, C4. simpl. split_and!; reflexivity.
Qed.
End WithSelector.

(** ** A run: every stage succeeds *)

Module GenSample.
Definition recipe (id : string) : Recipe.t :=
  Recipe.mk id "Oat bowl" [] None (Some 10) None 1 None [] None [Breakfast] Published false 5 3.
Definition pool : list Recipe.t := [recipe "r1"; recipe "r2"; recipe "r3"; recipe "r4"].
Definition profile : UserProfile.t := UserProfile.mk "u1" None None None None 0.
Definition intake : UserIntake.t :=
  UserIntake.mk "i1" None [] [] [] None None None None None None.
Definition blueprint : UserBlueprint.t :=
  UserBlueprint.mk (Some profile) (Some intake) None (SubscriptionPlan.mk 4 false false)
    None None None.
Definition context : GenerationContext.t := GenerationContext.mk blueprint "g1" 20000 0.
Definition usage : Usage.t := Usage.mk (Some 1) (Some 300) (Some 2).
Definition plan : MealPlan.t :=
  MealPlan.mk "p1" "u1" (Some "i1") None 20000 (PlanData.mk [] 0 0 0 None) "ai" "g1".
Definition stages : Stages :=
  mkStages (fun _ => SelectionResult.mk true (Some []) None usage)
    (fun _ _ => CouncilResult.mk true (Some plan) None None usage)
    (fun _ p => EnhanceResult.mk true p None usage)
    (fun _ => None) (Some pool) "p-fallback" (fun _ => "2024-10-07").
Definition no_pool : Stages :=
  mkStages (selectCandidates_at stages) (validateAndRefine_at stages) (enhancePlan_at stages)
    (insert_error stages) (Some []) "p-fallback" (iso_date stages).
Definition start : GenState := mkGen 0 NoError 0 0 0 [].
Definition no_intake : GenerationContext.t :=
  GenerationContext.mk (UserBlueprint.mk (Some profile) None None (SubscriptionPlan.mk 4 false false)
                          None None None) "g2" 20000 0.
Definition recipes : RecipeTable := mkRecipeTable pool None.
End GenSample.

(** In that run every round saves [plan] and then throws: three rows,
    and three rounds of three stages at 300 tokens each. *)
Example GenSample_run :
  let r := generateMealPlanWithRetry GenSample.stages GenSample.context GenSample.start in
  fst r = inl (ReferenceError "retry_count") /\
  meal_plans_table (snd r) = [GenSample.plan; GenSample.plan; GenSample.plan] /\
  lastError (snd r) = Thrown (ReferenceError "retry_count") /\
  totalTokensUsed (snd r) == 2700.
Proof. vm_compute. repeat split; reflexivity. Qed.

Lemma retry_loop_three_rounds_witness :
  ((maxRetries <= 3)%nat /\ retryCount GenSample.start = 0%nat) /\
  retry_loop GenSample.stages GenSample.context 3 GenSample.start =
    (inr None, round GenSample.stages GenSample.context
                 (round GenSample.stages GenSample.context
                    (round GenSample.stages GenSample.context GenSample.start))) /\
  retryCount (round GenSample.stages GenSample.context
                (round GenSample.stages GenSample.context
                   (round GenSample.stages GenSample.context GenSample.start))) = maxRetries.
Proof.
  split; [split; reflexivity|].
  apply retry_loop_three_rounds; reflexivity.
Defined.

Lemma fallback_unique_recipes_witness :
  (GenSample.pool <> [] /\ NoDup (map Recipe.id GenSample.pool)) /\
  length (remove_dups (slot_recipe_ids
     (fallback_plan_data GenSample.stages GenSample.context GenSample.pool))) =
  PlanData.unique_recipes (fallback_plan_data GenSample.stages GenSample.context GenSample.pool).
Proof.
  assert (Hne : GenSample.pool <> []) by discriminate.
  assert (Hnd : NoDup (map Recipe.id GenSample.pool)) by (apply (bool_decide_unpack (NoDup (map Recipe.id GenSample.pool))); vm_compute; reflexivity).
  split; [split; assumption|].
  apply fallback_unique_recipes; assumption.
Defined.

Lemma generateFallbackPlan_slots_witness :
  exists p, generateFallbackPlan GenSample.stages GenSample.context GenSample.start =
      (inr p, GenSample.start) /\
    MealPlan.user_id p = UserProfile.id GenSample.profile /\
    MealPlan.plan_data p = fallback_plan_data GenSample.stages GenSample.context GenSample.pool /\
    length (plan_meals (PlanData.days (MealPlan.plan_data p))) =
      PlanData.total_recipes (MealPlan.plan_data p) /\
    slot_recipe_ids (MealPlan.plan_data p) =
      map (fun i => pool_id GenSample.pool (i mod length GenSample.pool)) (seq 0 9) /\
    Forall (fun x => x ∈ map Recipe.id GenSample.pool) (slot_recipe_ids (MealPlan.plan_data p)).
Proof.
  apply (generateFallbackPlan_slots GenSample.stages GenSample.context GenSample.pool
           GenSample.profile GenSample.intake); [reflexivity | discriminate | reflexivity..].
Defined.

Lemma generateFallbackPlan_no_recipes_witness :
  generateFallbackPlan GenSample.no_pool GenSample.context GenSample.start =
  (inl (Error "Failed to fetch fallback recipes"), GenSample.start).
Proof. apply generateFallbackPlan_no_recipes. right. reflexivity. Defined.

Lemma no_intake_nothing_saved_witness :
  let r := generateMealPlanWithRetry
             (with_selector (fun _ => inl "unused") GenSample.recipes
                (fun _ => FetchFailed "offline") (GenerationPreferences.mk None None None None)
                GenSample.stages GenSample.no_intake)
             GenSample.no_intake GenSample.start in
  fst r = inl (ReferenceError "retry_count") /\
  meal_plans_table (snd r) = meal_plans_table GenSample.start /\
  totalClaudeRequests (snd r) == 0 /\ totalTokensUsed (snd r) == 0 /\ totalCostCents (snd r) == 0.
Proof. apply no_intake_nothing_saved. reflexivity. Defined.
