(* ===== verification/Policies.v ===== *)
(** * Row-level security, [src/database/policies.sql]

    The policies decide which rows a database role may read or write in
    the five tables that have row-level security (lines 7-11).  A
    command passes when the role holds the table privilege (Supabase
    grants every privilege on [public] tables to [anon], [authenticated]
    and [service_role]; lines 200-205 revoke some) and, on a table with
    row-level security, some policy for the command and the role holds
    of the row: [USING] for the rows a command reads, [WITH CHECK] (or
    [USING] when a [FOR ALL] policy has no [WITH CHECK]) for the rows an
    [INSERT] writes.  [service_role] bypasses row-level security.

    The edge functions talk to the database through a client: with the
    caller's token it acts as [authenticated] with [auth.uid()] the
    caller, with the service key as [service_role].  [Handler] writes
    [plan_generation_logs] through the caller's client. *)

From S2P Require Import Prelude.

Module Policies.

Inductive Role := Anon | Authenticated | ServiceRole.

#[export] Instance Role_eq_dec : EqDecision Role.
Proof. solve_decision. Defined.

Definition role_eqb (a b : Role) : bool :=
  match a, b with
  | Anon, Anon | Authenticated, Authenticated | ServiceRole, ServiceRole => true
  | _, _ => false
  end.

Lemma role_eqb_spec (a b : Role) : role_eqb a b = true <-> a = b.
Proof. destruct a, b; split; done. Qed.

(** [FOR SELECT], [FOR UPDATE], [FOR ALL]. *)
Inductive For := ForSelect | ForUpdate | ForAll.

Inductive Command := Select | Insert | Update | Delete.

(** The conditions the policies use. *)
Inductive Expr :=
| ETrue                          (** [true] *)
| EUidIsUserId                   (** [auth.uid() = user_id] *)
| EAdmin (extra : list string)   (** [EXISTS (SELECT 1 FROM users WHERE id = auth.uid()
                                      AND (email LIKE '%@mealwise.app' OR email IN extra))] *)
| EOwnPlan.                      (** [EXISTS (SELECT 1 FROM meal_plans mp
                                      WHERE mp.id = meal_plan_id AND mp.user_id = auth.uid())] *)

Record Policy := mkPolicy {
  pol_table : string; pol_for : For; pol_role : Role;
  pol_using : Expr; pol_check : option Expr }.

(** What a condition reads: [auth.uid()], the [users] rows (id and
    email) and the [meal_plans] rows (id and owner). *)
Record Ctx := mkCtx {
  auth_uid : option string;
  users : list (string * string);
  plan_owners : list (string * string) }.

(** The columns of a row the conditions read; [None] is [NULL]. *)
Record Row := mkRow { row_user_id : option string; row_meal_plan_id : option string }.

(** Lines 7-11. *)
Definition rls_tables : list string :=
  ["usda_nutrition_data"; "plan_generation_logs"; "failed_plans"; "mood_jam_assignments";
   "grocery_lists"].

(** The policies of lines 19-180, in order. *)
Definition policies : list Policy := [
  mkPolicy "usda_nutrition_data" ForSelect Authenticated ETrue None;
  mkPolicy "usda_nutrition_data" ForAll ServiceRole ETrue (Some ETrue);
  mkPolicy "plan_generation_logs" ForSelect Authenticated EUidIsUserId None;
  mkPolicy "plan_generation_logs" ForAll ServiceRole ETrue (Some ETrue);
  mkPolicy "plan_generation_logs" ForSelect Authenticated (EAdmin ["admin@example.com"]) None;
  mkPolicy "failed_plans" ForAll ServiceRole ETrue (Some ETrue);
  mkPolicy "failed_plans" ForSelect Authenticated (EAdmin []) None;
  mkPolicy "mood_jam_assignments" ForSelect Authenticated EOwnPlan None;
  mkPolicy "mood_jam_assignments" ForUpdate Authenticated EOwnPlan (Some EOwnPlan);
  mkPolicy "mood_jam_assignments" ForAll ServiceRole ETrue (Some ETrue);
  mkPolicy "grocery_lists" ForAll Authenticated EUidIsUserId (Some EUidIsUserId);
  mkPolicy "grocery_lists" ForAll ServiceRole ETrue (Some ETrue);
  mkPolicy "plan_generation_analytics" ForSelect Authenticated (EAdmin []) None;
  mkPolicy "nutrition_accuracy_stats" ForSelect Authenticated (EAdmin []) None].

(** The privileges lines 200 and 204 revoke from [authenticated]. *)
Definition revoked (role : Role) (table : string) (c : Command) : bool :=
  role_eqb role Authenticated &&
  (String.eqb table "failed_plans" ||
   (String.eqb table "usda_nutrition_data" && (if c is Select then false else true))).

Definition str_ends_with (suffix s : string) : bool :=
  let n := String.length s in
  let m := String.length suffix in
  (m <=? n)%nat && String.eqb (substring (n - m) m s) suffix.

Definition eval_expr (ctx : Ctx) (row : Row) (e : Expr) : bool :=
  match e with
  | ETrue => true
  | EUidIsUserId =>
      match auth_uid ctx, row_user_id row with
      | Some u, Some v => String.eqb u v
      | _, _ => false
      end
  | EAdmin extra =>
      match auth_uid ctx with
      | Some u => existsb (fun '(id, email) =>
                    String.eqb id u &&
                    (str_ends_with "@mealwise.app" email || existsb (String.eqb email) extra))
                    (users ctx)
      | None => false
      end
  | EOwnPlan =>
      match auth_uid ctx, row_meal_plan_id row with
      | Some u, Some p => existsb (fun '(id, owner) => String.eqb id p && String.eqb owner u)
                            (plan_owners ctx)
      | _, _ => false
      end
  end.

Definition covers (f : For) (c : Command) : bool :=
  match f, c with
  | ForAll, _ | ForSelect, Select | ForUpdate, Update => true
  | _, _ => false
  end.

(** The policies that apply to a command of a role on a table. *)
Definition applicable (role : Role) (table : string) (c : Command) : list Policy :=
  List.filter (fun p => covers (pol_for p) c && role_eqb (pol_role p) role &&
                        String.eqb (pol_table p) table) policies.

(** May [role] insert [row] into [table]? *)
Definition insert_allowed (ctx : Ctx) (role : Role) (table : string) (row : Row) : bool :=
  negb (revoked role table Insert) &&
  (negb (existsb (String.eqb table) rls_tables) || role_eqb role ServiceRole ||
   existsb (fun p => eval_expr ctx row (default (pol_using p) (pol_check p)))
     (applicable role table Insert)).

(** ** Facts *)

(** No policy lets a client other than [service_role] insert into
    [plan_generation_logs]. *)
Lemma applicable_logs_insert (role : Role) :
  role ≠ ServiceRole -> applicable role "plan_generation_logs" Insert = [].
Proof. intros H. destruct role; [reflexivity | reflexivity | congruence]. Qed.

Lemma insert_logs_denied (ctx : Ctx) (row : Row) (role : Role) :
  role ≠ ServiceRole -> insert_allowed ctx role "plan_generation_logs" row = false.
Proof.
  intros H. unfold insert_allowed. rewrite applicable_logs_insert by exact H.
  destruct role; [reflexivity | reflexivity | congruence].
Qed.

Lemma rls_table_listed (table : string) :
  table ∈ rls_tables -> existsb (String.eqb table) rls_tables = true.
Proof.
  intros Ht. apply existsb_exists. exists table.
  split; [by apply list_elem_of_In | apply String.eqb_refl].
Qed.

(** C28: Of the tables with row-level security, a client acting for a
    caller ([authenticated]) can insert only into [grocery_lists], and
    only a row whose [user_id] is the caller; an [anon] client can insert
    into none of them.  In particular neither can write
    [plan_generation_logs], [failed_plans] or [mood_jam_assignments]. *)
Theorem insert_allowed_clients (ctx : Ctx) (role : Role) (table : string) (row : Row) :
  role ≠ ServiceRole -> table ∈ rls_tables ->
  insert_allowed ctx role table row = true ->
  role = Authenticated /\ table = "grocery_lists" /\
  exists u, auth_uid ctx = Some u /\ row_user_id row = Some u.
Proof.
  intros Hr Ht. unfold insert_allowed.
  rewrite rls_table_listed by exact Ht. cbn [negb orb].
  destruct role; [| |done]; cbn [applicable policies List.filter covers pol_for pol_role pol_table
    role_eqb andb orb existsb revoked negb]; [done|].
  destruct (String.eqb_spec "grocery_lists" table) as [<-|]; [|by rewrite andb_false_r].
  cbn. destruct (auth_uid ctx) as [u|], (row_user_id row) as [v|]; try done.
  rewrite orb_false_r. intros ->%String.eqb_eq. eauto.
Qed.

Module PoliciesSample.
Definition ctx : Ctx := mkCtx (Some "u1") [] [].
Definition own_list : Row := mkRow (Some "u1") None.
End PoliciesSample.

Lemma insert_allowed_clients_witness :
  Authenticated = Authenticated /\ "grocery_lists"%string = "grocery_lists"%string /\
  exists u, auth_uid PoliciesSample.ctx = Some u /\ row_user_id PoliciesSample.own_list = Some u.
Proof.
  apply (insert_allowed_clients PoliciesSample.ctx Authenticated "grocery_lists" PoliciesSample.own_list);
    [discriminate | apply list_elem_of_In; cbn; tauto | reflexivity].
Defined.

End Policies.
