(* ===== verification/Handler.v ===== *)
(** * The plan-generator HTTP handler, [src/unnamed/part_001] lines 51-382

    [serve]'s handler (51-171) answers a preflight, refuses other methods,
    then inside one [try] runs [validateRequest] (174-267),
    [ingestUserBlueprint] (272-382) and [generateMealPlanWithRetry]
    ([PlanGenerator]), logging to [plan_generation_logs] through the
    caller's client, whose inserts the row-level policies ([Policies])
    refuse.

    The services the handler calls are the record [Env]: the
    authenticated user, the zod-parsed body, the user's active
    subscription and the rows [ingestUserBlueprint] reads.  The monthly
    plan count of [validateRequest] is read from the [meal_plans] table
    of the state (the month window is not modelled).  A response is its
    status and a summary of its JSON body; a rejected handler promise is
    [Reject]. *)

From stdpp Require Import pretty.
From S2P Require Import Prelude Js Types Blueprint CandidateSelector NutritionCouncil PlanGenerator.
From S2P Require Import Policies.

Open Scope Q_scope.
Open Scope mw_scope.

(** The parsed request, lines 32-46 (the fields the handler reads). *)
Module PlanGenerationRequest.
Record t := mk { week_start_date : Z; preferences : GenerationPreferences.t }.
End PlanGenerationRequest.

Record Env := mkEnv {
  (** the message of an exception [createClient] or [auth.getUser()]
      throws (e.g. [SUPABASE_URL] unset) *)
  client_throws : option string;
  (** [supabase.auth.getUser()]: the user's id *)
  auth_user : option string;
  (** [PlanGenerationRequestSchema.parse(JSON.parse(rawBody))], or the
      message of its error *)
  request_body : string + PlanGenerationRequest.t;
  (** the active subscription's [plan_generation_limit] *)
  active_plan_limit : option Z;
  (** the [meal_plans] count query answers an error ([count] is [null]) *)
  count_fails : bool;
  (** the [users] rows (id, email) the row-level policies read *)
  users_rows : list (string * string);
  (** the rows of [ingestUserBlueprint], or the message of the query
      error *)
  profile_row : string + UserProfile.t;
  intake_row : string + UserIntake.t;
  subscription_row : string + (UserSubscription.t * SubscriptionPlan.t);
  rated : option (list RecentRating.t);
  swapped : option (list RecentSwap.t);
  (** [new Date().getFullYear()] *)
  current_year : Z;
  (** [uuidv4()] of line 68 *)
  generation_uuid : string;
  (** the stages of [generateMealPlanWithRetry] *)
  gen_stages : Stages }.

Inductive Body :=
| Preflight
| ErrorBody (message : string) (status : Z)
| PlanBody (success : bool) (plan_id : option string) (status : string).

Inductive Outcome :=
| Respond (status : Z) (body : Body)
| Reject (e : JsError).

(** A row of [plan_generation_logs]. *)
Record LogEntry := mkLog { log_user : string; log_generation : string; log_status : string }.

Record HState := mkHState { meal_plans : list MealPlan.t; generation_logs : list LogEntry }.

(** [createErrorResponse], lines 519-534. *)
Definition createErrorResponse (message : string) (status : Z) : Outcome :=
  Respond status (ErrorBody message status).

Definition user_plan_count (uid : string) (st : HState) : nat :=
  length (List.filter (fun p => String.eqb (MealPlan.user_id p) uid) (meal_plans st)).

Section Handler.
Variable env : Env.

(** [validateRequest], lines 174-267: the user, the parsed request, or
    the error message and status.  An exception of the client is caught
    at lines 259-265; a failed count query leaves [monthlyPlans] [null],
    which [>=] reads as 0. *)
Definition validateRequest (st : HState) : (string * Z) + (string * PlanGenerationRequest.t) :=
  match client_throws env with
  | Some m => inl (("Validation error: " ++ m)%string, 500%Z)
  | None =>
  match auth_user env with
  | None => inl ("Unauthorized: Invalid or missing authentication"%string, 401%Z)
  | Some uid =>
      match request_body env with
      | inl m => inl (("Invalid request format: " ++ m)%string, 422%Z)
      | inr req =>
          match active_plan_limit env with
          | None => inl ("No active subscription found"%string, 403%Z)
          | Some planLimit =>
              if Z.eqb planLimit (-1) then inr (uid, req)
              else if Z.leb planLimit
                        (if count_fails env then 0%Z else Z.of_nat (user_plan_count uid st)) then
                inl (("Monthly plan generation limit reached (" ++ pretty planLimit ++ " plans)")%string,
                     429%Z)
              else inr (uid, req)
          end
      end
  end
  end.

(** [ingestUserBlueprint], lines 272-382: the blueprint, or the message
    of the caught error or of the failed validation. *)
Definition ingestUserBlueprint : string + UserBlueprint.t :=
  match profile_row env with
  | inl m => inl ("Failed to fetch user profile: " ++ m)%string
  | inr profile =>
  match intake_row env with
  | inl m => inl ("Failed to fetch user intake: " ++ m)%string
  | inr intake =>
  match subscription_row env with
  | inl m => inl ("Failed to fetch subscription: " ++ m)%string
  | inr (subscription, plan) =>
      let blueprint :=
        UserBlueprint.mk (Some profile) (Some intake) (Some subscription) plan
          (calculateNutritionalTargets (current_year env) profile)
          (Some (default [] (rated env))) (Some (default [] (swapped env))) in
      let validation := validateUserBlueprint blueprint in
      if BlueprintValidation.can_generate_plan validation then inr blueprint
      else inl ("Incomplete user profile: " ++
                String.concat ", " (BlueprintValidation.missing_fields validation))%string
  end
  end
  end.

(** [logGenerationEvent], logging.ts lines 34-69, through a client of
    role [client] for the user [uid]: the row is added when the policies
    let the insert pass; a refused insert is only logged to the console. *)
Definition logGenerationEvent (client : Policies.Role) (uid : string) (e : LogEntry)
    (st : HState) : HState :=
  let ctx := Policies.mkCtx (Some uid) (users_rows env)
               (map (fun p => (MealPlan.id p, MealPlan.user_id p)) (meal_plans st)) in
  if Policies.insert_allowed ctx client "plan_generation_logs"
       (Policies.mkRow (Some (log_user e)) None)
  then mkHState (meal_plans st) (generation_logs st ++ [e])
  else st.

(** The handler's client (lines 177-185) carries the caller's token:
    its role is [authenticated]. *)
Definition add_log (uid : string) (e : LogEntry) (st : HState) : HState :=
  logGenerationEvent Policies.Authenticated uid e st.

(** The [try] block of lines 71-153 after the two checks: log the start,
    generate, log the end and answer; the [catch] (154-170) first reads
    [supabase], a [const] of the [try] block, and throws. *)
Definition generate_and_respond (uid : string) (req : PlanGenerationRequest.t)
    (bp : UserBlueprint.t) (st : HState) : Outcome * HState :=
  let context := GenerationContext.mk bp (generation_uuid env)
                   (PlanGenerationRequest.week_start_date req) 0 in
  let st1 := add_log uid (mkLog uid (generation_uuid env) "started") st in
  let '(r, gs) := generateMealPlanWithRetry (gen_stages env) context
                    (mkGen 0 NoError 0 0 0 (meal_plans st1)) in
  let st2 := mkHState (meal_plans_table gs) (generation_logs st1) in
  match r with
  | inl _ => (Reject (ReferenceError "supabase"), st2)
  | inr res =>
      let ok := PlanGenerationResult.success res in
      (Respond (if ok then 200 else 500)%Z
         (PlanBody ok (option_map MealPlan.id (PlanGenerationResult.meal_plan res))
            (if PlanGenerationResult.used_fallback res then "generated_with_fallback" else "generated")),
       add_log uid (mkLog uid (generation_uuid env) (if ok then "completed" else "failed")) st2)
  end.

(** The handler of lines 51-171. *)
Definition handler (method : string) (st : HState) : Outcome * HState :=
  if String.eqb method "OPTIONS" then (Respond 200 Preflight, st)
  else if negb (String.eqb method "POST") then (createErrorResponse "Method not allowed" 405, st)
  else
    match validateRequest st with
    | inl (msg, status) => (createErrorResponse msg status, st)
    | inr (uid, req) =>
        match ingestUserBlueprint with
        | inl msg => (createErrorResponse msg 400, st)
        | inr bp => generate_and_respond uid req bp st
        end
    end.
End Handler.

(** ** Theorems *)

Section HandlerFacts.
Variable env : Env.

(** The policies refuse the handler's log rows. *)
Lemma add_log_denied (uid : string) (e : LogEntry) (st : HState) : add_log env uid e st = st.
Proof.
  unfold add_log, logGenerationEvent.
  by rewrite Policies.insert_logs_denied by discriminate.
Qed.

Lemma generate_and_respond_rejects (uid : string) (req : PlanGenerationRequest.t)
    (bp : UserBlueprint.t) (st : HState) :
  let context := GenerationContext.mk bp (generation_uuid env)
                   (PlanGenerationRequest.week_start_date req) 0 in
  generate_and_respond env uid req bp st =
  (Reject (ReferenceError "supabase"),
   mkHState (meal_plans st ++ option_list (saved_in_attempt (gen_stages env) context 0) ++
             option_list (saved_in_attempt (gen_stages env) context 1) ++
             option_list (saved_in_attempt (gen_stages env) context 2))
            (generation_logs st)).
Proof.
  cbv zeta. unfold generate_and_respond. rewrite add_log_denied, generateMealPlanWithRetry_run.
  cbn [meal_plans_table]. f_equal. f_equal.
  apply (fresh_rounds_table (gen_stages env) _ (mkGen 0 NoError 0 0 0 (meal_plans st))).
Qed.

(** C5: The handler never delivers a plan: it answers a preflight, an
    error response with status 405, 500, 401, 422, 403, 429 or 400, or its
    promise rejects with [ReferenceError: supabase is not defined], the
    [catch] of a request whose generation threw (every generation does). *)
Theorem handler_never_delivers (method : string) (st : HState) :
  match fst (handler env method st) with
  | Respond s Preflight => s = 200%Z
  | Respond s (ErrorBody _ s') => s = s' /\ s ∈ [405; 500; 401; 422; 403; 429; 400]%Z
  | Respond _ (PlanBody _ _ _) => False
  | Reject e => e = ReferenceError "supabase"
  end.
Proof.
  unfold handler. destruct (String.eqb method "OPTIONS"); [reflexivity|].
  destruct (negb _); [cbn; split; [reflexivity | set_solver]|].
  destruct (validateRequest env st) as [[msg status]|[uid req]] eqn:Hv.
  - cbn. split; [reflexivity|]. unfold validateRequest in Hv.
    repeat (case_match; simplify_eq; try set_solver).
  - destruct (ingestUserBlueprint env) as [msg|bp].
    + cbn. split; [reflexivity | set_solver].
    + rewrite generate_and_respond_rejects. reflexivity.
Qed.

(** C9: An authorized request with a complete blueprint leaves
    [plan_generation_logs] as it was (policies.sql lets only
    [service_role] insert there, and the handler's client acts for the
    caller, so the ["started"] row is refused and the refusal swallowed)
    and every plan the three rounds stored in [meal_plans], then
    rejects: with stages that store plans of the user, one request uses
    up three plans of the monthly quota and delivers none. *)
Theorem handler_authorized_effects (st : HState) (uid : string) (req : PlanGenerationRequest.t)
    (bp : UserBlueprint.t) :
  validateRequest env st = inr (uid, req) -> ingestUserBlueprint env = inr bp ->
  let context := GenerationContext.mk bp (generation_uuid env)
                   (PlanGenerationRequest.week_start_date req) 0 in
  (forall n, (n < 3)%nat -> exists p, saved_in_attempt (gen_stages env) context n = Some p /\
                                     MealPlan.user_id p = uid) ->
  fst (handler env "POST" st) = Reject (ReferenceError "supabase") /\
  generation_logs (snd (handler env "POST" st)) = generation_logs st /\
  user_plan_count uid (snd (handler env "POST" st)) = (user_plan_count uid st + 3)%nat.
Proof.
  intros Hv Hi context Hs. unfold handler. cbn -[validateRequest ingestUserBlueprint generate_and_respond].
  rewrite Hv, Hi, generate_and_respond_rejects. fold context. split_and!; [reflexivity | reflexivity |].
  destruct (Hs 0%nat) as (p0 & -> & E0); [lia|].
  destruct (Hs 1%nat) as (p1 & -> & E1); [lia|].
  destruct (Hs 2%nat) as (p2 & -> & E2); [lia|].
  unfold user_plan_count. cbn [snd fst meal_plans option_list].
  rewrite !List.filter_app, !length_app. cbn. rewrite E0, E1, E2, !String.eqb_refl. cbn. lia.
Qed.


(** A profile without weight, height or birth date, with no field
    missing, is refused with "Incomplete user profile: " followed by no
    field name: the check that failed is not reported. *)
Theorem ingest_incomplete_no_field (profile : UserProfile.t) (intake : UserIntake.t)
    (sub : UserSubscription.t) (plan : SubscriptionPlan.t) :
  profile_row env = inr profile -> intake_row env = inr intake ->
  subscription_row env = inr (sub, plan) ->
  BlueprintValidation.missing_fields
    (validateUserBlueprint (UserBlueprint.mk (Some profile) (Some intake) (Some sub) plan None
       (Some (default [] (rated env))) (Some (default [] (swapped env))))) = [] ->
  body_data profile = false ->
  ingestUserBlueprint env = inl "Incomplete user profile: "%string.
Proof.
  intros Hp Hi Hs Hm Hb. unfold ingestUserBlueprint. rewrite Hp, Hi, Hs.
  assert (Ht : calculateNutritionalTargets (current_year env) profile = None).
  { unfold body_data, calculateNutritionalTargets in *.
    destruct (UserProfile.weight_kg profile) as [w|], (UserProfile.height_cm profile) as [h|],
      (UserProfile.date_of_birth profile); cbn in Hb; try reflexivity.
    rewrite andb_true_r in Hb. apply andb_false_iff in Hb as [Hb|Hb];
      apply negb_false_iff in Hb; rewrite Hb; [reflexivity | now rewrite orb_true_r]. }
  rewrite Ht. unfold validateUserBlueprint in *. cbn -[String.concat] in *.
  rewrite Hm, Hb. reflexivity.
Qed.
End HandlerFacts.

(** ** A request *)

Module HandlerSample.
Definition request : PlanGenerationRequest.t :=
  PlanGenerationRequest.mk 20000 (GenerationPreferences.mk None None None None).
Definition env : Env :=
  mkEnv None (Some "u1") (inr request) (Some 4%Z) false [] (inr BpSample.profile) (inr BpSample.intake)
    (inr (UserSubscription.mk "active", SubscriptionPlan.mk 4 false false)) None None 2025 "g1"
    GenSample.stages.
(** The same user without body data. *)
Definition thin_profile : UserProfile.t := UserProfile.mk "u1" None None None None 0.
Definition thin_env : Env :=
  mkEnv None (Some "u1") (inr request) (Some 4%Z) false [] (inr thin_profile) (inr BpSample.intake)
    (inr (UserSubscription.mk "active", SubscriptionPlan.mk 4 false false)) None None 2025 "g1"
    GenSample.stages.
Definition empty : HState := mkHState [] [].
Definition bp : UserBlueprint.t :=
  match ingestUserBlueprint env with inr b => b | inl _ => BpSample.blueprint end.
End HandlerSample.

Lemma handler_authorized_effects_witness :
  fst (handler HandlerSample.env "POST" HandlerSample.empty) = Reject (ReferenceError "supabase") /\
  generation_logs (snd (handler HandlerSample.env "POST" HandlerSample.empty)) =
    generation_logs HandlerSample.empty /\
  user_plan_count "u1" (snd (handler HandlerSample.env "POST" HandlerSample.empty)) =
    (user_plan_count "u1" HandlerSample.empty + 3)%nat.
Proof.
  apply (handler_authorized_effects HandlerSample.env HandlerSample.empty "u1" HandlerSample.request
           HandlerSample.bp); [vm_compute; reflexivity | vm_compute; reflexivity |].
  intros n Hn. exists GenSample.plan.
  destruct n as [|[|[|n]]]; [vm_compute; split; reflexivity.. | lia].
Defined.


Lemma ingest_incomplete_no_field_witness :
  ingestUserBlueprint HandlerSample.thin_env = inl "Incomplete user profile: "%string.
Proof.
  apply (ingest_incomplete_no_field HandlerSample.thin_env HandlerSample.thin_profile BpSample.intake
           (UserSubscription.mk "active") (SubscriptionPlan.mk 4 false false));
    [reflexivity | reflexivity | reflexivity | vm_compute; reflexivity | reflexivity].
Defined.
