(* ===== verification/Dates.v ===== *)
(** * Dates: [getNextMonday] of the plan generator

    [getNextMonday] ([src/unnamed/part_001], lines 536-544) gives the
    default [week_start_date] of a request (line 33).  A [Date] is
    modelled by its local wall-clock time in milliseconds since the
    epoch, so that [getDay], [setDate] and [setHours] are arithmetic on
    days: [setDate(getDate() + n)] moves [n] calendar days and keeps the
    time of day, and [setHours(0, 0, 0, 0)] goes back to midnight.  The
    1st of January 1970 was a Thursday ([getDay] 4).  A wall-clock time
    that a change of daylight saving time skips is not modelled.  The
    test script has a copy of the same function
    ([scripts/test-generation.js], lines 366-374). *)

From S2P Require Import Prelude.

Open Scope Z_scope.

Module Dates.

Definition ms_per_day : Z := 86400000.

(** The local day of a time, counted from the epoch. *)
Definition day_index (t : Z) : Z := t / ms_per_day.

(** [Date.prototype.getDay]: 0 for Sunday, 1 for Monday, ... *)
Definition getDay (t : Z) : Z := (day_index t + 4) mod 7.

(** [d.setDate(d.getDate() + n)]. *)
Definition add_days (t n : Z) : Z := t + n * ms_per_day.

(** [d.setHours(0, 0, 0, 0)]. *)
Definition start_of_day (t : Z) : Z := day_index t * ms_per_day.

(** [getNextMonday], lines 536-544, at the time [today] of [new Date()]. *)
Definition getNextMonday (today : Z) : Z :=
  let dayOfWeek := getDay today in
  let daysUntilMonday := if dayOfWeek =? 0 then 1 else 8 - dayOfWeek in
  start_of_day (add_days today daysUntilMonday).

(** [z.string().optional().transform(str => str ? new Date(str) :
    getNextMonday())], line 33: a non-empty string is read as a date by
    [parse_date]. *)
Definition week_start_date (parse_date : string -> Z) (today : Z) (str : option string) : Z :=
  match str with
  | Some s => if String.eqb s "" then getNextMonday today else parse_date s
  | None => getNextMonday today
  end.

(** ** Specification *)

(** Midnight at the start of a Monday. *)
Definition monday_midnight (m : Z) : Prop := m mod ms_per_day = 0 /\ getDay m = 1.

(** The next week start after [today]: the first Monday midnight strictly
    after it. *)
Definition next_monday_spec (today m : Z) : Prop :=
  monday_midnight m /\ today < m /\
  forall m', monday_midnight m' -> today < m' -> m <= m'.

(** ** Facts *)

Lemma ms_per_day_pos : 0 < ms_per_day.
Proof. unfold ms_per_day. lia. Qed.

(** A time is its day times [ms_per_day] plus a time of day. *)
Lemma day_index_bounds (t : Z) :
  t = ms_per_day * day_index t + t mod ms_per_day /\ 0 <= t mod ms_per_day < ms_per_day.
Proof.
  split; [apply Z.div_mod | apply Z.mod_pos_bound]; pose proof ms_per_day_pos; lia.
Qed.

Lemma day_index_midnight (d : Z) : day_index (d * ms_per_day) = d.
Proof. unfold day_index. apply Z.div_mul. pose proof ms_per_day_pos; lia. Qed.

(** The day of the week of a day index, with its quotient. *)
Lemma week_bounds (d : Z) : exists q, d + 4 = 7 * q + (d + 4) mod 7 /\ 0 <= (d + 4) mod 7 < 7.
Proof. exists ((d + 4) / 7). split; [apply Z.div_mod | apply Z.mod_pos_bound]; lia. Qed.

Lemma getNextMonday_day_index (today : Z) :
  day_index (getNextMonday today) =
  day_index today + (if getDay today =? 0 then 1 else 8 - getDay today).
Proof.
  unfold getNextMonday, start_of_day, add_days.
  rewrite day_index_midnight. unfold day_index at 1.
  rewrite Z.div_add by (pose proof ms_per_day_pos; lia). reflexivity.
Qed.

(** [getNextMonday] moves between one and seven days ahead. *)
Lemma getNextMonday_days_ahead (today : Z) :
  1 <= day_index (getNextMonday today) - day_index today <= 7.
Proof.
  rewrite getNextMonday_day_index. unfold getDay.
  destruct (week_bounds (day_index today)) as (q & _ & Hb).
  destruct (Z.eqb_spec ((day_index today + 4) mod 7) 0); lia.
Qed.

(** C24: [getNextMonday] meets its specification: from any time [today], it
    returns the first Monday midnight strictly after [today] (seven days
    ahead when [today] is a Monday, one day ahead on a Sunday). *)
Theorem getNextMonday_spec (today : Z) : next_monday_spec today (getNextMonday today).
Proof.
  pose proof ms_per_day_pos as Hms.
  assert (Hm : getNextMonday today = day_index (getNextMonday today) * ms_per_day)
    by (unfold getNextMonday, start_of_day; by rewrite day_index_midnight).
  rewrite getNextMonday_day_index in Hm. rewrite Hm.
  set (D := day_index today) in *. unfold getDay.
  fold D. set (k := if (D + 4) mod 7 =? 0 then 1 else 8 - (D + 4) mod 7).
  destruct (week_bounds D) as (q & Hq & Hw).
  assert (Hk : (D + k + 4) mod 7 = 1).
  { symmetry. apply Z.mod_unique with (q := if (D + 4) mod 7 =? 0 then q else q + 1); [lia|].
    unfold k. destruct (Z.eqb_spec ((D + 4) mod 7) 0); lia. }
  destruct (day_index_bounds today) as [Ht Hr]. fold D in Ht.
  split; [split|split].
  - by rewrite Z.mod_mul by lia.
  - unfold getDay. by rewrite day_index_midnight.
  - unfold k. unfold ms_per_day in *. destruct (Z.eqb_spec ((D + 4) mod 7) 0); lia.
  - intros m' [Hm0 Hm1] Hlt. unfold getDay in Hm1.
    destruct (day_index_bounds m') as [Hm' _]. rewrite Hm0 in Hm'.
    destruct (week_bounds (day_index m')) as (p & Hp & _). rewrite Hm1 in Hp.
    unfold k. unfold ms_per_day in *. destruct (Z.eqb_spec ((D + 4) mod 7) 0); lia.
Qed.

End Dates.
