(* ===== verification/AIGateway.v ===== *)
(** * The AI gateway: [src/supabase/functions/ai-gateway/index.ts]

    The gateway is an edge function in front of the Claude API with a
    per-user rate limiter and a response cache, both process-wide
    objects ([rateLimiter], [responseCache], lines 112-113) that persist
    from one request to the next.  This file models:

    - JavaScript strings as lists of UTF-16 code units ([jstr]), because
      [btoa] and [String.prototype.length] work on code units;
    - [btoa] and [ResponseCache.generateKey] (lines 101-105);
    - [RateLimiter] (lines 44-71) as a map from user id to the list of
      request times, with [isAllowed] and [getRemainingRequests];
    - [ResponseCache] (lines 77-99) as a map from key to entry;
    - [sanitizePrompt], [calculateCost] and [callClaudeAPI]
      (lines 289-374);
    - the [serve] handler (lines 115-283) as a function of the request,
      the services' answers and the gateway's state.

    Times are milliseconds as integers ([Date.now()]); every [Date.now()]
    of one request returns the request's time. *)

From stdpp Require Import pretty.
From S2P Require Import Prelude Js.

Open Scope Z_scope.

(** ** Strings as code units *)

(** A JavaScript string: its UTF-16 code units. *)
Definition jstr := list Z.

(** The code units of an ASCII literal of the sources. *)
Definition units (s : string) : jstr :=
  map (fun a => Z.of_nat (nat_of_ascii a)) (list_ascii_of_string s).

(** The ASCII string of code units below 128 (a [btoa] output). *)
Definition ascii_of_units (u : jstr) : string :=
  string_of_list_ascii (map (fun z => ascii_of_nat (Z.to_nat z)) u).

(** ** [btoa] (WHATWG forgiving-base64 encode of a Latin-1 string) *)

Definition b64_char (i : Z) : Z :=
  if i <? 26 then 65 + i
  else if i <? 52 then 97 + (i - 26)
  else if i <? 62 then 48 + (i - 52)
  else if i =? 62 then 43 else 47.

Definition pad : Z := 61.

Definition enc3 (a b c : Z) : jstr :=
  [b64_char (Z.shiftr a 2);
   b64_char (Z.lor (Z.shiftl (Z.land a 3) 4) (Z.shiftr b 4));
   b64_char (Z.lor (Z.shiftl (Z.land b 15) 2) (Z.shiftr c 6));
   b64_char (Z.land c 63)].

Fixpoint b64 (l : jstr) : jstr :=
  match l with
  | a :: b :: c :: rest => enc3 a b c ++ b64 rest
  | [a; b] =>
      [b64_char (Z.shiftr a 2);
       b64_char (Z.lor (Z.shiftl (Z.land a 3) 4) (Z.shiftr b 4));
       b64_char (Z.shiftl (Z.land b 15) 2); pad]
  | [a] => [b64_char (Z.shiftr a 2); b64_char (Z.shiftl (Z.land a 3) 4); pad; pad]
  | [] => []
  end.

(** [btoa(s)] throws when a code unit is outside Latin-1. *)
Definition btoa (s : jstr) : JsError + jstr :=
  if forallb (fun u => u <=? 255) s then inr (b64 s)
  else inl (Error "The string to be encoded contains characters outside of the Latin1 range.").

(** ** Request data (lines 17-38) *)

Inductive Model := Sonnet | Haiku.

#[export] Instance Model_eq_dec : EqDecision Model.
Proof. solve_decision. Defined.

Definition model_name (m : Model) : string :=
  match m with
  | Sonnet => "claude-3-5-sonnet-20241022"
  | Haiku => "claude-3-haiku-20240307"
  end.

(** ** [ResponseCache.generateKey] (lines 101-105)

    [`${model}:${temperature}:${prompt}`]: the temperature is printed by
    [Number.prototype.toString], which is the parameter
    [number_to_string] of the definitions that need it. *)

Definition key_data (prompt : jstr) (model : Model) (temp : string) : jstr :=
  units (model_name model) ++ units ":" ++ units temp ++ units ":" ++ prompt.

Definition generateKey (prompt : jstr) (model : Model) (temp : string) : JsError + jstr :=
  match btoa (key_data prompt model temp) with
  | inr k => inr (take 32 k)
  | inl e => inl e
  end.

(** ** Base64 lemmas *)

Lemma b64_app (k : nat) (l1 l2 : jstr) :
  length l1 = (3 * k)%nat -> b64 (l1 ++ l2) = b64 l1 ++ b64 l2.
Proof.
  revert l1. induction k as [|k IH]; intros l1 Hl.
  - destruct l1; [reflexivity | discriminate].
  - destruct l1 as [|a [|b [|c r]]]; try (simpl in Hl; lia).
    cbn [app b64]. rewrite IH by (simpl in Hl; lia). by rewrite app_assoc.
Qed.

Lemma b64_length (k : nat) (l : jstr) :
  length l = (3 * k)%nat -> length (b64 l) = (4 * k)%nat.
Proof.
  revert l. induction k as [|k IH]; intros l Hl.
  - destruct l; [reflexivity | discriminate].
  - destruct l as [|a [|b [|c r]]]; try (simpl in Hl; lia).
    cbn [b64]. rewrite length_app, IH by (simpl in Hl; lia). simpl. lia.
Qed.

(** The first 32 characters of the encoding depend only on the first 24
    code units. *)
Lemma take32_b64 (l : jstr) :
  (24 <= length l)%nat -> take 32 (b64 l) = b64 (take 24 l).
Proof.
  intros Hl. rewrite <- (take_drop 24 l) at 1.
  rewrite (b64_app 8) by (rewrite length_take; lia).
  rewrite take_app_length'; [done|].
  symmetry. apply (b64_length 8). rewrite length_take. lia.
Qed.

Lemma units_app (s t : string) : units (s ++ t) = units s ++ units t.
Proof.
  induction s as [|a s IH]; [reflexivity|]. unfold units in *. simpl. f_equal. exact IH.
Qed.

(** The key of a request: the encoding of the first 24 code units of
    [model:temperature:prompt]. *)
Lemma generateKey_inr (p : jstr) (m : Model) (t : string) (k : jstr) :
  generateKey p m t = inr k -> k = b64 (take 24 (units (model_name m) ++ units ":")).
Proof.
  unfold generateKey, btoa. destruct (forallb _ _); [|discriminate].
  intros [= <-]. rewrite take32_b64.
  - destruct m; reflexivity.
  - unfold key_data. rewrite !length_app. destruct m; simpl; lia.
Qed.

(** C10: The response cache's key ignores the prompt and the temperature:
    both model names are at least 23 characters long, so the 32 base64
    characters that [generateKey] keeps encode only the model name and
    the colon after it.  Two requests for the same model have the same
    key whatever their prompts. *)
Theorem generateKey_ignores_prompt (m : Model) (t1 t2 : string) (p1 p2 k1 k2 : jstr) :
  generateKey p1 m t1 = inr k1 -> generateKey p2 m t2 = inr k2 -> k1 = k2.
Proof.
  intros H1 H2. by rewrite (generateKey_inr _ _ _ _ H1), (generateKey_inr _ _ _ _ H2).
Qed.

(** ** [RateLimiter] (lines 44-71) *)

Module RateLimiter.

Definition windowMs : Z := 60 * 60 * 1000.
Definition maxRequests : Z := 100.

(** [requests]: user id to the times of the requests it keeps. *)
Definition t := gmap string (list Z).

(** [userRequests.filter(time => now - time < this.windowMs)]. *)
Definition valid_requests (now : Z) (l : list Z) : list Z :=
  List.filter (fun time => now - time <? windowMs) l.

(** [this.requests.get(userId) || []]. *)
Definition user_requests (rl : t) (userId : string) : list Z :=
  default [] (rl !! userId).

Definition isAllowed (userId : string) (now : Z) (rl : t) : bool * t :=
  let validRequests := valid_requests now (user_requests rl userId) in
  if maxRequests <=? Z.of_nat (length validRequests) then (false, rl)
  else (true, <[userId := validRequests ++ [now]]> rl).

Definition getRemainingRequests (userId : string) (now : Z) (rl : t) : Z :=
  Z.max 0 (maxRequests - Z.of_nat (length (valid_requests now (user_requests rl userId)))).

End RateLimiter.

(** ** The rate limiter against a sliding-window specification

    The contract of a per-user limit of [maxRequests] an hour: a request
    is accepted exactly when the user's accepted requests of the last
    [windowMs] milliseconds are fewer than [maxRequests].  A run feeds
    the limiter a sequence of calls [(userId, now)], starting from the
    empty map of line 45, and logs the calls it accepts. *)

Import RateLimiter.

Definition window_allows (history : list Z) (now : Z) : bool :=
  Z.of_nat (length (valid_requests now history)) <? maxRequests.

Definition limiter_step (s : RateLimiter.t * list (string * Z)) (c : string * Z)
  : RateLimiter.t * list (string * Z) :=
  let '(ok, rl) := isAllowed c.1 c.2 s.1 in (rl, if ok then s.2 ++ [c] else s.2).

Definition run_limiter (calls : list (string * Z)) : RateLimiter.t * list (string * Z) :=
  fold_left limiter_step calls (∅, []).

(** The times of the accepted requests of [u], in order. *)
Definition accepted (u : string) (log : list (string * Z)) : list Z :=
  map snd (List.filter (fun c => bool_decide (c.1 = u)) log).

(** [Date.now()] does not go back. *)
Fixpoint chronological (ts : list Z) : bool :=
  match ts with
  | x :: (y :: _) as r => (x <=? y) && chronological r
  | _ => true
  end.

Definition in_window (T time : Z) : bool := (T - windowMs <? time) && (time <=? T).

(** What the limiter keeps of each user: the accepted requests that were
    in the window at some earlier time [p] (the user's last call). *)
Definition limiter_inv (T : Z) (s : RateLimiter.t * list (string * Z)) : Prop :=
  forall u, exists p, p <= T /\ Forall (fun time => time <= p) (accepted u s.2) /\
    user_requests s.1 u = valid_requests p (accepted u s.2).

Lemma valid_requests_mono (p now : Z) (l : list Z) :
  p <= now -> valid_requests now (valid_requests p l) = valid_requests now l.
Proof.
  intros Hp. unfold valid_requests.
  induction l as [|x l IH]; [reflexivity|]. cbn [List.filter].
  destruct (now - x <? windowMs) eqn:E1, (p - x <? windowMs) eqn:E2;
    cbn [List.filter]; rewrite ?E1, ?E2, ?IH; try reflexivity.
  all: rewrite ?Z.ltb_lt, ?Z.ltb_ge in *; lia.
Qed.

Lemma accepted_snoc (u v : string) (now : Z) (log : list (string * Z)) :
  accepted u (log ++ [(v, now)]) = accepted u log ++ (if bool_decide (v = u) then [now] else []).
Proof.
  unfold accepted. rewrite List.filter_app, map_app. simpl. by case_bool_decide.
Qed.

Lemma chronological_snoc (ts : list Z) (x : Z) :
  chronological (ts ++ [x]) = true -> chronological ts = true /\ Forall (fun t => t <= x) ts.
Proof.
  induction ts as [|y [|z r] IH]; [done| |].
  - simpl. intros H. apply andb_prop in H as [H _]. apply Z.leb_le in H.
    repeat constructor. lia.
  - intros H. change (chronological (y :: z :: r ++ [x]) = true) in H.
    cbn [chronological] in H. apply andb_prop in H as [Hyz H].
    destruct (IH H) as [Hr Hall]. apply Z.leb_le in Hyz. split.
    + change ((y <=? z) && chronological (z :: r) = true). rewrite Hr, andb_true_r. by apply Z.leb_le.
    + constructor; [|done]. inversion Hall; lia.
Qed.

(** Under the invariant, the limiter's filtered list at [now] is the
    window of the accepted history. *)
Lemma limiter_inv_current (T now : Z) (s : RateLimiter.t * list (string * Z)) (u : string) :
  limiter_inv T s -> T <= now ->
  valid_requests now (user_requests s.1 u) = valid_requests now (accepted u s.2).
Proof.
  intros Hinv HT. destruct (Hinv u) as (p & Hp & _ & ->).
  apply valid_requests_mono. lia.
Qed.

Lemma limiter_inv_mono (T T' : Z) s : limiter_inv T s -> T <= T' -> limiter_inv T' s.
Proof.
  intros Hinv HT u. destruct (Hinv u) as (p & ? & ? & ?). exists p. split_and!; auto with lia.
Qed.

Lemma limiter_step_inv (T now : Z) (v : string) (s : RateLimiter.t * list (string * Z)) :
  limiter_inv T s -> T <= now ->
  limiter_inv now (limiter_step s (v, now)) /\
  (isAllowed v now s.1).1 = window_allows (accepted v s.2) now.
Proof.
  destruct s as [rl log]. intros Hinv HT.
  pose proof (limiter_inv_current T now (rl, log) v Hinv HT) as Hcur. cbn [fst snd] in Hcur.
  unfold limiter_step, isAllowed, window_allows. cbn [fst snd]. rewrite Hcur.
  destruct (maxRequests <=? _) eqn:Hmax; cbn [fst snd].
  - split; [by apply (limiter_inv_mono T)|]. symmetry. apply Z.ltb_ge, Z.leb_le, Hmax.
  - split; [|symmetry; apply Z.ltb_lt, Z.leb_gt, Hmax].
    unfold limiter_inv. cbn [fst snd]. intros u. rewrite accepted_snoc. unfold user_requests.
    destruct (decide (u = v)) as [->|Hne].
    + exists now. rewrite bool_decide_true by done.
      rewrite (lookup_insert_eq (rl : gmap string (list Z))). cbn [default].
      destruct (Hinv v) as (p & Hp & Hall & _). split_and!; [lia| |].
      * apply Forall_app. split; [|by constructor]. eapply Forall_impl; [done|]. simpl; lia.
      * unfold valid_requests. rewrite List.filter_app. cbn.
        rewrite Z.sub_diag. reflexivity.
    + rewrite bool_decide_false, app_nil_r by congruence.
      rewrite (lookup_insert_ne (rl : gmap string (list Z))) by congruence.
      destruct (Hinv u) as (p & ? & ? & ?). exists p. split_and!; auto with lia.
Qed.

(** The invariant holds after every chronological run. *)
Lemma run_limiter_inv (calls : list (string * Z)) (T : Z) :
  chronological (map snd calls) = true -> Forall (fun c => c.2 <= T) calls ->
  limiter_inv T (run_limiter calls).
Proof.
  revert T. induction calls as [|[v now] cs IH] using rev_ind; intros T Hch HT.
  - intros u. exists T. split_and!; [lia|constructor|reflexivity].
  - rewrite map_app in Hch. apply chronological_snoc in Hch as [Hch Hle].
    apply Forall_app in HT as [_ HT]. inversion HT as [|? ? Hnow _]; subst; cbn in Hnow.
    unfold run_limiter. rewrite fold_left_app. cbn [fold_left].
    apply (limiter_inv_mono now); [|done].
    apply (limiter_step_inv now). 2: lia.
    apply IH; [done|]. rewrite Forall_map in Hle.
    eapply Forall_impl; [exact Hle|]. simpl. lia.
Qed.

(** The decision of the limiter at the end of a chronological run. *)
Lemma limiter_decision (calls : list (string * Z)) (u : string) (now : Z) :
  chronological (map snd (calls ++ [(u, now)])) = true ->
  (isAllowed u now (run_limiter calls).1).1 = window_allows (accepted u (run_limiter calls).2) now.
Proof.
  rewrite map_app. intros Hch. apply chronological_snoc in Hch as [Hch Hle].
  apply (limiter_step_inv now); [|lia].
  apply run_limiter_inv; [done|]. rewrite Forall_map in Hle. done.
Qed.

(** Times an hour old or more are outside the window. *)
Lemma valid_requests_expired (now : Z) (l : list Z) :
  Forall (fun time => windowMs <= now - time) l -> valid_requests now l = [].
Proof.
  induction l as [|x l IH]; intros Hl; [reflexivity|]. inversion Hl; subst.
  unfold valid_requests in *. cbn. rewrite (proj2 (Z.ltb_ge _ _)) by lia. auto.
Qed.

(** C13: Refinement of the sliding-window contract: on a chronological
    run, [isAllowed] accepts a request exactly when the user's accepted
    requests of the last hour ([now - time < windowMs]) are fewer than
    [maxRequests], although the limiter forgets old times only when the
    same user calls again and keeps its list when it refuses. *)
Theorem isAllowed_refines (calls : list (string * Z)) (u : string) (now : Z) :
  chronological (map snd (calls ++ [(u, now)])) = true ->
  (isAllowed u now (run_limiter calls).1).1 = window_allows (accepted u (run_limiter calls).2) now.
Proof. apply limiter_decision. Qed.

(** C35: The limiter lets a user in again: once an hour ([windowMs]) has
    passed since the user's last accepted request, the next request of
    that user is accepted, however many were accepted before. *)
Theorem rate_limit_recovers (calls : list (string * Z)) (u : string) (now : Z) :
  chronological (map snd (calls ++ [(u, now)])) = true ->
  Forall (fun time => time + windowMs <= now) (accepted u (run_limiter calls).2) ->
  (isAllowed u now (run_limiter calls).1).1 = true.
Proof.
  intros Hch Hold. rewrite limiter_decision by done.
  unfold window_allows. rewrite (valid_requests_expired now); [reflexivity|].
  eapply Forall_impl; [exact Hold|]. simpl. lia.
Qed.

Lemma window_count_snoc (T now : Z) (acc : list Z) :
  Forall (fun time => time <= now) acc -> window_allows acc now = true ->
  (length (List.filter (in_window T) acc) <= 100)%nat ->
  (length (List.filter (in_window T) (acc ++ [now])) <= 100)%nat.
Proof.
  intros Hall Hallow Hold. rewrite List.filter_app, length_app.
  unfold window_allows, maxRequests in Hallow. apply Z.ltb_lt in Hallow.
  cbn [List.filter]. destruct (in_window T now) eqn:Hnow; simpl; [|lia].
  unfold in_window in Hnow. apply andb_prop in Hnow as [H1 H2].
  apply Z.ltb_lt in H1. apply Z.leb_le in H2.
  enough (length (List.filter (in_window T) acc) <= length (valid_requests now acc))%nat by lia.
  apply filter_length_impl. intros x Hx Hw.
  rewrite Forall_forall in Hall. specialize (Hall x (proj2 (list_elem_of_In _ _) Hx)).
  unfold in_window in Hw. apply andb_prop in Hw as [Hw1 _]. apply Z.ltb_lt in Hw1.
  apply Z.ltb_lt. unfold windowMs in *. lia.
Qed.

(** C25: On a chronological run the limiter accepts at most [maxRequests]
    = 100 requests of one user in any window [(T - windowMs, T]] of one
    hour. *)
Theorem rate_limit_window (calls : list (string * Z)) (u : string) (T : Z) :
  chronological (map snd calls) = true ->
  (length (List.filter (in_window T) (accepted u (run_limiter calls).2)) <= 100)%nat.
Proof.
  induction calls as [|[v now] cs IH] using rev_ind; intros Hch; [simpl; lia|].
  rewrite map_app in Hch. apply chronological_snoc in Hch as [Hch Hle].
  rewrite Forall_map in Hle.
  pose proof (run_limiter_inv cs now Hch Hle) as Hinv.
  pose proof (limiter_step_inv now now v _ Hinv (Z.le_refl _)) as [_ Hdec].
  unfold run_limiter. rewrite fold_left_app. cbn [fold_left].
  change (fold_left limiter_step cs (∅, [])) with (run_limiter cs) in *.
  unfold limiter_step at 1. cbn [fst snd]. destruct (isAllowed v now _) as [[] rl] eqn:E;
    cbn [fst snd] in *; [|auto].
  rewrite accepted_snoc. case_bool_decide as Hvu; [subst v|rewrite app_nil_r; auto].
  apply window_count_snoc; [|by rewrite <- Hdec|auto].
  destruct (Hinv u) as (p & Hp & Hall & _). eapply Forall_impl; [exact Hall|]. simpl; lia.
Qed.

(** ** [ResponseCache] (lines 77-99) *)

Module ResponseCache.

Record entry := mk_entry { response : string; timestamp : Z; cost_cents : Q }.

Definition ttlMs : Z := 30 * 60 * 1000.

Definition t := gmap jstr entry.

(** [get] deletes an entry older than [ttlMs] and answers [null]. *)
Definition get (key : jstr) (now : Z) (c : t) : option (string * Q) * t :=
  match c !! key with
  | None => (None, c)
  | Some e =>
      if ttlMs <? now - timestamp e then (None, delete key c)
      else (Some (response e, cost_cents e), c)
  end.

Definition set (key : jstr) (resp : string) (costCents : Q) (now : Z) (c : t) : t :=
  <[key := mk_entry resp now costCents]> c.

End ResponseCache.

(** ** [sanitizePrompt] (lines 353-363) *)

(** [/[\x00-\x1F\x7F]/g]. *)
Definition is_control (u : Z) : bool := ((0 <=? u) && (u <=? 31)) || (u =? 127).

(** ASCII case folding of a code unit, as the [i] flag does it for the
    ASCII patterns below (without the [u] flag no other code unit folds
    to an ASCII letter). *)
Definition fold_unit (u : Z) : Z := if (65 <=? u) && (u <=? 90) then u + 32 else u.

(** The pattern [pat] (lower case) starts [s], ignoring case. *)
Fixpoint prefix_ci (pat s : jstr) : bool :=
  match pat, s with
  | [], _ => true
  | p :: pat', u :: s' => (fold_unit u =? p) && prefix_ci pat' s'
  | _ :: _, [] => false
  end.

(** The line terminators, which [.] does not match. *)
Definition is_line_terminator (u : Z) : bool :=
  (u =? 10) || (u =? 13) || (u =? 8232) || (u =? 8233).

Fixpoint index_of (x : Z) (s : jstr) : option nat :=
  match s with
  | [] => None
  | u :: s' => if u =? x then Some 0%nat else option_map S (index_of x s')
  end.

(** [.*?<\/script>]: the shortest run of non-terminators before
    [</script>], as the length of the whole match. *)
Fixpoint lazy_close (s : jstr) : option nat :=
  if prefix_ci (units "</script>") s then Some 9%nat
  else match s with
       | [] => None
       | u :: s' => if is_line_terminator u then None else option_map S (lazy_close s')
       end.

(** The length of a match of [/<script[^>]*>.*?<\/script>/i] at the
    start of [s]: [[^>]*] cannot give back a [>], so the tag ends at the
    first [>], and a failure of the lazy part fails the match here. *)
Definition script_match (s : jstr) : option nat :=
  if prefix_ci (units "<script") s then
    match index_of 62 (drop 7 s) with
    | None => None
    | Some j => option_map (fun k => 7 + j + 1 + k)%nat (lazy_close (drop (7 + j + 1) s))
    end
  else None.

Definition javascript_match (s : jstr) : option nat :=
  if prefix_ci (units "javascript:") s then Some 11%nat else None.

(** [s.replace(re, '')] for a global [re] whose matches are never empty:
    the leftmost match is removed and the scan resumes after it; [skip]
    counts the code units of the current match still to drop. *)
Fixpoint replace_all (m : jstr -> option nat) (s : jstr) (skip : nat) : jstr :=
  match s with
  | [] => []
  | u :: s' =>
      match skip with
      | S k => replace_all m s' k
      | O => match m s with
             | Some (S n) => replace_all m s' n
             | _ => u :: replace_all m s' 0
             end
      end
  end.

(** [StrWhiteSpaceChar]: white space and line terminators. *)
Definition is_js_space (u : Z) : bool :=
  (u =? 9) || (u =? 10) || (u =? 11) || (u =? 12) || (u =? 13) || (u =? 32) ||
  (u =? 160) || (u =? 5760) || ((8192 <=? u) && (u <=? 8202)) || (u =? 8232) ||
  (u =? 8233) || (u =? 8239) || (u =? 8287) || (u =? 12288) || (u =? 65279).

Fixpoint drop_spaces (s : jstr) : jstr :=
  match s with
  | u :: s' => if is_js_space u then drop_spaces s' else s
  | [] => []
  end.

Definition trim (s : jstr) : jstr := rev (drop_spaces (rev (drop_spaces s))).

Definition sanitizePrompt (prompt : jstr) : jstr :=
  let sanitized :=
    trim (replace_all javascript_match
            (replace_all script_match (List.filter (fun u => negb (is_control u)) prompt) 0) 0) in
  take 50000 sanitized.

(** ** The gateway's request handling

    [calculateCost], the Claude call, the request schema and the
    [serve] handler, in a module of their own: the plan generator has
    a [calculateCost] and a [createErrorResponse] of its own. *)

Module Gateway.

(** *** [calculateCost] and [callClaudeAPI] (lines 289-374) *)

Definition calculateCost (inputTokens outputTokens : Q) : Q :=
  let inputCost := (inputTokens / 1000 * (3 # 1000))%Q in
  let outputCost := (outputTokens / 1000 * (15 # 1000))%Q in
  math_round ((inputCost + outputCost) * 100)%Q.

(** What the Claude API does with one call: [fetch] or [response.json()]
    throws, the response is not [ok], or the parsed body, with
    [data.content] absent ([None]) or its first element's [text] absent
    or empty ([Some None]). *)
Inductive ClaudeReply :=
| ClaudeThrows (message : string)
| ClaudeHttpError (status : Z) (errorText : string)
| ClaudeOk (content : option (option string)) (input_tokens output_tokens : option Q).

Inductive ClaudeResult :=
| ClaudeFailed (error : string)
| ClaudeSucceeded (response : string) (tokens_used cost_cents : Q).

Definition callClaudeAPI (reply : ClaudeReply) : ClaudeResult :=
  match reply with
  | ClaudeThrows msg => ClaudeFailed ("Claude API request failed: " ++ msg)
  | ClaudeHttpError status txt =>
      ClaudeFailed ("Claude API error: " ++ pretty status ++ " " ++ txt)
  | ClaudeOk None _ _ =>
      ClaudeFailed ("Claude API request failed: " ++
                    "Cannot read properties of undefined (reading '0')")
  | ClaudeOk (Some text) i o =>
      let inputTokens := (i ||? 0)%mw in
      let outputTokens := (o ||? 0)%mw in
      ClaudeSucceeded (default "" text) (inputTokens + outputTokens)%Q
                      (calculateCost inputTokens outputTokens)
  end.

(** *** The request schema (lines 17-38) *)

Inductive Operation :=
| RecipeScoring | MealAssembly | CoherenceReview | MoodAnalysis | PlanImprovement | General.

Definition operations : list (string * Operation) :=
  [("recipe_scoring", RecipeScoring); ("meal_assembly", MealAssembly);
   ("coherence_review", CoherenceReview); ("mood_analysis", MoodAnalysis);
   ("plan_improvement", PlanImprovement); ("general", General)].

Definition operation_name (o : Operation) : string :=
  match o with
  | RecipeScoring => "recipe_scoring" | MealAssembly => "meal_assembly"
  | CoherenceReview => "coherence_review" | MoodAnalysis => "mood_analysis"
  | PlanImprovement => "plan_improvement" | General => "general"
  end.

Record AIContext := mk_context {
  user_id : string; operation : Operation;
  generation_id : option string; cache_key : option jstr }.

Record AIRequest := mk_request {
  model : Model; prompt : jstr; max_tokens : Q; temperature : Q;
  context : AIContext; enable_cache : bool }.

(** The parsed JSON body, a field absent as [None]. *)
Record RawContext := mk_raw_context {
  raw_user_id : option string; raw_operation : option string;
  raw_generation_id : option string; raw_cache_key : option jstr }.

Record RawRequest := mk_raw_request {
  raw_model : option string; raw_prompt : option jstr; raw_max_tokens : option Q;
  raw_temperature : option Q; raw_context : option RawContext;
  raw_enable_cache : option bool }.

Definition is_hex (a : ascii) : bool :=
  let n := nat_of_ascii a in
  ((48 <=? n) && (n <=? 57) || (65 <=? n) && (n <=? 70) || (97 <=? n) && (n <=? 102))%nat.

(** zod's [uuid()]: five groups of 8, 4, 4, 4 and 12 hexadecimal digits. *)
Definition is_uuid (s : string) : bool :=
  let l := list_ascii_of_string s in
  (length l =? 36)%nat &&
  forallb (fun '(i, a) =>
             if decide (i ∈ [8; 13; 18; 23]%nat) then bool_decide (a = "-"%char) else is_hex a)
          (zip (seq 0 36) l).

(** A failed refinement of the schema. *)
Definition check (b : bool) : option unit := if b then Some tt else None.

Definition in_range (lo hi : Q) (x : Q) : bool := Qle_bool lo x && Qle_bool x hi.

Definition parse_model (o : option string) : option Model :=
  match o with
  | None => Some Sonnet
  | Some s =>
      if String.eqb s (model_name Sonnet) then Some Sonnet
      else if String.eqb s (model_name Haiku) then Some Haiku else None
  end.

Definition parse_context (c : RawContext) : option AIContext :=
  uid ← raw_user_id c; _ ← check (is_uuid uid);
  op_name ← raw_operation c; op ← assoc_str op_name operations;
  _ ← check (match raw_generation_id c with Some g => is_uuid g | None => true end);
  Some (mk_context uid op (raw_generation_id c) (raw_cache_key c)).

Definition AIRequestSchema_parse (r : RawRequest) : option AIRequest :=
  m ← parse_model (raw_model r);
  p ← raw_prompt r; _ ← check ((1 <=? length p)%nat && (length p <=? 50000)%nat);
  let mt := default 1000%Q (raw_max_tokens r) in _ ← check (in_range 1 4000 mt);
  let temp := default (3 # 10)%Q (raw_temperature r) in _ ← check (in_range 0 1 temp);
  rc ← raw_context r; c ← parse_context rc;
  Some (mk_request m p mt temp c (default true (raw_enable_cache r))).

(** *** The [serve] handler (lines 115-283) *)

(** A row of [ai_request_logs] ([logAIRequest], lines 393-428; the
    duration and the creation time are not kept). *)
Record AILog := mk_log {
  log_user_id : string; log_operation : Operation; log_generation_id : option string;
  log_model : Model; log_tokens_used : Q; log_cost_cents : Q;
  log_cached : bool; log_success : bool; log_error_message : option string }.

(** The process-wide objects and the log table. *)
Record GState := mk_gstate {
  limiter : RateLimiter.t; cache : ResponseCache.t; ai_request_logs : list AILog }.

Definition set_limiter (l : RateLimiter.t) (st : GState) : GState :=
  mk_gstate l (cache st) (ai_request_logs st).
Definition set_cache (c : ResponseCache.t) (st : GState) : GState :=
  mk_gstate (limiter st) c (ai_request_logs st).

(** One request: its method, its time, the user [auth.getUser()]
    returns, the parsed body ([None] when [JSON.parse] throws), the
    message of the parse or schema error, and the Claude API's answer to
    a call with the given model, prompt, [max_tokens] and temperature. *)
Record Request := mk_req {
  method : string; now : Z; auth_user : option string; body : option RawRequest;
  invalid_message : string; claude : Model -> jstr -> Q -> Q -> ClaudeReply }.

Inductive Body :=
| GPreflight
| GError (error : string) (status : Z)
| GSuccess (response : string) (tokens_used cost_cents : Q) (model : Model)
           (cached : bool) (remaining_requests : Z).

Definition Response := (Z * Body)%type.

Definition createErrorResponse (message : string) (status : Z) : Response :=
  (status, GError message status).

Section Serve.

(** [Number.prototype.toString] of the temperature. *)
Variable number_to_string : Q -> string.

Definition logAIRequest (rd : AIRequest) (uid : string) (tokens cost : Q)
    (cached success : bool) (err : option string) (st : GState) : GState :=
  mk_gstate (limiter st) (cache st)
    (ai_request_logs st ++
     [mk_log uid (operation (context rd)) (generation_id (context rd)) (model rd)
             tokens cost cached success err]).

(** [requestData.context.cache_key || responseCache.generateKey(...)]. *)
Definition cache_key_of (rd : AIRequest) : JsError + jstr :=
  match cache_key (context rd) with
  | Some ((_ :: _) as k) => inr k
  | _ => generateKey (prompt rd) (model rd) (number_to_string (temperature rd))
  end.

(** Lines 214-277: the call, the cache update and the log. *)
Definition call_and_respond (req : Request) (rd : AIRequest) (uid : string)
    (cacheKey : option jstr) (st : GState) : Response * GState :=
  match callClaudeAPI (claude req (model rd) (sanitizePrompt (prompt rd))
                        (max_tokens rd) (temperature rd)) with
  | ClaudeFailed err =>
      (createErrorResponse err 500, logAIRequest rd uid 0 0 false false (Some err) st)
  | ClaudeSucceeded resp tokens cost =>
      let st1 :=
        match cacheKey with
        | Some ((_ :: _) as k) =>
            if enable_cache rd then set_cache (ResponseCache.set k resp cost (now req) (cache st)) st
            else st
        | _ => st
        end in
      let st2 := logAIRequest rd uid tokens cost false true None st1 in
      ((200, GSuccess resp tokens cost (model rd) false
                      (getRemainingRequests uid (now req) (limiter st2))), st2)
  end.

Definition serve (req : Request) (st : GState) : Response * GState :=
  if String.eqb (method req) "OPTIONS" then ((200, GPreflight), st)
  else if negb (String.eqb (method req) "POST") then (createErrorResponse "Method not allowed" 405, st)
  else
  match auth_user req with
  | None => (createErrorResponse "Unauthorized" 401, st)
  | Some uid =>
    match body req ≫= AIRequestSchema_parse with
    | None => (createErrorResponse ("Invalid request: " ++ invalid_message req) 422, st)
    | Some rd =>
      let '(ok, lim) := isAllowed uid (now req) (limiter st) in
      let st1 := set_limiter lim st in
      if negb ok then
        (createErrorResponse ("Rate limit exceeded. " ++ pretty (getRemainingRequests uid (now req) lim)
                              ++ " requests remaining this hour.") 429, st1)
      else if enable_cache rd then
        match cache_key_of rd with
        | inl _ => (createErrorResponse "Internal server error" 500, st1)
        | inr k =>
          let '(hit, c) := ResponseCache.get k (now req) (cache st1) in
          let st2 := set_cache c st1 in
          match hit with
          | Some (resp, _) =>
              let st3 := logAIRequest rd uid 0 0 true true None st2 in
              ((200, GSuccess resp 0 0 (model rd) true
                              (getRemainingRequests uid (now req) (limiter st3))), st3)
          | None => call_and_respond req rd uid (Some k) st2
          end
        end
      else call_and_respond req rd uid None st1
    end
  end.

End Serve.

End Gateway.

Import Gateway.

(** ** Properties of the sanitizer *)

Lemma replace_all_Forall (P : Z -> Prop) (m : jstr -> option nat) (s : jstr) (k : nat) :
  Forall P s -> Forall P (replace_all m s k).
Proof.
  revert k. induction s as [|u s IH]; intros k Hs; [constructor|].
  inversion Hs; subst. destruct k; cbn [replace_all]; auto.
  destruct (m (u :: s)) as [[|n]|]; auto.
Qed.

Lemma drop_spaces_Forall (P : Z -> Prop) (s : jstr) : Forall P s -> Forall P (drop_spaces s).
Proof.
  induction s as [|u s IH]; intros Hs; [constructor|]. inversion Hs; subst.
  cbn. destruct (is_js_space u); auto.
Qed.

Lemma trim_Forall (P : Z -> Prop) (s : jstr) : Forall P s -> Forall P (trim s).
Proof.
  intros Hs. unfold trim. apply Forall_rev, drop_spaces_Forall, Forall_rev, drop_spaces_Forall, Hs.
Qed.

(** The sanitized prompt sent to Claude has no control character
    ([\x00-\x1F], [\x7F]) and at most 50000 code units, whatever the
    prompt. *)
Theorem sanitizePrompt_clean (p : jstr) :
  Forall (fun u => is_control u = false) (sanitizePrompt p) /\
  (length (sanitizePrompt p) <= 50000)%nat.
Proof.
  unfold sanitizePrompt. split; [|rewrite length_take; lia].
  apply Forall_take, trim_Forall, replace_all_Forall, replace_all_Forall.
  apply Forall_forall. intros u Hu. apply list_elem_of_In, filter_In in Hu as [_ Hu].
  by apply negb_true_iff in Hu.
Qed.

(** A scan that finds no match at the units of [s] keeps them. *)
Lemma replace_all_keep (m : jstr -> option nat) (p : Z -> bool) (s t : jstr) :
  (forall u r, p u = true -> m (u :: r) = None) -> forallb p s = true ->
  replace_all m (s ++ t) 0 = s ++ replace_all m t 0.
Proof.
  intros Hm Hs. induction s as [|u s IH]; [done|].
  apply andb_prop in Hs as [Hu Hs]. cbn [app replace_all]. rewrite Hm by exact Hu.
  f_equal. exact (IH Hs).
Qed.

Lemma fold_unit_60 (u : Z) : (fold_unit u =? 60) = (u =? 60).
Proof.
  unfold fold_unit. destruct ((65 <=? u) && (u <=? 90)) eqn:E; [|reflexivity].
  apply andb_prop in E as [E1 E2]. apply Z.leb_le in E1, E2.
  destruct (Z.eqb_spec (u + 32) 60), (Z.eqb_spec u 60); lia.
Qed.

(** [<script] starts only at a [<]. *)
Lemma script_match_other (u : Z) (r : jstr) : (u =? 60) = false -> script_match (u :: r) = None.
Proof.
  intros Hu. unfold script_match. change (units "<script") with (60 :: units "script").
  cbn [prefix_ci]. by rewrite fold_unit_60, Hu.
Qed.

(** [javascript:] starts only at a [j] or a [J]. *)
Lemma javascript_match_other (u : Z) (r : jstr) :
  (fold_unit u =? 106) = false -> javascript_match (u :: r) = None.
Proof.
  intros Hu. unfold javascript_match. change (units "javascript:") with (106 :: units "avascript:").
  cbn [prefix_ci]. by rewrite Hu.
Qed.

Lemma filter_keep (f : Z -> bool) (s : jstr) : forallb f s = true -> List.filter f s = s.
Proof.
  induction s as [|u s IH]; [done|]. intros [Hu Hs]%andb_prop. cbn. by rewrite Hu, IH.
Qed.

(** [trim] keeps a string that starts and ends with a non-space. *)
Lemma trim_keep (u v : Z) (s : jstr) :
  is_js_space u = false -> is_js_space v = false -> trim (u :: s ++ [v]) = u :: s ++ [v].
Proof.
  intros Hu Hv. unfold trim. cbn [drop_spaces]. rewrite Hu.
  change (u :: s ++ [v]) with ((u :: s) ++ [v]). rewrite rev_unit. cbn [drop_spaces].
  by rewrite Hv, <- rev_unit, rev_involutive.
Qed.

(** The units of a payload that no pattern of the sanitizer starts at
    and that it keeps: no control character, no [<], no [j] or [J]. *)
Definition plain_unit (u : Z) : bool :=
  negb (is_control u) && negb (u =? 60) && negb (fold_unit u =? 106).

(** C30: The sanitizer removes each match once and never looks at what
    a removal joins: for every payload [x] of plain code units, the
    prompt [<scr<script></script>ipt>] [x] [</script>] reaches Claude
    as the script element [<script>] [x] [</script>] (up to the 50000
    units it keeps). *)
Theorem sanitizePrompt_rebuilds_script (x : jstr) :
  forallb plain_unit x = true -> (length x + 17 <= 50000)%nat ->
  sanitizePrompt (units "<scr<script></script>ipt>" ++ x ++ units "</script>")
  = units "<script>" ++ x ++ units "</script>".
Proof.
  intros Hx Hlen.
  assert (Hp : forall p : Z -> bool, (forall u, plain_unit u = true -> p u = true) ->
                 forallb p x = true).
  { intros p Hpu. apply forallb_forall. intros u Hu. apply Hpu.
    exact (proj1 (forallb_forall _ _) Hx u Hu). }
  assert (Hxc : forallb (fun u => negb (is_control u)) x = true)
    by (apply Hp; intros u Hu; by apply andb_prop in Hu as [[? _]%andb_prop _]).
  assert (Hx60 : forallb (fun u => negb (u =? 60)) x = true)
    by (apply Hp; intros u Hu; by apply andb_prop in Hu as [[_ ?]%andb_prop _]).
  assert (Hxj : forallb (fun u => negb (fold_unit u =? 106)) x = true)
    by (apply Hp; intros u Hu; by apply andb_prop in Hu as [_ ?]).
  assert (Hs : forall u r, negb (u =? 60) = true -> script_match (u :: r) = None)
    by (intros u r Hu; apply script_match_other; by apply negb_true_iff).
  assert (Hj : forall u r, negb (fold_unit u =? 106) = true -> javascript_match (u :: r) = None)
    by (intros u r Hu; apply javascript_match_other; by apply negb_true_iff).
  unfold sanitizePrompt. rewrite !List.filter_app, (filter_keep _ x Hxc).
  change (List.filter _ (units "<scr<script></script>ipt>")) with (units "<scr<script></script>ipt>").
  change (List.filter _ (units "</script>")) with (units "</script>").
  change (replace_all script_match (units "<scr<script></script>ipt>" ++ x ++ units "</script>") 0)
    with (units "<scr" ++ units "ipt>" ++ replace_all script_match (x ++ units "</script>") 0).
  rewrite (replace_all_keep _ _ x _ Hs Hx60).
  change (replace_all script_match (units "</script>") 0) with (units "</script>").
  rewrite !app_assoc, <- (app_nil_r (((units "<scr" ++ units "ipt>") ++ x) ++ units "</script>")).
  rewrite (replace_all_keep _ _ _ [] Hj) by (rewrite !forallb_app, Hxj; reflexivity).
  rewrite app_nil_r. cbn [replace_all].
  change (units "<scr" ++ units "ipt>") with (60 :: units "script>").
  change (units "</script>") with (units "</script" ++ [62]).
  rewrite <- !app_assoc, <- app_comm_cons, (app_assoc x), (app_assoc (units "script>")).
  rewrite trim_keep by reflexivity. rewrite <- !app_assoc.
  rewrite take_ge; [reflexivity|]. cbn [length]. rewrite !length_app.
  change (length (units "script>")) with 7%nat. change (length (units "</script")) with 8%nat.
  cbn [length]. lia.
Qed.

(** ** The response cache: a stored answer comes back until it expires *)

(** C37: Round trip of [ResponseCache]: [get] of a key just [set] at time
    [now] returns the stored response and cost, and keeps the entry, up
    to and including [now + ttlMs]; after that it answers [null] and
    deletes the entry. *)
Theorem cache_set_get (key : jstr) (resp : string) (cost : Q) (now now' : Z) (c : ResponseCache.t) :
  now <= now' ->
  ResponseCache.get key now' (ResponseCache.set key resp cost now c) =
  if now' - now <=? ResponseCache.ttlMs
  then (Some (resp, cost), ResponseCache.set key resp cost now c)
  else (None, delete key (ResponseCache.set key resp cost now c)).
Proof.
  intros Hle. unfold ResponseCache.get. unfold ResponseCache.set at 1.
  rewrite (lookup_insert_eq (c : gmap jstr ResponseCache.entry)). cbn [ResponseCache.timestamp].
  destruct (now' - now <=? ResponseCache.ttlMs) eqn:E.
  - apply Z.leb_le in E. by rewrite (proj2 (Z.ltb_ge _ _)) by lia.
  - apply Z.leb_gt in E. by rewrite (proj2 (Z.ltb_lt _ _)) by lia.
Qed.

(** ** Properties of the handler *)

(** The cache key of every request for model [m] that has no
    [cache_key] of its own (see [generateKey_ignores_prompt]). *)
Definition model_cache_key (m : Model) : jstr :=
  b64 (take 24 (units (model_name m) ++ units ":")).

Lemma model_cache_key_cons (m : Model) : exists x k, model_cache_key m = x :: k.
Proof. destruct m; do 2 eexists; vm_compute; reflexivity. Qed.

Lemma generateKey_latin1 (p : jstr) (m : Model) (t : string) :
  forallb (fun u => u <=? 255) (key_data p m t) = true ->
  generateKey p m t = inr (model_cache_key m).
Proof.
  intros H. destruct (generateKey p m t) as [e|k] eqn:Hk.
  - unfold generateKey, btoa in Hk. by rewrite H in Hk.
  - by rewrite (generateKey_inr _ _ _ _ Hk).
Qed.

Lemma generateKey_non_latin1 (p : jstr) (m : Model) (t : string) :
  existsb (fun u => 255 <? u) p = true -> exists e, generateKey p m t = inl e.
Proof.
  intros H. unfold generateKey, btoa.
  replace (forallb _ (key_data p m t)) with false; [by eexists|].
  symmetry. apply not_true_iff_false. intros Hall.
  apply existsb_exists in H as (u & Hu & Hgt). apply forallb_forall with (x := u) in Hall.
  - apply Z.ltb_lt in Hgt. apply Z.leb_le in Hall. lia.
  - unfold key_data. rewrite !app_assoc. apply in_or_app. by right.
Qed.


Section ServeFacts.

Variable number_to_string : Q -> string.

(** The state after a refusal by the limiter is the state before. *)
Lemma set_limiter_same (st : GState) : set_limiter (limiter st) st = st.
Proof. by destruct st. Qed.

Lemma isAllowed_false (uid : string) (now : Z) (rl : RateLimiter.t) (rl' : RateLimiter.t) :
  isAllowed uid now rl = (false, rl') ->
  rl' = rl /\ getRemainingRequests uid now rl' = 0.
Proof.
  unfold isAllowed, getRemainingRequests. destruct (maxRequests <=? _) eqn:E; [|discriminate].
  intros [= <-]. split; [done|]. apply Z.leb_le in E. lia.
Qed.

(** A request refused by the rate limiter gets status 429 with the
    message that no request remains this hour, and the gateway's state
    is unchanged; every other status of the handler is 200, 405, 401,
    422 or 500. *)
Theorem serve_rate_limited (req : Request) (st st' : GState) (b : Body) :
  serve number_to_string req st = ((429, b), st') ->
  b = GError "Rate limit exceeded. 0 requests remaining this hour." 429 /\ st' = st.
Proof.
  unfold serve. destruct (String.eqb _ "OPTIONS"); [(intros; simplify_eq)|].
  destruct (negb _); [(intros; simplify_eq)|]. destruct (auth_user req) as [uid|]; [|(intros; simplify_eq)].
  destruct (_ ≫= AIRequestSchema_parse) as [rd|]; [|(intros; simplify_eq)].
  destruct (isAllowed uid (now req) (limiter st)) as [[] lim] eqn:Hok; cbn [negb].
  - destruct (enable_cache rd).
    + destruct (cache_key_of _ rd) as [|k]; [(intros; simplify_eq)|].
      destruct (ResponseCache.get _ _ _) as [[[r c]|] c']; [(intros; simplify_eq)|].
      unfold call_and_respond. destruct (callClaudeAPI _); (intros; simplify_eq).
    + unfold call_and_respond. destruct (callClaudeAPI _); (intros; simplify_eq).
  - apply isAllowed_false in Hok as [-> ->]. intros [= <- <-].
    by rewrite set_limiter_same.
Qed.

Lemma cache_key_of_default (rd : AIRequest) (k : jstr) :
  cache_key (context rd) = None -> cache_key_of number_to_string rd = inr k ->
  k = model_cache_key (model rd).
Proof. unfold cache_key_of. intros -> Hk. exact (generateKey_inr _ _ _ _ Hk). Qed.

(** C17: A prompt with a code unit above U+00FF (a dash, an emoji, any
    non-Latin script), with the default [enable_cache] and no
    [cache_key], makes [btoa] throw in [generateKey]: the handler
    answers 500 [Internal server error] without calling Claude or
    logging, and the request still counts against the user's limit. *)
Theorem serve_non_latin1_crashes (req : Request) (st : GState) (uid : string) (rd : AIRequest) :
  method req = "POST" -> auth_user req = Some uid ->
  body req ≫= AIRequestSchema_parse = Some rd ->
  enable_cache rd = true -> cache_key (context rd) = None ->
  existsb (fun u => 255 <? u) (prompt rd) = true ->
  (isAllowed uid (now req) (limiter st)).1 = true ->
  serve number_to_string req st =
    (createErrorResponse "Internal server error" 500,
     set_limiter (isAllowed uid (now req) (limiter st)).2 st).
Proof.
  intros Hm Hu Hp He Hc Hx Hok. unfold serve. rewrite Hm, Hu, Hp. cbn [String.eqb negb].
  destruct (isAllowed uid (now req) (limiter st)) as [ok lim]. cbn in Hok |- *. subst ok.
  rewrite He. unfold cache_key_of. rewrite Hc.
  by destruct (generateKey_non_latin1 (prompt rd) (model rd) (number_to_string (temperature rd)) Hx)
    as [e ->].
Qed.

(** A response fetched from Claude for a request without [cache_key] is
    stored under its model's key at the request's time. *)
Lemma serve_fresh_cache (req : Request) (st st' : GState) (rd : AIRequest)
    (R : string) (tk c : Q) (m : Model) (rem : Z) :
  serve number_to_string req st = ((200, GSuccess R tk c m false rem), st') ->
  body req ≫= AIRequestSchema_parse = Some rd ->
  enable_cache rd = true -> cache_key (context rd) = None ->
  m = model rd /\ cache st' !! model_cache_key m = Some (ResponseCache.mk_entry R (now req) c).
Proof.
  intros H Hp He Hc. unfold serve in H. rewrite Hp in H.
  destruct (String.eqb _ "OPTIONS"); [simplify_eq|]. destruct (negb _); [simplify_eq|].
  destruct (auth_user req) as [uid|]; [|simplify_eq].
  destruct (isAllowed uid (now req) (limiter st)) as [[] lim]; cbn [negb] in H; [|simplify_eq].
  rewrite He in H. destruct (cache_key_of _ rd) as [|k] eqn:Hk; [simplify_eq|].
  apply cache_key_of_default in Hk as ->; [|done].
  destruct (ResponseCache.get _ _ _) as [[[r0 c0]|] c']; [simplify_eq|].
  unfold call_and_respond in H. destruct (callClaudeAPI _) as [|resp tk' cs]; [simplify_eq|].
  destruct (model_cache_key_cons (model rd)) as (x & k' & Hxk). rewrite Hxk, He in H.
  simplify_eq H. intros; subst. split; [done|]. cbn. rewrite Hxk.
  apply (lookup_insert_eq (c' : gmap jstr ResponseCache.entry)).
Qed.

(** C6: The cache serves one prompt's answer to another: once a request
    without [cache_key] has been answered by Claude, every request for
    the same model without [cache_key], from any user and with any
    prompt and temperature, that arrives within [ttlMs] gets the first
    answer, marked [cached], instead of an answer to its own prompt. *)
Theorem serve_cache_crosses_prompts (reqA reqB : Request) (st st1 : GState)
    (uB : string) (rdA rdB : AIRequest) (R : string) (tA cA : Q) (remA : Z) :
  serve number_to_string reqA st = ((200, GSuccess R tA cA (model rdA) false remA), st1) ->
  body reqA ≫= AIRequestSchema_parse = Some rdA ->
  enable_cache rdA = true -> cache_key (context rdA) = None ->
  method reqB = "POST" -> auth_user reqB = Some uB ->
  body reqB ≫= AIRequestSchema_parse = Some rdB ->
  enable_cache rdB = true -> cache_key (context rdB) = None -> model rdB = model rdA ->
  forallb (fun u => u <=? 255)
    (key_data (prompt rdB) (model rdB) (number_to_string (temperature rdB))) = true ->
  (isAllowed uB (now reqB) (limiter st1)).1 = true ->
  now reqB - now reqA <= ResponseCache.ttlMs ->
  exists remB stB,
    serve number_to_string reqB st1 = ((200, GSuccess R 0 0 (model rdA) true remB), stB).
Proof.
  intros HA HpA HeA HcA Hm Hu Hp He Hc Hmodel Hl1 Hok Httl.
  destruct (serve_fresh_cache _ _ _ _ _ _ _ _ _ HA HpA HeA HcA) as [_ Hentry].
  unfold serve. rewrite Hm, Hu, Hp. cbn [String.eqb negb].
  destruct (isAllowed uB (now reqB) (limiter st1)) as [ok lim]. cbn in Hok |- *. subst ok.
  rewrite He. unfold cache_key_of. rewrite Hc, generateKey_latin1, Hmodel by done.
  unfold ResponseCache.get. cbn [cache set_limiter]. rewrite Hentry. cbn [ResponseCache.timestamp].
  replace (ResponseCache.ttlMs <? now reqB - now reqA) with false by (symmetry; apply Z.ltb_ge; lia).
  by do 2 eexists.
Qed.

End ServeFacts.


(** ** A sample: two users, one model *)

Module GatewaySample.

Definition nts (_ : Q) : string := "0.3".

Definition uuid : string := "123e4567-e89b-12d3-a456-426614174000".

Definition raw (p : jstr) : RawRequest :=
  mk_raw_request None (Some p) None None
    (Some (mk_raw_context (Some uuid) (Some "recipe_scoring") None None)) None.

Definition answer (_ : Model) (_ : jstr) (_ _ : Q) : ClaudeReply :=
  ClaudeOk (Some (Some "Score 80 for the lentil soup")) (Some 1200%Q) (Some 300%Q).

Definition req (user : string) (time : Z) (p : jstr) : Request :=
  mk_req "POST" time (Some user) (Some (raw p)) "" answer.

Definition promptA : jstr := units "Score these vegan recipes".
Definition promptB : jstr := units "Plan a keto week for two".

Definition rdA : AIRequest :=
  mk_request Sonnet promptA 1000%Q (3 # 10)%Q (mk_context uuid RecipeScoring None None) true.
Definition rdB : AIRequest :=
  mk_request Sonnet promptB 1000%Q (3 # 10)%Q (mk_context uuid RecipeScoring None None) true.

Definition st0 : GState := mk_gstate ∅ ∅ [].

Definition st1 : GState := (serve nts (req "alice" 0 promptA) st0).2.

(** A user who has used the hundred requests of the hour. *)
Definition st_full : GState := mk_gstate {[ "carol" := repeat 0 100 ]} ∅ [].

(** Three calls to the limiter in chronological order. *)
Definition calls : list (string * Z) := [("alice", 0); ("bob", 5); ("alice", 10)].

(** A prompt with an em dash (U+2014). *)
Definition promptDash : jstr := units "Soup " ++ [8212] ++ units " quick".

End GatewaySample.

(** ** Witnesses *)

Lemma generateKey_ignores_prompt_witness :
  take 32 (b64 (key_data GatewaySample.promptA Sonnet "0.3")) =
  take 32 (b64 (key_data GatewaySample.promptB Sonnet "0.9")).
Proof.
  apply (generateKey_ignores_prompt Sonnet "0.3" "0.9" GatewaySample.promptA GatewaySample.promptB);
    vm_compute; reflexivity.
Defined.

Lemma isAllowed_refines_witness :
  (isAllowed "alice" 20 (run_limiter GatewaySample.calls).1).1 =
  window_allows (accepted "alice" (run_limiter GatewaySample.calls).2) 20.
Proof. apply isAllowed_refines. vm_compute. reflexivity. Defined.

Lemma rate_limit_window_witness :
  (length (List.filter (in_window 15)
     (accepted "alice" (run_limiter GatewaySample.calls).2)) <= 100)%nat.
Proof. apply rate_limit_window. vm_compute. reflexivity. Defined.

Lemma serve_rate_limited_witness :
  (serve GatewaySample.nts (GatewaySample.req "carol" 5 GatewaySample.promptB)
     GatewaySample.st_full).1.2 = GError "Rate limit exceeded. 0 requests remaining this hour." 429 /\
  (serve GatewaySample.nts (GatewaySample.req "carol" 5 GatewaySample.promptB)
     GatewaySample.st_full).2 = GatewaySample.st_full.
Proof.
  apply (serve_rate_limited GatewaySample.nts (GatewaySample.req "carol" 5 GatewaySample.promptB)
           GatewaySample.st_full
           (serve GatewaySample.nts (GatewaySample.req "carol" 5 GatewaySample.promptB)
              GatewaySample.st_full).2
           (serve GatewaySample.nts (GatewaySample.req "carol" 5 GatewaySample.promptB)
              GatewaySample.st_full).1.2).
  vm_compute. reflexivity.
Defined.

Lemma serve_non_latin1_crashes_witness :
  serve GatewaySample.nts (GatewaySample.req "dave" 5 GatewaySample.promptDash) GatewaySample.st0 =
  (createErrorResponse "Internal server error" 500,
   set_limiter (isAllowed "dave" 5 (limiter GatewaySample.st0)).2 GatewaySample.st0).
Proof.
  apply (serve_non_latin1_crashes GatewaySample.nts
           (GatewaySample.req "dave" 5 GatewaySample.promptDash) GatewaySample.st0 "dave"
           (mk_request Sonnet GatewaySample.promptDash 1000%Q (3 # 10)%Q
              (mk_context GatewaySample.uuid RecipeScoring None None) true));
    vm_compute; reflexivity.
Defined.

Lemma serve_cache_crosses_prompts_witness :
  exists remB stB,
    serve GatewaySample.nts (GatewaySample.req "bob" 60000 GatewaySample.promptB) GatewaySample.st1 =
    ((200, GSuccess "Score 80 for the lentil soup" 0 0 Sonnet true remB), stB).
Proof.
  apply (serve_cache_crosses_prompts GatewaySample.nts
           (GatewaySample.req "alice" 0 GatewaySample.promptA)
           (GatewaySample.req "bob" 60000 GatewaySample.promptB)
           GatewaySample.st0 GatewaySample.st1 "bob" GatewaySample.rdA GatewaySample.rdB
           "Score 80 for the lentil soup" 1500%Q 1%Q 99).
  all: try (vm_compute; reflexivity).
  unfold ResponseCache.ttlMs. cbn. lia.
Defined.

Lemma rate_limit_recovers_witness :
  (isAllowed "alice" 3600010 (run_limiter GatewaySample.calls).1).1 = true.
Proof.
  apply (rate_limit_recovers GatewaySample.calls "alice" 3600010); [vm_compute; reflexivity|].
  replace (accepted "alice" (run_limiter GatewaySample.calls).2) with [0; 10]
    by (vm_compute; reflexivity).
  repeat constructor; unfold windowMs; lia.
Defined.

Lemma cache_set_get_witness :
  ResponseCache.get (units "k") 60000 (ResponseCache.set (units "k") "answer" 1%Q 0 ∅) =
  (Some ("answer", 1%Q), ResponseCache.set (units "k") "answer" 1%Q 0 ∅).
Proof. rewrite cache_set_get by lia. vm_compute. reflexivity. Defined.

Lemma sanitizePrompt_rebuilds_script_witness :
  sanitizePrompt (units "<scr<script></script>ipt>" ++ units "alert(document.cookie)" ++
                  units "</script>")
  = units "<script>" ++ units "alert(document.cookie)" ++ units "</script>".
Proof. apply sanitizePrompt_rebuilds_script; [reflexivity | apply Nat.leb_le; vm_compute; reflexivity]. Defined.
