(* ===== verification/WowLayer.v ===== *)
(** * The wow layer: [WowLayerAgent] of [src/agents/wow-layer.ts]

    Stage 4 of the generation flow (lines 33-574) decorates a plan with
    a grocery list, a prep-ahead schedule, a mood jam, XP challenges and,
    for premium plans, cooking tips.  Each helper reads the [recipes]
    table through [Types.Db] and catches its own errors.  This file
    models them in the exception-state monad [Js.JsM] whose state is the
    number of [uuidv4()] calls made so far: the [n]-th call returns
    [uuidv4 n], a parameter.

    Ingredient names are strings of code units below 256; on them
    [toLowerCase] followed by [replace(/[^a-z0-9\s]/g, '')] is the ASCII
    lowering and filter below, because no non-ASCII code unit of that
    range lowers to an ASCII letter.  [localeCompare] on normalized names
    (lower-case letters, digits and single spaces) orders them as their
    code units do, which [String.ltb] does. *)

From Stdlib Require Import Qminmax.
From S2P Require Import Prelude Js Types.

Open Scope Q_scope.
Open Scope js_scope.

(** ** Ingredient names (lines 444-495) *)

Definition is_lower_alnum (a : ascii) : bool :=
  let n := nat_of_ascii a in ((97 <=? n) && (n <=? 122) || (48 <=? n) && (n <=? 57))%nat.

(** [\s] on code units below 256. *)
Definition is_re_space (a : ascii) : bool :=
  let n := nat_of_ascii a in
  ((9 <=? n) && (n <=? 13) || (n =? 32) || (n =? 160))%nat.

(** [replace(/\s+/g, ' ')]: a run of white space becomes one space. *)
Fixpoint collapse_spaces (l : list ascii) (in_run : bool) : list ascii :=
  match l with
  | [] => []
  | a :: l' =>
      if is_re_space a then (if in_run then collapse_spaces l' true else " "%char :: collapse_spaces l' true)
      else a :: collapse_spaces l' false
  end.

Fixpoint drop_leading_spaces (l : list ascii) : list ascii :=
  match l with
  | a :: l' => if is_re_space a then drop_leading_spaces l' else l
  | [] => []
  end.

Definition trim_chars (l : list ascii) : list ascii :=
  rev (drop_leading_spaces (rev (drop_leading_spaces l))).

Definition normalizeIngredientName (name : string) : string :=
  let l := list_ascii_of_string (to_lower name) in
  string_of_list_ascii
    (trim_chars (collapse_spaces (List.filter (fun a => is_lower_alnum a || is_re_space a) l) false)).

(** The object literal of [categorizeIngredient], in its key order. *)
Definition categories : list (string * GroceryCategory) :=
  [("onion", Produce); ("garlic", Produce); ("tomato", Produce); ("lettuce", Produce);
   ("carrot", Produce); ("potato", Produce); ("bell pepper", Produce); ("spinach", Produce);
   ("apple", Produce); ("banana", Produce); ("lemon", Produce); ("lime", Produce);
   ("chicken", MeatSeafood); ("beef", MeatSeafood); ("pork", MeatSeafood); ("fish", MeatSeafood);
   ("salmon", MeatSeafood); ("shrimp", MeatSeafood); ("turkey", MeatSeafood);
   ("milk", DairyEggs); ("cheese", DairyEggs); ("butter", DairyEggs); ("egg", DairyEggs);
   ("yogurt", DairyEggs); ("cream", DairyEggs);
   ("rice", Pantry); ("pasta", Pantry); ("flour", Pantry); ("sugar", Pantry);
   ("oil", Pantry); ("vinegar", Pantry); ("beans", Pantry); ("lentils", Pantry);
   ("salt", Spices); ("pepper", Spices); ("garlic powder", Spices); ("paprika", Spices);
   ("soy sauce", Condiments); ("olive oil", Condiments); ("ketchup", Condiments)].

Fixpoint first_category (normalized : string) (tbl : list (string * GroceryCategory))
  : option GroceryCategory :=
  match tbl with
  | [] => None
  | (ingredient, category) :: tbl' =>
      if str_includes normalized ingredient then Some category else first_category normalized tbl'
  end.

Definition categorizeIngredient (name : string) : GroceryCategory :=
  let normalized := to_lower name in
  match first_category normalized categories with
  | Some c => c
  | None =>
      if str_includes normalized "cheese" || str_includes normalized "milk" ||
         str_includes normalized "butter" then DairyEggs
      else if str_includes normalized "chicken" || str_includes normalized "beef" ||
              str_includes normalized "fish" then MeatSeafood
      else if str_includes normalized "oil" || str_includes normalized "sauce" ||
              str_includes normalized "dressing" then Condiments
      else Pantry
  end.

(** ** The grocery list (lines 140-231) *)

(** A value of [allIngredients]. *)
Record Agg := mk_agg {
  agg_amount : Q; agg_unit : string; agg_category : GroceryCategory;
  agg_source_recipes : list string }.

(** [obj[k] = v] for a key the object already has: the key keeps its
    place. *)
Fixpoint assoc_set {A} (k : string) (v : A) (l : list (string * A)) : list (string * A) :=
  match l with
  | [] => []
  | (k', v') :: l' => if String.eqb k k' then (k', v) :: l' else (k', v') :: assoc_set k v l'
  end.

(** Lines 169-185 for one ingredient of the recipe [recipeId].  A key
    inherited from [Object.prototype] ([constructor]) is truthy, its
    [unit] is [undefined] and its [source_recipes.push] throws. *)
Definition add_ingredient (recipeId : string) (all : list (string * Agg)) (ing : Ingredient.t)
  : JsError + list (string * Agg) :=
  let normalizedName := normalizeIngredientName (Ingredient.name ing) in
  let category := categorizeIngredient (Ingredient.name ing) in
  match js_obj_get all normalizedName with
  | PropOwn a =>
      let amount :=
        if String.eqb (agg_unit a) (Ingredient.unit ing) then agg_amount a + Ingredient.amount ing
        else agg_amount a in
      inr (assoc_set normalizedName
             (mk_agg amount (agg_unit a) (agg_category a) (agg_source_recipes a ++ [recipeId])) all)
  | PropInherited => inl (TypeError "Cannot read properties of undefined (reading 'push')")
  | PropUndefined =>
      inr (all ++ [(normalizedName, mk_agg (Ingredient.amount ing) (Ingredient.unit ing) category [recipeId])])
  end.

Fixpoint fold_err {A B E} (f : B -> A -> E + B) (l : list A) (b : B) : E + B :=
  match l with
  | [] => inr b
  | x :: l' => match f b x with inl e => inl e | inr b' => fold_err f l' b' end
  end.

(** Lines 153-188: every meal of every day, a recipe the store does not
    return skipped. *)
Definition collect_ingredients (db : Db) (days : list DayPlan.t) : JsError + list (string * Agg) :=
  fold_err (fun all (meal : MealSlot.t) =>
              match recipe_by_id db (MealSlot.recipe_id meal) with
              | None => inr all
              | Some recipe => fold_err (add_ingredient (MealSlot.recipe_id meal)) (Recipe.ingredients recipe) all
              end)
           (plan_meals days) [].

(** The array indices: canonical decimal numerals below [2^32 - 1]. *)
Definition digit_value (a : ascii) : option Z :=
  let n := nat_of_ascii a in if ((48 <=? n) && (n <=? 57))%nat then Some (Z.of_nat n - 48)%Z else None.

Definition array_index (s : string) : option Z :=
  match list_ascii_of_string s with
  | [] => None
  | d :: rest =>
      if bool_decide (d = "0"%char) && negb (bool_decide (rest = [])) then None
      else
        match fold_left (fun acc a => match acc, digit_value a with
                                       | Some v, Some x => Some (10 * v + x)%Z
                                       | _, _ => None end) (d :: rest) (Some 0%Z) with
        | Some v => if (v <? 4294967295)%Z then Some v else None
        | None => None
        end
  end.

Definition index_before {A} (x y : string * A) : bool :=
  match array_index x.1, array_index y.1 with
  | Some i, Some j => (i <? j)%Z
  | _, _ => false
  end.

(** [Object.entries]: array-index keys in ascending order, then the
    other keys in insertion order. *)
Definition object_entries {A} (l : list (string * A)) : list (string * A) :=
  sort_by index_before (List.filter (fun kv => bool_decide (is_Some (array_index kv.1))) l) ++
  List.filter (fun kv => negb (bool_decide (is_Some (array_index kv.1)))) l.

(** [itemsByCategory[data.category]!.push(item)], the categories in the
    order they first appear. *)
Fixpoint push_item (c : GroceryCategory) (item : GroceryItem.t)
    (acc : list (GroceryCategory * list GroceryItem.t)) : list (GroceryCategory * list GroceryItem.t) :=
  match acc with
  | [] => [(c, [item])]
  | (c', items) :: acc' =>
      if decide (c = c') then (c', items ++ [item]) :: acc' else (c', items) :: push_item c item acc'
  end.

Definition name_before (a b : GroceryItem.t) : bool :=
  String.ltb (GroceryItem.name a) (GroceryItem.name b).

(** Lines 191-212. *)
Definition items_by_category (all : list (string * Agg)) : list (GroceryCategory * list GroceryItem.t) :=
  let byCat :=
    fold_left (fun acc '(name, data) =>
                 push_item (agg_category data)
                   (GroceryItem.mk name (agg_amount data) (agg_unit data) (agg_category data)
                                   (agg_source_recipes data) false) acc)
              (object_entries all) [] in
  map (fun '(c, items) => (c, sort_by name_before items)) byCat.

Section Wow.

(** The [n]-th value of [uuidv4()]. *)
Variable uuidv4 : nat -> string.

Definition fresh_uuid : JsM nat string := fun n => (inr (uuidv4 n), S n).

Definition generateSmartGroceryList (db : Db) (mealPlan : MealPlan.t) : JsM nat (option GroceryList.t) :=
  match collect_ingredients db (PlanData.days (MealPlan.plan_data mealPlan)) with
  | inl _ => jret None
  | inr all =>
      id <- fresh_uuid ;;
      jret (Some (GroceryList.mk id (MealPlan.id mealPlan) (MealPlan.user_id mealPlan)
                                 (items_by_category all) (length all) 0))
  end.

(** ** The prep-ahead schedule (lines 236-299 and 497-541) *)

Definition name_has (ing : Ingredient.t) (w : string) : bool :=
  str_includes (to_lower (Ingredient.name ing)) w.

Definition identifyPrepTasks (recipe : Recipe.t) (mealDay : string) : JsM nat (list PrepTask.t) :=
  let ingredients := Recipe.ingredients recipe in
  let grains := List.filter (fun ing => name_has ing "rice" || name_has ing "quinoa" || name_has ing "pasta")
                            ingredients in
  t1 <- (match grains with
         | [] => jret []
         | _ :: _ =>
             id <- fresh_uuid ;;
             jret [PrepTask.mk id ("Cook " ++ String.concat ", " (map Ingredient.name grains) ++ " in bulk")
                               25 "sunday" PrepMedium [Recipe.id recipe] ["pot"; "stove"]
                               (Some "Store in refrigerator for up to 5 days")]
         end) ;;
  let vegetables := List.filter (fun ing => name_has ing "onion" || name_has ing "pepper" ||
                                            name_has ing "carrot") ingredients in
  if (2 <=? length vegetables)%nat then
    id <- fresh_uuid ;;
    jret (t1 ++ [PrepTask.mk id "Chop vegetables for the week" 15 "sunday" PrepHigh [Recipe.id recipe]
                             ["knife"; "cutting board"]
                             (Some "Store chopped vegetables in airtight containers")])
  else jret t1.

(** [[...new Set(l)]]: the first occurrence of each element. *)
Definition js_set (l : list string) : list string :=
  fold_left (fun acc x => if existsb (String.eqb x) acc then acc else acc ++ [x]) l [].

Definition same_task (t u : PrepTask.t) : bool :=
  String.eqb (PrepTask.description t) (PrepTask.description u) &&
  String.eqb (PrepTask.suggested_day t) (PrepTask.suggested_day u).

(** [existingTask.enables_recipes = ...] on the first task [find] returns. *)
Fixpoint merge_into (task : PrepTask.t) (tasks : list PrepTask.t) : list PrepTask.t :=
  match tasks with
  | [] => []
  | t :: ts =>
      if same_task t task then
        PrepTask.mk (PrepTask.id t) (PrepTask.description t) (PrepTask.estimated_time_minutes t)
                    (PrepTask.suggested_day t) (PrepTask.priority t)
                    (js_set (PrepTask.enables_recipes t ++ PrepTask.enables_recipes task))
                    (PrepTask.requires_equipment t) (PrepTask.storage_instructions t) :: ts
      else t :: merge_into task ts
  end.

Definition task_key (t : PrepTask.t) : string :=
  PrepTask.description t ++ "_" ++ PrepTask.suggested_day t.

(** Lines 258-273 for one task: [prepTasks] and [processedIngredients]. *)
Definition add_task (acc : list PrepTask.t * list string) (task : PrepTask.t) : list PrepTask.t * list string :=
  let '(prepTasks, processed) := acc in
  if existsb (String.eqb (task_key task)) processed then (merge_into task prepTasks, processed)
  else (prepTasks ++ [task], processed ++ [task_key task]).

Definition priority_order (p : PrepPriority) : Q :=
  match p with PrepHigh => 3 | PrepMedium => 2 | PrepLow => 1 end.

(** The comparator of lines 278-283: a negative result puts [a] first. *)
Definition task_before (a b : PrepTask.t) : bool :=
  let priorityDiff := priority_order (PrepTask.priority b) - priority_order (PrepTask.priority a) in
  if negb (Qeq_bool priorityDiff 0) then Qlt_bool priorityDiff 0
  else Qlt_bool (PrepTask.estimated_time_minutes b - PrepTask.estimated_time_minutes a) 0.

Definition prep_loop (db : Db) (days : list DayPlan.t) : JsM nat (list PrepTask.t * list string) :=
  jfold (fun acc (day : DayPlan.t) =>
           jfold (fun acc (meal : MealSlot.t) =>
                    match recipe_by_id db (MealSlot.recipe_id meal) with
                    | None => jret acc
                    | Some recipe =>
                        recipePrepTasks <- identifyPrepTasks recipe (DayPlan.day day) ;;
                        jret (fold_left add_task recipePrepTasks acc)
                    end)
                 (DayPlan.meals day) acc)
        days ([], []).

(** Nothing in the body throws on the modelled data, so the [catch] of
    line 295 is not reached and the schedule is always returned. *)
Definition generatePrepSchedule (db : Db) (mealPlan : MealPlan.t) : JsM nat (option PrepSchedule.t) :=
  acc <- prep_loop db (PlanData.days (MealPlan.plan_data mealPlan)) ;;
  let prepTasks := sort_by task_before acc.1 in
  jret (Some (PrepSchedule.mk (MealPlan.id mealPlan) prepTasks
                              (qsum PrepTask.estimated_time_minutes prepTasks) ["sunday"; "wednesday"])).

(** ** XP challenges (lines 304-404) *)

(** [Number.prototype.toString] in the challenge texts. *)
Variable number_to_string : Q -> string.

Definition week_ms : Z := 7 * 24 * 60 * 60 * 1000.

(** [mealPlan.plan_data.wow_layers?.prep_schedule?.tasks.length > 0]. *)
Definition has_prep_tasks (mealPlan : MealPlan.t) : bool :=
  match PlanData.wow_layers (MealPlan.plan_data mealPlan) with
  | Some w => match WowLayers.prep_schedule w with
              | Some ps => (0 <? length (PrepSchedule.tasks ps))%nat
              | None => false
              end
  | None => false
  end.

(** Lines 370-382: the truthy [cuisine_type]s of the plan's recipes. *)
Definition plan_cuisines (db : Db) (days : list DayPlan.t) : list string :=
  js_set (omap (fun meal => match recipe_by_id db (MealSlot.recipe_id meal) with
                            | Some r => match Recipe.cuisine_type r with
                                        | Some c => if String.eqb c "" then None else Some c
                                        | None => None
                                        end
                            | None => None
                            end) (plan_meals days)).

Definition challenge (k : XPChallengeType) (title description : string)
    (xp target progress : Q) (now : Z) : string -> XPChallenge.t :=
  fun id => XPChallenge.mk id k title description xp target progress false (now + week_ms)%Z.

(** [context.user_blueprint.profile.streak_days] throws on a blueprint
    without profile, before any [uuidv4()]; the [catch] returns [[]]. *)
Definition generateXPChallenges (db : Db) (now : Z) (mealPlan : MealPlan.t)
    (context : GenerationContext.t) : JsM nat (list XPChallenge.t) :=
  match UserBlueprint.profile (GenerationContext.user_blueprint context) with
  | None => jret []
  | Some profile =>
      let userStreak := UserProfile.streak_days profile in
      id1 <- fresh_uuid ;;
      let c1 := challenge PlanCompletion "Weekly Warrior" "Complete all 7 days of your meal plan"
                          150 7 0 now id1 in
      c2 <- (if Qle_bool 3 userStreak then
               id <- fresh_uuid ;;
               jret [challenge StreakMaintenance "Streak Keeper"
                       ("Maintain your " ++ number_to_string userStreak ++ "-day streak")
                       (Qmin (userStreak * 10) 200) (userStreak + 7) userStreak now id]
             else jret []) ;;
      id3 <- fresh_uuid ;;
      let c3 := challenge RecipeRating "Food Critic" "Rate 5 meals this week" 75 5 0 now id3 in
      c4 <- (if has_prep_tasks mealPlan then
               id <- fresh_uuid ;;
               jret [challenge PrepEfficiency "Prep Master" "Complete 3 prep-ahead tasks" 100 3 0 now id]
             else jret []) ;;
      let size := inject_Z (Z.of_nat (length (plan_cuisines db (PlanData.days (MealPlan.plan_data mealPlan))))) in
      c5 <- (if Qle_bool 3 size then
               id <- fresh_uuid ;;
               jret [challenge VarietyExploration "Global Explorer"
                       ("Try " ++ number_to_string size ++ " different cuisines this week")
                       (size * 25) size 0 now id]
             else jret []) ;;
      jret ([c1] ++ c2 ++ [c3] ++ c4 ++ c5)
  end.

(** ** Cooking tips (lines 409-441 and 543-573) *)

Definition generateRecipeTips (recipe : Recipe.t) (userSkill : option string) : JsM nat (list CookingTip.t) :=
  t1 <- (if bool_decide (userSkill = Some "beginner") &&
            bool_decide (Recipe.difficulty_level recipe = Some Medium \/ Recipe.difficulty_level recipe = Some Hard)
         then
           id <- fresh_uuid ;;
           jret [CookingTip.mk id (Recipe.id recipe)
                   "Read through the entire recipe before starting and prep all ingredients first"
                   Technique TipBeginner]
         else jret []) ;;
  if existsb (fun ing => name_has ing "garlic") (Recipe.ingredients recipe) then
    id <- fresh_uuid ;;
    jret (t1 ++ [CookingTip.mk id (Recipe.id recipe)
                   "Crush garlic with the flat side of your knife before mincing for easier prep"
                   Efficiency TipBeginner])
  else jret t1.

Definition generateCookingTips (db : Db) (mealPlan : MealPlan.t) (context : GenerationContext.t)
  : JsM nat (list CookingTip.t) :=
  match UserBlueprint.intake (GenerationContext.user_blueprint context) with
  | None => jret []
  | Some intake =>
      let userSkill := UserIntake.cooking_skill_level intake in
      tips <- jfold (fun tips meal =>
                       match recipe_by_id db (MealSlot.recipe_id meal) with
                       | None => jret tips
                       | Some recipe => recipeTips <- generateRecipeTips recipe userSkill ;; jret (tips ++ recipeTips)
                       end)
                    (plan_meals (PlanData.days (MealPlan.plan_data mealPlan))) [] ;;
      jret (take 5 tips)
  end.

(** ** [enhancePlan] (lines 45-135) *)

(** What [moodJamAgent.assignMoodJam] returns ([MoodJam.assignMoodJam]
    models it). *)
Record MoodJamResult := mk_mood_result {
  mj_success : bool; mj_mood_jam : option MoodJamAssignment.t; mj_error : option string;
  mj_claude_requests : option Q; mj_tokens_used : option Q; mj_cost_cents : option Q }.

Record EnhanceResult := mk_enhance {
  e_success : bool; e_meal_plan : option MealPlan.t; e_error : option string;
  e_claude_requests : Q; e_tokens_used : Q; e_cost_cents : Q }.

Definition with_wow_layers (mealPlan : MealPlan.t) (w : WowLayers.t) : MealPlan.t :=
  let pd := MealPlan.plan_data mealPlan in
  MealPlan.mk (MealPlan.id mealPlan) (MealPlan.user_id mealPlan) (MealPlan.intake_id mealPlan)
              (MealPlan.week_theme mealPlan) (MealPlan.week_start_date mealPlan)
              (PlanData.mk (PlanData.days pd) (PlanData.total_recipes pd) (PlanData.unique_recipes pd)
                           (PlanData.variety_score pd) (Some w))
              (MealPlan.generated_by mealPlan) (MealPlan.generation_id mealPlan).

Definition nonempty_list {A} (l : list A) : option (list A) :=
  match l with [] => None | _ :: _ => Some l end.

(** [assignMoodJam] run from the [uuidv4()] counter: its result and the
    counter after its own [uuidv4()] calls.  Its body is a [try] whose
    [catch] returns a result, so it does not throw. *)
Definition run_agent (agent : nat -> MoodJamResult * nat) : JsM nat MoodJamResult :=
  fun n => let '(r, n') := agent n in (inr r, n').

(** Every helper catches its own errors and so does the mood jam agent,
    so the [catch] of line 125 is not reached.  The agent runs between
    the prep schedule and the XP challenges (line 81) and shares the
    [uuidv4()] counter with them. *)
Definition enhancePlan (db : Db) (now : Z) (moodJamAgent : nat -> MoodJamResult * nat)
    (mealPlan : MealPlan.t) (context : GenerationContext.t) : JsM nat EnhanceResult :=
  groceryList <- generateSmartGroceryList db mealPlan ;;
  prepSchedule <- generatePrepSchedule db mealPlan ;;
  moodJam <- run_agent moodJamAgent ;;
  let moodJamOut :=
    if mj_success moodJam then mj_mood_jam moodJam else None in
  xpChallenges <- generateXPChallenges db now mealPlan context ;;
  cookingTips <- (if SubscriptionPlan.advanced_wow_layers
                       (UserBlueprint.subscription_plan (GenerationContext.user_blueprint context))
                  then generateCookingTips db mealPlan context else jret []) ;;
  let wowLayers := WowLayers.mk groceryList prepSchedule moodJamOut (nonempty_list xpChallenges)
                                (nonempty_list cookingTips) in
  jret (mk_enhance true (Some (with_wow_layers mealPlan wowLayers)) None
                   (0 + (mj_claude_requests moodJam ||? 0)%mw)
                   (0 + (mj_tokens_used moodJam ||? 0)%mw)
                   (0 + (mj_cost_cents moodJam ||? 0)%mw)).

End Wow.

(** ** The grocery aggregation against its specification *)

(** The ingredients the loop of lines 153-188 visits, with the recipe
    of each. *)
Definition occurrences (db : Db) (days : list DayPlan.t) : list (string * Ingredient.t) :=
  flat_map (fun meal => match recipe_by_id db (MealSlot.recipe_id meal) with
                        | None => []
                        | Some r => map (fun ing => (MealSlot.recipe_id meal, ing)) (Recipe.ingredients r)
                        end) (plan_meals days).

(** What the list holds for a normalized name [k]: the unit and the
    category of the first occurrence of [k], the amounts of the
    occurrences in that unit, and the recipe of every occurrence. *)
Definition aggregate_spec (occ : list (string * Ingredient.t)) (k : string) : option Agg :=
  match List.filter (fun o => String.eqb (normalizeIngredientName (Ingredient.name o.2)) k) occ with
  | [] => None
  | (rid, ing) :: rest =>
      Some (mk_agg (fold_left (fun acc o => if String.eqb (Ingredient.unit ing) (Ingredient.unit o.2)
                                            then acc + Ingredient.amount o.2 else acc)
                              rest (Ingredient.amount ing))
                   (Ingredient.unit ing) (categorizeIngredient (Ingredient.name ing))
                   (rid :: map fst rest))
  end.

Lemma assoc_set_same {A} (k : string) (v w : A) (l : list (string * A)) :
  assoc_str k l = Some w -> assoc_str k (assoc_set k v l) = Some v.
Proof.
  induction l as [|[k' v'] l IH]; [discriminate|]. cbn.
  destruct (String.eqb k k') eqn:E; cbn; rewrite ?E; auto.
Qed.

Lemma assoc_set_other {A} (k k0 : string) (v : A) (l : list (string * A)) :
  k <> k0 -> assoc_str k (assoc_set k0 v l) = assoc_str k l.
Proof.
  intros Hne. induction l as [|[k' v'] l IH]; [reflexivity|]. cbn.
  destruct (String.eqb k0 k') eqn:E0; cbn.
  - apply String.eqb_eq in E0. subst k'. by rewrite (proj2 (String.eqb_neq k k0) Hne).
  - by rewrite IH.
Qed.

Lemma assoc_str_snoc {A} (k k0 : string) (v : A) (l : list (string * A)) :
  assoc_str k (l ++ [(k0, v)]) =
  match assoc_str k l with Some w => Some w | None => if String.eqb k k0 then Some v else None end.
Proof.
  induction l as [|[k' v'] l IH]; [reflexivity|]. cbn. by destruct (String.eqb k k').
Qed.

Lemma fold_err_app {A B E} (f : B -> A -> E + B) (l1 l2 : list A) (b : B) :
  fold_err f (l1 ++ l2) b = match fold_err f l1 b with inl e => inl e | inr b' => fold_err f l2 b' end.
Proof.
  revert b. induction l1 as [|x l1 IH]; intros b; [reflexivity|]. cbn.
  destruct (f b x); [reflexivity|]. apply IH.
Qed.

Lemma fold_err_flat_map {A B C E} (f : B -> C -> E + B) (g : A -> list C) (l : list A) (b : B) :
  fold_err f (flat_map g l) b = fold_err (fun b x => fold_err f (g x) b) l b.
Proof.
  revert b. induction l as [|x l IH]; intros b; [reflexivity|]. cbn.
  rewrite fold_err_app. destruct (fold_err f (g x) b); [reflexivity|]. apply IH.
Qed.

Lemma fold_err_map {A B C E} (f : B -> C -> E + B) (h : A -> C) (l : list A) (b : B) :
  fold_err f (map h l) b = fold_err (fun b x => f b (h x)) l b.
Proof.
  revert b. induction l as [|x l IH]; intros b; [reflexivity|]. cbn. destruct (f b (h x)); auto.
Qed.

Lemma fold_err_ext {A B E} (f g : B -> A -> E + B) (l : list A) (b : B) :
  (forall b x, f b x = g b x) -> fold_err f l b = fold_err g l b.
Proof.
  intros Hfg. revert b. induction l as [|x l IH]; intros b; [reflexivity|]. cbn.
  rewrite Hfg. destruct (g b x); auto.
Qed.

(** The loop is one fold of [add_ingredient] over the occurrences. *)
Lemma collect_ingredients_occurrences (db : Db) (days : list DayPlan.t) :
  collect_ingredients db days =
  fold_err (fun all o => add_ingredient o.1 all o.2) (occurrences db days) [].
Proof.
  unfold collect_ingredients, occurrences. rewrite fold_err_flat_map.
  apply fold_err_ext. intros all meal.
  destruct (recipe_by_id db (MealSlot.recipe_id meal)); [|reflexivity].
  by rewrite fold_err_map.
Qed.

Lemma filter_snoc_match (k : string) (occ : list (string * Ingredient.t)) (o : string * Ingredient.t) :
  List.filter (fun o => String.eqb (normalizeIngredientName (Ingredient.name o.2)) k) (occ ++ [o]) =
  List.filter (fun o => String.eqb (normalizeIngredientName (Ingredient.name o.2)) k) occ ++
  (if String.eqb (normalizeIngredientName (Ingredient.name o.2)) k then [o] else []).
Proof. rewrite List.filter_app. cbn. by destruct (String.eqb _ k). Qed.

Lemma add_ingredient_spec (rid : string) (ing : Ingredient.t) (P : list (string * Ingredient.t))
    (all all' : list (string * Agg)) :
  (forall k, assoc_str k all = aggregate_spec P k) ->
  add_ingredient rid all ing = inr all' ->
  forall k, assoc_str k all' = aggregate_spec (P ++ [(rid, ing)]) k.
Proof.
  intros Hall Hadd k. unfold aggregate_spec at 1. rewrite filter_snoc_match. cbn [snd].
  unfold add_ingredient, js_obj_get in Hadd.
  set (k0 := normalizeIngredientName (Ingredient.name ing)) in *.
  pose proof (Hall k0) as Hk0. unfold aggregate_spec in Hk0.
  destruct (String.eqb_spec k0 k) as [<-|Hne].
  - destruct (assoc_str k0 all) as [a|] eqn:Ha.
    + injection Hadd as <-. rewrite (assoc_set_same _ _ a) by done.
      destruct (List.filter _ P) as [|[rid0 ing0] rest]; [discriminate|].
      injection Hk0 as ->. cbn. by rewrite fold_left_app, map_app.
    + destruct (existsb _ _); [discriminate|]. injection Hadd as <-.
      rewrite assoc_str_snoc, Ha, String.eqb_refl.
      destruct (List.filter _ P) as [|[] ?]; [reflexivity|discriminate].
  - rewrite app_nil_r. fold (aggregate_spec P k). rewrite <- Hall.
    destruct (assoc_str k0 all) as [a|] eqn:Ha.
    + injection Hadd as <-. apply assoc_set_other. congruence.
    + destruct (existsb _ _); [discriminate|]. injection Hadd as <-.
      rewrite assoc_str_snoc. destruct (assoc_str k all); [done|].
      by rewrite (proj2 (String.eqb_neq k k0)) by congruence.
Qed.

Lemma fold_add_spec (occ P : list (string * Ingredient.t)) (all all' : list (string * Agg)) :
  (forall k, assoc_str k all = aggregate_spec P k) ->
  fold_err (fun all o => add_ingredient o.1 all o.2) occ all = inr all' ->
  forall k, assoc_str k all' = aggregate_spec (P ++ occ) k.
Proof.
  revert P all. induction occ as [|[rid ing] occ IH]; intros P all Hall Hfold k.
  - injection Hfold as <-. by rewrite app_nil_r.
  - cbn in Hfold. destruct (add_ingredient rid all ing) as [|all1] eqn:Hadd; [discriminate|].
    replace (P ++ (rid, ing) :: occ) with ((P ++ [(rid, ing)]) ++ occ) by by rewrite <- app_assoc.
    apply (IH _ all1); [|done]. by apply (add_ingredient_spec rid ing P all).
Qed.

(** C27: The grocery list's aggregation, when it succeeds, keeps for each
    normalized ingredient name the unit and category of its first
    occurrence in the plan, the sum of the amounts of the occurrences in
    that unit only (an occurrence in another unit adds nothing), and the
    recipe of every occurrence, one entry per occurrence. *)
Theorem collect_ingredients_spec (db : Db) (days : list DayPlan.t) (all : list (string * Agg)) :
  collect_ingredients db days = inr all ->
  forall k, assoc_str k all = aggregate_spec (occurrences db days) k.
Proof.
  rewrite collect_ingredients_occurrences. intros H k.
  apply (fold_add_spec _ [] [] all); [reflexivity|done].
Qed.

(** ** The category table *)

Lemma prefix_includes (s sub : string) : String.prefix sub s = true -> str_includes s sub = true.
Proof. destruct s; cbn; intros ->; reflexivity. Qed.

Lemma includes_tail (s x : string) (a : ascii) :
  str_includes s (String a x) = true -> str_includes s x = true.
Proof.
  induction s as [|c s IH]; cbn; [discriminate|].
  destruct (ascii_dec a c) as [->|]; cbn.
  - intros [Hp|Hs]%orb_true_iff.
    + rewrite (prefix_includes s x Hp). by rewrite orb_true_r.
    + rewrite (IH Hs). by rewrite orb_true_r.
  - intros Hs. rewrite (IH Hs). by rewrite orb_true_r.
Qed.

(** A string that contains [p ++ q] contains [q]. *)
Lemma includes_app_r (s p q : string) : str_includes s (p ++ q) = true -> str_includes s q = true.
Proof.
  induction p as [|a p IH]; [done|]. intros H. apply IH. exact (includes_tail s _ a H).
Qed.

Lemma prefix_app_l (p q t : string) : String.prefix (p ++ q) t = true -> String.prefix p t = true.
Proof.
  revert t. induction p as [|a p IH]; intros t; [by destruct t|].
  destruct t as [|c t]; simpl; [discriminate|]. destruct (ascii_dec a c); [apply IH|discriminate].
Qed.

(** A string that contains [p ++ q] contains [p]. *)
Lemma includes_app_l (s p q : string) : str_includes s (p ++ q) = true -> str_includes s p = true.
Proof.
  induction s as [|c s IH].
  - change (String.prefix (p ++ q) "" || false = true -> String.prefix p "" || false = true).
    rewrite !orb_false_r. apply prefix_app_l.
  - change (String.prefix (p ++ q) (String c s) || str_includes s (p ++ q) = true ->
            String.prefix p (String c s) || str_includes s p = true).
    intros [Hp|Hs]%orb_true_iff.
    + by rewrite (prefix_app_l p q _ Hp).
    + rewrite (IH Hs). by rewrite orb_true_r.
Qed.

(** [categorizeIngredient] returns the category of the first key of
    its table that the name contains, so the keys [garlic powder] and
    [olive oil] are shadowed by [garlic] and [oil]: a name containing
    [garlic powder] is produce, never a spice; a name containing
    [olive oil] is never a condiment; and an eggplant is dairy, through
    [egg]. *)
Theorem categorizeIngredient_shadowed (name : string) :
  (str_includes (to_lower name) "garlic powder" = true -> categorizeIngredient name = Produce) /\
  (str_includes (to_lower name) "olive oil" = true -> categorizeIngredient name <> Condiments) /\
  categorizeIngredient "Eggplant" = DairyEggs.
Proof.
  split_and!; [intros H|intros H|vm_compute; reflexivity]; unfold categorizeIngredient;
    cbn [first_category categories].
  - pose proof (includes_app_l _ "garlic" " powder" H) as Hg.
    destruct (str_includes _ "onion"); [reflexivity|]. by rewrite Hg.
  - pose proof (includes_app_r _ "olive " "oil" H) as Ho.
    repeat match goal with
           | |- context [if str_includes ?s ?w then _ else _] => destruct (str_includes s w) eqn:?
           end; congruence.
Qed.

(** ** [enhancePlan] and the XP challenges *)

Section WowFacts.

Variable uuidv4 : nat -> string.
Variable number_to_string : Q -> string.

Lemma generateXPChallenges_no_prep (db : Db) (now : Z) (mp : MealPlan.t) (ctx : GenerationContext.t)
    (n n' : nat) (cs : list XPChallenge.t) :
  has_prep_tasks mp = false ->
  generateXPChallenges uuidv4 number_to_string db now mp ctx n = (inr cs, n') ->
  Forall (fun c => XPChallenge.type c <> PrepEfficiency) cs.
Proof.
  intros Hprep. unfold generateXPChallenges.
  destruct (UserBlueprint.profile _); [|intros [= <- _]; constructor].
  cbn [jbind jret fresh_uuid]. rewrite Hprep.
  destruct (Qle_bool 3 _); destruct (Qle_bool 3 _); cbn; intros [= <- _];
    repeat constructor; discriminate.
Qed.

Lemma nonempty_list_some {A} (l cs : list A) : nonempty_list l = Some cs -> cs = l.
Proof. destruct l; cbn; congruence. Qed.

(** C20: [enhancePlan] builds the prep schedule into the new [wowLayers]
    but asks [generateXPChallenges] about the plan it was given: when
    that plan has no wow layers yet (as the council's plans), the
    challenges it adds never include the [prep_efficiency] challenge,
    whatever prep tasks the schedule has. *)
Theorem enhancePlan_no_prep_challenge (db : Db) (now : Z) (mj : nat -> MoodJamResult * nat) (mp : MealPlan.t)
    (ctx : GenerationContext.t) (n n' : nat) (r : EnhanceResult) :
  PlanData.wow_layers (MealPlan.plan_data mp) = None ->
  enhancePlan uuidv4 number_to_string db now mj mp ctx n = (inr r, n') ->
  forall mp' w cs, e_meal_plan r = Some mp' -> PlanData.wow_layers (MealPlan.plan_data mp') = Some w ->
    WowLayers.xp_challenges w = Some cs -> Forall (fun c => XPChallenge.type c <> PrepEfficiency) cs.
Proof.
  intros Hnone Henh mp' w cs Hmp Hw Hcs.
  assert (Hprep : has_prep_tasks mp = false) by (unfold has_prep_tasks; by rewrite Hnone).
  unfold enhancePlan, jbind in Henh.
  destruct (generateSmartGroceryList uuidv4 db mp n) as [[|g] n1]; [discriminate|].
  destruct (generatePrepSchedule uuidv4 db mp n1) as [[|p] n2']; [discriminate|].
  unfold run_agent in Henh. destruct (mj n2') as [m n2].
  destruct (generateXPChallenges uuidv4 number_to_string db now mp ctx n2) as [[|xs] n3] eqn:Hx;
    [discriminate|].
  apply generateXPChallenges_no_prep in Hx; [|done].
  destruct (SubscriptionPlan.advanced_wow_layers _);
    [destruct (generateCookingTips uuidv4 db mp ctx n3) as [[|ts] n4]; [discriminate|]|];
    injection Henh as <- _; injection Hmp as <-; injection Hw as <-;
    by rewrite (nonempty_list_some _ _ Hcs).
Qed.

End WowFacts.

(** ** The prep-ahead schedule's invariant *)

Section PrepFacts.

Variable uuidv4 : nat -> string.

Lemma existsb_eqb_false (x : string) (l : list string) :
  existsb (String.eqb x) l = false -> x ∉ l.
Proof.
  intros H Hin. apply list_elem_of_In in Hin.
  assert (existsb (String.eqb x) l = true) by (apply existsb_exists; exists x; by rewrite String.eqb_refl).
  congruence.
Qed.

Lemma js_set_fold_NoDup (l acc : list string) :
  NoDup acc ->
  NoDup (fold_left (fun acc x => if existsb (String.eqb x) acc then acc else acc ++ [x]) l acc).
Proof.
  revert acc. induction l as [|x l IH]; intros acc Hacc; [done|].
  cbn. apply IH. destruct (existsb (String.eqb x) acc) eqn:E; [done|].
  apply NoDup_app. split_and!; [done| |by apply NoDup_singleton].
  intros y Hy ->%list_elem_of_singleton. exact (existsb_eqb_false _ _ E Hy).
Qed.

Lemma js_set_NoDup (l : list string) : NoDup (js_set l).
Proof. apply js_set_fold_NoDup. constructor. Qed.

Definition enables_nodup (t : PrepTask.t) : Prop := NoDup (PrepTask.enables_recipes t).

Lemma merge_into_keys (task : PrepTask.t) (ts : list PrepTask.t) :
  map task_key (merge_into task ts) = map task_key ts.
Proof.
  induction ts as [|t ts IH]; [reflexivity|]. cbn. destruct (same_task t task); cbn; [done|].
  by rewrite IH.
Qed.

Lemma merge_into_nodup (task : PrepTask.t) (ts : list PrepTask.t) :
  Forall enables_nodup ts -> Forall enables_nodup (merge_into task ts).
Proof.
  induction ts as [|t ts IH]; intros Hts; [constructor|]. inversion Hts; subst. cbn.
  destruct (same_task t task); constructor; auto. apply js_set_NoDup.
Qed.

(** What [prepTasks] and [processedIngredients] hold together. *)
Definition prep_inv (acc : list PrepTask.t * list string) : Prop :=
  acc.2 = map task_key acc.1 /\ NoDup acc.2 /\ Forall enables_nodup acc.1.

Lemma add_task_inv (acc : list PrepTask.t * list string) (task : PrepTask.t) :
  prep_inv acc -> enables_nodup task -> prep_inv (add_task acc task).
Proof.
  destruct acc as [ts ps]. intros (Hps & Hnd & Hall) Htask. cbn in *. subst ps.
  destruct (existsb (String.eqb (task_key task)) (map task_key ts)) eqn:E; unfold prep_inv; cbn.
  - rewrite merge_into_keys. split_and!; auto using merge_into_nodup.
  - rewrite map_app. split_and!; [done| |by apply Forall_app; auto].
    apply NoDup_app. split_and!; [done| |by apply NoDup_singleton].
    intros y Hy ->%list_elem_of_singleton. exact (existsb_eqb_false _ _ E Hy).
Qed.

Lemma identifyPrepTasks_nodup (recipe : Recipe.t) (d : string) (s s' : nat) (ts : list PrepTask.t) :
  identifyPrepTasks uuidv4 recipe d s = (inr ts, s') -> Forall enables_nodup ts.
Proof.
  unfold identifyPrepTasks, jbind, jret, fresh_uuid.
  destruct (List.filter _ _); destruct (2 <=? _)%nat; cbn; intros [= <- _];
    rewrite ?Forall_cons, ?Forall_nil; unfold enables_nodup; cbn;
    split_and?; try apply NoDup_singleton; done.
Qed.

Lemma prep_loop_inv (db : Db) (days : list DayPlan.t) (s s' : nat) (acc : list PrepTask.t * list string) :
  prep_loop uuidv4 db days s = (inr acc, s') -> prep_inv acc.
Proof.
  apply (jfold_invariant prep_inv); [|by split_and!; constructor].
  intros acc0 day s0 acc1 s1 Hinv0.
  apply (jfold_invariant prep_inv); [|done].
  intros b meal s2 b' s3 Hb. destruct (recipe_by_id db _) as [recipe|]; [|by intros [= <- _]].
  unfold jbind. destruct (identifyPrepTasks uuidv4 recipe _ s2) as [[|ts] s4] eqn:Hid; [discriminate|].
  intros [= <- _]. apply identifyPrepTasks_nodup in Hid. revert b Hb.
  induction ts as [|t ts IH]; intros b Hb; [done|]. inversion Hid; subst. cbn.
  apply IH; [done|]. by apply add_task_inv.
Qed.

End PrepFacts.

(** The comparator on its two keys: a priority and a time. *)
Lemma diff_cmp_asym (pa pb ta tb : Q) :
  (if negb (Qeq_bool (pb - pa) 0) then Qlt_bool (pb - pa) 0 else Qlt_bool (tb - ta) 0) = true ->
  (if negb (Qeq_bool (pa - pb) 0) then Qlt_bool (pa - pb) 0 else Qlt_bool (ta - tb) 0) = false.
Proof.
  destruct (Qeq_bool (pb - pa) 0) eqn:E1, (Qeq_bool (pa - pb) 0) eqn:E2; cbn [negb];
    intros H; apply not_true_iff_false; rewrite Qlt_bool_iff in *; intros H'.
  - lra.
  - apply Qeq_bool_iff in E1. apply not_true_iff_false in E2. apply E2, Qeq_bool_iff. lra.
  - apply Qeq_bool_iff in E2. apply not_true_iff_false in E1. apply E1, Qeq_bool_iff. lra.
  - lra.
Qed.

Lemma task_before_asym (a b : PrepTask.t) : task_before a b = true -> task_before b a = false.
Proof. apply diff_cmp_asym. Qed.

Section PrepSchedule.

Variable uuidv4 : nat -> string.

(** The prep-ahead schedule lists each task (a description on a
    suggested day) once, each task's enabled recipes without repetition
    (the [new Set] of the merge), and the tasks in the comparator's order:
    no task comes after one it should precede (higher priority first,
    then longer tasks first). *)
Theorem generatePrepSchedule_wf (db : Db) (mp : MealPlan.t) (n n' : nat) (ps : PrepSchedule.t) :
  generatePrepSchedule uuidv4 db mp n = (inr (Some ps), n') ->
  NoDup (map task_key (PrepSchedule.tasks ps)) /\
  Forall (fun t => NoDup (PrepTask.enables_recipes t)) (PrepSchedule.tasks ps) /\
  Sorted (may_follow task_before) (PrepSchedule.tasks ps).
Proof.
  intros H. unfold generatePrepSchedule, jbind in H.
  destruct (prep_loop uuidv4 db _ n) as [[|acc] n1] eqn:Hloop; [discriminate|].
  injection H as <- _. cbn [PrepSchedule.tasks].
  apply prep_loop_inv in Hloop as (Hkeys & Hnd & Hall).
  pose proof (sort_by_perm task_before acc.1) as Hperm.
  split_and!.
  - rewrite Hperm, <- Hkeys. done.
  - by rewrite Hperm.
  - apply sort_by_sorted, task_before_asym.
Qed.

End PrepSchedule.

(** ** Normalized names *)

(** Two spaces in a row somewhere in [l]. *)
Definition double_space (l : list ascii) : Prop :=
  exists k k', l = k ++ [" "%char; " "%char] ++ k'.

Definition is_space_char (a : ascii) : bool := bool_decide (a = " "%char).

Fixpoint no_double_space (l : list ascii) : bool :=
  match l with
  | a :: ((b :: _) as r) => negb (is_space_char a && is_space_char b) && no_double_space r
  | _ => true
  end.

(** The form of a normalized ingredient name. *)
Definition canonical_name (s : string) : Prop :=
  let l := list_ascii_of_string s in
  Forall (fun a => is_lower_alnum a = true \/ a = " "%char) l /\ ~ double_space l /\
  hd_error l <> Some " "%char /\ hd_error (rev l) <> Some " "%char.

Lemma no_double_space_sound (l : list ascii) : no_double_space l = true -> ~ double_space l.
Proof.
  induction l as [|a l IH]; intros H (k & k' & Hl).
  - destruct k; discriminate.
  - destruct k as [|b k].
    + injection Hl as -> ->. cbn in H. discriminate.
    + injection Hl as -> Hl. apply IH; [|by exists k, k'].
      destruct l as [|c l]; [done|]. cbn in H. by apply andb_prop in H as [_ H].
Qed.

Lemma double_space_rev (l : list ascii) : double_space (rev l) -> double_space l.
Proof.
  intros (k & k' & Hl). exists (rev k'), (rev k).
  rewrite <- (rev_involutive l), Hl, !rev_app_distr. cbn. by rewrite <- app_assoc.
Qed.

Lemma is_space_char_false (a : ascii) : a <> " "%char -> is_space_char a = false.
Proof. intros H. unfold is_space_char. by rewrite bool_decide_false. Qed.

Lemma double_space_app_r (l1 l2 : list ascii) : double_space l2 -> double_space (l1 ++ l2).
Proof. intros (k & k' & ->). exists (l1 ++ k), k'. by rewrite <- app_assoc. Qed.

Lemma space_is_re_space (a : ascii) : is_re_space a = false -> a <> " "%char.
Proof. intros H ->. discriminate. Qed.

(** [replace(/\s+/g, ' ')] leaves letters, digits and single spaces, and
    after a space it does not start with a space. *)
Lemma collapse_spaces_form (l : list ascii) (b : bool) :
  Forall (fun a => is_lower_alnum a || is_re_space a = true) l ->
  Forall (fun a => is_lower_alnum a = true \/ a = " "%char) (collapse_spaces l b) /\
  no_double_space (collapse_spaces l b) = true /\
  (b = true -> hd_error (collapse_spaces l b) <> Some " "%char).
Proof.
  revert b. induction l as [|a l IH]; intros b Hl; [cbn; split_and!; done|].
  inversion Hl as [|? ? Ha Hl']; subst. destruct (IH true Hl') as (Ht1 & Ht2 & Ht3).
  destruct (IH false Hl') as (Hf1 & Hf2 & _). cbn.
  destruct (is_re_space a) eqn:Hs.
  - destruct b; [split_and!; auto|]. split_and!; [constructor; auto| |done].
    destruct (collapse_spaces l true) as [|c r] eqn:Hc; [done|].
    assert (c <> " "%char) by (intros ->; by apply (Ht3 eq_refl)).
    change (negb (is_space_char " " && is_space_char c) && no_double_space (c :: r) = true).
    by rewrite (is_space_char_false c), andb_false_r.
  - rewrite orb_false_r in Ha. pose proof (space_is_re_space a Hs) as Hna.
    split_and!; [constructor; auto| |by intros _ [= ?]].
    destruct (collapse_spaces l false) as [|c r] eqn:Hc; [done|].
    change (negb (is_space_char a && is_space_char c) && no_double_space (c :: r) = true).
    by rewrite (is_space_char_false a).
Qed.

Lemma drop_leading_spaces_suffix (l : list ascii) : exists p, l = p ++ drop_leading_spaces l.
Proof.
  induction l as [|a l (p & Hp)]; [by exists []|]. cbn.
  destruct (is_re_space a); [exists (a :: p); cbn; by f_equal|by exists []].
Qed.

Lemma drop_leading_spaces_hd (l : list ascii) : hd_error (drop_leading_spaces l) <> Some " "%char.
Proof.
  induction l as [|a l IH]; [done|]. cbn. destruct (is_re_space a) eqn:Hs; [done|].
  cbn. intros [= ->]. discriminate.
Qed.

(** [normalizeIngredientName] always returns a canonical name: lower
    case letters, digits and single spaces only, with no space at either
    end, whatever the ingredient name it is given. *)
Theorem normalizeIngredientName_canonical (name : string) :
  canonical_name (normalizeIngredientName name).
Proof.
  unfold canonical_name, normalizeIngredientName. rewrite list_ascii_of_string_of_list_ascii.
  set (f := List.filter _ _).
  assert (Hf : Forall (fun a => is_lower_alnum a || is_re_space a = true) f).
  { apply Forall_forall. intros a Ha. apply list_elem_of_In, filter_In in Ha. apply Ha. }
  destruct (collapse_spaces_form f false Hf) as (H1 & H2 & _).
  set (c := collapse_spaces f false) in *. unfold trim_chars.
  destruct (drop_leading_spaces_suffix c) as (p1 & Hp1).
  destruct (drop_leading_spaces_suffix (rev (drop_leading_spaces c))) as (p2 & Hp2).
  set (d1 := drop_leading_spaces c) in *. set (d2 := drop_leading_spaces (rev d1)) in *.
  assert (Hd1 : rev d2 ++ rev p2 = d1).
  { rewrite <- (rev_involutive d1), Hp2, rev_app_distr. reflexivity. }
  split_and!.
  - apply Forall_rev. rewrite Hp1 in H1. apply Forall_app in H1 as [_ H1].
    apply Forall_rev in H1. rewrite Hp2 in H1. by apply Forall_app in H1 as [_ H1].
  - intros Hd. apply (no_double_space_sound c H2). rewrite Hp1. apply double_space_app_r.
    apply double_space_rev. rewrite Hp2. apply double_space_app_r. by apply double_space_rev.
  - destruct (rev d2) as [|x r]; [done|].
    change (hd_error ((x :: r) ++ rev p2) <> Some " "%char). rewrite Hd1.
    apply drop_leading_spaces_hd.
  - rewrite rev_involutive. apply drop_leading_spaces_hd.
Qed.

(** ** A sample plan *)

Module WowSample.

Definition uuid (n : nat) : string := "id".
Definition nts (_ : Q) : string := "5".

Definition stir_fry : Recipe.t :=
  Recipe.mk "r1" "Stir fry"
    [Ingredient.mk "Brown Rice" 1 "cup"; Ingredient.mk "Onion" 1 "whole";
     Ingredient.mk "Bell Pepper" 2 "whole"; Ingredient.mk "Garlic Powder" 1 "tsp";
     Ingredient.mk "Olive Oil" 2 "tbsp"]
    None None None 2 (Some Medium) [] (Some "asian") [Dinner] Published false 4 10.

Definition eggplant_bake : Recipe.t :=
  Recipe.mk "r2" "Eggplant bake"
    [Ingredient.mk "Eggplant" 1 "whole"; Ingredient.mk "brown  rice!" 200 "g";
     Ingredient.mk "Olive Oil" 1 "tbsp"]
    None None None 2 (Some Easy) [] (Some "italian") [Dinner] Published false 4 10.

Definition db : Db :=
  mkDb (fun id => if String.eqb id "r1" then Some stir_fry
                  else if String.eqb id "r2" then Some eggplant_bake else None)
       (fun _ => None).

Definition days : list DayPlan.t :=
  [DayPlan.mk "monday" "2026-01-05" [MealSlot.mk "dinner" "r1" None false; MealSlot.mk "lunch" "r2" None false];
   DayPlan.mk "tuesday" "2026-01-06" [MealSlot.mk "dinner" "r1" None false]].

(** A plan as the council returns it: no wow layers yet. *)
Definition plan : MealPlan.t :=
  MealPlan.mk "p1" "u1" None None 0%Z (PlanData.mk days 3 2 50 None) "ai" "g1".

Definition context : GenerationContext.t :=
  GenerationContext.mk
    (UserBlueprint.mk (Some (UserProfile.mk "u1" (Some 1990%Z) (Some 180) (Some 80) (Some Moderate) 5))
                      (Some (UserIntake.mk "i1" None [] [] [] None None (Some "beginner") (Some 2) None None))
                      None (SubscriptionPlan.mk 10 true true) None None None)
    "g1" 0%Z 0%nat.

(** A mood jam run that fails after one [uuidv4()] call. *)
Definition mood (n : nat) : MoodJamResult * nat :=
  (mk_mood_result false None None (Some 1) (Some 300) (Some 1), S n).

Definition all : list (string * Agg) :=
  match collect_ingredients db days with inr a => a | inl _ => [] end.

Definition schedule : PrepSchedule.t :=
  match (generatePrepSchedule uuid db plan 0%nat).1 with
  | inr (Some ps) => ps
  | _ => PrepSchedule.mk "" [] 0 []
  end.

Definition run := enhancePlan uuid nts db 0%Z mood plan context 0%nat.

Definition result : EnhanceResult :=
  match run.1 with inr r => r | inl _ => mk_enhance false None None 0 0 0 end.

Definition enhanced : MealPlan.t := default plan (e_meal_plan result).

Definition layers : WowLayers.t :=
  default (WowLayers.mk None None None None None) (PlanData.wow_layers (MealPlan.plan_data enhanced)).

Definition challenges : list XPChallenge.t := default [] (WowLayers.xp_challenges layers).

End WowSample.

(** ** Witnesses *)

Lemma collect_ingredients_spec_witness :
  assoc_str "brown rice" WowSample.all =
  aggregate_spec (occurrences WowSample.db WowSample.days) "brown rice".
Proof.
  apply (collect_ingredients_spec WowSample.db WowSample.days WowSample.all).
  vm_compute. reflexivity.
Defined.

Lemma categorizeIngredient_shadowed_witness :
  categorizeIngredient "Garlic Powder" = Produce /\ categorizeIngredient "Olive Oil" <> Condiments.
Proof.
  split.
  - apply (categorizeIngredient_shadowed "Garlic Powder"). vm_compute. reflexivity.
  - apply (categorizeIngredient_shadowed "Olive Oil"). vm_compute. reflexivity.
Defined.

Lemma enhancePlan_no_prep_challenge_witness :
  (0 < length (PrepSchedule.tasks (default (PrepSchedule.mk "" [] 0 [])
                                    (WowLayers.prep_schedule WowSample.layers))))%nat /\
  Forall (fun c => XPChallenge.type c <> PrepEfficiency) WowSample.challenges.
Proof.
  split; [vm_compute; lia|].
  refine (enhancePlan_no_prep_challenge WowSample.uuid WowSample.nts WowSample.db 0%Z WowSample.mood
            WowSample.plan WowSample.context 0%nat WowSample.run.2 WowSample.result _ _
            WowSample.enhanced WowSample.layers _ _ _ _); vm_compute; reflexivity.
Defined.

Lemma generatePrepSchedule_wf_witness :
  NoDup (map task_key (PrepSchedule.tasks WowSample.schedule)).
Proof.
  apply (generatePrepSchedule_wf WowSample.uuid WowSample.db WowSample.plan 0%nat
           (generatePrepSchedule WowSample.uuid WowSample.db WowSample.plan 0%nat).2 WowSample.schedule).
  vm_compute. reflexivity.
Defined.
