(* ===== verification/MoodJam.v ===== *)
(** * The mood jam agent: [MoodJamAgent] of [src/agents/mood-jam.ts]

    [assignMoodJam] (lines 35-127) asks Claude for the mood of a plan,
    asks Spotify for an access token, then for recommendations seeded by
    the mood, and saves a [mood_jam_assignments] row.  Every helper
    catches its own errors and turns them into a failed result.

    The model runs in the exception-state monad [Js.JsM] on [MState]:
    the external calls made so far, in order (the Claude prompt, the
    token request, the recommendation parameters), the number of
    [uuidv4()] calls and the rows saved.  The answers of Claude, of
    Spotify and of the database are parameters of the section [Agent],
    as are [JSON.parse], [JSON.stringify(v, null, 2)], [String] on
    numbers, [uuidv4], [Date.now()] and [Math.random()]: one run makes
    each call at most once. *)

From stdpp Require Import pretty.
From S2P Require Import Prelude Js Types CandidateSelector WowLayer.

Open Scope Q_scope.
Open Scope js_scope.

Module MoodJamAgent.

(** ** Values read from JSON *)

(** [p[0]]: the first item of an array, the first code unit of a
    string, the member ["0"] of an object. *)
Definition read_index0 (p : js_prop json) : JsError + js_prop json :=
  match p with
  | PropOwn (JArray xs) => inr (match xs with x :: _ => PropOwn x | [] => PropUndefined end)
  | PropOwn (JString (String c _)) => inr (PropOwn (JString (String c EmptyString)))
  | _ => read p "0"
  end.

(** ** Prompt (lines 327-376, 443-462) *)

(** [summarizePlanForMoodAnalysis], lines 443-451, as [JSON.stringify]
    sees it: a member whose value is [undefined] is left out. *)
Definition summarizePlanForMoodAnalysis (mealPlan : MealPlan.t) : json :=
  let pd := MealPlan.plan_data mealPlan in
  JObject ((match MealPlan.week_theme mealPlan with Some t => [("theme", JString t)] | None => [] end) ++
           [("total_recipes", JNumber (inject_Z (Z.of_nat (PlanData.total_recipes pd))));
            ("unique_recipes", JNumber (inject_Z (Z.of_nat (PlanData.unique_recipes pd))));
            ("variety_score", JNumber (PlanData.variety_score pd));
            ("day_count", JNumber (inject_Z (Z.of_nat (length (PlanData.days pd)))))]).

(** [summarizeUserContext], lines 453-462: the intake's empty columns
    are [null]; reading [intake] or [profile] of a blueprint without it
    throws. *)
Definition summarizeUserContext (blueprint : UserBlueprint.t) : JsError + json :=
  match UserBlueprint.intake blueprint with
  | None => inl (undefined_read "diet_type")
  | Some intake =>
      match UserBlueprint.profile blueprint with
      | None => inl (undefined_read "streak_days")
      | Some profile =>
          inr (JObject (nullable_member "diet_type" (UserIntake.diet_type intake) JString ++
                        nullable_member "cooking_skill" (UserIntake.cooking_skill_level intake) JString ++
                        nullable_member "time_preference" (UserIntake.cooking_time_preference intake) JNumber ++
                        [("health_goals", JArray (map JString (UserIntake.health_goals intake)))] ++
                        nullable_member "cultural_preferences" (UserIntake.cultural_preferences intake)
                          (fun cs => JArray (map JString cs)) ++
                        [("current_streak", JNumber (UserProfile.streak_days profile))]))
      end
  end.

Definition mood_prompt_head : string :=
"Analyze the mood and vibe of this meal plan to assign an appropriate music playlist.

<meal_plan>
".

Definition mood_prompt_mid : string :=
"
</meal_plan>

<user_context>
".

(** The example answer's double quotes are written [~] ([Js.dequote]). *)
Definition mood_prompt_tail : string :=
"
</user_context>

<mood_categories>
- **focus**: Clean, productive vibes for meal prep and mindful eating
- **comfort**: Warm, cozy feelings for hearty, soul-warming meals  
- **energy**: Upbeat, motivating music for active cooking and vibrant meals
- **family**: Warm, inclusive vibes for shared meals and bonding
- **adventure**: Exciting, exploratory music for trying new cuisines
- **zen**: Calming, peaceful music for healthy, balanced eating
</mood_categories>

<audio_features_guide>
- **energy**: 0.1 (calm) to 0.9 (high energy)
- **valence**: 0.1 (sad/negative) to 0.9 (happy/positive)  
- **acousticness**: 0.1 (electronic) to 0.9 (acoustic)
- **danceability**: 0.1 (not danceable) to 0.9 (very danceable)
</audio_features_guide>

Analyze the meal plan's overall vibe considering:
1. Cuisine diversity and adventure level
2. Cooking complexity and time investment
3. Health focus vs comfort food balance
4. User's lifestyle and preferences

Return ONLY JSON:
" ++ dequote "{
  ~mood~: ~focus~,
  ~confidence~: 0.85,
  ~explanation~: ~This plan emphasizes healthy, efficient meals perfect for focused weekday eating...~,
  ~genres~: [~ambient~, ~electronic~, ~chill~],
  ~audio_features~: {
    ~energy~: 0.4,
    ~valence~: 0.7,
    ~acousticness~: 0.3,
    ~danceability~: 0.5
  }
}".

Section Prompt.
(** [JSON.stringify(v, null, 2)]. *)
Variable json_stringify : json -> string.

(** [buildMoodAnalysisPrompt], lines 327-376. *)
Definition buildMoodAnalysisPrompt (mealPlan : MealPlan.t) (context : GenerationContext.t)
    : JsError + string :=
  let planSummary := summarizePlanForMoodAnalysis mealPlan in
  match summarizeUserContext (GenerationContext.user_blueprint context) with
  | inl e => inl e
  | inr userContext =>
      inr (mood_prompt_head ++ json_stringify planSummary ++ mood_prompt_mid ++
           json_stringify userContext ++ mood_prompt_tail)%string
  end.
End Prompt.

(** ** Tables (lines 416-441) *)

Definition moodGenreMap : list (string * list string) :=
  [("focus", ["ambient"; "electronic"; "minimal-techno"; "study"; "chill"]);
   ("comfort", ["folk"; "acoustic"; "indie-folk"; "singer-songwriter"; "country"]);
   ("energy", ["pop"; "rock"; "hip-hop"; "electronic"; "dance"]);
   ("family", ["pop"; "folk"; "classic-rock"; "soul"; "r-n-b"]);
   ("adventure", ["world-music"; "latin"; "afrobeat"; "reggae"; "jazz"]);
   ("zen", ["ambient"; "new-age"; "meditation"; "acoustic"; "classical"])].

Definition default_genres : list string := ["pop"; "acoustic"; "chill"].

(** [mapMoodToGenres], lines 416-427, on the property key of the mood:
    an [Object.prototype] member ([PropInherited]) is truthy and is
    returned in place of an array. *)
Definition mapMoodToGenres (mood : string) : js_prop (list string) :=
  match js_obj_get moodGenreMap mood with
  | PropUndefined => PropOwn default_genres
  | p => p
  end.

Definition playlistNames : list (string * list string) :=
  [("focus", ["Mindful Meals"; "Kitchen Focus"; "Prep Zone"; "Cooking Flow"]);
   ("comfort", ["Cozy Kitchen"; "Comfort Cooking"; "Home & Hearth"; "Soul Food Vibes"]);
   ("energy", ["Kitchen Energy"; "Cooking Beats"; "Meal Prep Power"; "Kitchen Dance"]);
   ("family", ["Family Feast"; "Dinner Together"; "Kitchen Gathering"; "Shared Meals"]);
   ("adventure", ["Culinary Journey"; "Global Kitchen"; "Flavor Adventure"; "World Cuisine"]);
   ("zen", ["Peaceful Prep"; "Mindful Kitchen"; "Zen Cooking"; "Calm Cuisine"])].

Definition default_playlist_names : list string := ["Your Meal Soundtrack"].

(** [names[i]] for an integer index: [undefined] out of range. *)
Definition array_at {A} (l : list A) (i : Z) : option A :=
  if (i <? 0)%Z then None else nth_error l (Z.to_nat i).

(** [generatePlaylistName], lines 429-441, with [r] the value of
    [Math.random()].  On an [Object.prototype] member, [names[i]] is
    [undefined] whatever [i] is. *)
Definition generatePlaylistName (r : Q) (mood : string) : option string :=
  let pick names := array_at names (Qfloor (r * inject_Z (Z.of_nat (length names)))) in
  match js_obj_get playlistNames mood with
  | PropOwn names => pick names
  | PropUndefined => pick default_playlist_names
  | PropInherited => None
  end.

(** [calculateCost], lines 464-468. *)
Definition calculateCost (inputTokens outputTokens : Q) : Q :=
  math_round ((inputTokens / 1000 * (3 # 1000) + outputTokens / 1000 * (15 # 1000)) * 100).

(** ** Results of the helpers *)

(** [parseMoodAnalysisResponse]'s fields on success. *)
Record ParsedMood := mk_parsed {
  pm_mood : json; pm_confidence : json; pm_explanation : json;
  pm_genres : json; pm_audio_features : json }.

(** What [analyzeMealPlanMood] returns. *)
Inductive MoodAnalysis :=
| AnalysisOk (analysis : ParsedMood) (tokens_used cost_cents : Q)
| AnalysisFailed (error : string) (tokens_used cost_cents : option Q).

(** What [getSpotifyPlaylist] returns. *)
Inductive PlaylistResult :=
| PlaylistOk (playlist_id playlist_url : string) (playlist_name : option string)
| PlaylistFailed (error : string).

(** ** Services and state *)

(** One answer of [fetch]: it throws (or [response.json()] does), the
    response is not [ok], or the parsed body. *)
Inductive Reply :=
| ReplyThrows (e : JsError)
| ReplyHttpError (status : Z)
| ReplyOk (data : json).

(** The columns [saveMoodJamAssignment] inserts (lines 305-316). *)
Module MoodJamRow.
Record t := mk {
  id : string; meal_plan_id : string; detected_mood : json; mood_confidence : json;
  spotify_playlist_id : option string; spotify_playlist_url : option string;
  playlist_name : option string; genres : json; audio_features : json; play_count : Q }.
End MoodJamRow.

Definition row_of (m : MoodJamAssignment.t) : MoodJamRow.t :=
  MoodJamRow.mk (MoodJamAssignment.id m) (MoodJamAssignment.meal_plan_id m)
    (MoodJamAssignment.detected_mood m) (MoodJamAssignment.mood_confidence m)
    (MoodJamAssignment.spotify_playlist_id m) (MoodJamAssignment.spotify_playlist_url m)
    (MoodJamAssignment.playlist_name m) (MoodJamAssignment.genres m)
    (MoodJamAssignment.audio_features m) (MoodJamAssignment.play_count m).

(** The requests sent out, by their content: the Claude prompt, the
    token request, the recommendation query's parameters (the access
    token goes into a header, which is not kept). *)
Inductive ExternalCall :=
| CallClaude (prompt : string)
| CallSpotifyToken
| CallSpotifyRecommendations (params : list (string * string)).

Record MState := mk_state {
  calls : list ExternalCall;
  uuid_counter : nat;
  mood_jam_assignments : list MoodJamRow.t }.

Definition add_call (s : MState) (c : ExternalCall) : MState :=
  mk_state (calls s ++ [c]) (uuid_counter s) (mood_jam_assignments s).

Definition log_call (c : ExternalCall) : JsM MState unit := jmodify (fun s => add_call s c).

(** The prompts of the Claude calls among [cs]. *)
Definition claude_prompts (cs : list ExternalCall) : list string :=
  omap (fun c => match c with CallClaude p => Some p | _ => None end) cs.

Definition add_row (r : MoodJamRow.t) : JsM MState unit :=
  jmodify (fun s => mk_state (calls s) (uuid_counter s) (mood_jam_assignments s ++ [r])).

Section Agent.
Variable json_parse : string -> string + json.
Variable json_stringify : json -> string.
Variable number_to_string : Q -> string.
Variable uuidv4 : nat -> string.
(** [Date.now()] and [Math.random()] during the run. *)
Variable now : Z.
Variable random : Q.
(** The answers of the Claude API, of Spotify's token endpoint and of
    its recommendations endpoint, and whether the insert fails. *)
Variable claude_reply : Reply.
Variable token_reply : Reply.
Variable recommendations_reply : Reply.
Variable insert_fails : bool.

Abbreviation jstr := (js_to_string number_to_string).

(** [uuidv4()]: the [n]-th call returns [uuidv4 n]. *)
Definition fresh_uuid : JsM MState string := fun s =>
  (inr (uuidv4 (uuid_counter s)), mk_state (calls s) (S (uuid_counter s)) (mood_jam_assignments s)).

(** [await fetch(...)] and [await response.json()] of a call whose
    failure throws [err status]. *)
Definition fetch_json (reply : Reply) (err : Z -> string) : JsM MState json :=
  match reply with
  | ReplyThrows e => jthrow e
  | ReplyHttpError status => jthrow (Error (err status))
  | ReplyOk data => jret data
  end.

(** [parseMoodAnalysisResponse], lines 378-414, on [data.content[0].text]. *)
Definition parseMoodAnalysisResponse (response : js_prop json) : string + ParsedMood :=
  let fail e := inl ("Failed to parse mood analysis: " ++ error_message e)%string in
  match response with
  | PropUndefined => fail (undefined_read "match")
  | PropOwn JNull => fail (null_read "match")
  | PropOwn (JString s) =>
      match extract_json s with
      | None => fail (Error "No JSON found in response")
      | Some txt =>
          match json_parse txt with
          | inl m => inl ("Failed to parse mood analysis: " ++ m)%string
          | inr parsed =>
              match read (PropOwn parsed) "mood" with
              | inl e => fail e
              | inr mood =>
                  let confidence := json_get parsed "confidence" in
                  let audio_features := json_get parsed "audio_features" in
                  match mood, confidence, audio_features with
                  | PropOwn m, PropOwn c, PropOwn a =>
                      if json_truthy mood && json_truthy confidence && json_truthy audio_features
                      then inr (mk_parsed m c (or_default (json_get parsed "explanation") (JString ""))
                                          (or_default (json_get parsed "genres") (JArray [])) a)
                      else fail (Error "Missing required fields in mood analysis")
                  | _, _, _ => fail (Error "Missing required fields in mood analysis")
                  end
              end
          end
      end
  | _ => fail (TypeError "response.match is not a function")
  end.

(** [data.usage?.k] on a usage count the API sends as a number. *)
Definition usage_tokens (data : json) (k : string) : option Q :=
  match json_get data "usage" with
  | PropOwn (JObject ms) => match js_obj_get ms k with PropOwn (JNumber q) => Some q | _ => None end
  | _ => None
  end.

(** [data.usage?.input_tokens + data.usage?.output_tokens || 0]: [NaN]
    when a count is missing, hence [0]. *)
Definition tokens_of (data : json) : Q :=
  match usage_tokens data "input_tokens", usage_tokens data "output_tokens" with
  | Some i, Some o => i + o
  | _, _ => 0
  end.

Definition cost_of (data : json) : Q :=
  calculateCost (usage_tokens data "input_tokens" ||? 0) (usage_tokens data "output_tokens" ||? 0).

(** [analyzeMealPlanMood], lines 132-203. *)
Definition analyzeMealPlanMood (mealPlan : MealPlan.t) (context : GenerationContext.t)
    : JsM MState MoodAnalysis :=
  jtry
    (prompt <- jlift (buildMoodAnalysisPrompt json_stringify mealPlan context) ;;
     log_call (CallClaude prompt) ;;
     data <- fetch_json claude_reply (fun status => "Claude API error: " ++ pretty status)%string ;;
     content <- jlift (read (PropOwn data) "content") ;;
     first <- jlift (read_index0 content) ;;
     aiResponse <- jlift (read first "text") ;;
     match parseMoodAnalysisResponse aiResponse with
     | inl err => jret (AnalysisFailed err (Some (tokens_of data)) (Some (cost_of data)))
     | inr analysis => jret (AnalysisOk analysis (tokens_of data) (cost_of data))
     end)
    (fun e => jret (AnalysisFailed ("Mood analysis failed: " ++ error_message e)%string None None)).

(** [getSpotifyAccessToken], lines 208-233: [data.access_token], or
    [null] when anything fails. *)
Definition getSpotifyAccessToken : JsM MState (js_prop json) :=
  log_call CallSpotifyToken ;;
  match token_reply with
  | ReplyOk data =>
      match read (PropOwn data) "access_token" with
      | inl _ => jret (PropOwn JNull)
      | inr token => jret token
      end
  | _ => jret (PropOwn JNull)
  end.

(** [genreSeeds.slice(0, 5).join(',')]. *)
Definition seed_genres (genreSeeds : js_prop (list string)) : JsError + string :=
  match genreSeeds with
  | PropOwn gs => inr (String.concat "," (firstn 5 gs))
  | _ => inl (TypeError "genreSeeds.slice is not a function")
  end.

(** [audioFeatures.k.toString()]. *)
Definition feature_string (audioFeatures : json) (k : string) : JsError + string :=
  match read (PropOwn audioFeatures) k with
  | inl e => inl e
  | inr p =>
      match read p "toString" with
      | inl e => inl e
      | inr _ => inr (match p with PropOwn v => jstr v | _ => "" end)
      end
  end.

(** The [URLSearchParams] of lines 254-261. *)
Definition recommendation_params (mood audioFeatures : json)
    : JsError + list (string * string) :=
  let genreSeeds := mapMoodToGenres (jstr mood) in
  match seed_genres genreSeeds, feature_string audioFeatures "energy",
        feature_string audioFeatures "valence", feature_string audioFeatures "acousticness",
        feature_string audioFeatures "danceability" with
  | inl e, _, _, _, _ | inr _, inl e, _, _, _ | inr _, inr _, inl e, _, _
  | inr _, inr _, inr _, inl e, _ | inr _, inr _, inr _, inr _, inl e => inl e
  | inr g, inr en, inr va, inr ac, inr da =>
      inr [("seed_genres", g); ("target_energy", en); ("target_valence", va);
           ("target_acousticness", ac); ("target_danceability", da); ("limit", "20")]
  end.

(** [!data.tracks || data.tracks.length === 0]. *)
Definition no_tracks (tracks : js_prop json) : bool :=
  negb (json_truthy tracks) ||
  match tracks with
  | PropOwn (JArray []) => true
  | PropOwn (JObject ms) =>
      match js_obj_get ms "length" with PropOwn (JNumber q) => Qeq_bool q 0 | _ => false end
  | _ => false
  end.

(** [getSpotifyPlaylist], lines 238-296. *)
Definition getSpotifyPlaylist (mood audioFeatures : json) : JsM MState PlaylistResult :=
  jtry
    (params <- jlift (recommendation_params mood audioFeatures) ;;
     log_call (CallSpotifyRecommendations params) ;;
     data <- fetch_json recommendations_reply
               (fun status => "Spotify recommendations failed: " ++ pretty status)%string ;;
     tracks <- jlift (read (PropOwn data) "tracks") ;;
     if no_tracks tracks then jthrow (Error "No tracks found for mood")
     else jret (PlaylistOk ("mealwise_" ++ jstr mood ++ "_" ++ pretty now)%string
                           ("https://open.spotify.com/playlist/mealwise_" ++ jstr mood)%string
                           (generatePlaylistName random (jstr mood))))
    (fun e => jret (PlaylistFailed ("Spotify playlist creation failed: " ++ error_message e)%string)).

(** [saveMoodJamAssignment], lines 301-324: a failed insert is only
    logged. *)
Definition saveMoodJamAssignment (moodJam : MoodJamAssignment.t) : JsM MState unit :=
  if insert_fails then jret tt else add_row (row_of moodJam).

(** [assignMoodJam], lines 35-127. *)
Definition assignMoodJam (mealPlan : MealPlan.t) (context : GenerationContext.t)
    : JsM MState MoodJamResult :=
  let failed err t c := mk_mood_result false None (Some err) (Some 1) (Some t) (Some c) in
  jtry
    (moodAnalysis <- analyzeMealPlanMood mealPlan context ;;
     match moodAnalysis with
     | AnalysisFailed err t c => jret (failed err (t ||? 0) (c ||? 0))
     | AnalysisOk analysis t c =>
         spotifyToken <- getSpotifyAccessToken ;;
         if negb (json_truthy spotifyToken) then
           jret (failed "Failed to authenticate with Spotify" t c)
         else
           playlistResult <- getSpotifyPlaylist (pm_mood analysis) (pm_audio_features analysis) ;;
           match playlistResult with
           | PlaylistFailed err => jret (failed err t c)
           | PlaylistOk pid purl pname =>
               id <- fresh_uuid ;;
               let moodJam :=
                 MoodJamAssignment.mk id (MealPlan.id mealPlan) (pm_mood analysis)
                   (pm_confidence analysis) (pm_explanation analysis) (Some pid) (Some purl) pname
                   (or_default (PropOwn (pm_genres analysis)) (JArray []))
                   (pm_audio_features analysis) 0 in
               saveMoodJamAssignment moodJam ;;
               jret (mk_mood_result true (Some moodJam) None (Some 1) (Some t) (Some c))
           end
     end)
    (fun e => jret (mk_mood_result false None (Some (error_message e)) None None None)).

End Agent.

(** ** What each step does to the state *)


Section AgentFacts.
Variable json_parse : string -> string + json.
Variable json_stringify : json -> string.
Variable number_to_string : Q -> string.
Variable uuidv4 : nat -> string.
Variable now : Z.
Variable random : Q.
Variable claude_reply : Reply.
Variable token_reply : Reply.
Variable recommendations_reply : Reply.
Variable insert_fails : bool.

Abbreviation analyze := (analyzeMealPlanMood json_parse json_stringify claude_reply).
Abbreviation playlist := (getSpotifyPlaylist number_to_string now random recommendations_reply).
Abbreviation assign := (assignMoodJam json_parse json_stringify number_to_string uuidv4 now random
                          claude_reply token_reply recommendations_reply insert_fails).

(** The analysis never throws; it makes the Claude call exactly when the
    prompt can be built, and a prompt that cannot be built fails it. *)
Lemma analyzeMealPlanMood_state mealPlan context s r s' :
  analyze mealPlan context s = (r, s') ->
  exists a, r = inr a /\
  match buildMoodAnalysisPrompt json_stringify mealPlan context with
  | inl e => s' = s /\ a = AnalysisFailed ("Mood analysis failed: " ++ error_message e) None None
  | inr p => s' = add_call s (CallClaude p)
  end.
Proof.
  unfold analyzeMealPlanMood, jtry, jbind, jlift, log_call, jmodify, fetch_json.
  destruct (buildMoodAnalysisPrompt _ _ _) as [e|p]; cbn; intros H.
  - injection H as <- <-. eauto.
  - run_cases H; injection H as <- <-; eauto.
Qed.

Lemma getSpotifyAccessToken_state s :
  exists t, getSpotifyAccessToken token_reply s = (inr t, add_call s CallSpotifyToken).
Proof.
  unfold getSpotifyAccessToken, jbind, log_call, jmodify; cbn.
  destruct token_reply; repeat case_match; eauto.
Qed.

(** The playlist step never throws; it queries Spotify exactly when the
    query's parameters can be built. *)
Lemma getSpotifyPlaylist_state mood audioFeatures s r s' :
  playlist mood audioFeatures s = (r, s') ->
  exists pr, r = inr pr /\
  match recommendation_params number_to_string mood audioFeatures with
  | inl e => s' = s /\ pr = PlaylistFailed ("Spotify playlist creation failed: " ++ error_message e)
  | inr ps => s' = add_call s (CallSpotifyRecommendations ps)
  end.
Proof.
  unfold getSpotifyPlaylist, jtry, jbind, jlift, log_call, jmodify, fetch_json.
  destruct (recommendation_params _ _ _) as [e|ps]; cbn; intros H.
  - injection H as <- <-. eauto.
  - run_cases H; injection H as <- <-; eauto.
Qed.

(** The seeds of the query are the first five genres the table gives
    the mood. *)
Lemma recommendation_params_seeds mood audioFeatures ps :
  recommendation_params number_to_string mood audioFeatures = inr ps ->
  exists gs, mapMoodToGenres (js_to_string number_to_string mood) = PropOwn gs /\
             head ps = Some ("seed_genres", String.concat "," (firstn 5 gs)).
Proof.
  unfold recommendation_params, seed_genres.
  destruct (mapMoodToGenres _) as [gs| |]; cbn; [|discriminate..].
  intros H; run_cases H; simplify_eq; eauto.
Qed.

(** C15: A blueprint without intake fails the mood jam before any request
    is sent (the state, with its log of calls, is unchanged), yet the
    result reports one Claude request, with no tokens and no cost. *)
Theorem assignMoodJam_no_intake mealPlan context s :
  UserBlueprint.intake (GenerationContext.user_blueprint context) = None ->
  assignMoodJam json_parse json_stringify number_to_string uuidv4 now random
    claude_reply token_reply recommendations_reply insert_fails mealPlan context s =
  (inr (mk_mood_result false None
          (Some "Mood analysis failed: Cannot read properties of undefined (reading 'diet_type')")
          (Some 1) (Some 0) (Some 0)), s).
Proof.
  intros Hi. unfold assignMoodJam, jtry, jbind.
  destruct (analyze mealPlan context s) as [r s'] eqn:E.
  apply analyzeMealPlanMood_state in E as (a & -> & Hb).
  unfold buildMoodAnalysisPrompt, summarizeUserContext in Hb; rewrite Hi in Hb.
  destruct Hb as [-> ->]. reflexivity.
Qed.

(** C11: A successful mood jam made exactly three requests, in order: the
    Claude prompt, the Spotify token, the recommendation query; it used
    one uuid for the assignment's id and saved one row for it unless the
    insert failed; and the query's seeds are the first five genres the
    table gives the detected mood, not the genres Claude returned. *)
Theorem assignMoodJam_success mealPlan context s res s' :
  assign mealPlan context s = (inr res, s') -> mj_success res = true ->
  exists prompt params mj gs,
    buildMoodAnalysisPrompt json_stringify mealPlan context = inr prompt /\
    calls s' = calls s ++ [CallClaude prompt; CallSpotifyToken; CallSpotifyRecommendations params] /\
    mj_mood_jam res = Some mj /\
    MoodJamAssignment.id mj = uuidv4 (uuid_counter s) /\ uuid_counter s' = S (uuid_counter s) /\
    mood_jam_assignments s' = mood_jam_assignments s ++ (if insert_fails then [] else [row_of mj]) /\
    mapMoodToGenres (js_to_string number_to_string (MoodJamAssignment.detected_mood mj)) = PropOwn gs /\
    head params = Some ("seed_genres", String.concat "," (firstn 5 gs)).
Proof.
  unfold assignMoodJam, jtry, jbind.
  destruct (analyze mealPlan context s) as [r1 s1] eqn:E.
  apply analyzeMealPlanMood_state in E as (a & -> & Hb).
  destruct (buildMoodAnalysisPrompt _ _ _) as [e|prompt];
    [destruct Hb as [-> ->]; intros [= <- <-]; discriminate|subst s1].
  destruct a as [an t c|err t c]; [|intros [= <- <-]; discriminate].
  destruct (getSpotifyAccessToken_state (add_call s (CallClaude prompt))) as [tk ->].
  destruct (json_truthy tk); cbn; [|intros [= <- <-]; discriminate].
  destruct (playlist (pm_mood an) (pm_audio_features an) _) as [r3 s3] eqn:E3.
  apply getSpotifyPlaylist_state in E3 as (pr & -> & Hp).
  destruct (recommendation_params _ _ _) as [e|ps] eqn:Hps;
    [destruct Hp as [-> ->]; intros [= <- <-]; discriminate|subst s3].
  destruct pr as [pid purl pname|err]; [|intros [= <- <-]; discriminate].
  apply recommendation_params_seeds in Hps as (gs & Hg & Hh).
  unfold fresh_uuid, saveMoodJamAssignment, add_row, jmodify.
  destruct insert_fails; cbn; intros [= <- <-] _; cbn;
    do 4 eexists; rewrite <- ?app_assoc, ?app_nil_r; split_and!; eauto.
Qed.

(** C26: Whatever Claude, Spotify and the database answer, the mood jam
    returns a result (its outer [catch] is never reached) that reports
    exactly one Claude request, while the requests it sent hold one
    Claude prompt when the prompt can be built and none otherwise. *)
Theorem assignMoodJam_reports_one_request mealPlan context s :
  exists res rest, (assign mealPlan context s).1 = inr res /\ mj_claude_requests res = Some 1 /\
    calls (assign mealPlan context s).2 = calls s ++ rest /\
    claude_prompts rest = match buildMoodAnalysisPrompt json_stringify mealPlan context with
                          | inr p => [p] | inl _ => [] end.
Proof.
  unfold assignMoodJam, jtry, jbind.
  destruct (analyze mealPlan context s) as [r1 s1] eqn:E.
  apply analyzeMealPlanMood_state in E as (a & -> & Hb).
  destruct (buildMoodAnalysisPrompt _ _ _) as [e|prompt];
    [destruct Hb as [-> ->]; eexists _, []; rewrite app_nil_r; eauto|subst s1].
  destruct a as [an t c|err t c]; [|cbn; eexists _, [_]; eauto].
  destruct (getSpotifyAccessToken_state (add_call s (CallClaude prompt))) as [tk ->].
  destruct (json_truthy tk); cbn; [|eexists _, [_; _]; rewrite <- app_assoc; eauto].
  destruct (playlist (pm_mood an) (pm_audio_features an) _) as [r3 s3] eqn:E3.
  apply getSpotifyPlaylist_state in E3 as (pr & -> & Hp).
  destruct (recommendation_params _ _ _) as [e|ps];
    [destruct Hp as [-> ->]; cbn; eexists _, [_; _]; rewrite <- app_assoc; eauto|subst s3].
  destruct pr as [pid purl pname|err]; cbn; [|eexists _, [_; _; _]; rewrite <- !app_assoc; eauto].
  unfold fresh_uuid, saveMoodJamAssignment, add_row, jmodify.
  destruct insert_fails; cbn; eexists _, [_; _; _]; rewrite <- !app_assoc; eauto.
Qed.

(** A mood analysis whose confidence is falsy, a confidence of [0]
    included, is rejected as missing a required field. *)
Theorem parseMoodAnalysisResponse_falsy_confidence text txt parsed :
  extract_json text = Some txt -> json_parse txt = inr parsed -> parsed <> JNull ->
  json_truthy (json_get parsed "confidence") = false ->
  parseMoodAnalysisResponse json_parse (PropOwn (JString text)) =
  inl "Failed to parse mood analysis: Missing required fields in mood analysis".
Proof.
  intros Hx Hp Hn Hc. unfold parseMoodAnalysisResponse; cbv beta iota zeta. rewrite Hx, Hp.
  assert (read (PropOwn parsed) "mood" = inr (json_get parsed "mood")) as ->
    by (destruct parsed; [congruence|reflexivity ..]).
  destruct (json_get parsed "confidence") eqn:Ec;
    destruct (json_get parsed "mood"), (json_get parsed "audio_features"); try reflexivity.
  rewrite Hc, andb_false_r. reflexivity.
Qed.

(** A mood named after a member of [Object.prototype] (such as
    ["constructor"]) finds that member in the genre table: [slice] is
    not a function of it, and the playlist step fails before querying
    Spotify. *)
Theorem getSpotifyPlaylist_prototype_mood mood audioFeatures s :
  js_obj_get moodGenreMap (js_to_string number_to_string mood) = PropInherited ->
  playlist mood audioFeatures s =
  (inr (PlaylistFailed "Spotify playlist creation failed: genreSeeds.slice is not a function"), s).
Proof.
  intros H. unfold getSpotifyPlaylist, jtry, jbind, jlift, recommendation_params, mapMoodToGenres.
  rewrite H. reflexivity.
Qed.

End AgentFacts.

(** ** Playlist names *)

(** [Math.floor(r * n)], for [0 <= r < 1] and [n > 0], is an index
    below [n]. *)
Lemma floor_index_bounds (r : Q) (n : nat) :
  0 <= r < 1 -> (0 < n)%nat -> (0 <= Qfloor (r * inject_Z (Z.of_nat n)) < Z.of_nat n)%Z.
Proof.
  intros [H0 H1] Hn.
  assert (Hq : 1 <= inject_Z (Z.of_nat n)) by (change 1 with (inject_Z 1); rewrite <- Zle_Qle; lia).
  assert (Hlo : 0 <= r * inject_Z (Z.of_nat n)) by nra.
  assert (Hhi : r * inject_Z (Z.of_nat n) < inject_Z (Z.of_nat n)) by nra.
  split.
  - rewrite <- (Qfloor_Z 0). by apply Qfloor_resp_le.
  - rewrite Zlt_Qlt. eapply Qle_lt_trans; [apply Qfloor_le|exact Hhi].
Qed.

Lemma array_at_floor {A} (l : list A) (r : Q) :
  0 <= r < 1 -> l <> [] ->
  exists x, array_at l (Qfloor (r * inject_Z (Z.of_nat (length l)))) = Some x /\ In x l.
Proof.
  intros Hr Hl.
  destruct (floor_index_bounds r (length l)) as [H0 H1]; [done|destruct l; [done|cbn; lia]|].
  unfold array_at. destruct (Z.ltb_spec (Qfloor (r * inject_Z (Z.of_nat (length l)))) 0); [lia|].
  destruct (nth_error l _) as [x|] eqn:E; [exists x; split; [done|eapply nth_error_In; eauto]|].
  apply nth_error_None in E. lia.
Qed.

Lemma playlistNames_nonempty k names : assoc_str k playlistNames = Some names -> names <> [].
Proof. cbn. repeat case_match; intros Hk; simplify_eq; congruence. Qed.

(** With [Math.random()] in [[0, 1)], the playlist name is one of the
    names the table gives the mood, or the default name when the mood is
    not in the table; only a member of [Object.prototype] gives no name. *)
Theorem generatePlaylistName_in_table r mood :
  0 <= r < 1 -> js_obj_get playlistNames mood <> PropInherited ->
  exists name, generatePlaylistName r mood = Some name /\
    In name (default default_playlist_names (assoc_str mood playlistNames)).
Proof.
  intros Hr Hi. unfold generatePlaylistName.
  destruct (js_obj_get playlistNames mood) as [names| |] eqn:E; [|done|];
    unfold js_obj_get in E; destruct (assoc_str mood playlistNames) as [ns|] eqn:Ea.
  - injection E as <-. apply array_at_floor; eauto using playlistNames_nonempty.
  - by case_match.
  - discriminate.
  - apply array_at_floor; [done|discriminate].
Qed.

(** ** A run *)

Module MoodSample.

Definition nts (_ : Q) : string := "0.4".
Definition uuid (n : nat) : string := "mj-1".
Definition stringify (_ : json) : string := "{}".

Definition features : json :=
  JObject [("energy", JNumber (4 # 10)); ("valence", JNumber (7 # 10));
           ("acousticness", JNumber (3 # 10)); ("danceability", JNumber (5 # 10))].

(** Claude's analysis: the mood [focus], with genres of its own. *)
Definition analysis : json :=
  JObject [("mood", JString "focus"); ("confidence", JNumber (85 # 100));
           ("genres", JArray [JString "ambient"; JString "lofi"]); ("audio_features", features)].

Definition parse (_ : string) : string + json := inr analysis.

Definition claude : Reply :=
  ReplyOk (JObject [("content", JArray [JObject [("text", JString "Here it is: {analysis}")]]);
                    ("usage", JObject [("input_tokens", JNumber 1000); ("output_tokens", JNumber 200)])]).
Definition token : Reply := ReplyOk (JObject [("access_token", JString "tok")]).
Definition tracks : Reply := ReplyOk (JObject [("tracks", JArray [JString "track-1"])]).

Definition start : MState := mk_state [] 0 [].

Definition run :=
  assignMoodJam parse stringify nts uuid 1700000000000%Z (1 # 2) claude token tracks false
    WowSample.plan WowSample.context start.

Definition result : MoodJamResult :=
  match run.1 with inr r => r | inl _ => mk_mood_result false None None None None None end.

(** The same blueprint without its intake. *)
Definition no_intake : GenerationContext.t :=
  let c := WowSample.context in
  let bp := GenerationContext.user_blueprint c in
  GenerationContext.mk
    (UserBlueprint.mk (UserBlueprint.profile bp) None (UserBlueprint.subscription bp)
       (UserBlueprint.subscription_plan bp) None None None)
    (GenerationContext.generation_id c) (GenerationContext.week_start_date c)
    (GenerationContext.retry_count c).

(** An analysis with a confidence of [0]. *)
Definition zero_confidence : json :=
  JObject [("mood", JString "zen"); ("confidence", JNumber 0); ("audio_features", features)].

End MoodSample.

Lemma assignMoodJam_success_witness :
  exists prompt params mj gs,
    buildMoodAnalysisPrompt MoodSample.stringify WowSample.plan WowSample.context = inr prompt /\
    calls MoodSample.run.2 = [CallClaude prompt; CallSpotifyToken; CallSpotifyRecommendations params] /\
    mj_mood_jam MoodSample.result = Some mj /\
    MoodJamAssignment.id mj = MoodSample.uuid 0 /\ uuid_counter MoodSample.run.2 = 1%nat /\
    mood_jam_assignments MoodSample.run.2 = [row_of mj] /\
    mapMoodToGenres (js_to_string MoodSample.nts (MoodJamAssignment.detected_mood mj)) = PropOwn gs /\
    head params = Some ("seed_genres", String.concat "," (firstn 5 gs)).
Proof.
  apply (assignMoodJam_success MoodSample.parse MoodSample.stringify MoodSample.nts MoodSample.uuid
           1700000000000%Z (1 # 2) MoodSample.claude MoodSample.token MoodSample.tracks false
           WowSample.plan WowSample.context MoodSample.start);
    vm_compute; reflexivity.
Defined.

Lemma assignMoodJam_no_intake_witness :
  assignMoodJam MoodSample.parse MoodSample.stringify MoodSample.nts MoodSample.uuid
    1700000000000%Z (1 # 2) MoodSample.claude MoodSample.token MoodSample.tracks false
    WowSample.plan MoodSample.no_intake MoodSample.start =
  (inr (mk_mood_result false None
          (Some "Mood analysis failed: Cannot read properties of undefined (reading 'diet_type')")
          (Some 1) (Some 0) (Some 0)), MoodSample.start).
Proof. apply assignMoodJam_no_intake. reflexivity. Defined.

Lemma parseMoodAnalysisResponse_falsy_confidence_witness :
  parseMoodAnalysisResponse (fun _ => inr MoodSample.zero_confidence)
    (PropOwn (JString "Mood: {zen} done")) =
  inl "Failed to parse mood analysis: Missing required fields in mood analysis".
Proof.
  apply (parseMoodAnalysisResponse_falsy_confidence _ _ "{zen}" MoodSample.zero_confidence);
    [vm_compute; reflexivity|reflexivity|discriminate|reflexivity].
Defined.

Lemma getSpotifyPlaylist_prototype_mood_witness :
  getSpotifyPlaylist MoodSample.nts 0%Z (1 # 2) MoodSample.tracks (JString "constructor")
    MoodSample.features MoodSample.start =
  (inr (PlaylistFailed "Spotify playlist creation failed: genreSeeds.slice is not a function"),
   MoodSample.start).
Proof. apply getSpotifyPlaylist_prototype_mood. vm_compute. reflexivity. Defined.

Lemma generatePlaylistName_in_table_witness :
  exists name, generatePlaylistName (1 # 2) "zen" = Some name /\
    In name (default default_playlist_names (assoc_str "zen" playlistNames)).
Proof. apply generatePlaylistName_in_table; [lra|vm_compute; discriminate]. Defined.

End MoodJamAgent.
