(* ===== verification/ValidatorHandler.v ===== *)
(** * The nutrition validator's HTTP handler

    The [serve] callback of [src/supabase/functions/nutrition-validator/index.ts]
    (lines 94-189): the preflight and method checks, authentication, the
    zod schema [ValidationRequestSchema] (lines 17-44) over the parsed
    body, the choice of the plan (a stored plan of the caller, or the
    plan of the body) and [NutritionValidator.validatePlan]
    ([NutritionValidator.validatePlan] of this development).

    The answer of [auth.getUser()], the body's text, the [meal_plans]
    rows and the recipe store are the record [Env]; [JSON.parse] and the
    text of zod's error message are parameters.  A response is kept as
    its status and error message, or as the [ValidationResult] it
    carries (the headers and the timestamp are not kept). *)

From S2P Require Import Prelude Js Types NutrientResolver NutritionValidator AIGateway.

Open Scope Q_scope.

Module ValidatorHandler.

(** ** zod on a parsed value (lines 17-44)

    Each parser reads a member of a parsed object ([undefined] when it
    is absent) and gives [None] when zod rejects it. *)

Definition zobject (p : js_prop json) : option (list (string * json)) :=
  match p with PropOwn (JObject ms) => Some ms | _ => None end.

Definition znumber (p : js_prop json) : option Q :=
  match p with PropOwn (JNumber q) => Some q | _ => None end.

(** [z.number().positive()]. *)
Definition zpositive (p : js_prop json) : option Q :=
  q ← znumber p; _ ← Gateway.check (Qlt_bool 0 q); Some q.

Definition zboolean (p : js_prop json) : option bool :=
  match p with PropOwn (JBool b) => Some b | _ => None end.

(** [z.string().uuid()]. *)
Definition zuuid (p : js_prop json) : option string :=
  match p with
  | PropOwn (JString s) => if Gateway.is_uuid s then Some s else None
  | _ => None
  end.

(** [z.array(item)]. *)
Definition zarray {A} (item : js_prop json -> option A) (p : js_prop json) : option (list A) :=
  match p with PropOwn (JArray xs) => mapM (fun x => item (PropOwn x)) xs | _ => None end.

(** [.optional()]: [undefined] passes as [None]. *)
Definition zoptional {A} (f : js_prop json -> option A) (p : js_prop json) : option (option A) :=
  match p with PropUndefined => Some None | _ => Some <$> f p end.

(** [.default(d)]: [undefined] is replaced by [d]. *)
Definition zdefault {A} (d : A) (f : js_prop json -> option A) (p : js_prop json) : option A :=
  match p with PropUndefined => Some d | _ => f p end.

(** A meal of the body's plan: its recipe id and its servings
    ([z.number().positive().optional().default(1)]). *)
Record RequestMeal := mk_meal { meal_recipe_id : string; meal_servings : Q }.

Definition parse_meal (p : js_prop json) : option RequestMeal :=
  ms ← zobject p;
  rid ← zuuid (js_obj_get ms "recipe_id");
  sv ← zdefault 1 zpositive (js_obj_get ms "servings");
  Some (mk_meal rid sv).

(** A day keeps only its meals: zod strips the other members. *)
Definition parse_day (p : js_prop json) : option (list RequestMeal) :=
  ms ← zobject p; zarray parse_meal (js_obj_get ms "meals").

Definition parse_plan_data (p : js_prop json) : option (list (list RequestMeal)) :=
  ms ← zobject p; zarray parse_day (js_obj_get ms "days").

Definition parse_targets (p : js_prop json) : option NutritionalTargets.t :=
  ms ← zobject p;
  c ← zpositive (js_obj_get ms "daily_calories");
  pr ← zpositive (js_obj_get ms "daily_protein");
  f ← zpositive (js_obj_get ms "daily_fat");
  cb ← zpositive (js_obj_get ms "daily_carbohydrates");
  fb ← zoptional zpositive (js_obj_get ms "daily_fiber");
  Some (NutritionalTargets.mk c pr f cb fb).

(** [z.number().min(1).max(50).default(15)]. *)
Definition zthreshold (p : js_prop json) : option Q :=
  q ← znumber p; _ ← Gateway.check (Gateway.in_range 1 50 q); Some q.

(** The options object and its [.default({})]: an absent object is
    parsed as [{}], which gives every default. *)
Definition parse_options_members (ms : list (string * json)) : option ValidationOptions.t :=
  thr ← zdefault 15 zthreshold (js_obj_get ms "deviation_threshold");
  ra ← zdefault true zboolean (js_obj_get ms "require_all_recipes");
  uf ← zdefault true zboolean (js_obj_get ms "use_usda_fallback");
  db ← zdefault false zboolean (js_obj_get ms "detailed_breakdown");
  Some (ValidationOptions.mk thr ra uf db).

Definition parse_options (p : js_prop json) : option ValidationOptions.t :=
  match p with
  | PropUndefined => parse_options_members []
  | _ => ms ← zobject p; parse_options_members ms
  end.

Record ValidationRequest := mk_request {
  req_meal_plan_id : option string;
  req_plan_data : option (list (list RequestMeal));
  req_targets : NutritionalTargets.t;
  req_options : ValidationOptions.t }.

(** [ValidationRequestSchema.parse]. *)
Definition ValidationRequestSchema_parse (body : json) : option ValidationRequest :=
  ms ← zobject (PropOwn body);
  id ← zoptional zuuid (js_obj_get ms "meal_plan_id");
  pd ← zoptional parse_plan_data (js_obj_get ms "plan_data");
  tg ← parse_targets (js_obj_get ms "targets");
  op ← parse_options (js_obj_get ms "options");
  Some (mk_request id pd tg op).

(** The body's plan as [validatePlan] reads it: a day's [day.day] is
    [undefined], which [day.day || 'unknown'] reads as the empty string
    does; the meal type and completion flag are not read. *)
Definition request_days (days : list (list RequestMeal)) : list DayPlan.t :=
  map (fun meals => DayPlan.mk "" ""
         (map (fun m => MealSlot.mk "" (meal_recipe_id m) (Some (meal_servings m)) false) meals))
      days.

(** ** The handler (lines 94-189) *)

(** What [supabase.auth.getUser()] does. *)
Inductive AuthReply :=
| AuthThrows
| AuthError
| AuthNoUser
| AuthUser (uid : string).

(** A row of [meal_plans] with the columns the handler selects. *)
Record MealPlanRow := mk_row {
  row_id : string; row_user_id : string; row_plan_data : PlanData.t }.

Record Env := mk_env {
  auth : AuthReply;
  raw_body : string;
  meal_plans : list MealPlanRow;
  db : Db }.

Inductive Response :=
| Preflight
| ErrorResponse (message : string) (status : Z)
| Validated (validation : ValidationResult.t).

(** [createErrorResponse], lines 542-557. *)
Definition createErrorResponse (message : string) (status : Z) : Response :=
  ErrorResponse message status.

(** The query of lines 143-148: [.single()] answers an error unless
    exactly one row matches. *)
Definition fetch_plan (rows : list MealPlanRow) (id uid : string) : option PlanData.t :=
  match List.filter (fun r => String.eqb (row_id r) id && String.eqb (row_user_id r) uid) rows with
  | [r] => Some (row_plan_data r)
  | _ => None
  end.

Section Serve.
(** [JSON.parse] (the value, or the message of its [SyntaxError]) and
    the message of the [ZodError] for a value the schema rejects. *)
Variable json_parse : string -> string + json.
Variable zod_message : json -> string.
Variable env : Env.

(** The plan to validate (lines 140-158), or the response that ends the
    request. *)
Definition plan_days (uid : string) (rq : ValidationRequest) : Response + list DayPlan.t :=
  match req_meal_plan_id rq with
  | Some id =>
      match fetch_plan (meal_plans env) id uid with
      | Some pd => inr (PlanData.days pd)
      | None => inl (createErrorResponse "Meal plan not found" 404)
      end
  | None =>
      match req_plan_data rq with
      | Some days => inr (request_days days)
      | None => inl (createErrorResponse "Either meal_plan_id or plan_data must be provided" 422)
      end
  end.

(** The [serve] callback.  The only call that can throw inside the
    [try] is [auth.getUser()]: [validatePlan]'s queries report their
    errors as values. *)
Definition serve (method : string) : Response :=
  if String.eqb method "OPTIONS" then Preflight
  else if negb (String.eqb method "POST") then createErrorResponse "Method not allowed" 405
  else
    match auth env with
    | AuthThrows => createErrorResponse "Internal server error" 500
    | AuthError | AuthNoUser => createErrorResponse "Unauthorized" 401
    | AuthUser uid =>
        match json_parse (raw_body env) with
        | inl m => createErrorResponse ("Invalid request: " ++ m) 422
        | inr parsedBody =>
            match ValidationRequestSchema_parse parsedBody with
            | None => createErrorResponse ("Invalid request: " ++ zod_message parsedBody) 422
            | Some requestData =>
                match plan_days uid requestData with
                | inl r => r
                | inr days =>
                    Validated (validatePlan (db env) (req_options requestData) days
                                 (req_targets requestData))
                end
            end
        end
    end.
End Serve.

(** ** What the schema guarantees *)

(** Splits the option binds of a hypothesis [x ≫= f = Some y]. *)
Ltac unbind :=
  repeat match goal with
  | H : mbind _ _ = Some _ |- _ => apply bind_Some in H as (? & ? & H)
  end.

Lemma check_Some b u : Gateway.check b = Some u -> b = true.
Proof. unfold Gateway.check. by case_match. Qed.

Lemma zpositive_pos p q : zpositive p = Some q -> 0 < q.
Proof.
  unfold zpositive. intros H. unbind. injection H as <-.
  match goal with Hc : Gateway.check _ = Some _ |- _ => apply check_Some in Hc end. by qbool.
Qed.

Lemma zthreshold_range p q : zthreshold p = Some q -> 1 <= q <= 50.
Proof.
  unfold zthreshold. intros H. unbind. injection H as <-.
  match goal with Hc : Gateway.check _ = Some _ |- _ =>
    apply check_Some in Hc; unfold Gateway.in_range in Hc; apply andb_true_iff in Hc as [H1 H2] end.
  qbool. auto.
Qed.

Lemma zdefault_inv {A} (d x : A) f p : zdefault d f p = Some x -> x = d \/ f p = Some x.
Proof. unfold zdefault. destruct p; auto. intros [= <-]; auto. Qed.

Lemma zoptional_inv {A} (f : js_prop json -> option A) p x :
  zoptional f p = Some (Some x) -> f p = Some x.
Proof.
  unfold zoptional. intros H. destruct p; [| |discriminate];
    destruct (f _) eqn:E; cbn in H; simplify_eq; done.
Qed.

Lemma zarray_Forall {A} (P : A -> Prop) (item : js_prop json -> option A) p l :
  (forall x y, item x = Some y -> P y) -> zarray item p = Some l -> Forall P l.
Proof.
  intros Hi. destruct p as [[| | | |xs|]| |]; try discriminate. cbn.
  revert l. induction xs as [|x xs IH]; intros l H; cbn in H; [by injection H as <-|].
  unbind. injection H as <-. constructor; eauto.
Qed.

Lemma zuuid_wf p u : zuuid p = Some u -> Gateway.is_uuid u = true.
Proof. unfold zuuid. repeat case_match; by intros; simplify_eq. Qed.

Lemma parse_meal_wf p m :
  parse_meal p = Some m -> 0 < meal_servings m /\ Gateway.is_uuid (meal_recipe_id m) = true.
Proof.
  unfold parse_meal. intros H. unbind. injection H as <-. cbn. split.
  - match goal with Hd : zdefault _ _ _ = Some _ |- _ =>
      apply zdefault_inv in Hd as [->|Hd]; [reflexivity|by eapply zpositive_pos] end.
  - match goal with Hu : zuuid _ = Some _ |- _ => by eapply zuuid_wf end.
Qed.

Lemma parse_options_threshold p o :
  parse_options p = Some o -> 1 <= ValidationOptions.deviation_threshold o <= 50.
Proof.
  assert (Hm : forall ms o, parse_options_members ms = Some o ->
                 1 <= ValidationOptions.deviation_threshold o <= 50).
  { unfold parse_options_members. intros ms o' H. unbind. injection H as <-. cbn.
    match goal with Hd : zdefault 15 _ _ = Some _ |- _ =>
      apply zdefault_inv in Hd as [->|Hd]; [lra|by eapply zthreshold_range] end. }
  unfold parse_options. destruct p; intros Hp; unbind; eauto.
Qed.

Lemma parse_plan_data_wf p days :
  parse_plan_data p = Some days ->
  Forall (Forall (fun m => 0 < meal_servings m /\ Gateway.is_uuid (meal_recipe_id m) = true)) days.
Proof.
  unfold parse_plan_data. intros H. unbind. eapply zarray_Forall; [|exact H].
  unfold parse_day. intros d y Hy. unbind. eapply zarray_Forall; [|exact Hy]. apply parse_meal_wf.
Qed.

Lemma parse_targets_wf p tg :
  parse_targets p = Some tg ->
  0 < NutritionalTargets.daily_calories tg /\ 0 < NutritionalTargets.daily_protein tg /\
  0 < NutritionalTargets.daily_fat tg /\ 0 < NutritionalTargets.daily_carbohydrates tg /\
  (forall f, NutritionalTargets.daily_fiber tg = Some f -> 0 < f).
Proof.
  unfold parse_targets.
  intros (ms & _ & H)%bind_Some.
  apply bind_Some in H as (c & Hc & H). apply bind_Some in H as (pr & Hpr & H).
  apply bind_Some in H as (f & Hf & H). apply bind_Some in H as (cb & Hcb & H).
  apply bind_Some in H as (fb & Hfb & [= <-]). cbn.
  split_and!; eauto using zpositive_pos.
  intros x ->. eauto using zpositive_pos, zoptional_inv.
Qed.

(** A request the schema accepts has positive nutrient targets, a
    deviation threshold between 1 and 50 and, when present, a plan id
    that is a UUID and a plan whose meals have UUID recipe ids and
    positive servings. *)
Theorem ValidationRequestSchema_parse_wf body rq :
  ValidationRequestSchema_parse body = Some rq ->
  0 < NutritionalTargets.daily_calories (req_targets rq) /\
  0 < NutritionalTargets.daily_protein (req_targets rq) /\
  0 < NutritionalTargets.daily_fat (req_targets rq) /\
  0 < NutritionalTargets.daily_carbohydrates (req_targets rq) /\
  (forall f, NutritionalTargets.daily_fiber (req_targets rq) = Some f -> 0 < f) /\
  1 <= ValidationOptions.deviation_threshold (req_options rq) <= 50 /\
  (forall id, req_meal_plan_id rq = Some id -> Gateway.is_uuid id = true) /\
  (forall days, req_plan_data rq = Some days ->
     Forall (Forall (fun m => 0 < meal_servings m /\ Gateway.is_uuid (meal_recipe_id m) = true)) days).
Proof.
  unfold ValidationRequestSchema_parse.
  intros (ms & _ & H)%bind_Some.
  apply bind_Some in H as (id & Hid & H). apply bind_Some in H as (pd & Hpd & H).
  apply bind_Some in H as (tg & Htg & H). apply bind_Some in H as (op & Hop & [= <-]). cbn.
  destruct (parse_targets_wf _ _ Htg) as (? & ? & ? & ? & ?).
  pose proof (parse_options_threshold _ _ Hop).
  split_and!; try assumption; try tauto.
  - intros x ->. eauto using zuuid_wf, zoptional_inv.
  - intros x ->. eauto using parse_plan_data_wf, zoptional_inv.
Qed.

(** ** What the handler answers *)

Lemma fetch_plan_owned rows id uid pd :
  fetch_plan rows id uid = Some pd ->
  exists row, In row rows /\ row_id row = id /\ row_user_id row = uid /\ row_plan_data row = pd.
Proof.
  unfold fetch_plan.
  destruct (List.filter _ rows) as [|row [|]] eqn:E; try discriminate. intros [= <-].
  assert (Hin : In row (List.filter (fun r => String.eqb (row_id r) id && String.eqb (row_user_id r) uid) rows))
    by (rewrite E; left; reflexivity).
  apply filter_In in Hin as [Hin Hb]. apply andb_true_iff in Hb as [H1 H2].
  apply String.eqb_eq in H1, H2. eauto.
Qed.

Section ServeFacts.
Variable json_parse : string -> string + json.
Variable zod_message : json -> string.
Variable env : Env.

Lemma plan_days_not_validated uid rq r :
  plan_days env uid rq = inl r -> forall v, r <> Validated v.
Proof. unfold plan_days, createErrorResponse. repeat case_match; intros; simplify_eq; discriminate. Qed.

(** C19: The validator answers with a validation only for an authenticated
    user and a body the schema accepts; the plan it validates is a
    stored plan of that user with the requested id or, when the body
    gives no id, the body's own plan. *)
Theorem serve_validated_source method r :
  serve json_parse zod_message env method = Validated r ->
  exists uid body rq days,
    auth env = AuthUser uid /\ json_parse (raw_body env) = inr body /\
    ValidationRequestSchema_parse body = Some rq /\
    r = validatePlan (db env) (req_options rq) days (req_targets rq) /\
    match req_meal_plan_id rq with
    | Some id => exists row, In row (meal_plans env) /\ row_id row = id /\
                             row_user_id row = uid /\ days = PlanData.days (row_plan_data row)
    | None => exists pd, req_plan_data rq = Some pd /\ days = request_days pd
    end.
Proof.
  unfold serve. destruct (String.eqb method "OPTIONS"); [discriminate|].
  destruct (negb _); [discriminate|].
  destruct (auth env) as [| | |uid]; try discriminate.
  destruct (json_parse (raw_body env)) as [m|body] eqn:Hj; [discriminate|].
  destruct (ValidationRequestSchema_parse body) as [rq|] eqn:Hs; [|discriminate].
  destruct (plan_days env uid rq) as [resp|days] eqn:Hp.
  { intros Hr. exfalso. exact (plan_days_not_validated _ _ _ Hp r Hr). }
  intros [= <-]. exists uid, body, rq, days. split_and!; try done.
  unfold plan_days in Hp. destruct (req_meal_plan_id rq) as [id|].
  - destruct (fetch_plan _ id uid) as [pd|] eqn:Hf; [|discriminate]. injection Hp as <-.
    apply fetch_plan_owned in Hf as (rw & ? & ? & ? & Hrw). exists rw. subst. auto.
  - destruct (req_plan_data rq) as [pd|]; [|discriminate]. injection Hp as <-. eauto.
Qed.

(** C31: An authenticated POST whose body has no [targets] member, such
    as the request body of the API documentation (flat [target_calories]
    and the like), is answered 422 with zod's message. *)
Theorem serve_documented_body_rejected uid body :
  auth env = AuthUser uid -> json_parse (raw_body env) = inr body ->
  json_get body "targets" = PropUndefined ->
  serve json_parse zod_message env "POST" =
  ErrorResponse ("Invalid request: " ++ zod_message body) 422.
Proof.
  intros Ha Hj Ht. unfold serve. cbn -[ValidationRequestSchema_parse]. rewrite Ha, Hj.
  enough (ValidationRequestSchema_parse body = None) as -> by reflexivity.
  unfold ValidationRequestSchema_parse.
  destruct body as [| | | | |ms]; try reflexivity. cbn in Ht |- *. rewrite Ht.
  destruct (zoptional zuuid _), (zoptional parse_plan_data _); reflexivity.
Qed.

End ServeFacts.

(** ** Requests *)

Module HandlerSample.

Definition plan_id : string := "123e4567-e89b-12d3-a456-426614174000".

Definition targets_json : json :=
  JObject [("daily_calories", JNumber 2000); ("daily_protein", JNumber 150);
           ("daily_fat", JNumber 67); ("daily_carbohydrates", JNumber 250)].

(** A request for the caller's stored week. *)
Definition body : json := JObject [("meal_plan_id", JString plan_id); ("targets", targets_json)].

(** The request body of the API documentation ([src/docs/API.md]). *)
Definition documented_body : json :=
  JObject [("meal_plan_id", JString plan_id); ("target_calories", JNumber 2000);
           ("target_protein", JNumber 150); ("target_fat", JNumber 67);
           ("target_carbs", JNumber 250)].

Definition rows : list MealPlanRow :=
  [mk_row plan_id "u1" (PlanData.mk WeekSample.week 7 1 0 None);
   mk_row "223e4567-e89b-12d3-a456-426614174000" "u2" (PlanData.mk [] 0 0 0 None)].

Definition env : Env := mk_env (AuthUser "u1") "{}" rows WeekSample.db.

Definition parse (b : json) (_ : string) : string + json := inr b.
Definition zmsg (_ : json) : string := "targets: Required".

Definition response : Response := serve (parse body) zmsg env "POST".

Definition result : ValidationResult.t :=
  match response with
  | Validated r => r
  | _ => validatePlan WeekSample.db ValidationOptions.default [] WeekSample.targets
  end.

Definition request : ValidationRequest :=
  default (mk_request None None WeekSample.targets ValidationOptions.default)
          (ValidationRequestSchema_parse body).

End HandlerSample.

Lemma ValidationRequestSchema_parse_wf_witness :
  0 < NutritionalTargets.daily_calories (req_targets HandlerSample.request) /\
  0 < NutritionalTargets.daily_protein (req_targets HandlerSample.request) /\
  0 < NutritionalTargets.daily_fat (req_targets HandlerSample.request) /\
  0 < NutritionalTargets.daily_carbohydrates (req_targets HandlerSample.request) /\
  (forall f, NutritionalTargets.daily_fiber (req_targets HandlerSample.request) = Some f -> 0 < f) /\
  1 <= ValidationOptions.deviation_threshold (req_options HandlerSample.request) <= 50 /\
  (forall id, req_meal_plan_id HandlerSample.request = Some id -> Gateway.is_uuid id = true) /\
  (forall days, req_plan_data HandlerSample.request = Some days ->
     Forall (Forall (fun m => 0 < meal_servings m /\ Gateway.is_uuid (meal_recipe_id m) = true)) days).
Proof.
  apply (ValidationRequestSchema_parse_wf HandlerSample.body). vm_compute. reflexivity.
Defined.

Lemma serve_validated_source_witness :
  exists uid body rq days,
    auth HandlerSample.env = AuthUser uid /\
    HandlerSample.parse HandlerSample.body (raw_body HandlerSample.env) = inr body /\
    ValidationRequestSchema_parse body = Some rq /\
    HandlerSample.result = validatePlan (db HandlerSample.env) (req_options rq) days (req_targets rq) /\
    match req_meal_plan_id rq with
    | Some id => exists row, In row (meal_plans HandlerSample.env) /\ row_id row = id /\
                             row_user_id row = uid /\ days = PlanData.days (row_plan_data row)
    | None => exists pd, req_plan_data rq = Some pd /\ days = request_days pd
    end.
Proof.
  apply (serve_validated_source (HandlerSample.parse HandlerSample.body) HandlerSample.zmsg
           HandlerSample.env "POST").
  vm_compute. reflexivity.
Defined.

Lemma serve_documented_body_rejected_witness :
  serve (HandlerSample.parse HandlerSample.documented_body) HandlerSample.zmsg HandlerSample.env "POST" =
  ErrorResponse ("Invalid request: " ++ HandlerSample.zmsg HandlerSample.documented_body) 422.
Proof.
  apply (serve_documented_body_rejected _ _ _ "u1"); reflexivity.
Defined.

End ValidatorHandler.
