(* ===== verification/PerfTimer.v ===== *)
(** * [PerformanceTimer] of [plan-generator/utils/logging.ts] (lines 127-160)

    The timer keeps its stages in a plain object, [this.stages], read and
    written with the stage's name as key.  Such an object answers a read
    with its own property, then with its prototype's: [Object.prototype],
    whose methods are truthy, or whatever [stages.__proto__ = ...]
    installed.  [endStage('__proto__')] therefore writes [duration] on
    [Object.prototype] itself, a store shared by every object of the
    program.  The model keeps that shared property next to the timer's
    own state, in [Heap].

    The class is exported but no module of the sources calls it; the
    plan generator measures its durations with [Date.now()] directly. *)

From S2P Require Import Prelude Js Types WowLayer.

Open Scope Q_scope.

Module PerformanceTimer.

(** A stage record [{ start, duration? }]. *)
Record Entry := mk_entry { start : Z; duration : option jsnum }.

(** The prototype of [this.stages]: [Object.prototype], or the record a
    [startStage('__proto__')] stored through the [__proto__] setter. *)
Inductive Proto :=
| ObjectPrototype
| EntryProto (e : Entry).

(** The timer's fields and [Object.prototype.duration], which the
    program's other objects inherit. *)
Record Heap := mk_heap {
  startTime : Z;
  stages : list (string * Entry);
  stages_proto : Proto;
  object_prototype_duration : option jsnum }.

(** What [this.stages[stage]] evaluates to. *)
Inductive Found :=
| FOwn (e : Entry)
| FProtoEntry (e : Entry)
| FObjectPrototype
| FMethod
| FNumber (n : jsnum)
| FUndefined.

(** [obj[k] = v] on an ordinary key: an own property keeps its place, a
    new one comes last. *)
Definition put_own {A} (k : string) (v : A) (l : list (string * A)) : list (string * A) :=
  match assoc_str k l with
  | Some _ => assoc_set k v l
  | None => l ++ [(k, v)]
  end.

(** A read on [Object.prototype] ([o] its own [duration], if set). *)
Definition object_prototype_get (o : option jsnum) (k : string) : Found :=
  if existsb (String.eqb k) object_prototype_keys then FMethod
  else if String.eqb k "duration" then
    match o with Some d => FNumber d | None => FUndefined end
  else FUndefined.

(** [this.stages[stage]]. *)
Definition stage_get (h : Heap) (k : string) : Found :=
  match assoc_str k (stages h) with
  | Some e => FOwn e
  | None =>
      if String.eqb k "__proto__" then
        match stages_proto h with
        | ObjectPrototype => FObjectPrototype
        | EntryProto e => FProtoEntry e
        end
      else
        match stages_proto h with
        | EntryProto e =>
            if String.eqb k "start" then FNumber (JFin (inject_Z (start e)))
            else if String.eqb k "duration" then
              match duration e with
              | Some d => FNumber d
              | None => object_prototype_get (object_prototype_duration h) k
              end
            else object_prototype_get (object_prototype_duration h) k
        | ObjectPrototype => object_prototype_get (object_prototype_duration h) k
        end
  end.

Definition jsnum_truthy (n : jsnum) : bool :=
  match n with JFin q => negb (Qeq_bool q 0) | JNaN => false | JInf _ => true end.

Definition found_truthy (f : Found) : bool :=
  match f with
  | FNumber n => jsnum_truthy n
  | FUndefined => false
  | _ => true
  end.

(** [Date.now() - start]. *)
Definition elapsed (now start : Z) : jsnum := JFin (inject_Z (now - start)).

Section Timer.
(** [String(n)] in the message of a [TypeError]. *)
Variable number_to_string : jsnum -> string.

(** The constructor (lines 128-133). *)
Definition new_timer (now : Z) (o : option jsnum) : Heap := mk_heap now [] ObjectPrototype o.

(** [startStage] (lines 135-137). *)
Definition startStage (stage : string) (now : Z) (h : Heap) : Heap :=
  if String.eqb stage "__proto__" then
    mk_heap (startTime h) (stages h) (EntryProto (mk_entry now None)) (object_prototype_duration h)
  else
    mk_heap (startTime h) (put_own stage (mk_entry now None) (stages h)) (stages_proto h)
            (object_prototype_duration h).

(** [endStage] (lines 139-146): the duration it returns, or the
    [TypeError] of writing [duration] on a number (modules are strict). *)
Definition endStage (stage : string) (now : Z) (h : Heap) : (JsError + jsnum) * Heap :=
  let found := stage_get h stage in
  if negb (found_truthy found) then (inr (JFin 0), h)
  else
    match found with
    | FOwn e =>
        let d := elapsed now (start e) in
        (inr d, mk_heap (startTime h) (put_own stage (mk_entry (start e) (Some d)) (stages h))
                        (stages_proto h) (object_prototype_duration h))
    | FProtoEntry e =>
        let d := elapsed now (start e) in
        (inr d, mk_heap (startTime h) (stages h) (EntryProto (mk_entry (start e) (Some d)))
                        (object_prototype_duration h))
    | FObjectPrototype =>
        (* [Object.prototype.start] is [undefined]. *)
        (inr JNaN, mk_heap (startTime h) (stages h) (stages_proto h) (Some JNaN))
    | FMethod =>
        (* [duration] is written on the method, which nothing here reads. *)
        (inr JNaN, h)
    | FNumber n =>
        (inl (TypeError ("Cannot create property 'duration' on number '" ++
                         number_to_string n ++ "'")), h)
    | FUndefined => (inr (JFin 0), h)
    end.

(** [getTotalDuration] (lines 148-150). *)
Definition getTotalDuration (now : Z) (h : Heap) : Z := now - startTime h.

(** [data.duration] of an own stage record: its own property, else the
    one it inherits from [Object.prototype]. *)
Definition entry_duration (h : Heap) (e : Entry) : option jsnum :=
  match duration e with
  | Some d => Some d
  | None => object_prototype_duration h
  end.

(** [getStageBreakdown] (lines 152-160). *)
Definition getStageBreakdown (h : Heap) : list (string * jsnum) :=
  omap (fun '(stage, e) => (fun d => (stage, d)) <$> entry_duration h e)
       (object_entries (stages h)).

(** The calls a client makes, each at its time. *)
Inductive Call :=
| StartStage (stage : string) (now : Z)
| EndStage (stage : string) (now : Z).

Definition call_stage (c : Call) : string :=
  match c with StartStage s _ | EndStage s _ => s end.

(** A sequence of calls; the first [TypeError] ends it. *)
Fixpoint run (cs : list Call) (h : Heap) : JsError + Heap :=
  match cs with
  | [] => inr h
  | StartStage s t :: cs' => run cs' (startStage s t h)
  | EndStage s t :: cs' =>
      match endStage s t h with
      | (inl e, _) => inl e
      | (inr _, h') => run cs' h'
      end
  end.

End Timer.

(** ** Specification: a start time and an optional end time per stage *)

Definition SpecState := list (string * (Z * option Z)).

(** A stage started again starts afresh; ending a stage that was never
    started changes nothing. *)
Definition spec_call (st : SpecState) (c : Call) : SpecState :=
  match c with
  | StartStage s t => put_own s (t, None) st
  | EndStage s t =>
      match assoc_str s st with
      | Some (t0, _) => assoc_set s (t0, Some t) st
      | None => st
      end
  end.

(** The ended stages, with end minus start. *)
Definition spec_breakdown (st : SpecState) : list (string * jsnum) :=
  omap (fun '(s, (t0, e)) => (fun t1 => (s, elapsed t1 t0)) <$> e) (object_entries st).

(** ** Lemmas on association lists whose values are mapped *)

Definition map_vals {A B} (f : A -> B) (l : list (string * A)) : list (string * B) :=
  map (fun kv => (kv.1, f kv.2)) l.

Section MapVals.
Context {A B : Type} (f : A -> B).

Lemma assoc_str_map_vals k l : assoc_str k (map_vals f l) = f <$> assoc_str k l.
Proof. unfold map_vals. induction l as [|[k' v] l IH]; cbn; [done|]. by destruct (String.eqb k k'). Qed.

Lemma assoc_set_map_vals k v l : assoc_set k (f v) (map_vals f l) = map_vals f (assoc_set k v l).
Proof.
  unfold map_vals. induction l as [|[k' v'] l IH]; cbn; [done|].
  destruct (String.eqb k k'); cbn; [done|]. by rewrite IH.
Qed.

Lemma put_own_map_vals k v l : put_own k (f v) (map_vals f l) = map_vals f (put_own k v l).
Proof.
  unfold put_own. rewrite assoc_str_map_vals.
  destruct (assoc_str k l); cbn; [apply assoc_set_map_vals|]. unfold map_vals. by rewrite map_app.
Qed.

Lemma object_entries_map_vals l : object_entries (map_vals f l) = map_vals f (object_entries l).
Proof.
  unfold object_entries, map_vals. rewrite map_app. f_equal.
  - rewrite <- (sort_by_map index_before index_before) by done. f_equal.
    induction l as [|kv l IH]; cbn; [done|]. by destruct (bool_decide _); cbn; rewrite IH.
  - induction l as [|kv l IH]; cbn; [done|]. by destruct (negb _); cbn; rewrite IH.
Qed.
End MapVals.

Lemma assoc_str_put_own_ne {A} k k' (v : A) l :
  k <> k' -> assoc_str k (put_own k' v l) = assoc_str k l.
Proof.
  intros Hk. apply String.eqb_neq in Hk. unfold put_own.
  destruct (assoc_str k' l).
  - induction l as [|[k'' w] l IH]; cbn; [done|].
    destruct (String.eqb k' k'') eqn:E; cbn.
    + apply String.eqb_eq in E as <-. by rewrite Hk.
    + by rewrite IH.
  - induction l as [|[k'' w] l IH]; cbn; [by rewrite Hk|]. by rewrite IH.
Qed.

Lemma Forall_put_own {A} (P : string * A -> Prop) k v l :
  Forall P l -> P (k, v) -> Forall P (put_own k v l).
Proof.
  intros Hl Hk. unfold put_own. destruct (assoc_str k l); [|apply Forall_app; by split; [|constructor]].
  induction Hl as [|[k' w] l Hw Hl IH]; cbn; [done|].
  destruct (String.eqb k k') eqn:E; constructor; auto.
  by apply String.eqb_eq in E as <-.
Qed.

Lemma Forall_assoc_str {A} (P : string * A -> Prop) k v l :
  Forall P l -> assoc_str k l = Some v -> P (k, v).
Proof.
  induction 1 as [|[k' w] l Hw Hl IH]; cbn; [done|].
  destruct (String.eqb k k') eqn:E; [|done]. intros [= <-]. by apply String.eqb_eq in E as ->.
Qed.

Lemma assoc_str_assoc_set_none {A} k k' (v : A) l :
  assoc_str k l = None -> assoc_str k (assoc_set k' v l) = None.
Proof.
  induction l as [|[k'' w] l IH]; cbn; [done|].
  destruct (String.eqb k k'') eqn:E; [discriminate|]. intros Hl.
  destruct (String.eqb k' k''); cbn; rewrite E; auto.
Qed.

Lemma object_entries_singleton {A} (kv : string * A) : object_entries [kv] = [kv].
Proof. unfold object_entries. cbn. by destruct (bool_decide _). Qed.

Lemma object_entries_Forall {A} (P : string * A -> Prop) l :
  Forall P l -> Forall P (object_entries l).
Proof.
  rewrite !List.Forall_forall. intros Hl x. unfold object_entries. rewrite in_app_iff.
  intros [Hx|Hx].
  - apply (Permutation_in _ (sort_by_perm _ _)), filter_In in Hx. apply Hl, Hx.
  - apply filter_In in Hx. apply Hl, Hx.
Qed.

(** ** Ordinary stage names

    A stage other than [__proto__] on a timer whose prototype chain is
    untouched: [endStage] ends an own stage, and answers [NaN] for an
    unstarted name of an [Object.prototype] method, [0] otherwise. *)

Section Ordinary.
Variable number_to_string : jsnum -> string.

Lemma endStage_ordinary h s t :
  stages_proto h = ObjectPrototype -> object_prototype_duration h = None -> s <> "__proto__" ->
  endStage number_to_string s t h =
  match assoc_str s (stages h) with
  | Some e =>
      (inr (elapsed t (start e)),
       mk_heap (startTime h) (put_own s (mk_entry (start e) (Some (elapsed t (start e)))) (stages h))
               ObjectPrototype None)
  | None => (inr (if existsb (String.eqb s) object_prototype_keys then JNaN else JFin 0), h)
  end.
Proof.
  intros Hp Ho Hs. apply String.eqb_neq in Hs.
  unfold endStage, stage_get, object_prototype_get.
  destruct (assoc_str s (stages h)) as [e|]; [cbn; by rewrite Hp, Ho|].
  rewrite Hs, Hp, Ho. destruct (existsb (String.eqb s) object_prototype_keys); [reflexivity|].
  by destruct (String.eqb s "duration").
Qed.

(** [simulates h st]: the heap holds the stages of [st], with no
    [__proto__] stage, and the prototype chain is untouched. *)
Definition repr_entry (v : Z * option Z) : Entry :=
  mk_entry v.1 ((fun t1 => elapsed t1 v.1) <$> v.2).

Definition simulates (h : Heap) (st : SpecState) : Prop :=
  stages h = map_vals repr_entry st /\ stages_proto h = ObjectPrototype /\
  object_prototype_duration h = None /\ assoc_str "__proto__" st = None.

Lemma simulates_step h st c cs :
  simulates h st -> call_stage c <> "__proto__" ->
  exists h', run number_to_string (c :: cs) h = run number_to_string cs h' /\
             simulates h' (spec_call st c).
Proof.
  intros (Hs & Hp & Ho & Hn) Hc. destruct c as [s t|s t]; cbn in Hc |- *.
  - eexists; split; [reflexivity|]. unfold startStage.
    assert (String.eqb s "__proto__" = false) as -> by by apply String.eqb_neq.
    split_and!; cbn; [|done|done|by rewrite assoc_str_put_own_ne].
    rewrite Hs. apply (put_own_map_vals repr_entry s (t, None)).
  - rewrite endStage_ordinary by done. rewrite Hs, assoc_str_map_vals.
    destruct (assoc_str s st) as [[t0 e]|] eqn:Ha; cbn.
    + eexists; split; [reflexivity|]. split_and!; cbn; [|done|done|by apply assoc_str_assoc_set_none].
      rewrite (put_own_map_vals repr_entry s (t0, Some t)). unfold put_own. by rewrite Ha.
    + eexists; split; [reflexivity|]. by split_and!.
Qed.

Lemma run_simulates cs h st :
  Forall (fun c => call_stage c <> "__proto__") cs -> simulates h st ->
  exists h', run number_to_string cs h = inr h' /\ simulates h' (fold_left spec_call cs st).
Proof.
  intros Hcs. revert h st. induction Hcs as [|c cs Hc Hcs IH]; intros h st Hsim; [by exists h|].
  destruct (simulates_step h st c cs Hsim Hc) as (h1 & -> & Hsim1). by apply IH.
Qed.

Lemma simulates_breakdown h st : simulates h st -> getStageBreakdown h = spec_breakdown st.
Proof.
  intros (Hs & _ & Ho & _). unfold getStageBreakdown, spec_breakdown, entry_duration.
  rewrite Hs, object_entries_map_vals, Ho. unfold map_vals.
  induction (object_entries st) as [|[s [t0 [e|]]] l IH]; cbn; by rewrite ?IH.
Qed.

End Ordinary.

(** ** The timer's theorems *)

Section TimerClaims.
Variable number_to_string : jsnum -> string.

(** C32: For calls that never name the stage [__proto__], a fresh timer
    never throws and its breakdown is the specification's: the ended
    stages in [Object.entries] order, each with its last end time minus
    its last start time. *)
Theorem run_refines (cs : list Call) (t0 : Z) :
  Forall (fun c => call_stage c <> "__proto__") cs ->
  exists h, run number_to_string cs (new_timer t0 None) = inr h /\
            getStageBreakdown h = spec_breakdown (fold_left spec_call cs []).
Proof.
  intros Hcs. destruct (run_simulates number_to_string cs (new_timer t0 None) [] Hcs)
    as (h & Hrun & Hsim); [by repeat split|].
  exists h. split; [done|]. by apply simulates_breakdown.
Qed.

(** C40: [endStage('__proto__')] on a timer whose prototype chain is
    untouched reads [Object.prototype] as the stage record: it answers
    [NaN] and writes [duration = NaN] on [Object.prototype].  The
    breakdown then lists every stage, an unended one with [NaN], and a
    timer created afterwards reports a stage it only started. *)
Theorem endStage_proto_pollutes h t :
  stages_proto h = ObjectPrototype -> assoc_str "__proto__" (stages h) = None ->
  exists h', endStage number_to_string "__proto__" t h = (inr JNaN, h') /\
    object_prototype_duration h' = Some JNaN /\
    getStageBreakdown h' = map (fun '(s, e) => (s, default JNaN (duration e))) (object_entries (stages h)) /\
    (forall s t', s <> "__proto__" ->
       getStageBreakdown (startStage s t' (new_timer t' (object_prototype_duration h'))) = [(s, JNaN)]).
Proof.
  intros Hp Hn. unfold endStage, stage_get. rewrite Hn, Hp. cbn.
  eexists; split_and!; [reflexivity|reflexivity| |].
  - unfold getStageBreakdown, entry_duration. cbn [stages object_prototype_duration].
    generalize (object_entries (stages h)) as l.
    induction l as [|[s [st [d|]]] l IH]; cbn; by rewrite ?IH.
  - intros s t' Hs. unfold startStage. apply String.eqb_neq in Hs. rewrite Hs.
    unfold getStageBreakdown. cbn [stages new_timer put_own assoc_str app].
    by rewrite object_entries_singleton.
Qed.

(** Timers reachable by ordinary calls at times that never go back. *)
Inductive reachable : Heap -> Z -> Prop :=
| reach_new t : reachable (new_timer t None) t
| reach_start h now s t :
    reachable h now -> (now <= t)%Z -> s <> "__proto__" -> reachable (startStage s t h) t
| reach_end h now s t d h' :
    reachable h now -> (now <= t)%Z -> s <> "__proto__" ->
    endStage number_to_string s t h = (inr d, h') -> reachable h' t.

Definition entry_ok (now : Z) (kv : string * Entry) : Prop :=
  (start kv.2 <= now)%Z /\ forall d, duration kv.2 = Some d -> exists q, d = JFin q /\ 0 <= q.

Lemma entry_ok_mono now now' kv : (now <= now')%Z -> entry_ok now kv -> entry_ok now' kv.
Proof. intros Hle [Hs Hd]. split; [lia|exact Hd]. Qed.

Lemma Forall_entry_ok_mono now now' l :
  (now <= now')%Z -> Forall (entry_ok now) l -> Forall (entry_ok now') l.
Proof. intros Hle Hf. eapply Forall_impl; [exact Hf|]. intros kv. by apply entry_ok_mono. Qed.

Lemma reachable_inv h now :
  reachable h now ->
  stages_proto h = ObjectPrototype /\ object_prototype_duration h = None /\
  assoc_str "__proto__" (stages h) = None /\ (startTime h <= now)%Z /\
  Forall (entry_ok now) (stages h).
Proof.
  induction 1 as [t|h now s t Hr IH Hle Hs|h now s t d h' Hr IH Hle Hs He].
  - split_and!; cbn; auto with zarith.
  - destruct IH as (Hp & Ho & Hn & Ht & Hf). unfold startStage.
    assert (String.eqb s "__proto__" = false) as -> by by apply String.eqb_neq.
    split_and!; cbn; [done|done|by rewrite assoc_str_put_own_ne|lia|].
    apply Forall_put_own; [|split; cbn; [lia|discriminate]].
    by apply (Forall_entry_ok_mono now).
  - destruct IH as (Hp & Ho & Hn & Ht & Hf).
    rewrite endStage_ordinary in He by done.
    destruct (assoc_str s (stages h)) as [e|] eqn:Ha; injection He as <- <-;
      [|split_and!; [done..|lia|by apply (Forall_entry_ok_mono now)]].
    pose proof (Forall_assoc_str _ _ _ _ Hf Ha) as [He _]. cbn in He.
    split_and!; cbn; [done|done|by rewrite assoc_str_put_own_ne|lia|].
    apply Forall_put_own; [by apply (Forall_entry_ok_mono now)|].
    split; cbn; [lia|]. intros d' [= <-]. eexists; split; [reflexivity|].
    unfold Qle; cbn. lia.
Qed.

(** On a timer reached by ordinary stage names at times that never go
    back, every duration of the breakdown is a non-negative number, and
    so is the total duration. *)
Theorem reachable_breakdown_nonneg h now :
  reachable h now ->
  Forall (fun sd => exists q, sd.2 = JFin q /\ 0 <= q) (getStageBreakdown h) /\
  (0 <= getTotalDuration now h)%Z.
Proof.
  intros Hr. destruct (reachable_inv h now Hr) as (_ & Ho & _ & Ht & Hf).
  split; [|unfold getTotalDuration; lia].
  apply object_entries_Forall in Hf. unfold getStageBreakdown, entry_duration. rewrite Ho.
  induction Hf as [|[s e] l [_ Hd] Hl IH]; cbn; [done|].
  destruct (duration e) as [d|] eqn:Ed; cbn; [|done]. constructor; [|done]. cbn. by apply Hd.
Qed.

End TimerClaims.

(** ** Runs *)

Module TimerSample.

Definition nts (_ : jsnum) : string := "NaN".

(** Two stages and an array-index stage ["2"], which [Object.entries]
    lists first; ending the unstarted ["constructor"] answers [NaN]. *)
Definition calls : list Call :=
  [StartStage "selection" 100; StartStage "assembly" 150; EndStage "selection" 170;
   EndStage "constructor" 180; StartStage "2" 190; EndStage "2" 230; EndStage "assembly" 260].

(** A timer with one started stage. *)
Definition started : Heap := startStage "selection" 100 (new_timer 100 None).

(** A stage started at 5 and ended at 9. *)
Definition ended : Heap := snd (endStage nts "a" 9 (startStage "a" 5 (new_timer 0 None))).

End TimerSample.

Lemma run_refines_witness :
  exists h, run TimerSample.nts TimerSample.calls (new_timer 100 None) = inr h /\
            getStageBreakdown h = spec_breakdown (fold_left spec_call TimerSample.calls []).
Proof.
  apply run_refines. repeat constructor; cbn; apply String.eqb_neq; reflexivity.
Defined.

Lemma endStage_proto_pollutes_witness :
  exists h', endStage TimerSample.nts "__proto__" 120 TimerSample.started = (inr JNaN, h') /\
    object_prototype_duration h' = Some JNaN /\
    getStageBreakdown h' =
      map (fun '(s, e) => (s, default JNaN (duration e))) (object_entries (stages TimerSample.started)) /\
    (forall s t', s <> "__proto__" ->
       getStageBreakdown (startStage s t' (new_timer t' (object_prototype_duration h'))) = [(s, JNaN)]).
Proof. apply endStage_proto_pollutes; vm_compute; reflexivity. Defined.

Lemma reachable_breakdown_nonneg_witness :
  Forall (fun sd => exists q, sd.2 = JFin q /\ 0 <= q) (getStageBreakdown TimerSample.ended) /\
  (0 <= getTotalDuration 9 TimerSample.ended)%Z.
Proof.
  apply (reachable_breakdown_nonneg TimerSample.nts TimerSample.ended 9).
  apply (reach_end _ (startStage "a" 5 (new_timer 0 None)) 5 "a" 9 (elapsed 9 5)).
  - apply (reach_start _ (new_timer 0 None) 0); [apply reach_new|lia|apply String.eqb_neq; reflexivity].
  - lia.
  - apply String.eqb_neq; reflexivity.
  - vm_compute. reflexivity.
Defined.

End PerformanceTimer.
