(* ===== verification/FailureLog.v ===== *)
(** * [logFailedPlan] of [plan-generator/utils/logging.ts] (lines 73-108)

    The insert of a row into [failed_plans]
    ([database/schema-additions.sql], lines 93-117), with the stage names
    of [GenerationStage] ([src/unnamed/part_003], lines 284-292).  Its
    [error] answer and a thrown error are only written to the console,
    so the function never throws.  It is exported but no module of the
    sources calls it. *)

From S2P Require Import Prelude Js.

Module FailureLog.

(** [GenerationStage], part_003 lines 284-292. *)
Inductive GenerationStage :=
| Validation | BlueprintIngestion | CandidateSelection | AiScoring
| NutritionValidation | CoherenceReview | WowLayerGeneration | Serialization.

(** The string each stage is. *)
Definition stage_name (s : GenerationStage) : string :=
  match s with
  | Validation => "validation"
  | BlueprintIngestion => "blueprint_ingestion"
  | CandidateSelection => "candidate_selection"
  | AiScoring => "ai_scoring"
  | NutritionValidation => "nutrition_validation"
  | CoherenceReview => "coherence_review"
  | WowLayerGeneration => "wow_layer_generation"
  | Serialization => "serialization"
  end.

(** The [data] argument, lines 73-83; the optional members are
    [undefined] when absent. *)
Record FailedPlanData := mk_data {
  user_id : string;
  generation_id : string;
  failure_stage : GenerationStage;
  failure_reason : string;
  user_blueprint : json;
  attempted_recipes : option json;
  validation_results : option json;
  prompt_used : option string;
  ai_response : option string }.

(** The row inserted, lines 87-99: a member whose value is [undefined]
    is left out of the insert, and the column takes its default [NULL]. *)
Record FailedPlanRow := mk_row {
  row_data : FailedPlanData;
  reviewed : bool;
  resolved : bool }.

(** [logFailedPlan]: [insert_fails] is the [error] answer of the insert
    or a thrown error; either way nothing is stored and nothing is
    thrown. *)
Definition logFailedPlan (insert_fails : bool) (data : FailedPlanData)
    (failed_plans : list FailedPlanRow) : list FailedPlanRow :=
  if insert_fails then failed_plans else failed_plans ++ [mk_row data false false].

End FailureLog.
