(* ===== verification/Seeder.v ===== *)
(** * [USDASeeder] of [scripts/seed-usda-data.js]

    The one-time script that fills [usda_nutrition_data], the table the
    nutrient resolver reads.  The model's state is the seeder's fields
    ([processedCount], [errorCount], [batchSize]) together with the
    table.  The table's primary key is [fdc_id]
    ([database/schema-additions.sql], lines 13-35).  A batch is one
    [insert] of an array: one SQL statement, which stores all of its
    rows or none of them.  The service's other refusals (network,
    credentials) are the Section variable [rejects], the failure of the
    count query is [count_fails], and the line typed at the prompt is
    an argument of [run]. *)

From S2P Require Import Prelude Js.

Open Scope Q_scope.

Module USDASeeder.

(** A sample food, as [getFoundationFoodsSample] writes one.  The
    samples have no [nutrients] member. *)
Record Food := mk_food {
  fdc_id : Z;
  description : string;
  calories : Q; protein : Q; fat : Q; carbohydrates : Q; fiber : Q; sugar : Q;
  nutrients : option json;
  publication_date : option string }.

(** A row of [usda_nutrition_data] as [insertBatch] writes it.  The
    columns [created_at] and [updated_at] take their defaults and are not
    kept. *)
Record Row := mk_row {
  row_fdc_id : Z;
  row_description : string;
  row_calories : Q; row_protein : Q; row_fat : Q;
  row_carbohydrates : Q; row_fiber : Q; row_sugar : Q;
  row_nutrients : json;
  data_type : string;
  row_publication_date : option string }.

(** The seeder's fields, lines 32-36, and the table it fills. *)
Record Seeder := mk_seeder {
  processedCount : nat;
  errorCount : nat;
  batchSize : nat;
  usda_nutrition_data : list Row }.

(** [new USDASeeder()] on a table in a given state. *)
Definition new_seeder (table : list Row) : Seeder := mk_seeder 0 0 100 table.

(** One object literal of the samples. *)
Definition sample (id : Z) (desc : string) (cal prot f carb fib sug : Q)
    (date : string) : Food :=
  mk_food id desc cal prot f carb fib sug None (Some date).

(** [getFoundationFoodsSample], lines 143-366. *)
Definition getFoundationFoodsSample : list Food := [
    sample 746773 ("Chicken, broiler or fryers, breast, skinless, boneless, meat only, raw") 165 (310 # 10) (36 # 10) 0 0 0 "2019-04-01";
    sample 342522 (dequote "Beef, chuck, arm pot roast, separable lean only, trimmed to 0~ fat, choice, raw") 124 (202 # 10) (43 # 10) 0 0 0 "2019-04-01";
    sample 747447 ("Rice, white, long-grain, regular, raw, unenriched") 365 (71 # 10) (7 # 10) 80 (13 # 10) (1 # 10) "2019-04-01";
    sample 170426 ("Onions, raw") 40 (11 # 10) (1 # 10) (93 # 10) (17 # 10) (42 # 10) "2019-04-01";
    sample 170457 ("Garlic, raw") 149 (64 # 10) (5 # 10) 33 (21 # 10) (10 # 10) "2019-04-01";
    sample 170765 ("Tomatoes, red, ripe, raw, year round average") 18 (9 # 10) (2 # 10) (39 # 10) (12 # 10) (26 # 10) "2019-04-01";
    sample 170417 ("Carrots, raw") 41 (9 # 10) (2 # 10) (96 # 10) (28 # 10) (47 # 10) "2019-04-01";
    sample 168462 ("Salmon, Atlantic, farmed, raw") 208 (204 # 10) (124 # 10) 0 0 0 "2019-04-01";
    sample 171287 ("Milk, reduced fat, fluid, 2% milkfat, with added vitamin A and vitamin D") 50 (33 # 10) (20 # 10) (48 # 10) 0 (48 # 10) "2019-04-01";
    sample 173410 ("Eggs, Grade A, Large, egg whole") 155 (130 # 10) (110 # 10) (11 # 10) 0 (11 # 10) "2019-04-01";
    sample 170890 ("Spinach, raw") 23 (29 # 10) (4 # 10) (36 # 10) (22 # 10) (4 # 10) "2019-04-01";
    sample 168409 ("Sweet potato, raw, unprepared") 86 (16 # 10) (1 # 10) (201 # 10) (30 # 10) (42 # 10) "2019-04-01";
    sample 170178 ("Broccoli, raw") 34 (28 # 10) (4 # 10) (66 # 10) (26 # 10) (15 # 10) "2019-04-01";
    sample 169962 ("Avocados, raw, all commercial varieties") 160 (20 # 10) (147 # 10) (85 # 10) (67 # 10) (7 # 10) "2019-04-01";
    sample 175167 ("Quinoa, uncooked") 368 (141 # 10) (61 # 10) (642 # 10) (70 # 10) (46 # 10) "2019-04-01";
    sample 170567 ("Beans, black, mature seeds, raw") 341 (216 # 10) (14 # 10) (624 # 10) (155 # 10) (21 # 10) "2019-04-01";
    sample 167762 ("Almonds, raw") 579 (212 # 10) (499 # 10) (216 # 10) (125 # 10) (44 # 10) "2019-04-01";
    sample 170419 ("Bell peppers, red, raw") 31 (10 # 10) (3 # 10) (73 # 10) (25 # 10) (42 # 10) "2019-04-01";
    sample 171330 ("Cheese, cheddar") 403 (249 # 10) (331 # 10) (13 # 10) 0 (5 # 10) "2019-04-01";
    sample 168917 ("Olive oil, extra virgin") 884 0 100 0 0 0 "2019-04-01"
  ].

(** [getSRLegacyFoodsSample], lines 369-427. *)
Definition getSRLegacyFoodsSample : list Food := [
    sample 168462 ("Fish, salmon, Atlantic, farmed, cooked, dry heat") 231 (254 # 10) (134 # 10) 0 0 0 "2019-04-01";
    sample 169094 ("Pasta, cooked, unenriched, without added salt") 131 (50 # 10) (11 # 10) (250 # 10) (18 # 10) (6 # 10) "2019-04-01";
    sample 170073 ("Potatoes, flesh and skin, raw") 77 (20 # 10) (1 # 10) (175 # 10) (22 # 10) (8 # 10) "2019-04-01";
    sample 172421 ("Yogurt, plain, low fat, 12 grams protein per 8 ounce") 63 (53 # 10) (16 # 10) (70 # 10) 0 (70 # 10) "2019-04-01";
    sample 169417 ("Bananas, raw") 89 (11 # 10) (3 # 10) (228 # 10) (26 # 10) (122 # 10) "2019-04-01"
  ].

(** The object [insertBatch] maps a food to, lines 116-128:
    [food.nutrients || {}] and a [publication_date] kept only when it is
    truthy, [null] otherwise. *)
Definition row_of (dataType : string) (food : Food) : Row :=
  mk_row (fdc_id food) (description food) (calories food) (protein food)
    (fat food) (carbohydrates food) (fiber food) (sugar food)
    (match nutrients food with
     | Some v => if json_truthy (PropOwn v) then v else JObject []
     | None => JObject []
     end)
    dataType
    (if opt_str_truthy (publication_date food) then publication_date food else None).

(** The primary key of [usda_nutrition_data] (schema-additions.sql line
    14): an insert statement passes only when the [fdc_id]s of its rows
    are new to the table and distinct from one another.  [keys] holds the
    table's keys and those of the statement's earlier rows. *)
Fixpoint keys_fresh (keys : list Z) (rows : list Row) : bool :=
  match rows with
  | [] => true
  | r :: rs =>
      negb (existsb (Z.eqb (row_fdc_id r)) keys) && keys_fresh (row_fdc_id r :: keys) rs
  end.

(** [Array.prototype.slice(i, j)] for [0 <= i <= j]. *)
Definition slice {A} (l : list A) (i j : nat) : list A := firstn (j - i) (skipn i l).

(** How [run] ends: [Cancelled] at the prompt (line 61), [Completed]
    after both passes. *)
Inductive Outcome := Cancelled | Completed.

Section Seeding.

(** [rejects rows]: the service answers the insert of [rows] with an
    error, or the request throws, for a reason other than the key. *)
Variable rejects : list Row -> bool.
(** The count query fails, and [count] reads [null]. *)
Variable count_fails : bool.

(** [insertBatch], lines 112-140: both the [error] answer and the thrown
    error count the whole batch as errors. *)
Definition insertBatch (foods : list Food) (dataType : string) (st : Seeder) : Seeder :=
  let rows := map (row_of dataType) foods in
  if rejects rows || negb (keys_fresh (map row_fdc_id (usda_nutrition_data st)) rows)
  then mk_seeder (processedCount st) (errorCount st + length foods) (batchSize st)
         (usda_nutrition_data st)
  else mk_seeder (processedCount st + length foods) (errorCount st) (batchSize st)
         (usda_nutrition_data st ++ rows).

(** The [for] loop of [processFoundationFoods] and [processSRLegacyFoods]
    from index [i].  [None] is the fuel running out: with a batch size of
    0 the loop never ends. *)
Fixpoint process_loop (fuel i : nat) (foods : list Food) (dataType : string)
    (st : Seeder) : option Seeder :=
  match fuel with
  | O => None
  | S fuel' =>
      if i <? length foods then
        let st' := insertBatch (slice foods i (i + batchSize st)) dataType st in
        process_loop fuel' (i + batchSize st') foods dataType st'
      else Some st
  end.

(** With a positive batch size the loop runs at most [length foods] times
    before its test fails, so [S (length foods)] is enough fuel
    ([process_loop_batches]). *)
Definition process_foods (foods : list Food) (dataType : string) (st : Seeder) : option Seeder :=
  process_loop (S (length foods)) 0 foods dataType st.

(** [processFoundationFoods], lines 84-97. *)
Definition processFoundationFoods (st : Seeder) : option Seeder :=
  process_foods getFoundationFoodsSample "foundation" st.

(** [processSRLegacyFoods], lines 99-110. *)
Definition processSRLegacyFoods (st : Seeder) : option Seeder :=
  process_foods getSRLegacyFoodsSample "sr_legacy" st.

(** The [count] of the [select(..., { count: 'exact', head: true })],
    lines 43-45. *)
Definition existing_count (st : Seeder) : option nat :=
  if count_fails then None else Some (length (usda_nutrition_data st)).

(** The test of lines 47-64: [count > 0] is false for [null], and the
    answer is compared with ['y'] after [toLowerCase()]. *)
Definition proceed (answer : string) (st : Seeder) : bool :=
  match existing_count st with
  | Some c => if 0 <? c then String.eqb (to_lower answer) "y" else true
  | None => true
  end.

(** [run], lines 38-82.  Nothing in the two passes throws
    ([insertBatch] catches), so the [catch] of lines 78-81 is not
    reached. *)
Definition run (answer : string) (st : Seeder) : option (Outcome * Seeder) :=
  if proceed answer st then
    match processFoundationFoods st with
    | Some st1 =>
        match processSRLegacyFoods st1 with
        | Some st2 => Some (Completed, st2)
        | None => None
        end
    | None => None
    end
  else Some (Cancelled, st).

End Seeding.

(** ** Facts *)

Local Open Scope nat_scope.

(** What the seeder promises of the table it was given: the key stays
    unique, rows are only appended, and [processedCount] is the number
    of rows appended. *)
Definition seeder_inv (t0 : list Row) (st : Seeder) : Prop :=
  NoDup (map row_fdc_id (usda_nutrition_data st)) /\
  exists added, usda_nutrition_data st = t0 ++ added /\ length added = processedCount st.

(** The rows that pass the key check keep the table's key unique. *)
Lemma keys_fresh_NoDup (rows : list Row) :
  forall keys, NoDup keys -> keys_fresh keys rows = true ->
  NoDup (keys ++ map row_fdc_id rows).
Proof.
  induction rows as [|r rs IH]; intros keys Hnd Hf; simpl in *.
  - by rewrite app_nil_r.
  - apply andb_prop in Hf as [Hn Hf].
    assert (Hnin : row_fdc_id r ∉ keys).
    { intros Hin. apply negb_true_iff in Hn.
      enough (existsb (Z.eqb (row_fdc_id r)) keys = true) by congruence.
      apply existsb_exists. exists (row_fdc_id r). split; [by apply list_elem_of_In | apply Z.eqb_refl]. }
    pose proof (IH _ (NoDup_cons_2 _ _ Hnin Hnd) Hf) as H.
    by rewrite (Permutation_middle keys (map row_fdc_id rs) (row_fdc_id r)) in H.
Qed.

Section SeedingFacts.

Variable rejects : list Row -> bool.
Variable count_fails : bool.

Lemma insertBatch_batchSize b dt st :
  batchSize (insertBatch rejects b dt st) = batchSize st.
Proof. unfold insertBatch. by repeat case_match. Qed.

(** Every food of a batch is counted once, as processed or as an error. *)
Lemma insertBatch_counts b dt st :
  processedCount (insertBatch rejects b dt st) + errorCount (insertBatch rejects b dt st) =
  processedCount st + errorCount st + length b.
Proof. unfold insertBatch. repeat case_match; simpl; lia. Qed.

Lemma insertBatch_inv t0 b dt st :
  seeder_inv t0 st -> seeder_inv t0 (insertBatch rejects b dt st).
Proof.
  unfold insertBatch. intros [Hnd (added & Ht & Hl)].
  destruct (rejects _ || _) eqn:E; [split; eauto|].
  apply orb_false_iff in E as [_ E]. apply negb_false_iff in E.
  unfold seeder_inv; simpl. rewrite map_app. split.
  - by apply keys_fresh_NoDup.
  - exists (added ++ map (row_of dt) b). rewrite Ht, app_assoc, length_app, length_map. split; [done | lia].
Qed.

(** The batches the loop inserts, in order, from a state [st]. *)
Definition insert_all (bl : list (list Food)) (dt : string) (st : Seeder) : Seeder :=
  fold_left (fun s b => insertBatch rejects b dt s) bl st.

(** C36: With a positive [batchSize] the [for] loop of the two passes ends
    within the fuel it is given, and it inserts the foods from index [i]
    on, in their order, each in exactly one batch, in nonempty batches of
    at most [batchSize] foods. *)
Theorem process_loop_batches (foods : list Food) (dt : string) :
  forall fuel i st, 0 < batchSize st -> length foods - i < fuel ->
  exists bl,
    process_loop rejects fuel i foods dt st = Some (insert_all bl dt st) /\
    concat bl = skipn i foods /\
    Forall (fun b => b <> [] /\ length b <= batchSize st) bl.
Proof.
  induction fuel as [|fuel IH]; intros i st Hbs Hf; [lia|].
  cbn [process_loop]. destruct (Nat.ltb_spec i (length foods)) as [Hi|Hi].
  - rewrite insertBatch_batchSize.
    set (b := slice foods i (i + batchSize st)).
    destruct (IH (i + batchSize st) (insertBatch rejects b dt st))
      as (bl & Hrun & Hcat & Hall); rewrite ?insertBatch_batchSize; [lia | lia |].
    exists (b :: bl). rewrite insertBatch_batchSize in Hall.
    split; [exact Hrun|]. unfold b, slice.
    replace (i + batchSize st - i) with (batchSize st) by lia.
    split.
    + simpl. by rewrite Hcat, Nat.add_comm, <- skipn_skipn, firstn_skipn.
    + constructor; [|exact Hall]. rewrite length_firstn, length_skipn. split; [|lia].
      intros E. apply (f_equal length) in E. rewrite length_firstn, length_skipn in E. simpl in E. lia.
  - exists []. split; [done|]. split; [symmetry; apply skipn_all2; lia | constructor].
Qed.

Lemma insert_all_batchSize bl dt st : batchSize (insert_all bl dt st) = batchSize st.
Proof.
  revert st. induction bl as [|b bl IH]; intros st; [done|].
  simpl. by rewrite IH, insertBatch_batchSize.
Qed.

Lemma insert_all_counts bl dt st :
  processedCount (insert_all bl dt st) + errorCount (insert_all bl dt st) =
  processedCount st + errorCount st + length (concat bl).
Proof.
  revert st. induction bl as [|b bl IH]; intros st; [simpl; lia|].
  simpl. rewrite IH, insertBatch_counts, length_app. lia.
Qed.

Lemma insert_all_inv t0 bl dt st :
  seeder_inv t0 st -> seeder_inv t0 (insert_all bl dt st).
Proof.
  revert st. induction bl as [|b bl IH]; intros st H; [done|].
  apply IH, insertBatch_inv, H.
Qed.

(** A pass over [foods] ends, keeps the batch size and the invariant,
    and counts every food once. *)
Lemma process_foods_spec t0 foods dt st :
  0 < batchSize st -> seeder_inv t0 st ->
  exists st', process_foods rejects foods dt st = Some st' /\
    batchSize st' = batchSize st /\ seeder_inv t0 st' /\
    processedCount st' + errorCount st' = processedCount st + errorCount st + length foods.
Proof.
  intros Hbs Hinv. unfold process_foods.
  destruct (process_loop_batches foods dt (S (length foods)) 0 st Hbs ltac:(lia))
    as (bl & -> & Hcat & _).
  eexists. split; [done|]. split; [apply insert_all_batchSize|].
  split; [by apply insert_all_inv|].
  by rewrite insert_all_counts, Hcat.
Qed.

Lemma new_seeder_inv table :
  NoDup (map row_fdc_id table) -> seeder_inv table (new_seeder table).
Proof. intros H. split; [done|]. exists []. by rewrite app_nil_r. Qed.

(** C34: Run on a table whose key is unique, the script ends.  Cancelled,
    it has changed nothing.  Completed, it has counted each of the 25
    sample foods once, as processed or as an error.  In both cases the
    key is still unique, the table has only gained rows, and
    [processedCount] is the number of rows it gained. *)
Theorem run_invariant (answer : string) (table : list Row) :
  NoDup (map row_fdc_id table) ->
  exists o st', run rejects count_fails answer (new_seeder table) = Some (o, st') /\
    seeder_inv table st' /\
    (o = Cancelled -> st' = new_seeder table) /\
    (o = Completed -> processedCount st' + errorCount st' =
       length getFoundationFoodsSample + length getSRLegacyFoodsSample).
Proof.
  intros Hnd. pose proof (new_seeder_inv table Hnd) as Hinv0. unfold run.
  destruct (proceed count_fails answer (new_seeder table)).
  - destruct (process_foods_spec table getFoundationFoodsSample "foundation"
      (new_seeder table) ltac:(cbn; lia) Hinv0) as (st1 & Hr1 & Hb1 & Hi1 & Hc1).
    destruct (process_foods_spec table getSRLegacyFoodsSample "sr_legacy" st1
      ltac:(rewrite Hb1; cbn; lia) Hi1) as (st2 & Hr2 & _ & Hi2 & Hc2).
    unfold processFoundationFoods, processSRLegacyFoods. rewrite Hr1, Hr2.
    exists Completed, st2. split; [done|]. split; [done|].
    split; [done|]. intros _. rewrite Hc2, Hc1. cbn. lia.
  - by exists Cancelled, (new_seeder table).
Qed.

(** A list no longer than the batch size is inserted in one batch. *)
Lemma process_foods_one_batch foods dt st :
  foods <> [] -> length foods <= batchSize st ->
  process_foods rejects foods dt st = Some (insertBatch rejects foods dt st).
Proof.
  intros Hne Hle. destruct foods as [|f fs]; [done|].
  unfold process_foods. cbn [process_loop length].
  rewrite !insertBatch_batchSize.
  replace (0 + batchSize st <? S (length fs)) with false
    by (symmetry; apply Nat.ltb_ge; simpl in *; lia).
  unfold slice. simpl skipn. rewrite Nat.sub_0_r, List.firstn_all2 by (simpl in *; lia).
  done.
Qed.

Lemma insertBatch_processed_le b dt st :
  processedCount (insertBatch rejects b dt st) <= processedCount st + length b.
Proof. unfold insertBatch. repeat case_match; simpl; lia. Qed.

(** A batch whose first food's key is already in the table stores
    nothing. *)
Lemma insertBatch_dup_key f b dt st :
  existsb (Z.eqb (fdc_id f)) (map row_fdc_id (usda_nutrition_data st)) = true ->
  processedCount (insertBatch rejects (f :: b) dt st) = processedCount st.
Proof.
  intros H. unfold insertBatch. cbn [map keys_fresh row_fdc_id row_of].
  by rewrite H, orb_true_r.
Qed.

(** C21: Whatever the table holds and whatever the service answers, a run
    never stores all 25 sample foods.  Salmon's [fdc_id] 168462 is in
    both samples, and the table's primary key is [fdc_id].  So when the
    foundation batch is stored, the SR Legacy batch is refused whole,
    and pasta, potatoes, yogurt and bananas are never stored with
    it. *)
Theorem run_never_stores_all (answer : string) (table : list Row) o st' :
  run rejects count_fails answer (new_seeder table) = Some (o, st') ->
  processedCount st' < length getFoundationFoodsSample + length getSRLegacyFoodsSample.
Proof.
  unfold run. destruct (proceed count_fails answer (new_seeder table));
    [|intros [= <- <-]; cbn; lia].
  unfold processFoundationFoods, processSRLegacyFoods.
  rewrite process_foods_one_batch by (cbn; lia || discriminate).
  rewrite process_foods_one_batch by (rewrite ?insertBatch_batchSize; cbn; lia || discriminate).
  intros [= <- <-]. cbn [length].
  unfold insertBatch at 2.
  destruct (_ || _) eqn:E1.
  - eapply Nat.le_lt_trans; [apply insertBatch_processed_le|]. cbn. lia.
  - unfold getSRLegacyFoodsSample, sample at 1. rewrite insertBatch_dup_key; [cbn; lia|].
    cbn [usda_nutrition_data]. rewrite map_app, existsb_app. apply orb_true_iff. right.
    vm_compute. reflexivity.
Qed.

End SeedingFacts.

(** ** Witnesses *)

Module SeederSample.

(** The state a first run on an empty table ends in, when the service
    accepts every statement the key allows: the 20 foundation foods are
    stored and the 5 SR Legacy foods are counted as errors. *)
Definition seeded_fresh : Seeder :=
  mk_seeder 20 5 100 (map (row_of "foundation") getFoundationFoodsSample).

End SeederSample.

Lemma process_loop_batches_witness :
  exists bl,
    process_loop (fun _ => false) 21 0 getFoundationFoodsSample "foundation" (new_seeder []) =
      Some (insert_all (fun _ => false) bl "foundation" (new_seeder [])) /\
    concat bl = skipn 0 getFoundationFoodsSample /\
    Forall (fun b => b <> [] /\ length b <= batchSize (new_seeder [])) bl.
Proof.
  apply (process_loop_batches (fun _ => false) getFoundationFoodsSample "foundation" 21 0);
    vm_compute; lia.
Defined.

Lemma run_invariant_witness :
  exists o st', run (fun _ => false) false "n" (new_seeder []) = Some (o, st') /\
    seeder_inv [] st' /\
    (o = Cancelled -> st' = new_seeder []) /\
    (o = Completed -> processedCount st' + errorCount st' =
       length getFoundationFoodsSample + length getSRLegacyFoodsSample).
Proof. apply (run_invariant (fun _ => false) false "n" []). constructor. Defined.

Lemma run_never_stores_all_witness :
  run (fun _ => false) false "n" (new_seeder []) = Some (Completed, SeederSample.seeded_fresh) /\
  processedCount SeederSample.seeded_fresh <
    length getFoundationFoodsSample + length getSRLegacyFoodsSample.
Proof.
  split; [vm_compute; reflexivity|].
  apply (run_never_stores_all (fun _ => false) false "n" [] Completed).
  vm_compute. reflexivity.
Defined.

End USDASeeder.
