(* ===== verification/TestGeneration.v ===== *)
(** * [PlanGenerationTester] of [scripts/test-generation.js]

    The end-to-end test script: for each of its four test users it
    creates the user's rows ([users], [user_intake], [subscriptions]),
    posts to the plan generator, checks the stored plan and deletes the
    rows again.  The model keeps the script's state (the results), the
    tables it writes, the [uuidv4()] counter and the clock readings.
    The plan generator is the Section variable [generator], which may
    read every table and writes [meal_plans] and the tables of [Ext];
    [TesterHandler] instantiates it with [Handler.handler].  Console
    output and [printSummary], which only prints, are not modelled. *)

From S2P Require Import Prelude Js Types PlanGenerator Handler Dates.

Open Scope Q_scope.
Open Scope js_scope.

Module PlanGenerationTester.

(** [userData.profile] of a test user. *)
Record Profile := mk_profile {
  full_name : string; date_of_birth : string;
  height_cm : Q; weight_kg : Q; activity_level : string }.

(** A test user of [createTestUsers]: the intake is an object literal,
    spread into the [user_intake] row. *)
Record UserData := mk_user_data {
  profile : Profile;
  intake : list (string * json);
  subscription_plan_id : string }.

(** [createTestUsers], lines 230-364, in [Object.entries] order (no key
    is an array index). *)
Definition createTestUsers : list (string * UserData) :=
  [("Keto Beginner",
     mk_user_data
       (mk_profile "Alice Keto" "1990-05-15" 165 70 "moderate")
       [("diet_type", JString "keto");
         ("allergies", JArray []);
         ("dislikes", JArray [JString "mushrooms"]);
         ("health_goals", JArray [JString "weight_loss"]);
         ("budget_range", JString "medium");
         ("cooking_time_preference", JNumber 30);
         ("cooking_skill_level", JString "beginner");
         ("household_size", JNumber 1);
         ("kitchen_equipment", JArray [JString "oven"; JString "stovetop"; JString "microwave"]);
         ("flavor_preferences", JObject [("spicy", JNumber 3); ("sweet", JNumber 2); ("savory", JNumber 8); ("umami", JNumber 6); ("bitter", JNumber 2); ("sour", JNumber 4)]);
         ("cultural_preferences", JArray [JString "american"])]
       "pro");
  ("Vegan Athlete",
     mk_user_data
       (mk_profile "Bob Plant" "1985-08-22" 180 75 "very_active")
       [("diet_type", JString "vegan");
         ("allergies", JArray [JString "nuts"]);
         ("dislikes", JArray []);
         ("health_goals", JArray [JString "muscle_gain"; JString "energy_boost"]);
         ("budget_range", JString "high");
         ("cooking_time_preference", JNumber 45);
         ("cooking_skill_level", JString "intermediate");
         ("household_size", JNumber 2);
         ("kitchen_equipment", JArray [JString "oven"; JString "stovetop"; JString "blender"; JString "food_processor"]);
         ("flavor_preferences", JObject [("spicy", JNumber 7); ("sweet", JNumber 4); ("savory", JNumber 8); ("umami", JNumber 9); ("bitter", JNumber 5); ("sour", JNumber 6)]);
         ("cultural_preferences", JArray [JString "mediterranean"; JString "asian"])]
       "family");
  ("Busy Family",
     mk_user_data
       (mk_profile "Carol Family" "1982-12-03" 168 65 "light")
       [("diet_type", JString "omnivore");
         ("allergies", JArray [JString "shellfish"]);
         ("dislikes", JArray [JString "liver"; JString "organ_meat"]);
         ("health_goals", JArray [JString "maintenance"]);
         ("budget_range", JString "medium");
         ("cooking_time_preference", JNumber 20);
         ("cooking_skill_level", JString "intermediate");
         ("household_size", JNumber 4);
         ("kitchen_equipment", JArray [JString "oven"; JString "stovetop"; JString "microwave"; JString "slow_cooker"]);
         ("flavor_preferences", JObject [("spicy", JNumber 4); ("sweet", JNumber 6); ("savory", JNumber 7); ("umami", JNumber 5); ("bitter", JNumber 3); ("sour", JNumber 4)]);
         ("cultural_preferences", JArray [JString "american"; JString "italian"])]
       "family");
  ("PCOS Health Focus",
     mk_user_data
       (mk_profile "Diana Health" "1993-03-18" 162 68 "moderate")
       [("diet_type", JString "pcos");
         ("allergies", JArray [JString "dairy"]);
         ("dislikes", JArray [JString "cilantro"]);
         ("health_goals", JArray [JString "weight_loss"; JString "digestive_health"]);
         ("budget_range", JString "medium");
         ("cooking_time_preference", JNumber 35);
         ("cooking_skill_level", JString "advanced");
         ("household_size", JNumber 1);
         ("kitchen_equipment", JArray [JString "oven"; JString "stovetop"; JString "air_fryer"; JString "instant_pot"]);
         ("flavor_preferences", JObject [("spicy", JNumber 6); ("sweet", JNumber 3); ("savory", JNumber 8); ("umami", JNumber 7); ("bitter", JNumber 4); ("sour", JNumber 5)]);
         ("cultural_preferences", JArray [JString "mediterranean"; JString "middle_eastern"])]
       "pro")].

(** The row [createTestUser] inserts into [users], lines 106-117. *)
Record UserRow := mk_user_row {
  user_id : string; email : string;
  user_full_name : string; user_date_of_birth : string;
  user_height_cm : Q; user_weight_kg : Q; user_activity_level : string;
  current_xp : Q; current_level : Q; streak_days : Q }.

(** The row inserted into [subscriptions], lines 136-142; the two dates
    are kept as the clock readings they print. *)
Record SubscriptionRow := mk_subscription_row {
  sub_user_id : string; plan_id : string; status : string;
  current_period_start : Z; current_period_end : Z }.

(** An object literal with members written in order: a later member of
    the same key replaces the earlier one's value in its place, as the
    spread [{ user_id, ...intake, version, is_active }] does. *)
Definition obj_set (ms : list (string * json)) (k : string) (v : json) : list (string * json) :=
  if existsb (fun kv => String.eqb (fst kv) k) ms
  then map (fun kv => if String.eqb (fst kv) k then (k, v) else kv) ms
  else ms ++ [(k, v)].

Definition obj_literal (ms : list (string * json)) : list (string * json) :=
  fold_left (fun acc kv => obj_set acc (fst kv) (snd kv)) ms [].

Definition user_row (userId : string) (p : Profile) : UserRow :=
  mk_user_row userId ("test-" ++ userId ++ "@mealwise.test")
    (full_name p) (date_of_birth p) (height_cm p) (weight_kg p) (activity_level p) 0 1 0.

Definition intake_row (userId : string) (d : UserData) : list (string * json) :=
  obj_literal ([("user_id", JString userId)] ++ intake d ++
               [("version", JNumber 1); ("is_active", JBool true)]).

(** [30 * 24 * 60 * 60 * 1000] milliseconds. *)
Definition thirty_days_ms : Z := 2592000000.

(** The answer of the [fetch] of the plan generator: its status, the
    text of its body, and [response.json()] (which throws on a body that
    is not JSON). *)
Record Reply := mk_reply {
  reply_status : Z; reply_text : string; reply_json : JsError + json }.

(** [response.ok]. *)
Definition ok (status : Z) : bool := (200 <=? status)%Z && (status <=? 299)%Z.

(** A result of [testUserPlanGeneration] (lines 77-96), or of the
    [catch] of [runAllTests] (lines 51-56). *)
Inductive TestResult :=
| Passed (test_name : string) (duration_ms : Z) (generation_id plan_id : js_prop json)
    (total_recipes unique_recipes cost_cents : json)
| Failed (test_name : string) (error : string) (duration_ms : Z).

Definition is_failed (r : TestResult) : bool :=
  match r with Failed _ _ _ => true | Passed _ _ _ _ _ _ _ => false end.

(** ** The checks of [validateGeneratedPlan] *)

(** [v.length]: an array's or a string's length, an object's own
    [length] member, [undefined] otherwise. *)
Definition length_of (v : json) : js_prop json :=
  match v with
  | JArray l => PropOwn (JNumber (inject_Z (Z.of_nat (length l))))
  | JString s => PropOwn (JNumber (inject_Z (Z.of_nat (String.length s))))
  | JObject ms => js_obj_get ms "length"
  | _ => PropUndefined
  end.

Definition prop_length (p : js_prop json) : js_prop json :=
  match p with PropOwn v => length_of v | _ => PropUndefined end.

(** [p === n] for a number [n]. *)
Definition strict_eq_num (p : js_prop json) (n : Q) : bool :=
  match p with PropOwn (JNumber q) => Qeq_bool q n | _ => false end.

Section Checks.
Variable number_to_string : Q -> string.

(** [`${p}`]; the keys read here ([length], [day]) are not keys of
    [Object.prototype], so an inherited member is not met. *)
Definition template_prop (p : js_prop json) : string :=
  match p with PropOwn v => js_to_string number_to_string v | _ => "undefined" end.

(** The loop of lines 204-208 over an array of days. *)
Fixpoint check_day_list (ds : list json) : option JsError :=
  match ds with
  | [] => None
  | d :: ds' =>
      match read (PropOwn d) "meals" with
      | inl e => Some e
      | inr meals =>
          if negb (json_truthy meals) || strict_eq_num (prop_length meals) 0
          then Some (Error ("Day " ++ template_prop (json_get d "day") ++ " has no meals"))
          else check_day_list ds'
      end
  end.

(** [for (const day of days)]: an array is iterated by item and a
    string by code unit (whose [meals] is [undefined]); an object is not
    iterable. *)
Definition check_days (days : json) : option JsError :=
  match days with
  | JArray ds => check_day_list ds
  | JString (String _ _) => Some (Error "Day undefined has no meals")
  | JString EmptyString => None
  | _ => Some (TypeError "plan.plan_data.days is not iterable")
  end.

(** Lines 187-215 on the row found: the structure checks, in order, and
    the two counts. *)
Definition check_plan (plan : json) : JsError + (json * json) :=
  let pd := json_get plan "plan_data" in
  let days := prop_get pd "days" in
  if negb (json_truthy pd) || negb (json_truthy days)
  then inl (Error "Invalid plan structure - missing days")
  else
    let total := or_default (prop_get pd "total_recipes") (JNumber 0) in
    let unique := or_default (prop_get pd "unique_recipes") (JNumber 0) in
    if strict_eq_num (PropOwn total) 0 then inl (Error "Plan has no recipes")
    else if negb (strict_eq_num (prop_length days) 7)
    then inl (Error ("Expected 7 days, got " ++ template_prop (prop_length days)))
    else match days with
         | PropOwn v => match check_days v with Some e => inl e | None => inr (total, unique) end
         | _ => inr (total, unique)
         end.

(** A day the loop of lines 204-208 accepts. *)
Definition day_ok (d : json) : bool :=
  match d with
  | JNull => false
  | _ => let meals := json_get d "meals" in
         json_truthy meals && negb (strict_eq_num (prop_length meals) 0)
  end.

Lemma check_day_list_none ds : check_day_list ds = None <-> forallb day_ok ds = true.
Proof.
  induction ds as [|d ds IH]; [done|]. cbn [check_day_list forallb].
  destruct d; cbn [read prop_get day_ok]; try (split; discriminate);
    destruct (json_truthy _), (strict_eq_num _ _); cbn;
    try (split; discriminate); apply IH.
Qed.

(** C38: [validateGeneratedPlan] accepts a row exactly when its [plan_data]
    has an own, truthy [total_recipes] and an array of 7 days each with
    a non-empty [meals]; it then returns [total_recipes] and
    [unique_recipes || 0]. *)
Theorem check_plan_accepts plan t u :
  check_plan plan = inr (t, u) <->
  exists pd ds,
    json_get plan "plan_data" = PropOwn pd /\
    json_get pd "days" = PropOwn (JArray ds) /\ length ds = 7%nat /\
    forallb day_ok ds = true /\
    json_get pd "total_recipes" = PropOwn t /\ json_truthy (PropOwn t) = true /\
    u = or_default (json_get pd "unique_recipes") (JNumber 0).
Proof.
  unfold check_plan.
  assert (Hni : forall v k, existsb (String.eqb k) object_prototype_keys = false ->
                            json_get v k <> PropInherited).
  { intros v k Hk. destruct v; unfold json_get, js_obj_get; cbn [assoc_str]; repeat case_match; congruence. }
  split.
  - intros H.
    destruct (json_get plan "plan_data") as [pd| |] eqn:Hpd;
      [| exfalso; by apply (Hni plan "plan_data") | by cbn in H].
    cbn [prop_get] in H.
    destruct (json_get pd "days") as [days| |] eqn:Hd;
      [| exfalso; by apply (Hni pd "days") | by rewrite orb_true_r in H].
    destruct (json_get pd "total_recipes") as [tv| |] eqn:Ht;
      [| exfalso; by apply (Hni pd "total_recipes") | ].
    2:{ cbn [or_default] in H. destruct (_ || _); [done|]. by cbn in H. }
    destruct (_ || _); [done|].
    unfold or_default in H. destruct (json_truthy (PropOwn tv)) eqn:Htv; [|by cbn in H].
    destruct (strict_eq_num (PropOwn tv) 0); [done|].
    destruct (negb (strict_eq_num _ 7)) eqn:E7; [done|].
    destruct days as [| | | [|c s0] | ds |]; cbn in E7, H; try done.
    destruct (check_day_list ds) eqn:Hc; [done|]. injection H as <- <-.
    apply negb_false_iff, Qeq_bool_iff in E7. unfold Qeq in E7. cbn in E7.
    exists pd, ds. split_and!; try done; [lia | by apply check_day_list_none].
  - intros (pd & ds & Hpd & Hd & Hlen & Hall & Ht & Htv & ->).
    rewrite Hpd. cbn [prop_get]. rewrite Hd, Ht. cbn [or_default]. rewrite Htv.
    apply check_day_list_none in Hall. cbn. rewrite Hlen, Hall.
    destruct pd; cbn in Hd; try discriminate.
    destruct t; cbn in Htv |- *; try done; destruct (Qeq_bool _ _) eqn:E; try done.
Qed.


End Checks.

(** ** The script's run *)

Section Tester.

(** A row of [meal_plans], with its columns as the query reads them. *)
Variable PlanRow : Type.
Variable plan_row_members : PlanRow -> list (string * json).
(** The tables only the plan generator writes ([plan_generation_logs]). *)
Variable Ext : Type.

(** The tables the script writes or reads. *)
Record Store := mk_store {
  users : list UserRow;
  user_intake : list (list (string * json));
  subscriptions : list SubscriptionRow;
  meal_plans : list PlanRow;
  ext : Ext }.

(** The script's state: [this.results], the tables, and how many times
    [uuidv4()] and the clock were called. *)
Record TState := mk_tstate {
  store : Store;
  uuid_counter : nat;
  ticks : nat;
  results : list TestResult }.

Variable number_to_string : Q -> string.
(** The [n]-th [uuidv4()] and the [n]-th reading of the clock. *)
Variable uuidv4 : nat -> string.
Variable clock : nat -> Z.
(** The message of the [error] a table answers an insert with. *)
Variable insert_error : string -> Store -> option string.
(** The delete of a table fails (the script does not look). *)
Variable delete_fails : string -> Store -> bool.
(** The plan generator's answer to [POST] for a user with the body's
    [week_start_date] (the time it is an ISO text of), and the tables it
    leaves. *)
Variable generator : string -> Z -> Store -> Reply * (list PlanRow * Ext).

Definition set_store (st : Store) (s : TState) : TState :=
  mk_tstate st (uuid_counter s) (ticks s) (results s).

Definition fresh_uuid : JsM TState string := fun s =>
  (inr (uuidv4 (uuid_counter s)), mk_tstate (store s) (S (uuid_counter s)) (ticks s) (results s)).

(** [Date.now()] and [new Date()]. *)
Definition now : JsM TState Z := fun s =>
  (inr (clock (ticks s)), mk_tstate (store s) (uuid_counter s) (S (ticks s)) (results s)).

(** An [insert] followed by [if (error) throw new Error(`${prefix}${error.message}`)]. *)
Definition insert (table prefix : string) (add : Store -> Store) : JsM TState unit := fun s =>
  match insert_error table (store s) with
  | Some m => (inl (Error (prefix ++ m)), s)
  | None => (inr tt, set_store (add (store s)) s)
  end.

Definition add_user (r : UserRow) (st : Store) : Store :=
  mk_store (users st ++ [r]) (user_intake st) (subscriptions st) (meal_plans st) (ext st).
Definition add_intake (r : list (string * json)) (st : Store) : Store :=
  mk_store (users st) (user_intake st ++ [r]) (subscriptions st) (meal_plans st) (ext st).
Definition add_subscription (r : SubscriptionRow) (st : Store) : Store :=
  mk_store (users st) (user_intake st) (subscriptions st ++ [r]) (meal_plans st) (ext st).

(** [createTestUser], lines 100-147. *)
Definition createTestUser (d : UserData) : JsM TState string :=
  userId <- fresh_uuid ;;
  insert "users" "User creation failed: " (add_user (user_row userId (profile d))) ;;
  insert "user_intake" "Intake creation failed: " (add_intake (intake_row userId d)) ;;
  start <- now ;;
  t <- now ;;
  insert "subscriptions" "Subscription creation failed: "
    (add_subscription (mk_subscription_row userId (subscription_plan_id d) "active"
                         start (t + thirty_days_ms))) ;;
  jret userId.

(** The [fetch] of the plan generator for a user and a week. *)
Definition post_plan_generator (userId : string) (week : Z) : JsM TState Reply := fun s =>
  let '(r, (mp, x)) := generator userId week (store s) in
  let st := store s in
  (inr r, set_store (mk_store (users st) (user_intake st) (subscriptions st) mp x) s).

(** [getNextMonday], lines 366-374: the plan generator's function
    ([Dates.getNextMonday]) copied into the script. *)
Definition getNextMonday (today : Z) : Z :=
  let dayOfWeek := Dates.getDay today in
  let daysUntilMonday := if (dayOfWeek =? 0)%Z then 1%Z else (8 - dayOfWeek)%Z in
  Dates.start_of_day (Dates.add_days today daysUntilMonday).

(** [callPlanGenerator], lines 149-169: the body's [week_start_date] is
    [this.getNextMonday()] at a reading of the clock. *)
Definition callPlanGenerator (userId : string) : JsM TState json :=
  today <- now ;;
  response <- post_plan_generator userId (getNextMonday today) ;;
  if negb (ok (reply_status response))
  then jthrow (Error ("Plan generation failed: " ++
                      number_to_string (inject_Z (reply_status response)) ++ " " ++
                      reply_text response))
  else jlift (reply_json response).

(** [.eq('id', planId)]: a string id is compared with the row's [id]. *)
Definition has_id (planId : js_prop json) (row : PlanRow) : bool :=
  match planId, assoc_str "id" (plan_row_members row) with
  | PropOwn (JString a), Some (JString b) => String.eqb a b
  | _, _ => false
  end.

(** [validateGeneratedPlan], lines 171-216: [.single()] answers an error
    unless exactly one row matches. *)
Definition validateGeneratedPlan (planId : js_prop json) : JsM TState (json * json) := fun s =>
  if negb (json_truthy planId) then (inl (Error "No plan ID returned from generation"), s)
  else match List.filter (has_id planId) (meal_plans (store s)) with
       | [row] => (check_plan number_to_string (JObject (plan_row_members row)), s)
       | _ => (inl (Error "Generated plan not found in database"), s)
       end.

(** [.delete().eq(column, value)] on a table. *)
Definition delete_where (table : string) (keep : Store -> Store) : JsM TState unit :=
  jmodify (fun s => if delete_fails table (store s) then s else set_store (keep (store s)) s).

Definition owned_by (userId : string) (ms : list (string * json)) : bool :=
  match assoc_str "user_id" ms with Some (JString u) => String.eqb u userId | _ => false end.

(** [cleanupTestUser], lines 218-228: the deletes answer errors rather
    than throw, so its [catch] is not reached. *)
Definition cleanupTestUser (userId : string) : JsM TState unit :=
  delete_where "meal_plans" (fun st =>
    mk_store (users st) (user_intake st) (subscriptions st)
      (List.filter (fun p => negb (owned_by userId (plan_row_members p))) (meal_plans st)) (ext st)) ;;
  delete_where "subscriptions" (fun st =>
    mk_store (users st) (user_intake st)
      (List.filter (fun r => negb (String.eqb (sub_user_id r) userId)) (subscriptions st))
      (meal_plans st) (ext st)) ;;
  delete_where "user_intake" (fun st =>
    mk_store (users st) (List.filter (fun r => negb (owned_by userId r)) (user_intake st))
      (subscriptions st) (meal_plans st) (ext st)) ;;
  delete_where "users" (fun st =>
    mk_store (List.filter (fun r => negb (String.eqb (user_id r) userId)) (users st))
      (user_intake st) (subscriptions st) (meal_plans st) (ext st)).

(** [testUserPlanGeneration], lines 62-98. *)
Definition testUserPlanGeneration (testName : string) (d : UserData) : JsM TState TestResult :=
  startTime <- now ;;
  jtry
    (userId <- createTestUser d ;;
     planResult <- callPlanGenerator userId ;;
     planId <- jlift (read (PropOwn planResult) "plan_id") ;;
     validation <- validateGeneratedPlan planId ;;
     cleanupTestUser userId ;;
     t <- now ;;
     jret (Passed testName (t - startTime) (json_get planResult "generation_id") planId
             (fst validation) (snd validation)
             (or_default (json_get planResult "cost_cents") (JNumber 0))))
    (fun e => t <- now ;; jret (Failed testName (error_message e) (t - startTime))).

Definition push_result (r : TestResult) : JsM TState unit :=
  jmodify (fun s => mk_tstate (store s) (uuid_counter s) (ticks s) (results s ++ [r])).

(** The body of the loop of [runAllTests], lines 31-57. *)
Definition runTest (nd : string * UserData) : JsM TState unit :=
  r <- jtry (testUserPlanGeneration (fst nd) (snd nd))
            (fun e => jret (Failed (fst nd) (error_message e) 0)) ;;
  push_result r.

(** [runAllTests], lines 28-60, without its console output and the
    final [printSummary]. *)
Definition runAllTests : JsM TState unit :=
  jfold (fun _ nd => runTest nd) createTestUsers tt.

(** ** Facts *)

(** A step that does not change what [proj] reads of the state. *)
Definition keeps {X A} (proj : TState -> X) (m : JsM TState A) : Prop :=
  forall s, proj (snd (m s)) = proj s.

(** A step that does not change what [proj] reads when it throws. *)
Definition keeps_on_throw {X A} (proj : TState -> X) (m : JsM TState A) : Prop :=
  forall s e s', m s = (inl e, s') -> proj s' = proj s.

Definition users_of (s : TState) : list UserRow := users (store s).

Lemma keeps_on_throw_inv {X A} (proj : TState -> X) (m : JsM TState A) s e s' :
  keeps_on_throw proj m -> m s = (inl e, s') -> proj s' = proj s.
Proof. intros Hm. apply Hm. Qed.

Definition never_throws {A} (m : JsM TState A) : Prop :=
  forall s, exists a s', m s = (inr a, s').

Lemma keeps_bind {X A B} (proj : TState -> X) (m : JsM TState A) (f : A -> JsM TState B) :
  keeps proj m -> (forall a, keeps proj (f a)) -> keeps proj (jbind m f).
Proof.
  intros Hm Hf s. unfold jbind. specialize (Hm s).
  destruct (m s) as [[e|a] s1]; cbn in *; [done|]. by rewrite Hf.
Qed.

Lemma keeps_jtry {X A} (proj : TState -> X) (m : JsM TState A) (h : JsError -> JsM TState A) :
  keeps proj m -> (forall e, keeps proj (h e)) -> keeps proj (jtry m h).
Proof.
  intros Hm Hh s. unfold jtry. specialize (Hm s).
  destruct (m s) as [[e|a] s1]; cbn in *; [by rewrite Hh | done].
Qed.

Lemma keeps_throw_bind {X A B} (proj : TState -> X) (m : JsM TState A) (f : A -> JsM TState B) :
  keeps proj m -> (forall a, keeps_on_throw proj (f a)) ->
  keeps_on_throw proj (jbind m f).
Proof.
  intros Hm Hf s e s' H. unfold jbind in H. specialize (Hm s).
  destruct (m s) as [[e'|a] s1]; simplify_eq/=; [done|].
  rewrite <- Hm. by eapply Hf.
Qed.

Lemma never_throws_keeps {X A} (proj : TState -> X) (m : JsM TState A) :
  never_throws m -> keeps_on_throw proj m.
Proof. intros Hm s e s' H. destruct (Hm s) as (a & s1 & E). congruence. Qed.

Lemma never_throws_bind {A B} (m : JsM TState A) (f : A -> JsM TState B) :
  never_throws m -> (forall a, never_throws (f a)) -> never_throws (jbind m f).
Proof.
  intros Hm Hf s. unfold jbind. destruct (Hm s) as (a & s1 & ->). apply Hf.
Qed.

(** Every value a step returns satisfies [P]. *)
Definition returns_only {A} (P : A -> Prop) (m : JsM TState A) : Prop :=
  forall s a s', m s = (inr a, s') -> P a.

Lemma returns_only_bind {A B} (P : B -> Prop) (m : JsM TState A) (f : A -> JsM TState B) :
  (forall a, returns_only P (f a)) -> returns_only P (jbind m f).
Proof.
  intros Hf s b s' H. unfold jbind in H.
  destruct (m s) as [[e|a] s1]; [done|]. by eapply Hf.
Qed.

Lemma returns_only_jret {A} (P : A -> Prop) (a : A) : P a -> returns_only P (jret a).
Proof. by intros Ha s b s' [= <- _]. Qed.

Lemma now_never_throws : never_throws now.
Proof. intros s. by eexists _, _. Qed.

Lemma jret_never_throws {A} (a : A) : never_throws (jret a).
Proof. intros s. by eexists _, _. Qed.

Lemma delete_where_never_throws t k : never_throws (delete_where t k).
Proof. intros s. by eexists _, _. Qed.

(** The steps that leave [users] alone, and those that leave
    [this.results] alone: every step but [push_result]. *)
Lemma now_keeps_users : keeps users_of now.
Proof. done. Qed.

Lemma jlift_keeps {X A} (proj : TState -> X) (r : JsError + A) : keeps proj (jlift r).
Proof. done. Qed.

Lemma jret_keeps {X A} (proj : TState -> X) (a : A) : keeps proj (jret a).
Proof. done. Qed.

Lemma jthrow_keeps {X A} (proj : TState -> X) (e : JsError) : keeps proj (@jthrow _ A e).
Proof. done. Qed.

Lemma post_plan_generator_keeps_users u w : keeps users_of (post_plan_generator u w).
Proof. intros s. unfold post_plan_generator. by repeat case_match. Qed.

Lemma callPlanGenerator_keeps_users u : keeps users_of (callPlanGenerator u).
Proof.
  apply keeps_bind; [done|]. intros today.
  apply keeps_bind; [apply post_plan_generator_keeps_users|].
  intros r. by case_match.
Qed.

Lemma validateGeneratedPlan_keeps {X} (proj : TState -> X) p : keeps proj (validateGeneratedPlan p).
Proof. intros s. unfold validateGeneratedPlan. by repeat case_match. Qed.

Lemma now_keeps_results : keeps results now.
Proof. done. Qed.

Lemma fresh_uuid_keeps_results : keeps results fresh_uuid.
Proof. done. Qed.

Lemma insert_keeps_results t p a : keeps results (insert t p a).
Proof. intros s. unfold insert. by case_match. Qed.

Lemma post_plan_generator_keeps_results u w : keeps results (post_plan_generator u w).
Proof. intros s. unfold post_plan_generator. by repeat case_match. Qed.

Lemma delete_where_keeps_results t k : keeps results (delete_where t k).
Proof. intros s. unfold delete_where, jmodify. cbn. by case_match. Qed.

Create HintDb tester.
#[local] Hint Resolve now_never_throws jret_never_throws delete_where_never_throws
  never_throws_bind now_keeps_users jlift_keeps jret_keeps jthrow_keeps
  callPlanGenerator_keeps_users validateGeneratedPlan_keeps keeps_bind keeps_jtry
  keeps_throw_bind now_keeps_results fresh_uuid_keeps_results insert_keeps_results
  post_plan_generator_keeps_results delete_where_keeps_results : tester.

(** One step of the proof that a sequence keeps [proj]. *)
Ltac keeps_step :=
  match goal with
  | |- keeps _ (jbind _ _) => apply keeps_bind
  | |- keeps _ (jtry _ _) => apply keeps_jtry
  | |- forall _, keeps _ _ => intros ?
  | |- keeps _ (if _ then _ else _) => case_match
  end.

(** [testUserPlanGeneration] does not touch [this.results]. *)
Lemma testUserPlanGeneration_keeps_results n d : keeps results (testUserPlanGeneration n d).
Proof.
  unfold testUserPlanGeneration, createTestUser, callPlanGenerator, cleanupTestUser.
  repeat keeps_step; auto with tester.
Qed.

Lemma jtry_never_throws {A} (m : JsM TState A) (h : JsError -> JsM TState A) :
  (forall e, never_throws (h e)) -> never_throws (jtry m h).
Proof.
  intros Hh s. unfold jtry. destruct (m s) as [[e|a] s1]; [apply Hh | eauto].
Qed.

(** [testUserPlanGeneration] catches everything: the [CRASHED] branch of
    [runAllTests] is never taken. *)
Lemma testUserPlanGeneration_never_throws n d : never_throws (testUserPlanGeneration n d).
Proof.
  unfold testUserPlanGeneration. apply never_throws_bind; [auto with tester|]. intros t.
  apply jtry_never_throws. auto with tester.
Qed.

Definition always_throws {A} (m : JsM TState A) : Prop :=
  forall s, exists e s', m s = (inl e, s').

Lemma always_throws_bind_r {A B} (m : JsM TState A) (f : A -> JsM TState B) :
  (forall a, always_throws (f a)) -> always_throws (jbind m f).
Proof.
  intros Hf s. unfold jbind. destruct (m s) as [[e|a] s1]; [eauto | apply Hf].
Qed.

Lemma always_throws_bind_l {A B} (m : JsM TState A) (f : A -> JsM TState B) :
  always_throws m -> always_throws (jbind m f).
Proof. intros Hm s. unfold jbind. destruct (Hm s) as (e & s1 & ->). eauto. Qed.

Lemma returns_only_jtry {A} (P : A -> Prop) (m : JsM TState A) (h : JsError -> JsM TState A) :
  always_throws m -> (forall e, returns_only P (h e)) -> returns_only P (jtry m h).
Proof.
  intros Hm Hh s a s' H. unfold jtry in H. destruct (Hm s) as (e & s1 & E).
  rewrite E in H. by eapply Hh.
Qed.

(** When the plan generator never answers [ok], every test fails. *)
Lemma testUserPlanGeneration_fails_if_not_ok n d :
  (forall u w st, ok (reply_status (fst (generator u w st))) = false) ->
  returns_only (fun r => is_failed r = true) (testUserPlanGeneration n d).
Proof.
  intros Hg. unfold testUserPlanGeneration.
  apply returns_only_bind. intros t. apply returns_only_jtry.
  - apply always_throws_bind_r. intros u. apply always_throws_bind_l.
    apply always_throws_bind_r. intros t' s1.
    unfold jbind, post_plan_generator. specialize (Hg u (getNextMonday t') (store s1)).
    destruct (generator u _ (store s1)) as [rep [mp x]]. cbn in Hg |- *.
    rewrite Hg. eauto.
  - intros e. apply returns_only_bind. intros t'. by apply returns_only_jret.
Qed.

(** [createTestUser] with a successful [users] insert has added the user's
    row, whether it returned or threw at a later insert. *)
Lemma createTestUser_users d s res s' :
  insert_error "users" (store s) = None -> createTestUser d s = (res, s') ->
  users (store s') = users (store s) ++ [user_row (uuidv4 (uuid_counter s)) (profile d)] /\
  (forall u, res = inr u -> u = uuidv4 (uuid_counter s)).
Proof.
  intros Hu H. unfold createTestUser, insert, jbind, jret, now, fresh_uuid in H.
  cbn in H. rewrite Hu in H. cbn in H.
  repeat (case_match; simplify_eq/=); split; done || (by intros ? [= <-]) || congruence.
Qed.

(** A test that fails after its user was inserted leaves the user in
    [users]: the cleanup runs only after the plan was checked, so a
    failing plan generator, a missing plan or a failed structure check
    leaves the test user's row in the database. *)
Lemma failed_test_users n d s r s' :
  insert_error "users" (store s) = None ->
  testUserPlanGeneration n d s = (inr r, s') -> is_failed r = true ->
  users (store s') = users (store s) ++ [user_row (uuidv4 (uuid_counter s)) (profile d)].
Proof.
  intros Hu H Hf. unfold testUserPlanGeneration, jtry, jbind at 1 in H. cbn in H.
  set (s1 := mk_tstate _ _ _ _) in H.
  destruct (jbind (createTestUser d) _ s1) as [[e|r'] s2] eqn:Hin.
  2:{ simplify_eq/=. enough (is_failed r = false) by congruence.
      revert Hin. apply (returns_only_bind (fun r => is_failed r = false)). intros u.
      repeat (apply returns_only_bind; intros ?). by apply returns_only_jret. }
  unfold jbind, now, jret in H. cbn in H. simplify_eq/=.
  destruct (jbind_inl_inv _ _ _ _ _ Hin) as [Hc | (u & s3 & Hc & Hrest)].
  - apply (createTestUser_users d s1 _ _ Hu Hc).
  - destruct (createTestUser_users d s1 _ _ Hu Hc) as [Hus Hid].
    transitivity (users (store s3)); [|exact Hus].
    refine (keeps_on_throw_inv users_of _ s3 e s2 _ Hrest).
    apply keeps_throw_bind; [auto with tester|]. intros pr.
    apply keeps_throw_bind; [auto with tester|]. intros pid.
    apply keeps_throw_bind; [auto with tester|]. intros v.
    apply never_throws_keeps. unfold cleanupTestUser. auto 10 with tester.
Qed.

Lemma runTest_eq n d s r s1 :
  testUserPlanGeneration n d s = (inr r, s1) ->
  runTest (n, d) s = (inr tt, mk_tstate (store s1) (uuid_counter s1) (ticks s1) (results s1 ++ [r])).
Proof. intros H. unfold runTest, jbind at 1, jtry. cbn [fst snd]. by rewrite H. Qed.

(** A run of the loop over test users, when the plan generator never
    answers [ok]: it ends, appends one failed result per user and, when
    no insert fails, leaves one more row in [users] per user. *)
Lemma run_tests_not_ok (l : list (string * UserData)) :
  (forall u w st, ok (reply_status (fst (generator u w st))) = false) ->
  forall s, exists rs s',
    jfold (fun _ nd => runTest nd) l tt s = (inr tt, s') /\
    results s' = results s ++ rs /\ length rs = length l /\
    Forall (fun r => is_failed r = true) rs /\
    ((forall t st, insert_error t st = None) ->
     length (users (store s')) = (length (users (store s)) + length l)%nat).
Proof.
  intros Hg. induction l as [|nd l IH]; intros s.
  { exists [], s. rewrite app_nil_r. split; [done|]. split; [done|]. split; [done|].
    split; [constructor | intros; cbn; lia]. }
  destruct nd as [n d].
  destruct (testUserPlanGeneration_never_throws n d s) as (r & s1 & Hr).
  destruct (IH (mk_tstate (store s1) (uuid_counter s1) (ticks s1) (results s1 ++ [r])))
    as (rs & s' & Hrun & Hres & Hlen & Hall & Husers).
  exists (r :: rs), s'. cbn [jfold]. unfold jbind at 1. rewrite (runTest_eq _ _ _ _ _ Hr).
  pose proof (testUserPlanGeneration_keeps_results n d s) as Hk. rewrite Hr in Hk.
  split; [exact Hrun|]. split; [rewrite Hres; cbn in *; by rewrite Hk, <- app_assoc|].
  split; [cbn; lia|]. split.
  - constructor; [|exact Hall]. by eapply testUserPlanGeneration_fails_if_not_ok.
  - intros Hnone. rewrite Husers by exact Hnone. cbn.
    rewrite (failed_test_users n d s r s1 (Hnone _ _) Hr)
      by (by eapply testUserPlanGeneration_fails_if_not_ok).
    rewrite length_app. cbn. lia.
Qed.

End Tester.

Arguments users {PlanRow Ext}.
Arguments user_intake {PlanRow Ext}.
Arguments subscriptions {PlanRow Ext}.
Arguments meal_plans {PlanRow Ext}.
Arguments ext {PlanRow Ext}.
Arguments store {PlanRow Ext}.
Arguments uuid_counter {PlanRow Ext}.
Arguments ticks {PlanRow Ext}.
Arguments results {PlanRow Ext}.

(** ** The script against the plan generator

    The [fetch] of [callPlanGenerator] reaches the [serve] handler of
    [plan-generator] ([Handler.handler]).  Deno answers a handler whose
    promise rejects with status 500. *)

Section AgainstHandler.

Variable plan_row_members : MealPlan.t -> list (string * json).
Variable number_to_string : Q -> string.
Variable uuidv4 : nat -> string.
Variable clock : nat -> Z.
Variable insert_error : string -> Store MealPlan.t (list LogEntry) -> option string.
Variable delete_fails : string -> Store MealPlan.t (list LogEntry) -> bool.
(** The handler's environment when the script posts for a user: what
    [auth.getUser()] answers for the anon key, the parsed body and the
    rows the handler reads. *)
Variable envs : string -> Z -> Store MealPlan.t (list LogEntry) -> Env.
(** The text of a response's body, and [response.json()] on it. *)
Variable body_text : Outcome -> string.
Variable body_json : Outcome -> JsError + json.

(** The status of the HTTP response to an outcome of the handler. *)
Definition http_status (o : Outcome) : Z :=
  match o with Respond s _ => s | Reject _ => 500 end.

(** The plan generator as the script sees it: its tables are
    [meal_plans] and [plan_generation_logs]. *)
Definition handler_generator (u : string) (week : Z) (st : Store MealPlan.t (list LogEntry)) :
    Reply * (list MealPlan.t * list LogEntry) :=
  let '(o, h) := handler (envs u week st) "POST" (mkHState (meal_plans st) (ext st)) in
  (mk_reply (http_status o) (body_text o) (body_json o),
   (Handler.meal_plans h, generation_logs h)).

Lemma handler_post_not_ok (env : Env) (st : HState) :
  ok (http_status (fst (handler env "POST" st))) = false.
Proof.
  unfold handler. cbn -[validateRequest ingestUserBlueprint generate_and_respond].
  destruct (validateRequest env st) as [[msg status]|[uid req]] eqn:Hv.
  - unfold validateRequest in Hv. by repeat (case_match; simplify_eq).
  - destruct (ingestUserBlueprint env) as [msg|bp]; [done|].
    by rewrite generate_and_respond_rejects.
Qed.

Lemma handler_generator_not_ok u w st :
  ok (reply_status (fst (handler_generator u w st))) = false.
Proof.
  unfold handler_generator. pose proof (handler_post_not_ok (envs u w st) (mkHState (meal_plans st) (ext st))).
  by destruct (handler _ _ _).
Qed.

(** C22: Run against the plan generator, whatever its environment, the
    end-to-end script can pass no test: [runAllTests] ends with one
    failed result for each of the four test users, and when the inserts
    succeed it leaves the four test users in [users], since a failed test
    never reaches [cleanupTestUser]. *)
Theorem runAllTests_against_handler (s : TState MealPlan.t (list LogEntry)) :
  exists rs s',
    runAllTests _ plan_row_members _ number_to_string uuidv4 clock insert_error delete_fails
      handler_generator s = (inr tt, s') /\
    results s' = results s ++ rs /\ length rs = length createTestUsers /\
    Forall (fun r => is_failed r = true) rs /\
    ((forall t st, insert_error t st = None) ->
     length (users (store s')) = (length (users (store s)) + length createTestUsers)%nat).
Proof.
  apply run_tests_not_ok. apply handler_generator_not_ok.
Qed.

End AgainstHandler.

End PlanGenerationTester.
