(* ===== verification/TypeConformance.v ===== *)
(** * What the nutrition validator sends against what it declares

    The nutrition validator ([src/supabase/functions/nutrition-validator/index.ts])
    answers a validated plan with [JSON.stringify({ success: true,
    validation: result, timestamp })] (lines 170-180), where [result] is
    declared [ValidationResult] (lines 60-75, [ValidatorTs] in [TsDecls]).
    TypeScript does not check that declaration at run time, and
    [JSON.stringify] writes a [NaN] or an infinite number as [null] and
    leaves out a member whose value is [undefined].  [validation_json]
    is the [validation] member as the client receives it, and
    [validatePlan_answer_typed] says when it has the declared type. *)

From S2P Require Import Prelude Js TsTypes TsDecls Types NutrientResolver NutritionValidator.

Module TypeConformance.

Section Stringify.
(** [Number.prototype.toFixed(1)], the text of a percentage. *)
Variable to_fixed1 : jsnum -> string.

(** A number under [JSON.stringify]. *)
Definition num_json (x : jsnum) : json :=
  match x with JFin q => JNumber q | _ => JNull end.

Definition nd_json (n : NutritionData.t) : json :=
  JObject [("calories", JNumber (NutritionData.calories n));
           ("protein", JNumber (NutritionData.protein n));
           ("fat", JNumber (NutritionData.fat n));
           ("carbohydrates", JNumber (NutritionData.carbohydrates n));
           ("fiber", JNumber (NutritionData.fiber n))].

(** [dailyAverage], lines 266-272. *)
Definition average_json (a : DailyAverage.t) : json :=
  JObject [("calories", num_json (DailyAverage.calories a));
           ("protein", num_json (DailyAverage.protein a));
           ("fat", num_json (DailyAverage.fat a));
           ("carbohydrates", num_json (DailyAverage.carbohydrates a));
           ("fiber", num_json (DailyAverage.fiber a))].

(** [deviations], lines 275-282: an [undefined] [fiber_deviation] is left
    out. *)
Definition deviations_json (d : Deviations.t) : json :=
  JObject ([("calories_deviation", num_json (Deviations.calories_deviation d));
            ("protein_deviation", num_json (Deviations.protein_deviation d));
            ("fat_deviation", num_json (Deviations.fat_deviation d));
            ("carbohydrates_deviation", num_json (Deviations.carbohydrates_deviation d))] ++
           match Deviations.fiber_deviation d with
           | Some v => [("fiber_deviation", num_json v)]
           | None => []
           end).

(** The texts of [generateNutritionSuggestions], lines 527-531. *)
Definition suggestion_text (s : Suggestion) : string :=
  match s with
  | SuggestText t => t
  | SuggestReduce n d =>
      ("Reduce " ++ n ++ " intake - currently " ++ to_fixed1 d ++ "% above target")%string
  | SuggestIncrease n d =>
      ("Increase " ++ n ++ " intake - currently " ++ to_fixed1 d ++ "% below target")%string
  end.

Definition method_text (m : CalculationMethod) : string :=
  match m with
  | Spoonacular => "spoonacular"
  | UsdaCalculated => "usda_calculated"
  | Estimated => "estimated"
  end.

(** The object [calculateMealNutrition] returns, lines 367-378. *)
Definition meal_json (m : MealNutrition.t) : json :=
  JObject [("recipe_id", JString (MealNutrition.recipe_id m));
           ("recipe_title", JString (MealNutrition.recipe_title m));
           ("nutrition", nd_json (MealNutrition.nutrition m));
           ("calculation_method", JString (method_text (MealNutrition.calculation_method m)))].

(** [dayBreakdown], lines 219-223. *)
Definition breakdown_json (b : DailyBreakdown.t) : json :=
  JObject [("day", JString (DailyBreakdown.day b));
           ("nutrition", nd_json (DailyBreakdown.nutrition b));
           ("meals", JArray (map meal_json (DailyBreakdown.meals b)))].

(** [result], lines 298-310, as the [validation] member of the answer. *)
Definition validation_json (r : ValidationResult.t) : json :=
  JObject ([("is_valid", JBool (ValidationResult.is_valid r));
            ("total_nutrition", nd_json (ValidationResult.total_nutrition r));
            ("daily_average", average_json (ValidationResult.daily_average r));
            ("target_deviations", deviations_json (ValidationResult.target_deviations r));
            ("within_threshold", JBool (ValidationResult.within_threshold r));
            ("missing_nutrition_data",
              JArray (map JString (ValidationResult.missing_nutrition_data r)));
            ("suggestions", JArray (map (fun s => JString (suggestion_text s))
                                      (ValidationResult.suggestions r)))] ++
           match ValidationResult.detailed_breakdown r with
           | Some l => [("detailed_breakdown", JArray (map breakdown_json l))]
           | None => []
           end).
End Stringify.

(** ** Typing lemmas *)

Lemma has_type_meal_json (m : MealNutrition.t) :
  has_type ValidatorTs.MealNutrition (meal_json m) = true.
Proof. by destruct m as [? ? ? []]. Qed.

Lemma has_type_breakdown_json (b : DailyBreakdown.t) :
  has_type ValidatorTs.DailyBreakdown (breakdown_json b) = true.
Proof.
  unfold breakdown_json, ValidatorTs.DailyBreakdown. rewrite has_type_object. simpl.
  rewrite andb_true_r. apply forallb_forall. intros y Hy. apply in_map_iff in Hy as (m & <- & _).
  exact (has_type_meal_json m).
Qed.

(** The answer for a plan with days: every number is finite. *)
Lemma validation_json_typed_days (to_fixed1 : jsnum -> string) (db : Db)
    (options : ValidationOptions.t) (days : list DayPlan.t) (tg : NutritionalTargets.t) :
  days <> [] ->
  has_type ValidatorTs.ValidationResult (validation_json to_fixed1 (validatePlan db options days tg))
  = true.
Proof.
  intros Hd. unfold validatePlan.
  rewrite dailyAverageOf_fin by (destruct days; [done | discriminate]).
  cbv zeta. unfold deviationsOf. cbn [DailyAverage.calories DailyAverage.protein DailyAverage.fat
    DailyAverage.carbohydrates DailyAverage.fiber].
  rewrite !calculateDeviation_fin.
  unfold validation_json. cbn [ValidationResult.is_valid ValidationResult.total_nutrition
    ValidationResult.daily_average ValidationResult.target_deviations ValidationResult.within_threshold
    ValidationResult.missing_nutrition_data ValidationResult.suggestions
    ValidationResult.detailed_breakdown].
  destruct (Qeq_bool _ 0), (ValidationOptions.detailed_breakdown options);
    unfold ValidatorTs.ValidationResult; rewrite has_type_object; simpl;
    rewrite ?andb_true_r; repeat (apply andb_true_intro; split);
    apply forallb_forall; intros y Hy; apply in_map_iff in Hy as (x & <- & _);
    first [reflexivity | exact (has_type_breakdown_json x)].
Qed.

(** ** Claims *)

(** C23: The [validation] member of the validator's answer has the type
    [ValidationResult] that the code declares for it exactly when the
    plan has a day: without days [validatePlan] divides the totals by
    zero, the daily averages are [NaN], and [JSON.stringify] writes them
    as [null] where the interface promises numbers; with a day every
    number of the answer is finite and every member has its type. *)
Theorem validatePlan_answer_typed (to_fixed1 : jsnum -> string) (db : Db)
    (options : ValidationOptions.t) (days : list DayPlan.t) (tg : NutritionalTargets.t) :
  has_type ValidatorTs.ValidationResult (validation_json to_fixed1 (validatePlan db options days tg))
  = true <-> days <> [].
Proof.
  split; [|apply validation_json_typed_days].
  intros H ->. revert H. vm_compute. discriminate.
Qed.

Lemma validatePlan_answer_typed_witness :
  has_type ValidatorTs.ValidationResult
    (validation_json (fun _ => "0.0"%string)
       (validatePlan WeekSample.db WeekSample.opts WeekSample.week WeekSample.targets)) = true.
Proof. apply validatePlan_answer_typed. discriminate. Defined.

End TypeConformance.
